(** * Lightweight KSM (mm/lksm.c): a shallow embedding and its properties

    The development follows the layout of [mm/lksm.c].  Kernel objects that
    the C code reaches through pointers ([struct stable_node],
    [struct rmap_item], [struct mm_slot], [struct page]) live in finite maps
    keyed by their address; the global variables of the file are the fields
    of one state record; every function of the file that is embedded here is
    a computation in a state-and-fault monad over that record.

    Build configuration that is modelled: [CONFIG_NUMA] off (so [NUMA(x)] is
    [0], [ksm_merge_across_nodes] is the constant [1U] and there is one
    stable and one unstable tree), [CONFIG_LKSM_FILTER] off, [CONFIG_SYSFS]
    on, [CONFIG_DEBUG_VM] off (so [VM_BUG_ON] compiles to nothing, whereas
    [BUG_ON] is a fault). *)

From stdpp Require Import gmap list fin_maps sorting.
From Stdlib Require Import ZArith Lia.

Local Open Scope Z_scope.

(** ** Machine integers

    C integers are values in [Z]; every arithmetic result is reduced to the
    width of the C type that holds it. *)

Definition wrap_ulong (z : Z) : Z := z mod 2 ^ 64.
Definition wrap_uint (z : Z) : Z := z mod 2 ^ 32.
Definition wrap_uchar (z : Z) : Z := z mod 2 ^ 8.
Definition wrap_int (z : Z) : Z := (z + 2 ^ 31) mod 2 ^ 32 - 2 ^ 31.
Definition wrap_short (z : Z) : Z := (z + 2 ^ 15) mod 2 ^ 16 - 2 ^ 15.
Definition wrap_long (z : Z) : Z := (z + 2 ^ 63) mod 2 ^ 64 - 2 ^ 63.

Definition INT_MAX : Z := 2 ^ 31 - 1.

(** [x & bit] used as a truth value. *)
Definition test_bits (x bit : Z) : bool := negb (Z.land x bit =? 0).

(** ** Constants of the file *)

Definition MERGE_WIN : Z := 3.
Definition STABLE_NODE_CHAIN : Z := -1024.

Definition SEQNR_MASK : Z := 0x0ff.
Definition UNSTABLE_FLAG : Z := 0x100.
Definition STABLE_FLAG : Z := 0x200.

Definition KSM_RUN_STOP : Z := 0.
Definition KSM_RUN_MERGE : Z := 1.
Definition KSM_RUN_UNMERGE : Z := 2.
Definition KSM_RUN_OFFLINE : Z := 4.
Definition KSM_RUN_ONESHOT : Z := 8.

Definition FROZEN_BIT : Z := 0x01.
Definition LISTED_BIT : Z := 0x02.

Definition KSM_MM_FROZEN : Z := 0x01.
Definition KSM_MM_LISTED : Z := 0x02.
Definition KSM_MM_NEWCOMER : Z := 0x04.
Definition KSM_MM_SCANNED : Z := 0x08.

(** The page size comes from the architecture headers; the usual 4 KiB page
    is taken, which leaves the twelve low bits of a page address for the
    flags above. *)
Definition PAGE_SIZE : Z := 4096.
Definition PAGE_MASK : Z := 2 ^ 64 - PAGE_SIZE.

(** Error numbers (include/uapi/asm-generic/errno-base.h and
    include/linux/errno.h). *)
Definition ENOMEM : Z := 12.
Definition EFAULT : Z := 14.
Definition EBUSY : Z := 16.
Definition EINVAL : Z := 22.
Definition ERESTARTSYS : Z := 512.

(** ** Red-black trees as the file uses them

    [lib/rbtree.c] is not part of the file.  The file only relies on three
    things: a walk from the root through [rb_left]/[rb_right], the place
    where [rb_link_node] hangs a new node, and the in-order sequence that
    [rb_first]/[rb_next] enumerate.  Recolouring and rotation
    ([rb_insert_color], the rebalancing half of [rb_erase]) keep the in-order
    sequence and are left out, so a tree here is a plain binary tree of
    object addresses: it has the in-order sequence of the kernel's tree, not
    its shape. *)

Inductive rb_root : Type :=
| RB_ROOT
| rb_node (rb_left : rb_root) (entry : nat) (rb_right : rb_root).

Inductive rb_dir : Type := go_left | go_right.

(** A link ([struct rb_node **new]) is the path that leads to it. *)
Definition rb_link : Type := list rb_dir.

(** Dereferencing [new]: the entry a link points to, if the link is not
    empty. *)
Fixpoint rb_entry (t : rb_root) (new : rb_link) : option nat :=
  match t, new with
  | RB_ROOT, _ => None
  | rb_node _ k _, [] => Some k
  | rb_node l _ _, go_left :: new' => rb_entry l new'
  | rb_node _ _ r, go_right :: new' => rb_entry r new'
  end.

(** [rb_link_node] followed by [rb_insert_color]: hang [k] at an empty link. *)
Fixpoint rb_link_node (k : nat) (new : rb_link) (t : rb_root) : rb_root :=
  match t, new with
  | RB_ROOT, _ => rb_node RB_ROOT k RB_ROOT
  | rb_node l x r, [] => rb_node l x r
  | rb_node l x r, go_left :: new' => rb_node (rb_link_node k new' l) x r
  | rb_node l x r, go_right :: new' => rb_node l x (rb_link_node k new' r)
  end.

(** [rb_replace_node]: [new] takes the place of [victim], children kept. *)
Fixpoint rb_replace_node (victim new : nat) (t : rb_root) : rb_root :=
  match t with
  | RB_ROOT => RB_ROOT
  | rb_node l x r =>
      rb_node (rb_replace_node victim new l)
              (if decide (x = victim) then new else x)
              (rb_replace_node victim new r)
  end.

Fixpoint rb_leftmost (t : rb_root) : option nat :=
  match t with
  | RB_ROOT => None
  | rb_node RB_ROOT x _ => Some x
  | rb_node l _ _ => rb_leftmost l
  end.

Fixpoint rb_drop_leftmost (t : rb_root) : rb_root :=
  match t with
  | RB_ROOT => RB_ROOT
  | rb_node RB_ROOT _ r => r
  | rb_node l x r => rb_node (rb_drop_leftmost l) x r
  end.

(** [rb_erase]: unlink [k]; a node with two children is replaced by its
    in-order successor. *)
Fixpoint rb_erase (k : nat) (t : rb_root) : rb_root :=
  match t with
  | RB_ROOT => RB_ROOT
  | rb_node l x r =>
      if decide (x = k) then
        match l, rb_leftmost r with
        | RB_ROOT, _ => r
        | _, None => l
        | _, Some y => rb_node l y (rb_drop_leftmost r)
        end
      else rb_node (rb_erase k l) x (rb_erase k r)
  end.

(** [rb_first] and repeated [rb_next]: the in-order sequence. *)
Fixpoint rb_inorder (t : rb_root) : list nat :=
  match t with
  | RB_ROOT => []
  | rb_node l x r => rb_inorder l ++ x :: rb_inorder r
  end.

Definition RB_EMPTY_ROOT (t : rb_root) : bool :=
  match t with RB_ROOT => true | _ => false end.

(** ** Kernel objects *)

(** [stable_node->head] overlays the rb-tree linkage.  It reads as
    [&migrate_nodes] while the node waits on that list, as
    [STABLE_NODE_DUP_HEAD] while the node is a dup of a chain, and as
    neither while the node is linked in the stable tree. *)
Inductive node_head : Type :=
| HEAD_RB_NODE
| HEAD_MIGRATE_NODES
| STABLE_NODE_DUP_HEAD.

Global Instance node_head_eq_dec : EqDecision node_head.
Proof. solve_decision. Defined.

(** [struct stable_node].  [sn_hlist] holds the rmap_items of a regular node
    or a dup, and the dups of a chain, first entry first.  [sn_kpfn] is the
    [kpfn]/[chain_prune_time] union. *)
Record stable_node : Type := mk_stable_node {
  sn_head : node_head;
  sn_hlist : list nat;
  sn_kpfn : Z;
  sn_rmap_hlist_len : Z
}.

(** [struct rmap_item].  [ri_head] is only meaningful while the item is
    listed from the stable tree; the list and tree linkage of the item is
    kept by the containers that hold its address. *)
Record rmap_item : Type := mk_rmap_item {
  ri_mm : nat;
  ri_address : Z;
  ri_oldchecksum : Z;
  ri_head : option nat
}.

(** [struct mm_slot].  [ms_rmap_list] is the singly linked list of the
    slot's rmap_items; [ms_ordered] tells whether [ordered_list] is linked
    in [vips_list] (that is, [!RB_EMPTY_NODE]). *)
Record mm_slot : Type := mk_mm_slot {
  ms_mm : nat;
  ms_rmap_list : list nat;
  ms_state : Z;
  ms_merge_idx : Z;
  ms_nr_merged_win : list Z;
  ms_nr_merged : Z;
  ms_ordered : bool;
  ms_scanning_size : Z;
  ms_fault_cnt : Z;
  ms_elapsed : Z;
  ms_nr_scans : Z
}.

(** A [struct mm_slot *]: one of the two static list heads, or a slot of the
    slab. *)
Inductive mm_slot_ptr : Type :=
| KSM_SCAN_HEAD            (* &ksm_scan_head *)
| KSM_MM_HEAD              (* &ksm_mm_head *)
| SLOT (slot : nat).

Global Instance mm_slot_ptr_eq_dec : EqDecision mm_slot_ptr.
Proof. solve_decision. Defined.

Inductive lksm_scan_mode : Type :=
| LKSM_SCAN_NONE
| LKSM_SCAN_PARTIAL
| LKSM_SCAN_FULL.

(** [page->mapping] as the file reads it: not anonymous, a plain anonymous
    page, or a KSM page whose key is a stable node (or [NULL] between
    [try_to_merge_one_page] and [stable_tree_insert]). *)
Inductive page_mapping : Type :=
| MAPPING_NONE
| MAPPING_ANON
| MAPPING_KSM (stable_node : option nat).

Global Instance page_mapping_eq_dec : EqDecision page_mapping.
Proof. solve_decision. Defined.

(** [struct page], reduced to what the file looks at: the mapping word and
    the bytes of the page. *)
Record page : Type := mk_page {
  pg_mapping : page_mapping;
  pg_data : list Z
}.

(** A present page-table entry. *)
Record pte : Type := mk_pte {
  pte_pfn : Z;
  pte_write : bool
}.

Record vm_area_struct : Type := mk_vma {
  vm_start : Z;
  vm_end : Z;
  vm_mergeable : bool;   (* vm_flags & VM_MERGEABLE *)
  vm_anon_vma : bool     (* vma->anon_vma != NULL *)
}.

Record mm_struct : Type := mk_mm {
  mm_users : Z;
  mm_mmap : list vm_area_struct
}.

(** ** The state: the globals of the file and the memory they point into *)

Record ksm : Type := mk_ksm {
  stable_nodes : gmap nat stable_node;   (* the stable_node slab, by address *)
  rmap_items : gmap nat rmap_item;   (* the rmap_item slab, by address *)
  mm_slots : gmap nat mm_slot;   (* the mm_slot slab, by address *)
  next_ptr : nat;   (* next address the slab allocators hand out *)
  root_stable_tree : rb_root;
  root_unstable_tree : rb_root;
  migrate_nodes : list nat;
  vips_list : rb_root;
  ksm_mm_head : list nat;   (* ksm_mm_head.mm_list *)
  ksm_scan_head : list nat;   (* ksm_scan_head.scan_list *)
  ksm_scan_address : Z;   (* ksm_scan.address *)
  ksm_scan_rmap_list : option nat;   (* ksm_scan.rmap_list, as a position in the slot's list *)
  ksm_scan_mm_slot : mm_slot_ptr;   (* ksm_scan.mm_slot *)
  ksm_scan_remove_mm_list : list nat;   (* ksm_scan.remove_mm_list *)
  ksm_scan_nr_scannable : Z;
  ksm_scan_nr_frozen : Z;
  ksm_scan_scan_round : Z;   (* ksm_scan.scan_round *)
  ksm_scan_nr_full_scan : Z;
  ksm_scan_scan_mode : lksm_scan_mode;
  ksm_pages_shared : Z;
  ksm_pages_sharing : Z;
  ksm_pages_unshared : Z;
  ksm_rmap_items : Z;
  ksm_stable_node_chains : Z;
  ksm_stable_node_dups : Z;
  ksm_max_page_sharing : Z;
  ksm_stable_node_chains_prune_millisecs : Z;
  ksm_use_zero_pages : bool;
  zero_checksum : Z;
  lksm_max_vips : Z;
  initial_round : Z;
  ksm_run : Z;
  ksm_crawl_round : Z;
  lksm_nr_merged : Z;
  lksm_nr_broken : Z;
  lksm_nr_scanned_slot : Z;
  lksm_slot_nr_merged : Z;
  lksm_slot_nr_broken : Z;
  mem_map : gmap Z page;   (* struct page, by page frame number *)
  page_table : gmap (nat * Z) pte;   (* present ptes, by mm and page address *)
  mm_structs : gmap nat mm_struct;   (* struct mm_struct, by address *)
  next_pfn : Z   (* next page frame the page allocator hands out *)
}.

(** Assignments to one global. *)
Definition set_stable_nodes (v : gmap nat stable_node) (s : ksm) : ksm :=
  mk_ksm v (rmap_items s) (mm_slots s) (next_ptr s) (root_stable_tree s) (root_unstable_tree s) (migrate_nodes s) (vips_list s) (ksm_mm_head s) (ksm_scan_head s) (ksm_scan_address s) (ksm_scan_rmap_list s) (ksm_scan_mm_slot s) (ksm_scan_remove_mm_list s) (ksm_scan_nr_scannable s) (ksm_scan_nr_frozen s) (ksm_scan_scan_round s) (ksm_scan_nr_full_scan s) (ksm_scan_scan_mode s) (ksm_pages_shared s) (ksm_pages_sharing s) (ksm_pages_unshared s) (ksm_rmap_items s) (ksm_stable_node_chains s) (ksm_stable_node_dups s) (ksm_max_page_sharing s) (ksm_stable_node_chains_prune_millisecs s) (ksm_use_zero_pages s) (zero_checksum s) (lksm_max_vips s) (initial_round s) (ksm_run s) (ksm_crawl_round s) (lksm_nr_merged s) (lksm_nr_broken s) (lksm_nr_scanned_slot s) (lksm_slot_nr_merged s) (lksm_slot_nr_broken s) (mem_map s) (page_table s) (mm_structs s) (next_pfn s).
Definition set_rmap_items (v : gmap nat rmap_item) (s : ksm) : ksm :=
  mk_ksm (stable_nodes s) v (mm_slots s) (next_ptr s) (root_stable_tree s) (root_unstable_tree s) (migrate_nodes s) (vips_list s) (ksm_mm_head s) (ksm_scan_head s) (ksm_scan_address s) (ksm_scan_rmap_list s) (ksm_scan_mm_slot s) (ksm_scan_remove_mm_list s) (ksm_scan_nr_scannable s) (ksm_scan_nr_frozen s) (ksm_scan_scan_round s) (ksm_scan_nr_full_scan s) (ksm_scan_scan_mode s) (ksm_pages_shared s) (ksm_pages_sharing s) (ksm_pages_unshared s) (ksm_rmap_items s) (ksm_stable_node_chains s) (ksm_stable_node_dups s) (ksm_max_page_sharing s) (ksm_stable_node_chains_prune_millisecs s) (ksm_use_zero_pages s) (zero_checksum s) (lksm_max_vips s) (initial_round s) (ksm_run s) (ksm_crawl_round s) (lksm_nr_merged s) (lksm_nr_broken s) (lksm_nr_scanned_slot s) (lksm_slot_nr_merged s) (lksm_slot_nr_broken s) (mem_map s) (page_table s) (mm_structs s) (next_pfn s).
Definition set_mm_slots (v : gmap nat mm_slot) (s : ksm) : ksm :=
  mk_ksm (stable_nodes s) (rmap_items s) v (next_ptr s) (root_stable_tree s) (root_unstable_tree s) (migrate_nodes s) (vips_list s) (ksm_mm_head s) (ksm_scan_head s) (ksm_scan_address s) (ksm_scan_rmap_list s) (ksm_scan_mm_slot s) (ksm_scan_remove_mm_list s) (ksm_scan_nr_scannable s) (ksm_scan_nr_frozen s) (ksm_scan_scan_round s) (ksm_scan_nr_full_scan s) (ksm_scan_scan_mode s) (ksm_pages_shared s) (ksm_pages_sharing s) (ksm_pages_unshared s) (ksm_rmap_items s) (ksm_stable_node_chains s) (ksm_stable_node_dups s) (ksm_max_page_sharing s) (ksm_stable_node_chains_prune_millisecs s) (ksm_use_zero_pages s) (zero_checksum s) (lksm_max_vips s) (initial_round s) (ksm_run s) (ksm_crawl_round s) (lksm_nr_merged s) (lksm_nr_broken s) (lksm_nr_scanned_slot s) (lksm_slot_nr_merged s) (lksm_slot_nr_broken s) (mem_map s) (page_table s) (mm_structs s) (next_pfn s).
Definition set_next_ptr (v : nat) (s : ksm) : ksm :=
  mk_ksm (stable_nodes s) (rmap_items s) (mm_slots s) v (root_stable_tree s) (root_unstable_tree s) (migrate_nodes s) (vips_list s) (ksm_mm_head s) (ksm_scan_head s) (ksm_scan_address s) (ksm_scan_rmap_list s) (ksm_scan_mm_slot s) (ksm_scan_remove_mm_list s) (ksm_scan_nr_scannable s) (ksm_scan_nr_frozen s) (ksm_scan_scan_round s) (ksm_scan_nr_full_scan s) (ksm_scan_scan_mode s) (ksm_pages_shared s) (ksm_pages_sharing s) (ksm_pages_unshared s) (ksm_rmap_items s) (ksm_stable_node_chains s) (ksm_stable_node_dups s) (ksm_max_page_sharing s) (ksm_stable_node_chains_prune_millisecs s) (ksm_use_zero_pages s) (zero_checksum s) (lksm_max_vips s) (initial_round s) (ksm_run s) (ksm_crawl_round s) (lksm_nr_merged s) (lksm_nr_broken s) (lksm_nr_scanned_slot s) (lksm_slot_nr_merged s) (lksm_slot_nr_broken s) (mem_map s) (page_table s) (mm_structs s) (next_pfn s).
Definition set_root_stable_tree (v : rb_root) (s : ksm) : ksm :=
  mk_ksm (stable_nodes s) (rmap_items s) (mm_slots s) (next_ptr s) v (root_unstable_tree s) (migrate_nodes s) (vips_list s) (ksm_mm_head s) (ksm_scan_head s) (ksm_scan_address s) (ksm_scan_rmap_list s) (ksm_scan_mm_slot s) (ksm_scan_remove_mm_list s) (ksm_scan_nr_scannable s) (ksm_scan_nr_frozen s) (ksm_scan_scan_round s) (ksm_scan_nr_full_scan s) (ksm_scan_scan_mode s) (ksm_pages_shared s) (ksm_pages_sharing s) (ksm_pages_unshared s) (ksm_rmap_items s) (ksm_stable_node_chains s) (ksm_stable_node_dups s) (ksm_max_page_sharing s) (ksm_stable_node_chains_prune_millisecs s) (ksm_use_zero_pages s) (zero_checksum s) (lksm_max_vips s) (initial_round s) (ksm_run s) (ksm_crawl_round s) (lksm_nr_merged s) (lksm_nr_broken s) (lksm_nr_scanned_slot s) (lksm_slot_nr_merged s) (lksm_slot_nr_broken s) (mem_map s) (page_table s) (mm_structs s) (next_pfn s).
Definition set_root_unstable_tree (v : rb_root) (s : ksm) : ksm :=
  mk_ksm (stable_nodes s) (rmap_items s) (mm_slots s) (next_ptr s) (root_stable_tree s) v (migrate_nodes s) (vips_list s) (ksm_mm_head s) (ksm_scan_head s) (ksm_scan_address s) (ksm_scan_rmap_list s) (ksm_scan_mm_slot s) (ksm_scan_remove_mm_list s) (ksm_scan_nr_scannable s) (ksm_scan_nr_frozen s) (ksm_scan_scan_round s) (ksm_scan_nr_full_scan s) (ksm_scan_scan_mode s) (ksm_pages_shared s) (ksm_pages_sharing s) (ksm_pages_unshared s) (ksm_rmap_items s) (ksm_stable_node_chains s) (ksm_stable_node_dups s) (ksm_max_page_sharing s) (ksm_stable_node_chains_prune_millisecs s) (ksm_use_zero_pages s) (zero_checksum s) (lksm_max_vips s) (initial_round s) (ksm_run s) (ksm_crawl_round s) (lksm_nr_merged s) (lksm_nr_broken s) (lksm_nr_scanned_slot s) (lksm_slot_nr_merged s) (lksm_slot_nr_broken s) (mem_map s) (page_table s) (mm_structs s) (next_pfn s).
Definition set_migrate_nodes (v : list nat) (s : ksm) : ksm :=
  mk_ksm (stable_nodes s) (rmap_items s) (mm_slots s) (next_ptr s) (root_stable_tree s) (root_unstable_tree s) v (vips_list s) (ksm_mm_head s) (ksm_scan_head s) (ksm_scan_address s) (ksm_scan_rmap_list s) (ksm_scan_mm_slot s) (ksm_scan_remove_mm_list s) (ksm_scan_nr_scannable s) (ksm_scan_nr_frozen s) (ksm_scan_scan_round s) (ksm_scan_nr_full_scan s) (ksm_scan_scan_mode s) (ksm_pages_shared s) (ksm_pages_sharing s) (ksm_pages_unshared s) (ksm_rmap_items s) (ksm_stable_node_chains s) (ksm_stable_node_dups s) (ksm_max_page_sharing s) (ksm_stable_node_chains_prune_millisecs s) (ksm_use_zero_pages s) (zero_checksum s) (lksm_max_vips s) (initial_round s) (ksm_run s) (ksm_crawl_round s) (lksm_nr_merged s) (lksm_nr_broken s) (lksm_nr_scanned_slot s) (lksm_slot_nr_merged s) (lksm_slot_nr_broken s) (mem_map s) (page_table s) (mm_structs s) (next_pfn s).
Definition set_vips_list (v : rb_root) (s : ksm) : ksm :=
  mk_ksm (stable_nodes s) (rmap_items s) (mm_slots s) (next_ptr s) (root_stable_tree s) (root_unstable_tree s) (migrate_nodes s) v (ksm_mm_head s) (ksm_scan_head s) (ksm_scan_address s) (ksm_scan_rmap_list s) (ksm_scan_mm_slot s) (ksm_scan_remove_mm_list s) (ksm_scan_nr_scannable s) (ksm_scan_nr_frozen s) (ksm_scan_scan_round s) (ksm_scan_nr_full_scan s) (ksm_scan_scan_mode s) (ksm_pages_shared s) (ksm_pages_sharing s) (ksm_pages_unshared s) (ksm_rmap_items s) (ksm_stable_node_chains s) (ksm_stable_node_dups s) (ksm_max_page_sharing s) (ksm_stable_node_chains_prune_millisecs s) (ksm_use_zero_pages s) (zero_checksum s) (lksm_max_vips s) (initial_round s) (ksm_run s) (ksm_crawl_round s) (lksm_nr_merged s) (lksm_nr_broken s) (lksm_nr_scanned_slot s) (lksm_slot_nr_merged s) (lksm_slot_nr_broken s) (mem_map s) (page_table s) (mm_structs s) (next_pfn s).
Definition set_ksm_mm_head (v : list nat) (s : ksm) : ksm :=
  mk_ksm (stable_nodes s) (rmap_items s) (mm_slots s) (next_ptr s) (root_stable_tree s) (root_unstable_tree s) (migrate_nodes s) (vips_list s) v (ksm_scan_head s) (ksm_scan_address s) (ksm_scan_rmap_list s) (ksm_scan_mm_slot s) (ksm_scan_remove_mm_list s) (ksm_scan_nr_scannable s) (ksm_scan_nr_frozen s) (ksm_scan_scan_round s) (ksm_scan_nr_full_scan s) (ksm_scan_scan_mode s) (ksm_pages_shared s) (ksm_pages_sharing s) (ksm_pages_unshared s) (ksm_rmap_items s) (ksm_stable_node_chains s) (ksm_stable_node_dups s) (ksm_max_page_sharing s) (ksm_stable_node_chains_prune_millisecs s) (ksm_use_zero_pages s) (zero_checksum s) (lksm_max_vips s) (initial_round s) (ksm_run s) (ksm_crawl_round s) (lksm_nr_merged s) (lksm_nr_broken s) (lksm_nr_scanned_slot s) (lksm_slot_nr_merged s) (lksm_slot_nr_broken s) (mem_map s) (page_table s) (mm_structs s) (next_pfn s).
Definition set_ksm_scan_head (v : list nat) (s : ksm) : ksm :=
  mk_ksm (stable_nodes s) (rmap_items s) (mm_slots s) (next_ptr s) (root_stable_tree s) (root_unstable_tree s) (migrate_nodes s) (vips_list s) (ksm_mm_head s) v (ksm_scan_address s) (ksm_scan_rmap_list s) (ksm_scan_mm_slot s) (ksm_scan_remove_mm_list s) (ksm_scan_nr_scannable s) (ksm_scan_nr_frozen s) (ksm_scan_scan_round s) (ksm_scan_nr_full_scan s) (ksm_scan_scan_mode s) (ksm_pages_shared s) (ksm_pages_sharing s) (ksm_pages_unshared s) (ksm_rmap_items s) (ksm_stable_node_chains s) (ksm_stable_node_dups s) (ksm_max_page_sharing s) (ksm_stable_node_chains_prune_millisecs s) (ksm_use_zero_pages s) (zero_checksum s) (lksm_max_vips s) (initial_round s) (ksm_run s) (ksm_crawl_round s) (lksm_nr_merged s) (lksm_nr_broken s) (lksm_nr_scanned_slot s) (lksm_slot_nr_merged s) (lksm_slot_nr_broken s) (mem_map s) (page_table s) (mm_structs s) (next_pfn s).
Definition set_ksm_scan_address (v : Z) (s : ksm) : ksm :=
  mk_ksm (stable_nodes s) (rmap_items s) (mm_slots s) (next_ptr s) (root_stable_tree s) (root_unstable_tree s) (migrate_nodes s) (vips_list s) (ksm_mm_head s) (ksm_scan_head s) v (ksm_scan_rmap_list s) (ksm_scan_mm_slot s) (ksm_scan_remove_mm_list s) (ksm_scan_nr_scannable s) (ksm_scan_nr_frozen s) (ksm_scan_scan_round s) (ksm_scan_nr_full_scan s) (ksm_scan_scan_mode s) (ksm_pages_shared s) (ksm_pages_sharing s) (ksm_pages_unshared s) (ksm_rmap_items s) (ksm_stable_node_chains s) (ksm_stable_node_dups s) (ksm_max_page_sharing s) (ksm_stable_node_chains_prune_millisecs s) (ksm_use_zero_pages s) (zero_checksum s) (lksm_max_vips s) (initial_round s) (ksm_run s) (ksm_crawl_round s) (lksm_nr_merged s) (lksm_nr_broken s) (lksm_nr_scanned_slot s) (lksm_slot_nr_merged s) (lksm_slot_nr_broken s) (mem_map s) (page_table s) (mm_structs s) (next_pfn s).
Definition set_ksm_scan_rmap_list (v : option nat) (s : ksm) : ksm :=
  mk_ksm (stable_nodes s) (rmap_items s) (mm_slots s) (next_ptr s) (root_stable_tree s) (root_unstable_tree s) (migrate_nodes s) (vips_list s) (ksm_mm_head s) (ksm_scan_head s) (ksm_scan_address s) v (ksm_scan_mm_slot s) (ksm_scan_remove_mm_list s) (ksm_scan_nr_scannable s) (ksm_scan_nr_frozen s) (ksm_scan_scan_round s) (ksm_scan_nr_full_scan s) (ksm_scan_scan_mode s) (ksm_pages_shared s) (ksm_pages_sharing s) (ksm_pages_unshared s) (ksm_rmap_items s) (ksm_stable_node_chains s) (ksm_stable_node_dups s) (ksm_max_page_sharing s) (ksm_stable_node_chains_prune_millisecs s) (ksm_use_zero_pages s) (zero_checksum s) (lksm_max_vips s) (initial_round s) (ksm_run s) (ksm_crawl_round s) (lksm_nr_merged s) (lksm_nr_broken s) (lksm_nr_scanned_slot s) (lksm_slot_nr_merged s) (lksm_slot_nr_broken s) (mem_map s) (page_table s) (mm_structs s) (next_pfn s).
Definition set_ksm_scan_mm_slot (v : mm_slot_ptr) (s : ksm) : ksm :=
  mk_ksm (stable_nodes s) (rmap_items s) (mm_slots s) (next_ptr s) (root_stable_tree s) (root_unstable_tree s) (migrate_nodes s) (vips_list s) (ksm_mm_head s) (ksm_scan_head s) (ksm_scan_address s) (ksm_scan_rmap_list s) v (ksm_scan_remove_mm_list s) (ksm_scan_nr_scannable s) (ksm_scan_nr_frozen s) (ksm_scan_scan_round s) (ksm_scan_nr_full_scan s) (ksm_scan_scan_mode s) (ksm_pages_shared s) (ksm_pages_sharing s) (ksm_pages_unshared s) (ksm_rmap_items s) (ksm_stable_node_chains s) (ksm_stable_node_dups s) (ksm_max_page_sharing s) (ksm_stable_node_chains_prune_millisecs s) (ksm_use_zero_pages s) (zero_checksum s) (lksm_max_vips s) (initial_round s) (ksm_run s) (ksm_crawl_round s) (lksm_nr_merged s) (lksm_nr_broken s) (lksm_nr_scanned_slot s) (lksm_slot_nr_merged s) (lksm_slot_nr_broken s) (mem_map s) (page_table s) (mm_structs s) (next_pfn s).
Definition set_ksm_scan_remove_mm_list (v : list nat) (s : ksm) : ksm :=
  mk_ksm (stable_nodes s) (rmap_items s) (mm_slots s) (next_ptr s) (root_stable_tree s) (root_unstable_tree s) (migrate_nodes s) (vips_list s) (ksm_mm_head s) (ksm_scan_head s) (ksm_scan_address s) (ksm_scan_rmap_list s) (ksm_scan_mm_slot s) v (ksm_scan_nr_scannable s) (ksm_scan_nr_frozen s) (ksm_scan_scan_round s) (ksm_scan_nr_full_scan s) (ksm_scan_scan_mode s) (ksm_pages_shared s) (ksm_pages_sharing s) (ksm_pages_unshared s) (ksm_rmap_items s) (ksm_stable_node_chains s) (ksm_stable_node_dups s) (ksm_max_page_sharing s) (ksm_stable_node_chains_prune_millisecs s) (ksm_use_zero_pages s) (zero_checksum s) (lksm_max_vips s) (initial_round s) (ksm_run s) (ksm_crawl_round s) (lksm_nr_merged s) (lksm_nr_broken s) (lksm_nr_scanned_slot s) (lksm_slot_nr_merged s) (lksm_slot_nr_broken s) (mem_map s) (page_table s) (mm_structs s) (next_pfn s).
Definition set_ksm_scan_nr_scannable (v : Z) (s : ksm) : ksm :=
  mk_ksm (stable_nodes s) (rmap_items s) (mm_slots s) (next_ptr s) (root_stable_tree s) (root_unstable_tree s) (migrate_nodes s) (vips_list s) (ksm_mm_head s) (ksm_scan_head s) (ksm_scan_address s) (ksm_scan_rmap_list s) (ksm_scan_mm_slot s) (ksm_scan_remove_mm_list s) v (ksm_scan_nr_frozen s) (ksm_scan_scan_round s) (ksm_scan_nr_full_scan s) (ksm_scan_scan_mode s) (ksm_pages_shared s) (ksm_pages_sharing s) (ksm_pages_unshared s) (ksm_rmap_items s) (ksm_stable_node_chains s) (ksm_stable_node_dups s) (ksm_max_page_sharing s) (ksm_stable_node_chains_prune_millisecs s) (ksm_use_zero_pages s) (zero_checksum s) (lksm_max_vips s) (initial_round s) (ksm_run s) (ksm_crawl_round s) (lksm_nr_merged s) (lksm_nr_broken s) (lksm_nr_scanned_slot s) (lksm_slot_nr_merged s) (lksm_slot_nr_broken s) (mem_map s) (page_table s) (mm_structs s) (next_pfn s).
Definition set_ksm_scan_nr_frozen (v : Z) (s : ksm) : ksm :=
  mk_ksm (stable_nodes s) (rmap_items s) (mm_slots s) (next_ptr s) (root_stable_tree s) (root_unstable_tree s) (migrate_nodes s) (vips_list s) (ksm_mm_head s) (ksm_scan_head s) (ksm_scan_address s) (ksm_scan_rmap_list s) (ksm_scan_mm_slot s) (ksm_scan_remove_mm_list s) (ksm_scan_nr_scannable s) v (ksm_scan_scan_round s) (ksm_scan_nr_full_scan s) (ksm_scan_scan_mode s) (ksm_pages_shared s) (ksm_pages_sharing s) (ksm_pages_unshared s) (ksm_rmap_items s) (ksm_stable_node_chains s) (ksm_stable_node_dups s) (ksm_max_page_sharing s) (ksm_stable_node_chains_prune_millisecs s) (ksm_use_zero_pages s) (zero_checksum s) (lksm_max_vips s) (initial_round s) (ksm_run s) (ksm_crawl_round s) (lksm_nr_merged s) (lksm_nr_broken s) (lksm_nr_scanned_slot s) (lksm_slot_nr_merged s) (lksm_slot_nr_broken s) (mem_map s) (page_table s) (mm_structs s) (next_pfn s).
Definition set_ksm_scan_scan_round (v : Z) (s : ksm) : ksm :=
  mk_ksm (stable_nodes s) (rmap_items s) (mm_slots s) (next_ptr s) (root_stable_tree s) (root_unstable_tree s) (migrate_nodes s) (vips_list s) (ksm_mm_head s) (ksm_scan_head s) (ksm_scan_address s) (ksm_scan_rmap_list s) (ksm_scan_mm_slot s) (ksm_scan_remove_mm_list s) (ksm_scan_nr_scannable s) (ksm_scan_nr_frozen s) v (ksm_scan_nr_full_scan s) (ksm_scan_scan_mode s) (ksm_pages_shared s) (ksm_pages_sharing s) (ksm_pages_unshared s) (ksm_rmap_items s) (ksm_stable_node_chains s) (ksm_stable_node_dups s) (ksm_max_page_sharing s) (ksm_stable_node_chains_prune_millisecs s) (ksm_use_zero_pages s) (zero_checksum s) (lksm_max_vips s) (initial_round s) (ksm_run s) (ksm_crawl_round s) (lksm_nr_merged s) (lksm_nr_broken s) (lksm_nr_scanned_slot s) (lksm_slot_nr_merged s) (lksm_slot_nr_broken s) (mem_map s) (page_table s) (mm_structs s) (next_pfn s).
Definition set_ksm_scan_nr_full_scan (v : Z) (s : ksm) : ksm :=
  mk_ksm (stable_nodes s) (rmap_items s) (mm_slots s) (next_ptr s) (root_stable_tree s) (root_unstable_tree s) (migrate_nodes s) (vips_list s) (ksm_mm_head s) (ksm_scan_head s) (ksm_scan_address s) (ksm_scan_rmap_list s) (ksm_scan_mm_slot s) (ksm_scan_remove_mm_list s) (ksm_scan_nr_scannable s) (ksm_scan_nr_frozen s) (ksm_scan_scan_round s) v (ksm_scan_scan_mode s) (ksm_pages_shared s) (ksm_pages_sharing s) (ksm_pages_unshared s) (ksm_rmap_items s) (ksm_stable_node_chains s) (ksm_stable_node_dups s) (ksm_max_page_sharing s) (ksm_stable_node_chains_prune_millisecs s) (ksm_use_zero_pages s) (zero_checksum s) (lksm_max_vips s) (initial_round s) (ksm_run s) (ksm_crawl_round s) (lksm_nr_merged s) (lksm_nr_broken s) (lksm_nr_scanned_slot s) (lksm_slot_nr_merged s) (lksm_slot_nr_broken s) (mem_map s) (page_table s) (mm_structs s) (next_pfn s).
Definition set_ksm_scan_scan_mode (v : lksm_scan_mode) (s : ksm) : ksm :=
  mk_ksm (stable_nodes s) (rmap_items s) (mm_slots s) (next_ptr s) (root_stable_tree s) (root_unstable_tree s) (migrate_nodes s) (vips_list s) (ksm_mm_head s) (ksm_scan_head s) (ksm_scan_address s) (ksm_scan_rmap_list s) (ksm_scan_mm_slot s) (ksm_scan_remove_mm_list s) (ksm_scan_nr_scannable s) (ksm_scan_nr_frozen s) (ksm_scan_scan_round s) (ksm_scan_nr_full_scan s) v (ksm_pages_shared s) (ksm_pages_sharing s) (ksm_pages_unshared s) (ksm_rmap_items s) (ksm_stable_node_chains s) (ksm_stable_node_dups s) (ksm_max_page_sharing s) (ksm_stable_node_chains_prune_millisecs s) (ksm_use_zero_pages s) (zero_checksum s) (lksm_max_vips s) (initial_round s) (ksm_run s) (ksm_crawl_round s) (lksm_nr_merged s) (lksm_nr_broken s) (lksm_nr_scanned_slot s) (lksm_slot_nr_merged s) (lksm_slot_nr_broken s) (mem_map s) (page_table s) (mm_structs s) (next_pfn s).
Definition set_ksm_pages_shared (v : Z) (s : ksm) : ksm :=
  mk_ksm (stable_nodes s) (rmap_items s) (mm_slots s) (next_ptr s) (root_stable_tree s) (root_unstable_tree s) (migrate_nodes s) (vips_list s) (ksm_mm_head s) (ksm_scan_head s) (ksm_scan_address s) (ksm_scan_rmap_list s) (ksm_scan_mm_slot s) (ksm_scan_remove_mm_list s) (ksm_scan_nr_scannable s) (ksm_scan_nr_frozen s) (ksm_scan_scan_round s) (ksm_scan_nr_full_scan s) (ksm_scan_scan_mode s) v (ksm_pages_sharing s) (ksm_pages_unshared s) (ksm_rmap_items s) (ksm_stable_node_chains s) (ksm_stable_node_dups s) (ksm_max_page_sharing s) (ksm_stable_node_chains_prune_millisecs s) (ksm_use_zero_pages s) (zero_checksum s) (lksm_max_vips s) (initial_round s) (ksm_run s) (ksm_crawl_round s) (lksm_nr_merged s) (lksm_nr_broken s) (lksm_nr_scanned_slot s) (lksm_slot_nr_merged s) (lksm_slot_nr_broken s) (mem_map s) (page_table s) (mm_structs s) (next_pfn s).
Definition set_ksm_pages_sharing (v : Z) (s : ksm) : ksm :=
  mk_ksm (stable_nodes s) (rmap_items s) (mm_slots s) (next_ptr s) (root_stable_tree s) (root_unstable_tree s) (migrate_nodes s) (vips_list s) (ksm_mm_head s) (ksm_scan_head s) (ksm_scan_address s) (ksm_scan_rmap_list s) (ksm_scan_mm_slot s) (ksm_scan_remove_mm_list s) (ksm_scan_nr_scannable s) (ksm_scan_nr_frozen s) (ksm_scan_scan_round s) (ksm_scan_nr_full_scan s) (ksm_scan_scan_mode s) (ksm_pages_shared s) v (ksm_pages_unshared s) (ksm_rmap_items s) (ksm_stable_node_chains s) (ksm_stable_node_dups s) (ksm_max_page_sharing s) (ksm_stable_node_chains_prune_millisecs s) (ksm_use_zero_pages s) (zero_checksum s) (lksm_max_vips s) (initial_round s) (ksm_run s) (ksm_crawl_round s) (lksm_nr_merged s) (lksm_nr_broken s) (lksm_nr_scanned_slot s) (lksm_slot_nr_merged s) (lksm_slot_nr_broken s) (mem_map s) (page_table s) (mm_structs s) (next_pfn s).
Definition set_ksm_pages_unshared (v : Z) (s : ksm) : ksm :=
  mk_ksm (stable_nodes s) (rmap_items s) (mm_slots s) (next_ptr s) (root_stable_tree s) (root_unstable_tree s) (migrate_nodes s) (vips_list s) (ksm_mm_head s) (ksm_scan_head s) (ksm_scan_address s) (ksm_scan_rmap_list s) (ksm_scan_mm_slot s) (ksm_scan_remove_mm_list s) (ksm_scan_nr_scannable s) (ksm_scan_nr_frozen s) (ksm_scan_scan_round s) (ksm_scan_nr_full_scan s) (ksm_scan_scan_mode s) (ksm_pages_shared s) (ksm_pages_sharing s) v (ksm_rmap_items s) (ksm_stable_node_chains s) (ksm_stable_node_dups s) (ksm_max_page_sharing s) (ksm_stable_node_chains_prune_millisecs s) (ksm_use_zero_pages s) (zero_checksum s) (lksm_max_vips s) (initial_round s) (ksm_run s) (ksm_crawl_round s) (lksm_nr_merged s) (lksm_nr_broken s) (lksm_nr_scanned_slot s) (lksm_slot_nr_merged s) (lksm_slot_nr_broken s) (mem_map s) (page_table s) (mm_structs s) (next_pfn s).
Definition set_ksm_rmap_items (v : Z) (s : ksm) : ksm :=
  mk_ksm (stable_nodes s) (rmap_items s) (mm_slots s) (next_ptr s) (root_stable_tree s) (root_unstable_tree s) (migrate_nodes s) (vips_list s) (ksm_mm_head s) (ksm_scan_head s) (ksm_scan_address s) (ksm_scan_rmap_list s) (ksm_scan_mm_slot s) (ksm_scan_remove_mm_list s) (ksm_scan_nr_scannable s) (ksm_scan_nr_frozen s) (ksm_scan_scan_round s) (ksm_scan_nr_full_scan s) (ksm_scan_scan_mode s) (ksm_pages_shared s) (ksm_pages_sharing s) (ksm_pages_unshared s) v (ksm_stable_node_chains s) (ksm_stable_node_dups s) (ksm_max_page_sharing s) (ksm_stable_node_chains_prune_millisecs s) (ksm_use_zero_pages s) (zero_checksum s) (lksm_max_vips s) (initial_round s) (ksm_run s) (ksm_crawl_round s) (lksm_nr_merged s) (lksm_nr_broken s) (lksm_nr_scanned_slot s) (lksm_slot_nr_merged s) (lksm_slot_nr_broken s) (mem_map s) (page_table s) (mm_structs s) (next_pfn s).
Definition set_ksm_stable_node_chains (v : Z) (s : ksm) : ksm :=
  mk_ksm (stable_nodes s) (rmap_items s) (mm_slots s) (next_ptr s) (root_stable_tree s) (root_unstable_tree s) (migrate_nodes s) (vips_list s) (ksm_mm_head s) (ksm_scan_head s) (ksm_scan_address s) (ksm_scan_rmap_list s) (ksm_scan_mm_slot s) (ksm_scan_remove_mm_list s) (ksm_scan_nr_scannable s) (ksm_scan_nr_frozen s) (ksm_scan_scan_round s) (ksm_scan_nr_full_scan s) (ksm_scan_scan_mode s) (ksm_pages_shared s) (ksm_pages_sharing s) (ksm_pages_unshared s) (ksm_rmap_items s) v (ksm_stable_node_dups s) (ksm_max_page_sharing s) (ksm_stable_node_chains_prune_millisecs s) (ksm_use_zero_pages s) (zero_checksum s) (lksm_max_vips s) (initial_round s) (ksm_run s) (ksm_crawl_round s) (lksm_nr_merged s) (lksm_nr_broken s) (lksm_nr_scanned_slot s) (lksm_slot_nr_merged s) (lksm_slot_nr_broken s) (mem_map s) (page_table s) (mm_structs s) (next_pfn s).
Definition set_ksm_stable_node_dups (v : Z) (s : ksm) : ksm :=
  mk_ksm (stable_nodes s) (rmap_items s) (mm_slots s) (next_ptr s) (root_stable_tree s) (root_unstable_tree s) (migrate_nodes s) (vips_list s) (ksm_mm_head s) (ksm_scan_head s) (ksm_scan_address s) (ksm_scan_rmap_list s) (ksm_scan_mm_slot s) (ksm_scan_remove_mm_list s) (ksm_scan_nr_scannable s) (ksm_scan_nr_frozen s) (ksm_scan_scan_round s) (ksm_scan_nr_full_scan s) (ksm_scan_scan_mode s) (ksm_pages_shared s) (ksm_pages_sharing s) (ksm_pages_unshared s) (ksm_rmap_items s) (ksm_stable_node_chains s) v (ksm_max_page_sharing s) (ksm_stable_node_chains_prune_millisecs s) (ksm_use_zero_pages s) (zero_checksum s) (lksm_max_vips s) (initial_round s) (ksm_run s) (ksm_crawl_round s) (lksm_nr_merged s) (lksm_nr_broken s) (lksm_nr_scanned_slot s) (lksm_slot_nr_merged s) (lksm_slot_nr_broken s) (mem_map s) (page_table s) (mm_structs s) (next_pfn s).
Definition set_ksm_max_page_sharing (v : Z) (s : ksm) : ksm :=
  mk_ksm (stable_nodes s) (rmap_items s) (mm_slots s) (next_ptr s) (root_stable_tree s) (root_unstable_tree s) (migrate_nodes s) (vips_list s) (ksm_mm_head s) (ksm_scan_head s) (ksm_scan_address s) (ksm_scan_rmap_list s) (ksm_scan_mm_slot s) (ksm_scan_remove_mm_list s) (ksm_scan_nr_scannable s) (ksm_scan_nr_frozen s) (ksm_scan_scan_round s) (ksm_scan_nr_full_scan s) (ksm_scan_scan_mode s) (ksm_pages_shared s) (ksm_pages_sharing s) (ksm_pages_unshared s) (ksm_rmap_items s) (ksm_stable_node_chains s) (ksm_stable_node_dups s) v (ksm_stable_node_chains_prune_millisecs s) (ksm_use_zero_pages s) (zero_checksum s) (lksm_max_vips s) (initial_round s) (ksm_run s) (ksm_crawl_round s) (lksm_nr_merged s) (lksm_nr_broken s) (lksm_nr_scanned_slot s) (lksm_slot_nr_merged s) (lksm_slot_nr_broken s) (mem_map s) (page_table s) (mm_structs s) (next_pfn s).
Definition set_ksm_stable_node_chains_prune_millisecs (v : Z) (s : ksm) : ksm :=
  mk_ksm (stable_nodes s) (rmap_items s) (mm_slots s) (next_ptr s) (root_stable_tree s) (root_unstable_tree s) (migrate_nodes s) (vips_list s) (ksm_mm_head s) (ksm_scan_head s) (ksm_scan_address s) (ksm_scan_rmap_list s) (ksm_scan_mm_slot s) (ksm_scan_remove_mm_list s) (ksm_scan_nr_scannable s) (ksm_scan_nr_frozen s) (ksm_scan_scan_round s) (ksm_scan_nr_full_scan s) (ksm_scan_scan_mode s) (ksm_pages_shared s) (ksm_pages_sharing s) (ksm_pages_unshared s) (ksm_rmap_items s) (ksm_stable_node_chains s) (ksm_stable_node_dups s) (ksm_max_page_sharing s) v (ksm_use_zero_pages s) (zero_checksum s) (lksm_max_vips s) (initial_round s) (ksm_run s) (ksm_crawl_round s) (lksm_nr_merged s) (lksm_nr_broken s) (lksm_nr_scanned_slot s) (lksm_slot_nr_merged s) (lksm_slot_nr_broken s) (mem_map s) (page_table s) (mm_structs s) (next_pfn s).
Definition set_ksm_use_zero_pages (v : bool) (s : ksm) : ksm :=
  mk_ksm (stable_nodes s) (rmap_items s) (mm_slots s) (next_ptr s) (root_stable_tree s) (root_unstable_tree s) (migrate_nodes s) (vips_list s) (ksm_mm_head s) (ksm_scan_head s) (ksm_scan_address s) (ksm_scan_rmap_list s) (ksm_scan_mm_slot s) (ksm_scan_remove_mm_list s) (ksm_scan_nr_scannable s) (ksm_scan_nr_frozen s) (ksm_scan_scan_round s) (ksm_scan_nr_full_scan s) (ksm_scan_scan_mode s) (ksm_pages_shared s) (ksm_pages_sharing s) (ksm_pages_unshared s) (ksm_rmap_items s) (ksm_stable_node_chains s) (ksm_stable_node_dups s) (ksm_max_page_sharing s) (ksm_stable_node_chains_prune_millisecs s) v (zero_checksum s) (lksm_max_vips s) (initial_round s) (ksm_run s) (ksm_crawl_round s) (lksm_nr_merged s) (lksm_nr_broken s) (lksm_nr_scanned_slot s) (lksm_slot_nr_merged s) (lksm_slot_nr_broken s) (mem_map s) (page_table s) (mm_structs s) (next_pfn s).
Definition set_zero_checksum (v : Z) (s : ksm) : ksm :=
  mk_ksm (stable_nodes s) (rmap_items s) (mm_slots s) (next_ptr s) (root_stable_tree s) (root_unstable_tree s) (migrate_nodes s) (vips_list s) (ksm_mm_head s) (ksm_scan_head s) (ksm_scan_address s) (ksm_scan_rmap_list s) (ksm_scan_mm_slot s) (ksm_scan_remove_mm_list s) (ksm_scan_nr_scannable s) (ksm_scan_nr_frozen s) (ksm_scan_scan_round s) (ksm_scan_nr_full_scan s) (ksm_scan_scan_mode s) (ksm_pages_shared s) (ksm_pages_sharing s) (ksm_pages_unshared s) (ksm_rmap_items s) (ksm_stable_node_chains s) (ksm_stable_node_dups s) (ksm_max_page_sharing s) (ksm_stable_node_chains_prune_millisecs s) (ksm_use_zero_pages s) v (lksm_max_vips s) (initial_round s) (ksm_run s) (ksm_crawl_round s) (lksm_nr_merged s) (lksm_nr_broken s) (lksm_nr_scanned_slot s) (lksm_slot_nr_merged s) (lksm_slot_nr_broken s) (mem_map s) (page_table s) (mm_structs s) (next_pfn s).
Definition set_lksm_max_vips (v : Z) (s : ksm) : ksm :=
  mk_ksm (stable_nodes s) (rmap_items s) (mm_slots s) (next_ptr s) (root_stable_tree s) (root_unstable_tree s) (migrate_nodes s) (vips_list s) (ksm_mm_head s) (ksm_scan_head s) (ksm_scan_address s) (ksm_scan_rmap_list s) (ksm_scan_mm_slot s) (ksm_scan_remove_mm_list s) (ksm_scan_nr_scannable s) (ksm_scan_nr_frozen s) (ksm_scan_scan_round s) (ksm_scan_nr_full_scan s) (ksm_scan_scan_mode s) (ksm_pages_shared s) (ksm_pages_sharing s) (ksm_pages_unshared s) (ksm_rmap_items s) (ksm_stable_node_chains s) (ksm_stable_node_dups s) (ksm_max_page_sharing s) (ksm_stable_node_chains_prune_millisecs s) (ksm_use_zero_pages s) (zero_checksum s) v (initial_round s) (ksm_run s) (ksm_crawl_round s) (lksm_nr_merged s) (lksm_nr_broken s) (lksm_nr_scanned_slot s) (lksm_slot_nr_merged s) (lksm_slot_nr_broken s) (mem_map s) (page_table s) (mm_structs s) (next_pfn s).
Definition set_initial_round (v : Z) (s : ksm) : ksm :=
  mk_ksm (stable_nodes s) (rmap_items s) (mm_slots s) (next_ptr s) (root_stable_tree s) (root_unstable_tree s) (migrate_nodes s) (vips_list s) (ksm_mm_head s) (ksm_scan_head s) (ksm_scan_address s) (ksm_scan_rmap_list s) (ksm_scan_mm_slot s) (ksm_scan_remove_mm_list s) (ksm_scan_nr_scannable s) (ksm_scan_nr_frozen s) (ksm_scan_scan_round s) (ksm_scan_nr_full_scan s) (ksm_scan_scan_mode s) (ksm_pages_shared s) (ksm_pages_sharing s) (ksm_pages_unshared s) (ksm_rmap_items s) (ksm_stable_node_chains s) (ksm_stable_node_dups s) (ksm_max_page_sharing s) (ksm_stable_node_chains_prune_millisecs s) (ksm_use_zero_pages s) (zero_checksum s) (lksm_max_vips s) v (ksm_run s) (ksm_crawl_round s) (lksm_nr_merged s) (lksm_nr_broken s) (lksm_nr_scanned_slot s) (lksm_slot_nr_merged s) (lksm_slot_nr_broken s) (mem_map s) (page_table s) (mm_structs s) (next_pfn s).
Definition set_ksm_run (v : Z) (s : ksm) : ksm :=
  mk_ksm (stable_nodes s) (rmap_items s) (mm_slots s) (next_ptr s) (root_stable_tree s) (root_unstable_tree s) (migrate_nodes s) (vips_list s) (ksm_mm_head s) (ksm_scan_head s) (ksm_scan_address s) (ksm_scan_rmap_list s) (ksm_scan_mm_slot s) (ksm_scan_remove_mm_list s) (ksm_scan_nr_scannable s) (ksm_scan_nr_frozen s) (ksm_scan_scan_round s) (ksm_scan_nr_full_scan s) (ksm_scan_scan_mode s) (ksm_pages_shared s) (ksm_pages_sharing s) (ksm_pages_unshared s) (ksm_rmap_items s) (ksm_stable_node_chains s) (ksm_stable_node_dups s) (ksm_max_page_sharing s) (ksm_stable_node_chains_prune_millisecs s) (ksm_use_zero_pages s) (zero_checksum s) (lksm_max_vips s) (initial_round s) v (ksm_crawl_round s) (lksm_nr_merged s) (lksm_nr_broken s) (lksm_nr_scanned_slot s) (lksm_slot_nr_merged s) (lksm_slot_nr_broken s) (mem_map s) (page_table s) (mm_structs s) (next_pfn s).
Definition set_ksm_crawl_round (v : Z) (s : ksm) : ksm :=
  mk_ksm (stable_nodes s) (rmap_items s) (mm_slots s) (next_ptr s) (root_stable_tree s) (root_unstable_tree s) (migrate_nodes s) (vips_list s) (ksm_mm_head s) (ksm_scan_head s) (ksm_scan_address s) (ksm_scan_rmap_list s) (ksm_scan_mm_slot s) (ksm_scan_remove_mm_list s) (ksm_scan_nr_scannable s) (ksm_scan_nr_frozen s) (ksm_scan_scan_round s) (ksm_scan_nr_full_scan s) (ksm_scan_scan_mode s) (ksm_pages_shared s) (ksm_pages_sharing s) (ksm_pages_unshared s) (ksm_rmap_items s) (ksm_stable_node_chains s) (ksm_stable_node_dups s) (ksm_max_page_sharing s) (ksm_stable_node_chains_prune_millisecs s) (ksm_use_zero_pages s) (zero_checksum s) (lksm_max_vips s) (initial_round s) (ksm_run s) v (lksm_nr_merged s) (lksm_nr_broken s) (lksm_nr_scanned_slot s) (lksm_slot_nr_merged s) (lksm_slot_nr_broken s) (mem_map s) (page_table s) (mm_structs s) (next_pfn s).
Definition set_lksm_nr_merged (v : Z) (s : ksm) : ksm :=
  mk_ksm (stable_nodes s) (rmap_items s) (mm_slots s) (next_ptr s) (root_stable_tree s) (root_unstable_tree s) (migrate_nodes s) (vips_list s) (ksm_mm_head s) (ksm_scan_head s) (ksm_scan_address s) (ksm_scan_rmap_list s) (ksm_scan_mm_slot s) (ksm_scan_remove_mm_list s) (ksm_scan_nr_scannable s) (ksm_scan_nr_frozen s) (ksm_scan_scan_round s) (ksm_scan_nr_full_scan s) (ksm_scan_scan_mode s) (ksm_pages_shared s) (ksm_pages_sharing s) (ksm_pages_unshared s) (ksm_rmap_items s) (ksm_stable_node_chains s) (ksm_stable_node_dups s) (ksm_max_page_sharing s) (ksm_stable_node_chains_prune_millisecs s) (ksm_use_zero_pages s) (zero_checksum s) (lksm_max_vips s) (initial_round s) (ksm_run s) (ksm_crawl_round s) v (lksm_nr_broken s) (lksm_nr_scanned_slot s) (lksm_slot_nr_merged s) (lksm_slot_nr_broken s) (mem_map s) (page_table s) (mm_structs s) (next_pfn s).
Definition set_lksm_nr_broken (v : Z) (s : ksm) : ksm :=
  mk_ksm (stable_nodes s) (rmap_items s) (mm_slots s) (next_ptr s) (root_stable_tree s) (root_unstable_tree s) (migrate_nodes s) (vips_list s) (ksm_mm_head s) (ksm_scan_head s) (ksm_scan_address s) (ksm_scan_rmap_list s) (ksm_scan_mm_slot s) (ksm_scan_remove_mm_list s) (ksm_scan_nr_scannable s) (ksm_scan_nr_frozen s) (ksm_scan_scan_round s) (ksm_scan_nr_full_scan s) (ksm_scan_scan_mode s) (ksm_pages_shared s) (ksm_pages_sharing s) (ksm_pages_unshared s) (ksm_rmap_items s) (ksm_stable_node_chains s) (ksm_stable_node_dups s) (ksm_max_page_sharing s) (ksm_stable_node_chains_prune_millisecs s) (ksm_use_zero_pages s) (zero_checksum s) (lksm_max_vips s) (initial_round s) (ksm_run s) (ksm_crawl_round s) (lksm_nr_merged s) v (lksm_nr_scanned_slot s) (lksm_slot_nr_merged s) (lksm_slot_nr_broken s) (mem_map s) (page_table s) (mm_structs s) (next_pfn s).
Definition set_lksm_nr_scanned_slot (v : Z) (s : ksm) : ksm :=
  mk_ksm (stable_nodes s) (rmap_items s) (mm_slots s) (next_ptr s) (root_stable_tree s) (root_unstable_tree s) (migrate_nodes s) (vips_list s) (ksm_mm_head s) (ksm_scan_head s) (ksm_scan_address s) (ksm_scan_rmap_list s) (ksm_scan_mm_slot s) (ksm_scan_remove_mm_list s) (ksm_scan_nr_scannable s) (ksm_scan_nr_frozen s) (ksm_scan_scan_round s) (ksm_scan_nr_full_scan s) (ksm_scan_scan_mode s) (ksm_pages_shared s) (ksm_pages_sharing s) (ksm_pages_unshared s) (ksm_rmap_items s) (ksm_stable_node_chains s) (ksm_stable_node_dups s) (ksm_max_page_sharing s) (ksm_stable_node_chains_prune_millisecs s) (ksm_use_zero_pages s) (zero_checksum s) (lksm_max_vips s) (initial_round s) (ksm_run s) (ksm_crawl_round s) (lksm_nr_merged s) (lksm_nr_broken s) v (lksm_slot_nr_merged s) (lksm_slot_nr_broken s) (mem_map s) (page_table s) (mm_structs s) (next_pfn s).
Definition set_lksm_slot_nr_merged (v : Z) (s : ksm) : ksm :=
  mk_ksm (stable_nodes s) (rmap_items s) (mm_slots s) (next_ptr s) (root_stable_tree s) (root_unstable_tree s) (migrate_nodes s) (vips_list s) (ksm_mm_head s) (ksm_scan_head s) (ksm_scan_address s) (ksm_scan_rmap_list s) (ksm_scan_mm_slot s) (ksm_scan_remove_mm_list s) (ksm_scan_nr_scannable s) (ksm_scan_nr_frozen s) (ksm_scan_scan_round s) (ksm_scan_nr_full_scan s) (ksm_scan_scan_mode s) (ksm_pages_shared s) (ksm_pages_sharing s) (ksm_pages_unshared s) (ksm_rmap_items s) (ksm_stable_node_chains s) (ksm_stable_node_dups s) (ksm_max_page_sharing s) (ksm_stable_node_chains_prune_millisecs s) (ksm_use_zero_pages s) (zero_checksum s) (lksm_max_vips s) (initial_round s) (ksm_run s) (ksm_crawl_round s) (lksm_nr_merged s) (lksm_nr_broken s) (lksm_nr_scanned_slot s) v (lksm_slot_nr_broken s) (mem_map s) (page_table s) (mm_structs s) (next_pfn s).
Definition set_lksm_slot_nr_broken (v : Z) (s : ksm) : ksm :=
  mk_ksm (stable_nodes s) (rmap_items s) (mm_slots s) (next_ptr s) (root_stable_tree s) (root_unstable_tree s) (migrate_nodes s) (vips_list s) (ksm_mm_head s) (ksm_scan_head s) (ksm_scan_address s) (ksm_scan_rmap_list s) (ksm_scan_mm_slot s) (ksm_scan_remove_mm_list s) (ksm_scan_nr_scannable s) (ksm_scan_nr_frozen s) (ksm_scan_scan_round s) (ksm_scan_nr_full_scan s) (ksm_scan_scan_mode s) (ksm_pages_shared s) (ksm_pages_sharing s) (ksm_pages_unshared s) (ksm_rmap_items s) (ksm_stable_node_chains s) (ksm_stable_node_dups s) (ksm_max_page_sharing s) (ksm_stable_node_chains_prune_millisecs s) (ksm_use_zero_pages s) (zero_checksum s) (lksm_max_vips s) (initial_round s) (ksm_run s) (ksm_crawl_round s) (lksm_nr_merged s) (lksm_nr_broken s) (lksm_nr_scanned_slot s) (lksm_slot_nr_merged s) v (mem_map s) (page_table s) (mm_structs s) (next_pfn s).
Definition set_mem_map (v : gmap Z page) (s : ksm) : ksm :=
  mk_ksm (stable_nodes s) (rmap_items s) (mm_slots s) (next_ptr s) (root_stable_tree s) (root_unstable_tree s) (migrate_nodes s) (vips_list s) (ksm_mm_head s) (ksm_scan_head s) (ksm_scan_address s) (ksm_scan_rmap_list s) (ksm_scan_mm_slot s) (ksm_scan_remove_mm_list s) (ksm_scan_nr_scannable s) (ksm_scan_nr_frozen s) (ksm_scan_scan_round s) (ksm_scan_nr_full_scan s) (ksm_scan_scan_mode s) (ksm_pages_shared s) (ksm_pages_sharing s) (ksm_pages_unshared s) (ksm_rmap_items s) (ksm_stable_node_chains s) (ksm_stable_node_dups s) (ksm_max_page_sharing s) (ksm_stable_node_chains_prune_millisecs s) (ksm_use_zero_pages s) (zero_checksum s) (lksm_max_vips s) (initial_round s) (ksm_run s) (ksm_crawl_round s) (lksm_nr_merged s) (lksm_nr_broken s) (lksm_nr_scanned_slot s) (lksm_slot_nr_merged s) (lksm_slot_nr_broken s) v (page_table s) (mm_structs s) (next_pfn s).
Definition set_page_table (v : gmap (nat * Z) pte) (s : ksm) : ksm :=
  mk_ksm (stable_nodes s) (rmap_items s) (mm_slots s) (next_ptr s) (root_stable_tree s) (root_unstable_tree s) (migrate_nodes s) (vips_list s) (ksm_mm_head s) (ksm_scan_head s) (ksm_scan_address s) (ksm_scan_rmap_list s) (ksm_scan_mm_slot s) (ksm_scan_remove_mm_list s) (ksm_scan_nr_scannable s) (ksm_scan_nr_frozen s) (ksm_scan_scan_round s) (ksm_scan_nr_full_scan s) (ksm_scan_scan_mode s) (ksm_pages_shared s) (ksm_pages_sharing s) (ksm_pages_unshared s) (ksm_rmap_items s) (ksm_stable_node_chains s) (ksm_stable_node_dups s) (ksm_max_page_sharing s) (ksm_stable_node_chains_prune_millisecs s) (ksm_use_zero_pages s) (zero_checksum s) (lksm_max_vips s) (initial_round s) (ksm_run s) (ksm_crawl_round s) (lksm_nr_merged s) (lksm_nr_broken s) (lksm_nr_scanned_slot s) (lksm_slot_nr_merged s) (lksm_slot_nr_broken s) (mem_map s) v (mm_structs s) (next_pfn s).
Definition set_mm_structs (v : gmap nat mm_struct) (s : ksm) : ksm :=
  mk_ksm (stable_nodes s) (rmap_items s) (mm_slots s) (next_ptr s) (root_stable_tree s) (root_unstable_tree s) (migrate_nodes s) (vips_list s) (ksm_mm_head s) (ksm_scan_head s) (ksm_scan_address s) (ksm_scan_rmap_list s) (ksm_scan_mm_slot s) (ksm_scan_remove_mm_list s) (ksm_scan_nr_scannable s) (ksm_scan_nr_frozen s) (ksm_scan_scan_round s) (ksm_scan_nr_full_scan s) (ksm_scan_scan_mode s) (ksm_pages_shared s) (ksm_pages_sharing s) (ksm_pages_unshared s) (ksm_rmap_items s) (ksm_stable_node_chains s) (ksm_stable_node_dups s) (ksm_max_page_sharing s) (ksm_stable_node_chains_prune_millisecs s) (ksm_use_zero_pages s) (zero_checksum s) (lksm_max_vips s) (initial_round s) (ksm_run s) (ksm_crawl_round s) (lksm_nr_merged s) (lksm_nr_broken s) (lksm_nr_scanned_slot s) (lksm_slot_nr_merged s) (lksm_slot_nr_broken s) (mem_map s) (page_table s) v (next_pfn s).
Definition set_next_pfn (v : Z) (s : ksm) : ksm :=
  mk_ksm (stable_nodes s) (rmap_items s) (mm_slots s) (next_ptr s) (root_stable_tree s) (root_unstable_tree s) (migrate_nodes s) (vips_list s) (ksm_mm_head s) (ksm_scan_head s) (ksm_scan_address s) (ksm_scan_rmap_list s) (ksm_scan_mm_slot s) (ksm_scan_remove_mm_list s) (ksm_scan_nr_scannable s) (ksm_scan_nr_frozen s) (ksm_scan_scan_round s) (ksm_scan_nr_full_scan s) (ksm_scan_scan_mode s) (ksm_pages_shared s) (ksm_pages_sharing s) (ksm_pages_unshared s) (ksm_rmap_items s) (ksm_stable_node_chains s) (ksm_stable_node_dups s) (ksm_max_page_sharing s) (ksm_stable_node_chains_prune_millisecs s) (ksm_use_zero_pages s) (zero_checksum s) (lksm_max_vips s) (initial_round s) (ksm_run s) (ksm_crawl_round s) (lksm_nr_merged s) (lksm_nr_broken s) (lksm_nr_scanned_slot s) (lksm_slot_nr_merged s) (lksm_slot_nr_broken s) (mem_map s) (page_table s) (mm_structs s) v.

(** Field assignments on the kernel objects. *)
Definition sn_set_head (v : node_head) (n : stable_node) : stable_node :=
  mk_stable_node v (sn_hlist n) (sn_kpfn n) (sn_rmap_hlist_len n).
Definition sn_set_hlist (v : list nat) (n : stable_node) : stable_node :=
  mk_stable_node (sn_head n) v (sn_kpfn n) (sn_rmap_hlist_len n).
Definition sn_set_kpfn (v : Z) (n : stable_node) : stable_node :=
  mk_stable_node (sn_head n) (sn_hlist n) v (sn_rmap_hlist_len n).
Definition sn_set_rmap_hlist_len (v : Z) (n : stable_node) : stable_node :=
  mk_stable_node (sn_head n) (sn_hlist n) (sn_kpfn n) v.

Definition ri_set_address (v : Z) (r : rmap_item) : rmap_item :=
  mk_rmap_item (ri_mm r) v (ri_oldchecksum r) (ri_head r).
Definition ri_set_oldchecksum (v : Z) (r : rmap_item) : rmap_item :=
  mk_rmap_item (ri_mm r) (ri_address r) v (ri_head r).
Definition ri_set_head (v : option nat) (r : rmap_item) : rmap_item :=
  mk_rmap_item (ri_mm r) (ri_address r) (ri_oldchecksum r) v.

Definition ms_set_rmap_list (v : list nat) (m : mm_slot) : mm_slot :=
  mk_mm_slot (ms_mm m) v (ms_state m) (ms_merge_idx m) (ms_nr_merged_win m)
    (ms_nr_merged m) (ms_ordered m) (ms_scanning_size m) (ms_fault_cnt m)
    (ms_elapsed m) (ms_nr_scans m).
Definition ms_set_state (v : Z) (m : mm_slot) : mm_slot :=
  mk_mm_slot (ms_mm m) (ms_rmap_list m) v (ms_merge_idx m) (ms_nr_merged_win m)
    (ms_nr_merged m) (ms_ordered m) (ms_scanning_size m) (ms_fault_cnt m)
    (ms_elapsed m) (ms_nr_scans m).
Definition ms_set_merge_idx (v : Z) (m : mm_slot) : mm_slot :=
  mk_mm_slot (ms_mm m) (ms_rmap_list m) (ms_state m) v (ms_nr_merged_win m)
    (ms_nr_merged m) (ms_ordered m) (ms_scanning_size m) (ms_fault_cnt m)
    (ms_elapsed m) (ms_nr_scans m).
Definition ms_set_nr_merged_win (v : list Z) (m : mm_slot) : mm_slot :=
  mk_mm_slot (ms_mm m) (ms_rmap_list m) (ms_state m) (ms_merge_idx m) v
    (ms_nr_merged m) (ms_ordered m) (ms_scanning_size m) (ms_fault_cnt m)
    (ms_elapsed m) (ms_nr_scans m).
Definition ms_set_nr_merged (v : Z) (m : mm_slot) : mm_slot :=
  mk_mm_slot (ms_mm m) (ms_rmap_list m) (ms_state m) (ms_merge_idx m)
    (ms_nr_merged_win m) v (ms_ordered m) (ms_scanning_size m) (ms_fault_cnt m)
    (ms_elapsed m) (ms_nr_scans m).
Definition ms_set_ordered (v : bool) (m : mm_slot) : mm_slot :=
  mk_mm_slot (ms_mm m) (ms_rmap_list m) (ms_state m) (ms_merge_idx m)
    (ms_nr_merged_win m) (ms_nr_merged m) v (ms_scanning_size m) (ms_fault_cnt m)
    (ms_elapsed m) (ms_nr_scans m).
Definition ms_set_scanning_size (v : Z) (m : mm_slot) : mm_slot :=
  mk_mm_slot (ms_mm m) (ms_rmap_list m) (ms_state m) (ms_merge_idx m)
    (ms_nr_merged_win m) (ms_nr_merged m) (ms_ordered m) v (ms_fault_cnt m)
    (ms_elapsed m) (ms_nr_scans m).
Definition ms_set_fault_cnt (v : Z) (m : mm_slot) : mm_slot :=
  mk_mm_slot (ms_mm m) (ms_rmap_list m) (ms_state m) (ms_merge_idx m)
    (ms_nr_merged_win m) (ms_nr_merged m) (ms_ordered m) (ms_scanning_size m) v
    (ms_elapsed m) (ms_nr_scans m).
Definition ms_set_elapsed (v : Z) (m : mm_slot) : mm_slot :=
  mk_mm_slot (ms_mm m) (ms_rmap_list m) (ms_state m) (ms_merge_idx m)
    (ms_nr_merged_win m) (ms_nr_merged m) (ms_ordered m) (ms_scanning_size m)
    (ms_fault_cnt m) v (ms_nr_scans m).
Definition ms_set_nr_scans (v : Z) (m : mm_slot) : mm_slot :=
  mk_mm_slot (ms_mm m) (ms_rmap_list m) (ms_state m) (ms_merge_idx m)
    (ms_nr_merged_win m) (ms_nr_merged m) (ms_ordered m) (ms_scanning_size m)
    (ms_fault_cnt m) (ms_elapsed m) v.

Definition pg_set_mapping (v : page_mapping) (p : page) : page :=
  mk_page v (pg_data p).

(** ** What the rest of the kernel answers

    Helpers that live outside the file and whose answer depends on state the
    file never looks at (reference counts, page locks, the clock, the slab
    allocator, the fault handler) are taken as parameters of a run. *)

Inductive vm_fault : Type :=
| VM_FAULT_NONE      (* the handler backed out: try again *)
| VM_FAULT_WRITE
| VM_FAULT_SIGBUS
| VM_FAULT_SIGSEGV
| VM_FAULT_OOM.

Record env : Type := mk_env {
  jiffies : Z;
  msecs_to_jiffies : Z -> Z;
  xxhash : list Z -> Z;
  get_page_unless_zero : Z -> bool;
  PageSwapCache : Z -> bool;
  trylock_page : Z -> bool;
  page_mapped : Z -> bool;
  page_mapcount : Z -> Z;
  page_count_raised : Z -> bool;   (* mapcount + 1 + swapped != page_count *)
  kmem_cache_alloc : nat -> bool;  (* does the allocation returning this address succeed *)
  handle_mm_fault : nat -> Z -> vm_fault;
  signal_pending : bool;
  ZERO_PAGE : Z;                   (* the frame of the shared zero page *)
  stack_garbage : Z;               (* what an uninitialised local reads as *)
  get_mm_counter : nat -> Z;       (* get_mm_counter(mm, MM_ANONPAGES) *)
  owner_faults : nat -> Z          (* mm->owner->maj_flt + mm->owner->min_flt *)
}.

(** ** The monad: state, and the two ways a run can fail to return *)

Inductive fault : Type :=
| Oops    (* BUG_ON fired, or a dangling pointer was followed *)
| Spin.   (* a loop ran out of its step budget *)

Inductive result (A : Type) : Type :=
| Ok (a : A) (s : ksm)
| Fail (f : fault).
Arguments Ok {A} a s.
Arguments Fail {A} f.

Definition M (A : Type) : Type := ksm -> result A.

Definition ret {A} (a : A) : M A := fun s => Ok a s.
Definition bind {A B} (m : M A) (k : A -> M B) : M B :=
  fun s => match m s with Ok a s' => k a s' | Fail f => Fail f end.
Definition fail {A} (f : fault) : M A := fun _ => Fail f.
Definition get : M ksm := fun s => Ok s s.
Definition gets {A} (f : ksm -> A) : M A := fun s => Ok (f s) s.
Definition modify (f : ksm -> ksm) : M unit := fun s => Ok tt (f s).

Declare Scope ksm_scope.
Delimit Scope ksm_scope with ksm.
Notation "'do' x <- m ; k" := (bind m (fun x => k))
  (at level 10, x name, m at level 100, k at level 200) : ksm_scope.
Notation "'do' ' p <- m ; k" := (bind m (fun x => match x with p => k end))
  (at level 10, p pattern, m at level 100, k at level 200) : ksm_scope.
Notation "m ;; k" := (bind m (fun _ => k))
  (at level 100, k at level 200, right associativity) : ksm_scope.
Local Open Scope ksm_scope.

(** [BUG_ON(cond)]. *)
Definition BUG_ON (cond : bool) : M unit :=
  if cond then fail Oops else ret tt.

(** Following a pointer to an object of each slab. *)
Definition stable_node_at (p : nat) : M stable_node :=
  fun s => match stable_nodes s !! p with Some n => Ok n s | None => Fail Oops end.
Definition rmap_item_at (p : nat) : M rmap_item :=
  fun s => match rmap_items s !! p with Some r => Ok r s | None => Fail Oops end.
Definition mm_slot_at (p : nat) : M mm_slot :=
  fun s => match mm_slots s !! p with Some m => Ok m s | None => Fail Oops end.

(** Storing through a pointer. *)
Definition stable_node_update (p : nat) (f : stable_node -> stable_node) : M unit :=
  do n <- stable_node_at p;
  modify (fun s => set_stable_nodes (<[p := f n]> (stable_nodes s)) s).
Definition rmap_item_update (p : nat) (f : rmap_item -> rmap_item) : M unit :=
  do r <- rmap_item_at p;
  modify (fun s => set_rmap_items (<[p := f r]> (rmap_items s)) s).
Definition mm_slot_update (p : nat) (f : mm_slot -> mm_slot) : M unit :=
  do m <- mm_slot_at p;
  modify (fun s => set_mm_slots (<[p := f m]> (mm_slots s)) s).

(** [hlist_del] and [list_del] on a list of addresses: the entry is unlinked
    from the list that holds it. *)
Definition hlist_del (x : nat) (l : list nat) : list nat :=
  filter (fun y => y ≠ x) l.

(** ** Stable nodes, chains and dups (lines 672-744, 1081-1160) *)

Definition is_stable_node_chain (chain : stable_node) : bool :=
  sn_rmap_hlist_len chain =? STABLE_NODE_CHAIN.

Definition is_stable_node_dup (dup : stable_node) : bool :=
  bool_decide (sn_head dup = STABLE_NODE_DUP_HEAD).

Definition stable_node_chain_add_dup (dup chain : nat) : M unit :=
  stable_node_update dup (sn_set_head STABLE_NODE_DUP_HEAD);;
  stable_node_update chain (fun c => sn_set_hlist (dup :: sn_hlist c) c);;
  modify (fun s => set_ksm_stable_node_dups (wrap_ulong (ksm_stable_node_dups s + 1)) s).

(** [hlist_del(&dup->hlist_dup)] unlinks the dup from the chain whose list
    it is on; the dup itself does not record which chain that is. *)
Definition hlist_del_dup (dup : nat) (s : ksm) : ksm :=
  set_stable_nodes
    ((fun c => if is_stable_node_chain c
               then sn_set_hlist (hlist_del dup (sn_hlist c)) c else c)
       <$> stable_nodes s) s.

Definition __stable_node_dup_del (dup : nat) : M unit :=
  modify (hlist_del_dup dup);;
  modify (fun s => set_ksm_stable_node_dups (wrap_ulong (ksm_stable_node_dups s - 1)) s).

Definition stable_node_dup_del (dup : nat) : M unit :=
  do d <- stable_node_at dup;
  if is_stable_node_dup d then __stable_node_dup_del dup
  else modify (fun s => set_root_stable_tree (rb_erase dup (root_stable_tree s)) s).

Definition free_stable_node (stable_node : nat) : M unit :=
  modify (fun s => set_stable_nodes (delete stable_node (stable_nodes s)) s).

(** [kmem_cache_alloc] of the stable_node slab; the new object is
    uninitialised, here it reads as a tree-linked node with no entries. *)
Definition alloc_stable_node (e : env) : M (option nat) :=
  do s <- get;
  let p := next_ptr s in
  if kmem_cache_alloc e p then
    modify (fun s => set_next_ptr (S p)
              (set_stable_nodes (<[p := mk_stable_node HEAD_RB_NODE [] 0 0]> (stable_nodes s)) s));;
    ret (Some p)
  else ret None.

Definition alloc_stable_node_chain (e : env) (dup : nat) : M (option nat) :=
  do chain <- alloc_stable_node e;
  match chain with
  | Some c =>
      stable_node_update c (fun _ =>
        mk_stable_node HEAD_RB_NODE [] (jiffies e) STABLE_NODE_CHAIN);;
      modify (fun s => set_ksm_stable_node_chains (wrap_ulong (ksm_stable_node_chains s + 1)) s);;
      (* Put the chain in the first dimension of the stable tree and at the
         same time remove the old stable node. *)
      modify (fun s => set_root_stable_tree (rb_replace_node dup c (root_stable_tree s)) s);;
      (* Move the old stable node to the second dimension. *)
      stable_node_chain_add_dup dup c;;
      ret (Some c)
  | None => ret None
  end.

Definition free_stable_node_chain (chain : nat) : M unit :=
  modify (fun s => set_root_stable_tree (rb_erase chain (root_stable_tree s)) s);;
  free_stable_node chain;;
  modify (fun s => set_ksm_stable_node_chains (wrap_ulong (ksm_stable_node_chains s - 1)) s).

(** The body of the [hlist_for_each_entry] loop of
    [remove_node_from_stable_tree], run over the entries from [hlist] on. *)
Fixpoint remove_node_from_stable_tree_loop (stable_node : nat) (hlist : list nat)
  : M unit :=
  match hlist with
  | [] => ret tt
  | rmap_item :: next =>
      (match next with
       | _ :: _ =>
           modify (fun s => set_ksm_pages_sharing (wrap_ulong (ksm_pages_sharing s - 1)) s);;
           modify (fun s => set_lksm_slot_nr_broken (wrap_int (lksm_slot_nr_broken s + 1)) s);;
           modify (fun s => set_lksm_nr_broken (wrap_int (lksm_nr_broken s + 1)) s)
       | [] =>
           modify (fun s => set_ksm_pages_shared (wrap_ulong (ksm_pages_shared s - 1)) s)
       end);;
      stable_node_update stable_node
        (fun n => sn_set_rmap_hlist_len (wrap_int (sn_rmap_hlist_len n - 1)) n);;
      rmap_item_update rmap_item
        (fun r => ri_set_address (Z.land (ri_address r) PAGE_MASK) r);;
      remove_node_from_stable_tree_loop stable_node next
  end.

Definition remove_node_from_stable_tree (stable_node : nat) : M unit :=
  do n <- stable_node_at stable_node;
  (* check it's not STABLE_NODE_CHAIN or negative *)
  BUG_ON (sn_rmap_hlist_len n <? 0);;
  remove_node_from_stable_tree_loop stable_node (sn_hlist n);;
  do n <- stable_node_at stable_node;
  (if decide (sn_head n = HEAD_MIGRATE_NODES)
   then modify (fun s => set_migrate_nodes (hlist_del stable_node (migrate_nodes s)) s)
   else stable_node_dup_del stable_node);;
  free_stable_node stable_node.

(** ** get_ksm_page (lines 1162-1260) *)

Inductive get_ksm_page_flags : Type :=
| GET_KSM_PAGE_NOLOCK
| GET_KSM_PAGE_LOCK
| GET_KSM_PAGE_TRYLOCK.

(** A [struct page *] result: [NULL], a page, or [ERR_PTR(-EBUSY)]. *)
Inductive page_ptr : Type :=
| PAGE_NULL
| PAGE (pfn : Z)
| PAGE_EBUSY.

Global Instance page_ptr_eq_dec : EqDecision page_ptr.
Proof. solve_decision. Defined.

(** [READ_ONCE(page->mapping)] of the page frame [pfn]. *)
Definition page_mapping_of (s : ksm) (pfn : Z) : page_mapping :=
  match mem_map s !! pfn with
  | Some p => pg_mapping p
  | None => MAPPING_NONE
  end.

(** The keyhole check.  No other thread runs in this model, so the two
    re-reads that guard against a concurrent migration ([kpfn] changed,
    [page->mapping] changed while taking the reference or the lock) see what
    the first read saw; a page whose count stays zero while it is in the swap
    cache is waited for, which here never ends. *)
Definition get_ksm_page (e : env) (stable_node : nat) (flags : get_ksm_page_flags)
  : M page_ptr :=
  do n <- stable_node_at stable_node;
  do s <- get;
  let expected_mapping := MAPPING_KSM (Some stable_node) in
  let kpfn := sn_kpfn n in
  if negb (bool_decide (page_mapping_of s kpfn = expected_mapping)) then
    (* stale *)
    remove_node_from_stable_tree stable_node;; ret PAGE_NULL
  else if negb (get_page_unless_zero e kpfn) then
    if negb (PageSwapCache e kpfn) then
      remove_node_from_stable_tree stable_node;; ret PAGE_NULL
    else fail Spin
  else
    match flags with
    | GET_KSM_PAGE_TRYLOCK =>
        if negb (trylock_page e kpfn) then ret PAGE_EBUSY else ret (PAGE kpfn)
    | _ => ret (PAGE kpfn)
    end.

(** ** remove_rmap_item_from_tree (lines 1262-1325) *)

Definition remove_rmap_item_from_tree (e : env) (rmap_item : nat) : M unit :=
  do r <- rmap_item_at rmap_item;
  if test_bits (ri_address r) STABLE_FLAG then
    match ri_head r with
    | None => fail Oops
    | Some stable_node =>
        do page <- get_ksm_page e stable_node GET_KSM_PAGE_LOCK;
        match page with
        | PAGE_NULL => ret tt
        | _ =>
            stable_node_update stable_node
              (fun n => sn_set_hlist (hlist_del rmap_item (sn_hlist n)) n);;
            do n <- stable_node_at stable_node;
            (match sn_hlist n with
             | _ :: _ =>
                 modify (fun s => set_ksm_pages_sharing (wrap_ulong (ksm_pages_sharing s - 1)) s);;
                 modify (fun s => set_lksm_slot_nr_broken (wrap_int (lksm_slot_nr_broken s + 1)) s);;
                 modify (fun s => set_lksm_nr_broken (wrap_int (lksm_nr_broken s + 1)) s)
             | [] =>
                 modify (fun s => set_ksm_pages_shared (wrap_ulong (ksm_pages_shared s - 1)) s)
             end);;
            stable_node_update stable_node
              (fun n => sn_set_rmap_hlist_len (wrap_int (sn_rmap_hlist_len n - 1)) n);;
            rmap_item_update rmap_item
              (fun r => ri_set_address (Z.land (ri_address r) PAGE_MASK)
                          (ri_set_head None r))
        end
    end
  else if test_bits (ri_address r) UNSTABLE_FLAG then
    do s <- get;
    (* Usually ksmd can and must skip the rb_erase, because
       root_unstable_tree was already reset to RB_ROOT.  But be careful when
       an mm is exiting: do the rb_erase if this rmap_item was inserted by
       this scan, rather than left over from before. *)
    let age := wrap_uchar (ksm_scan_scan_round s - ri_address r) in
    (if age =? 0
     then modify (fun s => set_root_unstable_tree (rb_erase rmap_item (root_unstable_tree s)) s)
     else ret tt);;
    modify (fun s => set_ksm_pages_unshared (wrap_ulong (ksm_pages_unshared s - 1)) s);;
    rmap_item_update rmap_item
      (fun r => ri_set_address (Z.land (ri_address r) PAGE_MASK) r)
  else ret tt.

Definition free_rmap_item (rmap_item : nat) : M unit :=
  modify (fun s => set_ksm_rmap_items (wrap_ulong (ksm_rmap_items s - 1)) s);;
  modify (fun s => set_rmap_items (delete rmap_item (rmap_items s)) s).

(** [remove_trailing_rmap_items(rmap_list)]: the entries from [*rmap_list]
    to the end of the list are removed from the trees and freed; the caller
    stores the emptied tail. *)
Fixpoint remove_trailing_rmap_items (e : env) (rmap_list : list nat) : M unit :=
  match rmap_list with
  | [] => ret tt
  | rmap_item :: rest =>
      remove_rmap_item_from_tree e rmap_item;;
      free_rmap_item rmap_item;;
      remove_trailing_rmap_items e rest
  end.

(** ** stable_tree_append (lines 2491-2528) *)

Definition stable_tree_append (rmap_item stable_node : nat)
    (max_page_sharing_bypass : bool) : M unit :=
  do n <- stable_node_at stable_node;
  BUG_ON (sn_rmap_hlist_len n <? 0);;
  stable_node_update stable_node
    (fun n => sn_set_rmap_hlist_len (wrap_int (sn_rmap_hlist_len n + 1)) n);;
  (* if (!max_page_sharing_bypass) WARN_ON_ONCE(...): only a warning *)
  rmap_item_update rmap_item
    (fun r => ri_set_address (Z.lor (ri_address r) STABLE_FLAG)
                (ri_set_head (Some stable_node) r));;
  stable_node_update stable_node (fun n => sn_set_hlist (rmap_item :: sn_hlist n) n);;
  (* rmap_item->hlist.next: was there an entry before this one *)
  match sn_hlist n with
  | _ :: _ =>
      modify (fun s => set_ksm_pages_sharing (wrap_ulong (ksm_pages_sharing s + 1)) s);;
      modify (fun s => set_lksm_slot_nr_merged (wrap_int (lksm_slot_nr_merged s + 1)) s);;
      modify (fun s => set_lksm_nr_merged (wrap_int (lksm_nr_merged s + 1)) s)
  | [] =>
      modify (fun s => set_ksm_pages_shared (wrap_ulong (ksm_pages_shared s + 1)) s)
  end.

(** ** Pages, vmas and ptes as the file reaches them *)

Definition ksm_test_exit (mm : nat) : M bool :=
  fun s => match mm_structs s !! mm with
           | Some m => Ok (mm_users m =? 0) s
           | None => Fail Oops
           end.

Definition PageKsm (s : ksm) (pfn : Z) : bool :=
  match page_mapping_of s pfn with MAPPING_KSM _ => true | _ => false end.

(** [PageAnon] tests the anon bit of the mapping word, which a KSM mapping
    also carries. *)
Definition PageAnon (s : ksm) (pfn : Z) : bool :=
  match page_mapping_of s pfn with MAPPING_NONE => false | _ => true end.

Definition page_stable_node (s : ksm) (pfn : Z) : option nat :=
  match page_mapping_of s pfn with MAPPING_KSM n => n | _ => None end.

Definition set_page_stable_node (pfn : Z) (stable_node : option nat) : M unit :=
  modify (fun s =>
    set_mem_map (alter (pg_set_mapping (MAPPING_KSM stable_node)) pfn (mem_map s)) s).

Definition page_data (s : ksm) (pfn : Z) : list Z :=
  match mem_map s !! pfn with Some p => pg_data p | None => [] end.

(** [memcmp] over the bytes of two pages; a page shorter than the other is
    read as zero-filled up to the common size. *)
Fixpoint memcmp (a b : list Z) {struct a} : Z :=
  match a with
  | [] =>
      (fix rest (b : list Z) : Z :=
         match b with
         | [] => 0
         | y :: b' => if y =? 0 then rest b' else - y
         end) b
  | x :: a' =>
      match b with
      | [] => if x =? 0 then memcmp a' [] else x
      | y :: b' => if x =? y then memcmp a' b' else x - y
      end
  end.

Definition memcmp_pages (s : ksm) (page1 page2 : Z) : Z :=
  memcmp (page_data s page1) (page_data s page2).

Definition pages_identical (s : ksm) (page1 page2 : Z) : bool :=
  memcmp_pages s page1 page2 =? 0.

(** [vma_lookup]: the vma of [mm] that covers [addr]. *)
Definition vma_lookup (m : mm_struct) (addr : Z) : option vm_area_struct :=
  List.find (fun v => (vm_start v <=? addr) && (addr <? vm_end v)) (mm_mmap m).

Definition find_mergeable_vma (mm : nat) (addr : Z) : M (option vm_area_struct) :=
  do exiting <- ksm_test_exit mm;
  if exiting then ret None
  else
    do s <- get;
    match mm_structs s !! mm with
    | None => fail Oops
    | Some m =>
        match vma_lookup m addr with
        | Some vma =>
            if negb (vm_mergeable vma) || negb (vm_anon_vma vma) then ret None
            else ret (Some vma)
        | None => ret None
        end
    end.

(** [follow_page]: the page frame mapped at [addr] in [mm], if one is
    present. *)
Definition follow_page (s : ksm) (mm : nat) (addr : Z) : option Z :=
  pte_pfn <$> page_table s !! (mm, Z.land addr PAGE_MASK).

(** The write fault that [break_ksm] raises on a KSM page.  When the handler
    reports [VM_FAULT_WRITE] the copy-on-write has been broken: the address
    is now backed by a private, writable copy of the page. *)
Definition do_handle_mm_fault (e : env) (mm : nat) (addr : Z) : M vm_fault :=
  let r := handle_mm_fault e mm addr in
  match r with
  | VM_FAULT_WRITE =>
      do s <- get;
      let a := Z.land addr PAGE_MASK in
      match follow_page s mm addr with
      | Some old =>
          let new := next_pfn s in
          modify (fun s =>
            set_next_pfn (new + 1)
              (set_mem_map (<[new := mk_page MAPPING_ANON (page_data s old)]> (mem_map s))
                 (set_page_table (<[(mm, a) := mk_pte new true]> (page_table s)) s)));;
          ret r
      | None => ret r
      end
  | _ => ret r
  end.

(** ** break_ksm, break_cow, get_mergeable_page (lines 817-937) *)

(** The [do ... while] loop repeats as long as the handler backs out; with
    the handler's answer fixed for the run, a first [VM_FAULT_NONE] means it
    backs out for ever. *)
Definition break_ksm (e : env) (mm : nat) (addr : Z) : M Z :=
  do s <- get;
  match follow_page s mm addr with
  | None => ret 0
  | Some page =>
      if PageKsm s page then
        do r <- do_handle_mm_fault e mm addr;
        match r with
        | VM_FAULT_NONE => fail Spin
        | VM_FAULT_OOM => ret (- ENOMEM)
        | _ => ret 0
        end
      else ret 0
  end.

Definition break_cow (e : env) (rmap_item : nat) : M unit :=
  do r <- rmap_item_at rmap_item;
  let mm := ri_mm r in
  let addr := ri_address r in
  do vma <- find_mergeable_vma mm addr;
  match vma with
  | Some _ => do _ <- break_ksm e mm addr; ret tt
  | None => ret tt
  end.

Definition get_mergeable_page (rmap_item : nat) : M (option Z) :=
  do r <- rmap_item_at rmap_item;
  let mm := ri_mm r in
  let addr := ri_address r in
  do vma <- find_mergeable_vma mm addr;
  match vma with
  | None => ret None
  | Some _ =>
      do s <- get;
      match follow_page s mm addr with
      | None => ret None
      | Some page => if PageAnon s page then ret (Some page) else ret None
      end
  end.

(** ** Checksums and the single-page merge (lines 1520-1833) *)

Definition lksm_clear_checksum_frozen (checksum : Z) : Z :=
  Z.land checksum (2 ^ 32 - 1 - FROZEN_BIT).

Definition calc_checksum (e : env) (s : ksm) (page : Z) : Z :=
  lksm_clear_checksum_frozen (wrap_uint (xxhash e (page_data s page))).

(** [write_protect_page].  [page_address_in_vma] and [page_vma_mapped_walk]
    find the pte of [page] in the vma; the vma was looked up from the
    address the caller holds for the page, so the pte is the one at [addr],
    provided it still maps [page].  Returns the error and [*orig_pte]. *)
Definition write_protect_page (e : env) (mm : nat) (addr : Z) (page : Z)
  : M (Z * option pte) :=
  do s <- get;
  let a := Z.land addr PAGE_MASK in
  match page_table s !! (mm, a) with
  | Some p =>
      if negb (pte_pfn p =? page) then ret (- EFAULT, None)
      else if pte_write p then
        if page_count_raised e page
        then ret (- EFAULT, None)       (* set_pte_at() puts the entry back *)
        else
          let entry := mk_pte page false in
          modify (fun s => set_page_table (<[(mm, a) := entry]> (page_table s)) s);;
          ret (0, Some entry)
      else ret (0, Some p)
  | None => ret (- EFAULT, None)
  end.

Definition replace_page (mm : nat) (addr : Z) (page kpage : Z) (orig_pte : option pte)
  : M Z :=
  do s <- get;
  let a := Z.land addr PAGE_MASK in
  match page_table s !! (mm, a), orig_pte with
  | Some p, Some o =>
      if (pte_pfn p =? pte_pfn o) && bool_decide (pte_write p = pte_write o) then
        modify (fun s => set_page_table (<[(mm, a) := mk_pte kpage false]> (page_table s)) s);;
        ret 0
      else ret (- EFAULT)
  | _, _ => ret (- EFAULT)
  end.

(** [try_to_merge_one_page].  No transparent huge pages and no [VM_LOCKED]
    vmas are modelled. *)
Definition try_to_merge_one_page (e : env) (mm : nat) (addr : Z) (page : Z)
    (kpage : option Z) : M Z :=
  if bool_decide (Some page = kpage) then ret 0   (* ksm page forked *)
  else
    do s <- get;
    if negb (PageAnon s page) then ret (- EFAULT)
    else if negb (trylock_page e page) then ret (- EFAULT)
    else
      do '(werr, orig_pte) <- write_protect_page e mm addr page;
      if werr =? 0 then
        match kpage with
        | None =>
            (* While we hold page lock, upgrade page from PageAnon+anon_vma
               to PageKsm+NULL stable_node *)
            set_page_stable_node page None;;
            ret 0
        | Some kp =>
            do s <- get;
            if pages_identical s page kp
            then replace_page mm addr page kp orig_pte
            else ret (- EFAULT)
        end
      else ret (- EFAULT).

Definition try_to_merge_with_ksm_page (e : env) (rmap_item : nat) (page : Z)
    (kpage : option Z) : M Z :=
  do r <- rmap_item_at rmap_item;
  let mm := ri_mm r in
  do vma <- find_mergeable_vma mm (ri_address r);
  match vma with
  | None => ret (- EFAULT)
  | Some _ =>
      do err <- try_to_merge_one_page e mm (ri_address r) page kpage;
      if negb (err =? 0) then ret err
      else
        (* Unstable nid is in union with stable anon_vma: remove first *)
        remove_rmap_item_from_tree e rmap_item;;
        ret err
  end.

(** Returns the kpage, or [None] for [NULL]. *)
Definition try_to_merge_two_pages (e : env) (rmap_item : nat) (page : Z)
    (tree_rmap_item : nat) (tree_page : Z) : M (option Z) :=
  do err <- try_to_merge_with_ksm_page e rmap_item page None;
  if err =? 0 then
    do err <- try_to_merge_with_ksm_page e tree_rmap_item tree_page (Some page);
    (* If that fails, we have a ksm page with only one pte pointing to it:
       so break it. *)
    if negb (err =? 0) then break_cow e rmap_item;; ret None
    else ret (Some page)
  else ret None.

(** ** Sharing candidates and duplicate chains (lines 1835-2041) *)

Definition __is_page_sharing_candidate (s : ksm) (stable_node : stable_node)
    (offset : Z) : bool :=
  (* Check that at least one mapping still exists *)
  negb (sn_rmap_hlist_len stable_node =? 0) &&
  (wrap_int (sn_rmap_hlist_len stable_node + offset) <? ksm_max_page_sharing s).

Definition is_page_sharing_candidate (s : ksm) (stable_node : stable_node) : bool :=
  __is_page_sharing_candidate s stable_node 0.

(** [time_before(a, b)] on [unsigned long] jiffies. *)
Definition time_before (a b : Z) : bool := wrap_long (a - b) <? 0.

(** The local variables of [stable_node_dup] that the walk over the chain
    updates. *)
Record dup_walk : Type := mk_dup_walk {
  found : option nat;
  found_rmap_hlist_len : Z;
  tree_page : page_ptr;
  nr : Z
}.

(** The [hlist_for_each_entry_safe] loop of [stable_node_dup] over the dups
    of the chain.  [get_ksm_page] may free the dup it is given and unlink it
    from the chain; the [_safe] walk then goes on with the entry that
    followed it. *)
Fixpoint stable_node_dup_loop (e : env) (prune_stale_stable_nodes : bool)
    (dups : list nat) (w : dup_walk) : M dup_walk :=
  match dups with
  | [] => ret w
  | dup :: hlist_safe =>
      do _tree_page <- get_ksm_page e dup GET_KSM_PAGE_NOLOCK;
      match _tree_page with
      | PAGE_NULL => stable_node_dup_loop e prune_stale_stable_nodes hlist_safe w
      | _ =>
          let w := mk_dup_walk (found w) (found_rmap_hlist_len w) (tree_page w)
                               (wrap_int (nr w + 1)) in
          do d <- stable_node_at dup;
          do s <- get;
          if is_page_sharing_candidate s d &&
             (match found w with
              | None => true
              | Some _ => found_rmap_hlist_len w <? sn_rmap_hlist_len d
              end)
          then
            let w := mk_dup_walk (Some dup) (sn_rmap_hlist_len d) _tree_page (nr w) in
            (* skip put_page for found dup *)
            if negb prune_stale_stable_nodes then ret w
            else stable_node_dup_loop e prune_stale_stable_nodes hlist_safe w
          else stable_node_dup_loop e prune_stale_stable_nodes hlist_safe w
      end
  end.

(** [stable_node_dup].  The result is [*_stable_node_dup], the possibly
    overwritten [*_stable_node], and the returned tree page. *)
Definition stable_node_dup (e : env) (stable_node : nat)
    (prune_stale_stable_nodes : bool) : M (option nat * nat * page_ptr) :=
  do chain <- stable_node_at stable_node;
  do s <- get;
  let prune_stale_stable_nodes :=
    if negb prune_stale_stable_nodes ||
       time_before (jiffies e)
         (wrap_ulong (sn_kpfn chain +
                      msecs_to_jiffies e (ksm_stable_node_chains_prune_millisecs s)))
    then false else true in
  (if prune_stale_stable_nodes
   then stable_node_update stable_node (sn_set_kpfn (jiffies e))
   else ret tt);;
  do w <- stable_node_dup_loop e prune_stale_stable_nodes (sn_hlist chain)
            (mk_dup_walk None 0 PAGE_NULL 0);
  match found w with
  | Some fnd =>
      if prune_stale_stable_nodes && (nr w =? 1) then
        (* If there's not just one entry it would corrupt memory, better
           BUG_ON. *)
        do chain <- stable_node_at stable_node;
        BUG_ON (match sn_hlist chain with [_] => false | _ => true end);;
        (* There's just one entry and it is below the deduplication limit
           so drop the chain.  rb_replace_node() copies the chain's tree
           linkage over the dup's, so the dup's head word no longer reads
           as STABLE_NODE_DUP_HEAD. *)
        modify (fun s => set_root_stable_tree
                           (rb_replace_node stable_node fnd (root_stable_tree s)) s);;
        stable_node_update fnd (sn_set_head HEAD_RB_NODE);;
        free_stable_node stable_node;;
        modify (fun s => set_ksm_stable_node_chains (wrap_ulong (ksm_stable_node_chains s - 1)) s);;
        modify (fun s => set_ksm_stable_node_dups (wrap_ulong (ksm_stable_node_dups s - 1)) s);;
        (* NOTE: the caller depends on the stable_node to be equal to
           stable_node_dup if the chain was collapsed. *)
        ret (Some fnd, fnd, tree_page w)
      else
        do chain <- stable_node_at stable_node;
        do f <- stable_node_at fnd;
        do s <- get;
        (if negb (bool_decide (head (sn_hlist chain) = Some fnd)) &&
            __is_page_sharing_candidate s f 1
         then
           (* put it at the head of the chain so next search will be
              quicker in the !prune_stale_stable_nodes case *)
           stable_node_update stable_node
             (fun c => sn_set_hlist (fnd :: hlist_del fnd (sn_hlist c)) c)
         else ret tt);;
        ret (Some fnd, stable_node, tree_page w)
  | None => ret (None, stable_node, tree_page w)
  end.

Definition stable_node_dup_any (stable_node : nat) : M (option nat) :=
  do n <- stable_node_at stable_node;
  if negb (is_stable_node_chain n) then ret (Some stable_node)
  else
    match sn_hlist n with
    | [] => free_stable_node_chain stable_node;; ret None
    | first :: _ => ret (Some first)
    end.

Definition __stable_node_chain (e : env) (stable_node : nat)
    (prune_stale_stable_nodes : bool) : M (option nat * nat * page_ptr) :=
  do n <- stable_node_at stable_node;
  if negb (is_stable_node_chain n) then
    do s <- get;
    if is_page_sharing_candidate s n then
      do p <- get_ksm_page e stable_node GET_KSM_PAGE_NOLOCK;
      ret (Some stable_node, stable_node, p)
    else
      (* _stable_node_dup set to NULL means the stable_node reached the
         ksm_max_page_sharing limit. *)
      ret (None, stable_node, PAGE_NULL)
  else stable_node_dup e stable_node prune_stale_stable_nodes.

Definition chain_prune (e : env) (s_n : nat) : M (option nat * nat * page_ptr) :=
  __stable_node_chain e s_n true.

(** [chain] never prunes, so [s_n] cannot change; only the dup and the page
    are returned. *)
Definition chain (e : env) (s_n : nat) : M (option nat * page_ptr) :=
  do '(s_n_d, _, tree_page) <- __stable_node_chain e s_n false;
  ret (s_n_d, tree_page).

(** ** stable_tree_search (lines 2043-2293)

    The descent of the [while] loop and its [goto again] restarts share one step
    budget.  With one NUMA node [get_kpfn_nid] is always [0], so the test
    that leads to the [replace:] label never holds and that label is not
    reached. *)

(** The [out:] label. *)
Definition stable_tree_search_out (page : Z) (page_node : nat) : M page_ptr :=
  do pn <- stable_node_at page_node;
  do s <- get;
  if is_page_sharing_candidate s pn then ret (PAGE page) else ret PAGE_NULL.

(** The [chain_append:] label. *)
Definition stable_tree_search_chain_append (e : env) (page : Z) (page_node : nat)
    (stable_node_dup stable_node_any : option nat) (stable_node : nat) : M page_ptr :=
  (* stable_node_dup could be null if it reached the limit *)
  let stable_node_dup :=
    match stable_node_dup with Some d => Some d | None => stable_node_any end in
  match stable_node_dup with
  | None => fail Oops
  | Some dup =>
      do chain <-
        (if decide (dup = stable_node)
         then alloc_stable_node_chain e dup   (* chain is missing so create it *)
         else ret (Some stable_node));
      match chain with
      | None => ret PAGE_NULL
      | Some c =>
          modify (fun s => set_migrate_nodes (hlist_del page_node (migrate_nodes s)) s);;
          stable_node_chain_add_dup page_node c;;
          stable_tree_search_out page page_node
      end
  end.

Fixpoint stable_tree_search_walk (budget : nat) (e : env) (page : Z)
    (page_node : option nat) (new : rb_link) : M page_ptr :=
  match budget with
  | O => fail Spin
  | S budget =>
      do s <- get;
      match rb_entry (root_stable_tree s) new with
      | None =>
          (* the walk fell off the tree *)
          match page_node with
          | None => ret PAGE_NULL
          | Some pn =>
              modify (fun s => set_migrate_nodes (hlist_del pn (migrate_nodes s)) s);;
              stable_node_update pn (sn_set_head HEAD_RB_NODE);;
              modify (fun s => set_root_stable_tree (rb_link_node pn new (root_stable_tree s)) s);;
              stable_tree_search_out page pn
          end
      | Some stable_node =>
          do '(stable_node_dup, stable_node, tree_page) <- chain_prune e stable_node;
          do '(stable_node_any, tree_page, again) <-
            (match stable_node_dup with
             | Some _ => ret (None, tree_page, false)
             | None =>
                 (* Either all stable_node dups were full in this
                    stable_node chain, or this chain was empty and should
                    be rb_erased. *)
                 do any <- stable_node_dup_any stable_node;
                 match any with
                 | None => ret (None, tree_page, true)   (* rb_erase just run *)
                 | Some a =>
                     do p <- get_ksm_page e a GET_KSM_PAGE_NOLOCK;
                     ret (Some a, p, false)
                 end
             end);
          if again then stable_tree_search_walk budget e page page_node []
          else
            match tree_page with
            | PAGE tp =>
                do s <- get;
                let ret_ := memcmp_pages s page tp in
                if ret_ <? 0 then
                  stable_tree_search_walk budget e page page_node (new ++ [go_left])
                else if 0 <? ret_ then
                  stable_tree_search_walk budget e page page_node (new ++ [go_right])
                else
                  match page_node with
                  | Some pn =>
                      if 1 <? page_mapcount e page then
                        stable_tree_search_chain_append e page pn
                          stable_node_dup stable_node_any stable_node
                      else
                        match stable_node_dup with
                        | None => ret PAGE_NULL
                        | Some dup =>
                            do tp <- get_ksm_page e dup GET_KSM_PAGE_TRYLOCK;
                            match tp with
                            | PAGE_EBUSY => ret PAGE_EBUSY
                            | PAGE_NULL =>
                                stable_tree_search_walk budget e page page_node []
                            | PAGE _ => ret tp
                            end
                        end
                  | None =>
                      match stable_node_dup with
                      | None =>
                          (* all the dups are full: wait for the scanned
                             page to find itself a match in the unstable
                             tree *)
                          ret PAGE_NULL
                      | Some dup =>
                          do tp <- get_ksm_page e dup GET_KSM_PAGE_TRYLOCK;
                          match tp with
                          | PAGE_EBUSY => ret PAGE_EBUSY
                          | PAGE_NULL =>
                              stable_tree_search_walk budget e page page_node []
                          | PAGE _ => ret tp
                          end
                      end
                  end
            | _ =>
                (* we walked over a stale stable_node: restart the search
                   from scratch *)
                stable_tree_search_walk budget e page page_node []
            end
      end
  end.

Definition stable_tree_search (budget : nat) (e : env) (page : Z) : M page_ptr :=
  do s <- get;
  let page_node := page_stable_node s page in
  do forked <-
    (match page_node with
     | Some pn =>
         do n <- stable_node_at pn;
         ret (negb (bool_decide (sn_head n = HEAD_MIGRATE_NODES)))
     | None => ret false
     end);
  if forked then ret (PAGE page)   (* ksm page forked *)
  else stable_tree_search_walk budget e page page_node [].

(** ** stable_tree_insert (lines 2295-2405) *)

(** The walk; it ends with the link to hang the new node at, or with the
    tree node of identical content ([need_chain]). *)
Fixpoint stable_tree_insert_walk (budget : nat) (e : env) (kpage : Z)
    (new : rb_link) : M (rb_link * option nat) :=
  match budget with
  | O => fail Spin
  | S budget =>
      do s <- get;
      match rb_entry (root_stable_tree s) new with
      | None => ret (new, None)
      | Some stable_node =>
          do '(stable_node_dup, tree_page) <- chain e stable_node;
          do '(tree_page, again) <-
            (match stable_node_dup with
             | Some _ => ret (tree_page, false)
             | None =>
                 do any <- stable_node_dup_any stable_node;
                 match any with
                 | None => ret (tree_page, true)
                 | Some a =>
                     do p <- get_ksm_page e a GET_KSM_PAGE_NOLOCK;
                     ret (p, false)
                 end
             end);
          if again then stable_tree_insert_walk budget e kpage []
          else
            match tree_page with
            | PAGE tp =>
                do s <- get;
                let ret_ := memcmp_pages s kpage tp in
                if ret_ <? 0 then stable_tree_insert_walk budget e kpage (new ++ [go_left])
                else if 0 <? ret_ then stable_tree_insert_walk budget e kpage (new ++ [go_right])
                else ret (new, Some stable_node)
            | _ => stable_tree_insert_walk budget e kpage []
            end
      end
  end.

Definition stable_tree_insert (budget : nat) (e : env) (kpage : Z) : M (option nat) :=
  let kpfn := kpage in
  do '(new, need_chain) <- stable_tree_insert_walk budget e kpage [];
  do stable_node_dup <- alloc_stable_node e;
  match stable_node_dup with
  | None => ret None
  | Some dup =>
      stable_node_update dup (fun _ => mk_stable_node HEAD_RB_NODE [] kpfn 0);;
      set_page_stable_node kpage (Some dup);;
      match need_chain with
      | None =>
          modify (fun s => set_root_stable_tree (rb_link_node dup new (root_stable_tree s)) s);;
          ret (Some dup)
      | Some stable_node =>
          do n <- stable_node_at stable_node;
          do chain <-
            (if negb (is_stable_node_chain n)
             then alloc_stable_node_chain e stable_node  (* chain is missing so create it *)
             else ret (Some stable_node));
          match chain with
          | None => free_stable_node dup;; ret None
          | Some c => stable_node_chain_add_dup dup c;; ret (Some dup)
          end
      end
  end.

(** ** unstable_tree_search_insert (lines 2407-2489) *)

Inductive unstable_walk : Type :=
| WALK_GIVE_UP                                   (* return NULL from inside the loop *)
| WALK_MATCH (tree_rmap_item : nat) (tree_page : Z)
| WALK_LINK (new : rb_link).                     (* fell off the tree at this link *)

(** The [while] loop.  Nothing in it changes the tree, so the descent is
    written by recursion on the tree below the current link. *)
Fixpoint unstable_tree_walk (page : Z) (t : rb_root) (new : rb_link)
  : M unstable_walk :=
  match t with
  | RB_ROOT => ret (WALK_LINK new)
  | rb_node l tree_rmap_item r =>
      do tree_page <- get_mergeable_page tree_rmap_item;
      match tree_page with
      | None => ret WALK_GIVE_UP
      | Some tp =>
          (* Don't substitute a ksm page for a forked page. *)
          if page =? tp then ret WALK_GIVE_UP
          else
            do s <- get;
            let ret_ := memcmp_pages s page tp in
            if ret_ <? 0 then unstable_tree_walk page l (new ++ [go_left])
            else if 0 <? ret_ then unstable_tree_walk page r (new ++ [go_right])
            else ret (WALK_MATCH tree_rmap_item tp)
      end
  end.

(** Returns the matching rmap_item together with [*tree_pagep]. *)
Definition unstable_tree_search_insert (rmap_item : nat) (page : Z)
  : M (option (nat * Z)) :=
  do s <- get;
  do w <- unstable_tree_walk page (root_unstable_tree s) [];
  match w with
  | WALK_GIVE_UP => ret None
  | WALK_MATCH tree_rmap_item tree_page => ret (Some (tree_rmap_item, tree_page))
  | WALK_LINK new =>
      do s <- get;
      rmap_item_update rmap_item
        (fun r => ri_set_address
                    (Z.lor (Z.lor (ri_address r) UNSTABLE_FLAG)
                           (Z.land (ksm_scan_scan_round s) SEQNR_MASK)) r);;
      modify (fun s => set_root_unstable_tree (rb_link_node rmap_item new (root_unstable_tree s)) s);;
      modify (fun s => set_ksm_pages_unshared (wrap_ulong (ksm_pages_unshared s + 1)) s);;
      ret None
  end.

(** ** cmp_and_merge_page (lines 2564-2753) *)

Definition lksm_test_rmap_frozen (r : rmap_item) : bool :=
  test_bits (ri_oldchecksum r) FROZEN_BIT.

(** The [if (tree_rmap_item)] block of [cmp_and_merge_page]: the unstable
    tree holds a record whose page has the content of the scanned page. *)
Definition cmp_and_merge_page_tree_item (budget : nat) (e : env) (page : Z)
    (rmap_item tree_rmap_item : nat) (tree_page : Z) : M unit :=
  do kpage <- try_to_merge_two_pages e rmap_item page tree_rmap_item tree_page;
  match kpage with
  | Some kp =>
      (* The pages were successfully merged: insert new node in the stable
         tree and add both rmap_items. *)
      do stable_node <- stable_tree_insert budget e kp;
      match stable_node with
      | Some sn =>
          stable_tree_append tree_rmap_item sn false;;
          stable_tree_append rmap_item sn false
      | None =>
          (* we will have 2 virtual addresses that are pointing to a ksm
             page left outside the stable tree, in which case we need to
             break_cow on both *)
          break_cow e tree_rmap_item;;
          break_cow e rmap_item
      end
  | None => ret tt
  end.

(** The part of [cmp_and_merge_page] after the stable tree had no page to
    offer: the checksum gate, the zero-page attempt and the unstable tree. *)
Definition cmp_and_merge_page_unstable (budget : nat) (e : env) (page : Z)
    (rmap_item : nat) : M unit :=
  do r <- rmap_item_at rmap_item;
  do s <- get;
  (* LKSM: we just skip calculation of checksum to catch scanning chances
     more. *)
  do '(checksum, deferred) <-
    (if (ksm_scan_scan_round s <? wrap_ulong (initial_round s))
        && negb (lksm_test_rmap_frozen r)
     then
       let checksum := calc_checksum e s page in
       if negb (ri_oldchecksum r =? checksum) then
         rmap_item_update rmap_item (ri_set_oldchecksum checksum);;
         ret (checksum, true)
       else ret (checksum, false)
     else ret (stack_garbage e, false));
  if deferred then ret tt
  else
    do merged_zero <-
      (if ksm_use_zero_pages s && (checksum =? zero_checksum s) then
         do vma <- find_mergeable_vma (ri_mm r) (ri_address r);
         do err <-
           (match vma with
            | Some _ =>
                try_to_merge_one_page e (ri_mm r) (ri_address r) page (Some (ZERO_PAGE e))
            | None => ret 0   (* the vma is out of date: no need to continue *)
            end);
         ret (err =? 0)
       else ret false);
    if merged_zero then ret tt
    else
      do found <- unstable_tree_search_insert rmap_item page;
      match found with
      | None => ret tt
      | Some (tree_rmap_item, tree_page) =>
          cmp_and_merge_page_tree_item budget e page rmap_item tree_rmap_item tree_page
      end.

Definition cmp_and_merge_page (budget : nat) (e : env) (page : Z) (rmap_item : nat)
  : M unit :=
  do r <- rmap_item_at rmap_item;
  do s <- get;
  let stable_node := page_stable_node s page in
  do '(already, max_page_sharing_bypass) <-
    (match stable_node with
     | Some sn =>
         do n <- stable_node_at sn;
         if negb (bool_decide (sn_head n = HEAD_MIGRATE_NODES))
            && bool_decide (ri_head r = Some sn)
         then ret (true, false)
         else
           (* If it's a KSM fork, allow it to go over the sharing limit
              without warnings. *)
           ret (false, negb (is_page_sharing_candidate s n))
     | None => ret (false, false)
     end);
  if already then ret tt
  else
    (* We first start with searching the page inside the stable tree *)
    do kpage <- stable_tree_search budget e page;
    do r <- rmap_item_at rmap_item;
    if bool_decide (kpage = PAGE page) && bool_decide (ri_head r = stable_node)
    then ret tt
    else
      remove_rmap_item_from_tree e rmap_item;;
      match kpage with
      | PAGE_EBUSY => ret tt
      | PAGE kp =>
          do err <- try_to_merge_with_ksm_page e rmap_item page (Some kp);
          if err =? 0 then
            (* The page was successfully merged: add its rmap_item to the
               stable tree. *)
            do s <- get;
            match page_stable_node s kp with
            | Some sn => stable_tree_append rmap_item sn max_page_sharing_bypass
            | None => fail Oops
            end
          else ret tt
      | PAGE_NULL => cmp_and_merge_page_unstable budget e page rmap_item
      end.

(** ** The scanner: rmap_items of a slot (lines 2755-2794) *)

Definition clear_bits (x bit : Z) : Z := Z.land x (Z.lnot bit).

Definition lksm_test_mm_state (m : mm_slot) (bit : Z) : bool :=
  test_bits (ms_state m) bit.
Definition lksm_set_mm_state (bit : Z) (m : mm_slot) : mm_slot :=
  ms_set_state (wrap_short (Z.lor (ms_state m) bit)) m.
Definition lksm_clear_mm_state (bit : Z) (m : mm_slot) : mm_slot :=
  ms_set_state (wrap_short (clear_bits (ms_state m) bit)) m.

Definition lksm_set_rmap_frozen (r : rmap_item) : rmap_item :=
  ri_set_oldchecksum (wrap_uint (Z.lor (ri_oldchecksum r) FROZEN_BIT)) r.
Definition lksm_clear_rmap_frozen (r : rmap_item) : rmap_item :=
  ri_set_oldchecksum (wrap_uint (clear_bits (ri_oldchecksum r) FROZEN_BIT)) r.

(** The [while] loop of [get_next_rmap_item] over the entries from
    [*rmap_list] on: the rmap_item found for [addr], if any, and what is
    left of the list from [*rmap_list]. *)
Fixpoint get_next_rmap_item_loop (e : env) (slot : mm_slot) (addr : Z)
    (rmap_list : list nat) : M (option nat * list nat) :=
  match rmap_list with
  | [] => ret (None, [])
  | rmap_item :: rest =>
      do r <- rmap_item_at rmap_item;
      if Z.land (ri_address r) PAGE_MASK =? addr then
        rmap_item_update rmap_item
          (if lksm_test_mm_state slot KSM_MM_FROZEN
              && test_bits (ri_address r) UNSTABLE_FLAG
           then lksm_set_rmap_frozen else lksm_clear_rmap_frozen);;
        ret (Some rmap_item, rmap_list)
      else if addr <? ri_address r then ret (None, rmap_list)
      else
        remove_rmap_item_from_tree e rmap_item;;
        free_rmap_item rmap_item;;
        get_next_rmap_item_loop e slot addr rest
  end.

Definition alloc_rmap_item (e : env) : M (option nat) :=
  do s <- get;
  let p := next_ptr s in
  if kmem_cache_alloc e p then
    modify (fun s => set_next_ptr (S p)
              (set_rmap_items (<[p := mk_rmap_item 0 0 0 None]> (rmap_items s)) s));;
    modify (fun s => set_ksm_rmap_items (wrap_ulong (ksm_rmap_items s + 1)) s);;
    ret (Some p)
  else ret None.

(** [get_next_rmap_item(mm_slot, rmap_list, addr)], with [rmap_list] given
    as the position [pos] in the slot's list. *)
Definition get_next_rmap_item (e : env) (mm_slot : nat) (pos : nat) (addr : Z)
  : M (option nat) :=
  do slot <- mm_slot_at mm_slot;
  do '(hit, rest) <- get_next_rmap_item_loop e slot addr (drop pos (ms_rmap_list slot));
  match hit with
  | Some rmap_item =>
      mm_slot_update mm_slot (fun m => ms_set_rmap_list (take pos (ms_rmap_list m) ++ rest) m);;
      ret (Some rmap_item)
  | None =>
      do new <- alloc_rmap_item e;
      match new with
      | Some rmap_item =>
          (* It has already been zeroed *)
          rmap_item_update rmap_item (fun _ =>
            (if lksm_test_mm_state slot FROZEN_BIT
             then lksm_set_rmap_frozen else lksm_clear_rmap_frozen)
              (mk_rmap_item (ms_mm slot) addr 0 None));;
          mm_slot_update mm_slot
            (fun m => ms_set_rmap_list (take pos (ms_rmap_list m) ++ rmap_item :: rest) m);;
          ret (Some rmap_item)
      | None =>
          mm_slot_update mm_slot (fun m => ms_set_rmap_list (take pos (ms_rmap_list m) ++ rest) m);;
          ret None
      end
  end.

(** ** Slots leaving the lists, and the rank tree (lines 2841-2903) *)

Definition lksm_remove_mm_slot (slot : nat) : M unit :=
  do m <- mm_slot_at slot;
  modify (fun s => set_ksm_scan_head (hlist_del slot (ksm_scan_head s)) s);;
  modify (fun s => set_ksm_mm_head (hlist_del slot (ksm_mm_head s)) s);;
  modify (fun s => set_ksm_scan_remove_mm_list
                     (slot :: hlist_del slot (ksm_scan_remove_mm_list s)) s);;
  if ms_ordered m then
    modify (fun s => set_vips_list (rb_erase slot (vips_list s)) s);;
    mm_slot_update slot (ms_set_ordered false)
  else ret tt.

(** The entries of the scan list that follow [slot]. *)
Fixpoint list_after (slot : nat) (l : list nat) : list nat :=
  match l with
  | [] => []
  | x :: l' => if decide (x = slot) then l' else list_after slot l'
  end.

Fixpoint lksm_get_unscanned_mm_slot_loop (slots : list nat) : M mm_slot_ptr :=
  match slots with
  | [] => ret KSM_SCAN_HEAD
  | slot :: next =>
      do m <- mm_slot_at slot;
      do exiting <- ksm_test_exit (ms_mm m);
      if exiting then
        (if lksm_test_mm_state m KSM_MM_FROZEN
         then modify (fun s => set_ksm_scan_nr_frozen (wrap_int (ksm_scan_nr_frozen s - 1)) s)
         else modify (fun s => set_ksm_scan_nr_scannable (wrap_int (ksm_scan_nr_scannable s - 1)) s));;
        lksm_remove_mm_slot slot;;
        lksm_get_unscanned_mm_slot_loop next
      else
        modify (fun s => set_lksm_nr_scanned_slot (wrap_int (lksm_nr_scanned_slot s + 1)) s);;
        ret (SLOT slot)
  end.

(** caller must hold ksm_mmlist_lock *)
Definition lksm_get_unscanned_mm_slot (slot : mm_slot_ptr) : M mm_slot_ptr :=
  do s <- get;
  match slot with
  | SLOT p => lksm_get_unscanned_mm_slot_loop (list_after p (ksm_scan_head s))
  | _ => lksm_get_unscanned_mm_slot_loop (ksm_scan_head s)
  end.

(** The [while] loop of [lksm_insert_mm_slot_ordered]: the link at which a
    slot with [nr_merged] merged pages is hung. *)
Fixpoint lksm_insert_mm_slot_ordered_walk (slots : gmap nat mm_slot) (nr_merged : Z)
    (t : rb_root) (new : rb_link) : option rb_link :=
  match t with
  | RB_ROOT => Some new
  | rb_node l temp_slot r =>
      match slots !! temp_slot with
      | None => None
      | Some temp =>
          if ms_nr_merged temp <? nr_merged
          then lksm_insert_mm_slot_ordered_walk slots nr_merged l (new ++ [go_left])
          else lksm_insert_mm_slot_ordered_walk slots nr_merged r (new ++ [go_right])
      end
  end.

(** caller must hold ksm_mmlist_lock *)
Definition lksm_insert_mm_slot_ordered (slot : nat) : M unit :=
  do m <- mm_slot_at slot;
  do s <- get;
  match lksm_insert_mm_slot_ordered_walk (mm_slots s) (ms_nr_merged m) (vips_list s) [] with
  | None => fail Oops
  | Some new =>
      modify (fun s => set_vips_list (rb_link_node slot new (vips_list s)) s);;
      mm_slot_update slot (ms_set_ordered true)
  end.

(** ** The merge window (lines 3148-3164) *)

Definition sum_merge_win (merge_win : list Z) (len : Z) : Z :=
  fold_left (fun sum x => wrap_int (sum + x)) (take (Z.to_nat len) merge_win) 0.

Definition lksm_account_mm_slot_nr_merge (slot : nat) (nr_merged : Z) : M Z :=
  mm_slot_update slot (fun m =>
    let m := ms_set_merge_idx (wrap_short (ms_merge_idx m + 1))
               (ms_set_nr_merged_win
                  (<[Z.to_nat (ms_merge_idx m) := nr_merged]> (ms_nr_merged_win m)) m) in
    let m := if ms_merge_idx m =? MERGE_WIN then ms_set_merge_idx 0 m else m in
    ms_set_nr_merged (sum_merge_win (ms_nr_merged_win m) MERGE_WIN) m);;
  do m <- mm_slot_at slot;
  ret (ms_nr_merged m).

(** ** __scan_next_rmap_item (lines 3096-3144) *)

(** How one vma's [while] loop ends: by returning from the function, or by
    running off the end of the vma. *)
Inductive vma_scan : Type :=
| VMA_RETURN (rmap_item_page : option (nat * Z))
| VMA_NEXT.

(** The loop over the pages of one vma; [n] bounds the number of pages
    left. *)
Fixpoint __scan_next_rmap_item_pages (n : nat) (e : env) (mm slot : nat)
    (vma : vm_area_struct) : M vma_scan :=
  match n with
  | O => ret VMA_NEXT
  | S n =>
      do s <- get;
      if negb (ksm_scan_address s <? vm_end vma) then ret VMA_NEXT
      else
        do exiting <- ksm_test_exit mm;
        if exiting then ret VMA_NEXT
        else
          match follow_page s mm (ksm_scan_address s) with
          | None =>
              modify (fun s => set_ksm_scan_address (wrap_ulong (ksm_scan_address s + PAGE_SIZE)) s);;
              __scan_next_rmap_item_pages n e mm slot vma
          | Some page =>
              if PageAnon s page then
                let pos := default 0%nat (ksm_scan_rmap_list s) in
                do rmap_item <- get_next_rmap_item e slot pos (ksm_scan_address s);
                match rmap_item with
                | Some r =>
                    modify (fun s => set_ksm_scan_rmap_list (Some (S pos)) s);;
                    modify (fun s => set_ksm_scan_address (wrap_ulong (ksm_scan_address s + PAGE_SIZE)) s);;
                    ret (VMA_RETURN (Some (r, page)))
                | None => ret (VMA_RETURN None)
                end
              else
                modify (fun s => set_ksm_scan_address (wrap_ulong (ksm_scan_address s + PAGE_SIZE)) s);;
                __scan_next_rmap_item_pages n e mm slot vma
          end
  end.

Definition pages_between (lo hi : Z) : nat :=
  Z.to_nat ((hi - lo + PAGE_SIZE - 1) / PAGE_SIZE).

(** The [for] loop over the vmas from the one [find_vma] returned. *)
Fixpoint __scan_next_rmap_item_vmas (e : env) (mm slot : nat)
    (vmas : list vm_area_struct) : M (option (nat * Z)) :=
  match vmas with
  | [] => ret None
  | vma :: vm_next =>
      if negb (vm_mergeable vma) then __scan_next_rmap_item_vmas e mm slot vm_next
      else
        modify (fun s => if ksm_scan_address s <? vm_start vma
                         then set_ksm_scan_address (vm_start vma) s else s);;
        modify (fun s => if negb (vm_anon_vma vma)
                         then set_ksm_scan_address (vm_end vma) s else s);;
        do s <- get;
        do r <- __scan_next_rmap_item_pages
                  (pages_between (ksm_scan_address s) (vm_end vma)) e mm slot vma;
        match r with
        | VMA_RETURN x => ret x
        | VMA_NEXT => __scan_next_rmap_item_vmas e mm slot vm_next
        end
  end.

(** [find_vma]: the vmas from the first one that ends above [addr]. *)
Fixpoint find_vma (vmas : list vm_area_struct) (addr : Z) : list vm_area_struct :=
  match vmas with
  | [] => []
  | vma :: vm_next => if addr <? vm_end vma then vmas else find_vma vm_next addr
  end.

Definition __scan_next_rmap_item (e : env) (mm slot : nat) : M (option (nat * Z)) :=
  do exiting <- ksm_test_exit mm;
  do s <- get;
  match mm_structs s !! mm with
  | None => fail Oops
  | Some m =>
      let vmas := if exiting then [] else find_vma (mm_mmap m) (ksm_scan_address s) in
      __scan_next_rmap_item_vmas e mm slot vmas
  end.

(** ** scan_get_next_rmap_item (lines 3166-3312) *)

(** The start of a pass over the scan list: a round that the crawler has
    opened since the last pass is entered, and entering it empties the
    unstable tree. *)
Definition scan_enter_round (s : ksm) : ksm :=
  if ksm_scan_scan_round s <? ksm_crawl_round s then
    set_root_unstable_tree RB_ROOT
      (set_ksm_scan_scan_round (ksm_crawl_round s) s)
  else s.

(** The [else] arm at the end of a slot's scan (lines 3260-3284): the scan
    found a mergeable area, and the slot, read as [m] on entry, is marked
    scanned, taken off the scan list and ranked again by its merge counts. *)
Definition scan_one_mm_slot_scanned (e : env) (slot : nat) (m : mm_slot) : M unit :=
  (if lksm_test_mm_state m KSM_MM_NEWCOMER
   then mm_slot_update slot (lksm_clear_mm_state KSM_MM_NEWCOMER) else ret tt);;
  (if lksm_test_mm_state m KSM_MM_FROZEN then
     mm_slot_update slot (lksm_clear_mm_state KSM_MM_FROZEN);;
     modify (fun s => set_ksm_scan_nr_frozen (wrap_int (ksm_scan_nr_frozen s - 1)) s)
   else
     modify (fun s => set_ksm_scan_nr_scannable (wrap_int (ksm_scan_nr_scannable s - 1)) s));;
  mm_slot_update slot (lksm_set_mm_state KSM_MM_SCANNED);;
  modify (fun s => set_ksm_scan_head (hlist_del slot (ksm_scan_head s)) s);;
  (if ms_ordered m then
     modify (fun s => set_vips_list (rb_erase slot (vips_list s)) s);;
     mm_slot_update slot (ms_set_ordered false)
   else ret tt);;
  do s <- get;
  do nr_merged <- lksm_account_mm_slot_nr_merge slot (lksm_slot_nr_merged s);
  (if negb (nr_merged =? 0) then lksm_insert_mm_slot_ordered slot else ret tt);;
  mm_slot_update slot (fun m => ms_set_elapsed (wrap_ulong (jiffies e - ms_elapsed m)) m).

(** One slot, from the read of [slot->mm] to the bookkeeping that follows
    the end of its address space: either the next rmap_item and its page, or
    the slot to go on with. *)
Definition scan_one_mm_slot (e : env) (slot : nat) : M (option (nat * Z) + mm_slot_ptr) :=
  modify (fun s => match ksm_scan_rmap_list s with
                   | None => set_ksm_scan_rmap_list (Some 0%nat) s
                   | Some _ => s
                   end);;
  do m <- mm_slot_at slot;
  let mm := ms_mm m in
  do rmap_item <- __scan_next_rmap_item e mm slot;
  match rmap_item with
  | Some r =>
      mm_slot_update slot (fun m => ms_set_nr_scans (wrap_int (ms_nr_scans m + 1)) m);;
      ret (inl (Some r))
  | None =>
      do exiting <- ksm_test_exit mm;
      (if exiting then
         modify (fun s => set_ksm_scan_rmap_list (Some 0%nat) (set_ksm_scan_address 0 s))
       else ret tt);;
      (* Nuke all the rmap_items that are above this current rmap *)
      do s <- get;
      do m <- mm_slot_at slot;
      let pos := default 0%nat (ksm_scan_rmap_list s) in
      remove_trailing_rmap_items e (drop pos (ms_rmap_list m));;
      mm_slot_update slot (fun m => ms_set_rmap_list (take pos (ms_rmap_list m)) m);;
      do next <- lksm_get_unscanned_mm_slot (SLOT slot);
      modify (set_ksm_scan_mm_slot next);;
      do s <- get;
      do m <- mm_slot_at slot;
      (if ksm_scan_address s =? 0 then
         (* found no VM_MERGEABLE: remove this mm from all our lists *)
         (if lksm_test_mm_state m KSM_MM_FROZEN
          then modify (fun s => set_ksm_scan_nr_frozen (wrap_int (ksm_scan_nr_frozen s - 1)) s)
          else modify (fun s => set_ksm_scan_nr_scannable (wrap_int (ksm_scan_nr_scannable s - 1)) s));;
         lksm_remove_mm_slot slot
       else scan_one_mm_slot_scanned e slot m);;
      modify (fun s => set_lksm_slot_nr_broken 0 (set_lksm_slot_nr_merged 0 s));;
      ret (inr next)
  end.

(** The [next_mm:] loop: slot after slot until an rmap_item turns up or the
    scan list is exhausted.  [restart] tells whether the slot is entered at
    the [next_mm:] label. *)
Fixpoint scan_mm_slots (budget : nat) (e : env) (slot : nat) (restart : bool)
  : M (option (nat * Z)) :=
  match budget with
  | O => fail Spin
  | S budget =>
      (if restart
       then modify (fun s => set_ksm_scan_rmap_list (Some 0%nat) (set_ksm_scan_address 0 s))
       else ret tt);;
      do r <- scan_one_mm_slot e slot;
      match r with
      | inl x => ret x
      | inr (SLOT next) =>
          (* Repeat until we've completed scanning the whole list *)
          mm_slot_update next (ms_set_elapsed (jiffies e));;
          scan_mm_slots budget e next true
      | inr _ => ret None
      end
  end.

Definition scan_get_next_rmap_item (budget : nat) (e : env) : M (option (nat * Z)) :=
  do s <- get;
  match ksm_scan_head s with
  | [] => ret None
  | _ :: _ =>
      match ksm_scan_mm_slot s with
      | KSM_SCAN_HEAD =>
          modify scan_enter_round;;
          do slot <- lksm_get_unscanned_mm_slot KSM_SCAN_HEAD;
          modify (set_ksm_scan_mm_slot slot);;
          match slot with
          | SLOT p =>
              mm_slot_update p (ms_set_elapsed (jiffies e));;
              scan_mm_slots budget e p true
          | _ => ret None
          end
      | SLOT p => scan_mm_slots budget e p false
      | KSM_MM_HEAD => fail Oops   (* BUG_ON(!mm): the list head has no mm *)
      end
  end.

(** ** ksm_do_scan (lines 3314-3332) *)

Fixpoint ksm_do_scan (budget : nat) (e : env) (scan_npages : nat) : M Z :=
  match scan_npages with
  | O => ret 0
  | S scan_npages =>
      do next <- scan_get_next_rmap_item budget e;
      match next with
      | None => ret 1   (* need sleep *)
      | Some (rmap_item, page) =>
          cmp_and_merge_page budget e page rmap_item;;
          ksm_do_scan budget e scan_npages
      end
  end.

(** ** The crawler: picking the vips of a partial scan (lines 3620-3709)

    [lksm_prepare_partial_scan] first collects frozen tasks and newly seen
    processes from the task lists, which are outside the file's own state;
    what they yield is taken as the two counts [nr_frozen] and [nr_added].
    The function is embedded from the [get vips] comment on. *)

(** The [while] loop over [vips_list], entered at the node [rb_first]
    returned; [nodes] is the in-order sequence from the current node on.
    [None] is the jump to [abort:]. *)
Fixpoint lksm_prepare_partial_scan_loop (e : env) (nr_added nr_frozen : Z)
    (nodes : list nat) (nr_scannable : Z) (recheck_list : list nat)
  : M (option (Z * list nat)) :=
  match nodes with
  | [] => ret (Some (nr_scannable, recheck_list))
  | mm_slot :: rb_next =>
      do s <- get;
      if negb (wrap_int (wrap_int (nr_scannable + nr_added) + nr_frozen) <? lksm_max_vips s)
      then ret (Some (nr_scannable, recheck_list))
      else if test_bits (ksm_run s) KSM_RUN_UNMERGE then ret None
      else
        do m <- mm_slot_at mm_slot;
        do exiting <- ksm_test_exit (ms_mm m);
        if exiting then
          (if negb (lksm_test_mm_state m KSM_MM_SCANNED)
           then modify (fun s => set_ksm_scan_nr_scannable (wrap_int (ksm_scan_nr_scannable s - 1)) s)
           else ret tt);;
          lksm_remove_mm_slot mm_slot;;
          (* rb_next() of a node that was just erased and cleared is NULL *)
          if ms_ordered m then ret (Some (nr_scannable, recheck_list))
          else lksm_prepare_partial_scan_loop e nr_added nr_frozen rb_next
                 nr_scannable recheck_list
        else if negb (lksm_test_mm_state m KSM_MM_LISTED) then
          lksm_prepare_partial_scan_loop e nr_added nr_frozen rb_next
            nr_scannable recheck_list
        else
          (* prunning by fault count *)
          let fault_cnt := owner_faults e (ms_mm m) in
          if ms_fault_cnt m =? fault_cnt then
            lksm_prepare_partial_scan_loop e nr_added nr_frozen rb_next
              nr_scannable recheck_list
          else
            mm_slot_update mm_slot (fun m =>
              ms_set_nr_scans 0
                (ms_set_scanning_size (get_mm_counter e (ms_mm m))
                   (ms_set_fault_cnt fault_cnt m)));;
            modify (fun s => set_ksm_scan_head (hlist_del mm_slot (ksm_scan_head s)) s);;
            mm_slot_update mm_slot (lksm_clear_mm_state KSM_MM_SCANNED);;
            lksm_prepare_partial_scan_loop e nr_added nr_frozen rb_next
              (wrap_int (nr_scannable + 1)) (recheck_list ++ [mm_slot])
  end.

Definition lksm_prepare_partial_scan_vips (e : env) (nr_frozen nr_added : Z) : M Z :=
  do s <- get;
  do picked <-
    (if lksm_max_vips s <=? wrap_int (nr_added + nr_frozen)
     then ret (Some (0, []))   (* already fulfilled: skip vips *)
     else lksm_prepare_partial_scan_loop e nr_added nr_frozen
            (rb_inorder (vips_list s)) 0 []);
  match picked with
  | None => ret 0
  | Some (nr_scannable, recheck_list) =>
      modify (fun s => set_ksm_scan_head (recheck_list ++ ksm_scan_head s) s);;
      modify (set_ksm_scan_scan_mode LKSM_SCAN_PARTIAL);;
      modify (fun s => set_ksm_crawl_round (wrap_ulong (ksm_crawl_round s + 1)) s);;
      modify (fun s => set_ksm_scan_nr_scannable
                         (wrap_int (ksm_scan_nr_scannable s + wrap_int (nr_scannable + nr_added))) s);;
      ret (wrap_int (wrap_int (nr_frozen + nr_added) + nr_scannable))
  end.

(** ** Unmerging (lines 1327-1517) *)

Fixpoint unmerge_ksm_pages_loop (n : nat) (e : env) (mm : nat) (addr end_ : Z) : M Z :=
  match n with
  | O => ret 0
  | S n =>
      if negb (addr <? end_) then ret 0
      else
        do exiting <- ksm_test_exit mm;
        if exiting then ret 0
        else
          do err <- (if signal_pending e then ret (- ERESTARTSYS) else break_ksm e mm addr);
          if err =? 0 then unmerge_ksm_pages_loop n e mm (wrap_ulong (addr + PAGE_SIZE)) end_
          else ret err
  end.

Definition unmerge_ksm_pages (e : env) (mm : nat) (start end_ : Z) : M Z :=
  unmerge_ksm_pages_loop (pages_between start end_) e mm start end_.

(** Only called through the sysfs control interface. *)
Definition remove_stable_node (e : env) (stable_node : nat) : M Z :=
  do page <- get_ksm_page e stable_node GET_KSM_PAGE_LOCK;
  match page with
  | PAGE pfn =>
      (* Page could be still mapped if this races with __mmput() running in
         between ksm_exit() and exit_mmap(). *)
      if negb (page_mapped e pfn) then
        set_page_stable_node pfn None;;
        remove_node_from_stable_tree stable_node;;
        ret 0
      else ret (- EBUSY)
  | _ =>
      (* get_ksm_page did remove_node_from_stable_tree itself. *)
      ret 0
  end.

Fixpoint remove_stable_node_chain_loop (e : env) (dups : list nat) : M bool :=
  match dups with
  | [] => ret false
  | dup :: hlist_safe =>
      do err <- remove_stable_node e dup;
      if negb (err =? 0) then ret true
      else remove_stable_node_chain_loop e hlist_safe
  end.

Definition remove_stable_node_chain (e : env) (stable_node : nat) : M bool :=
  do n <- stable_node_at stable_node;
  if negb (is_stable_node_chain n) then
    do err <- remove_stable_node e stable_node;
    ret (negb (err =? 0))
  else
    do busy <- remove_stable_node_chain_loop e (sn_hlist n);
    if busy then ret true
    else
      do n <- stable_node_at stable_node;
      BUG_ON (match sn_hlist n with [] => false | _ => true end);;
      free_stable_node_chain stable_node;;
      ret false.

(** The [while (root_stable_tree[nid].rb_node)] loop. *)
Fixpoint remove_all_stable_nodes_loop (budget : nat) (e : env) : M Z :=
  match budget with
  | O => fail Spin
  | S budget =>
      do s <- get;
      match root_stable_tree s with
      | RB_ROOT => ret 0
      | rb_node _ stable_node _ =>
          do busy <- remove_stable_node_chain e stable_node;
          if busy then ret (- EBUSY)
          else remove_all_stable_nodes_loop budget e
      end
  end.

Fixpoint remove_all_stable_nodes_migrate (e : env) (nodes : list nat) (err : Z) : M Z :=
  match nodes with
  | [] => ret err
  | stable_node :: next =>
      do r <- remove_stable_node e stable_node;
      remove_all_stable_nodes_migrate e next (if negb (r =? 0) then - EBUSY else err)
  end.

Definition remove_all_stable_nodes (budget : nat) (e : env) : M Z :=
  do err <- remove_all_stable_nodes_loop budget e;
  do s <- get;
  remove_all_stable_nodes_migrate e (migrate_nodes s) err.

(** The loop over the vmas of one mm in
    [unmerge_and_remove_all_rmap_items]. *)
Fixpoint unmerge_vmas (e : env) (mm : nat) (vmas : list vm_area_struct) : M Z :=
  match vmas with
  | [] => ret 0
  | vma :: vm_next =>
      do exiting <- ksm_test_exit mm;
      if exiting then ret 0
      else if negb (vm_mergeable vma) || negb (vm_anon_vma vma)
      then unmerge_vmas e mm vm_next
      else
        do err <- unmerge_ksm_pages e mm (vm_start vma) (vm_end vma);
        if negb (err =? 0) then ret err
        else unmerge_vmas e mm vm_next
  end.

(** The loop over [ksm_mm_head.mm_list], from the slot the cursor is on. *)
Fixpoint unmerge_mm_slots (e : env) (slots : list nat) : M Z :=
  match slots with
  | [] => modify (set_ksm_scan_mm_slot KSM_MM_HEAD);; ret 0
  | mm_slot :: next =>
      modify (set_ksm_scan_mm_slot (SLOT mm_slot));;
      do m <- mm_slot_at mm_slot;
      let mm := ms_mm m in
      do s <- get;
      match mm_structs s !! mm with
      | None => fail Oops
      | Some mms =>
          do err <- unmerge_vmas e mm (mm_mmap mms);
          if negb (err =? 0) then
            (* error: *)
            modify (set_ksm_scan_mm_slot KSM_MM_HEAD);;
            ret err
          else
            remove_trailing_rmap_items e (ms_rmap_list m);;
            mm_slot_update mm_slot (ms_set_rmap_list []);;
            do exiting <- ksm_test_exit mm;
            (if exiting then
               modify (fun s => set_ksm_mm_head (hlist_del mm_slot (ksm_mm_head s)) s);;
               modify (fun s => set_mm_slots (delete mm_slot (mm_slots s)) s)
             else ret tt);;
            unmerge_mm_slots e next
      end
  end.

Definition unmerge_and_remove_all_rmap_items (budget : nat) (e : env) : M Z :=
  do s <- get;
  do err <- unmerge_mm_slots e (ksm_mm_head s);
  if negb (err =? 0) then ret err
  else
    (* Clean up stable nodes, but don't worry if some are still busy *)
    do _ <- remove_all_stable_nodes budget e;
    modify (set_ksm_scan_scan_round 0);;
    ret 0.

(** ** Waiting for memory hot-remove (lines 4212-4220)

    [wait_while_offlining] drops [ksm_thread_mutex] and sleeps on the
    [KSM_RUN_OFFLINE] bit of [ksm_run] until [ksm_memory_callback] clears it
    from the hot-remove notifier.  Within one call nobody else runs, so a
    wait that starts does not end. *)
Definition wait_while_offlining : M unit :=
  do s <- get;
  if test_bits (ksm_run s) KSM_RUN_OFFLINE then fail Spin else ret tt.

(** ** The run knob (lines 4408-4452)

    [flags] is the number [kstrtouint] parsed from the buffer and [count]
    the length of the write. *)
Definition run_store (budget : nat) (e : env) (flags count : Z) : M Z :=
  if KSM_RUN_ONESHOT <? flags then ret (- EINVAL)
  else
    wait_while_offlining;;
    do s <- get;
    if negb (ksm_run s =? flags) then
      modify (set_ksm_run (if flags =? KSM_RUN_ONESHOT
                           then Z.lor KSM_RUN_MERGE KSM_RUN_ONESHOT else flags));;
      if test_bits flags KSM_RUN_UNMERGE then
        do err <- unmerge_and_remove_all_rmap_items budget e;
        if negb (err =? 0) then
          modify (set_ksm_run KSM_RUN_STOP);;
          ret err
        else ret count
      else ret count
    else ret count.

(** ** Concrete machines used by the examples *)

(** The values the file's static initialisers give its globals. *)
Definition ksm_init : ksm :=
  mk_ksm ∅ ∅ ∅ 1%nat RB_ROOT RB_ROOT [] RB_ROOT [] [] 0 None KSM_SCAN_HEAD [] 0 0 0 0
    LKSM_SCAN_NONE 0 0 0 0 0 0 256 2000 false 0 20 3 KSM_RUN_STOP 0 0 0 0 0 0 ∅ ∅ ∅ 1.

(** A kernel in which nothing races with the scanner: every lock is free,
    every allocation succeeds, no page is pinned or mapped elsewhere, write
    faults break copy-on-write, and the hash is the sum of the bytes. *)
Definition quiet : env :=
  mk_env 0 (fun ms => ms) (fun data => fold_left Z.add data 0)
    (fun _ => true) (fun _ => false) (fun _ => true) (fun _ => false) (fun _ => 1)
    (fun _ => false) (fun _ => true) (fun _ _ => VM_FAULT_WRITE) false 0 0
    (fun _ => 0) (fun _ => 0).

(** One mergeable anonymous vma of one page at 0x1000. *)
Definition vma_0x1000 : vm_area_struct := mk_vma 4096 8192 true true.

Definition fresh_mm_slot (mm : nat) : mm_slot :=
  mk_mm_slot mm [] (Z.lor KSM_MM_LISTED KSM_MM_NEWCOMER) 0 [0; 0; 0] 0 false 0 0 0 0.

(** Two owners, each with one page holding ["AAAA"], both on the scan list,
    at the start of the crawler's first round. *)
Definition two_owners : ksm :=
  set_ksm_crawl_round 1 (set_ksm_run KSM_RUN_MERGE
  (set_mm_structs (<[1%nat := mk_mm 1 [vma_0x1000]]> (<[2%nat := mk_mm 1 [vma_0x1000]]> ∅))
  (set_mem_map (<[10 := mk_page MAPPING_ANON [65; 65; 65; 65]]>
                (<[11 := mk_page MAPPING_ANON [65; 65; 65; 65]]> ∅))
  (set_page_table (<[(1%nat, 4096) := mk_pte 10 true]>
                   (<[(2%nat, 4096) := mk_pte 11 true]> ∅))
  (set_mm_slots (<[101%nat := fresh_mm_slot 1]> (<[102%nat := fresh_mm_slot 2]> ∅))
  (set_ksm_mm_head [101%nat; 102%nat] (set_ksm_scan_head [101%nat; 102%nat]
  (set_next_pfn 100 (set_next_ptr 1000 ksm_init))))))))).

(** The same machine with a leftover of an earlier round in the unstable
    tree. *)
Definition two_owners_leftover : ksm :=
  set_root_unstable_tree (rb_node RB_ROOT 77%nat RB_ROOT) two_owners.

(** The value and the final state of a run that returned. *)
Definition run_value {A} (d : A) (r : result A) : A :=
  match r with Ok a _ => a | Fail _ => d end.
Definition run_state (d : ksm) (r : result unit) : ksm :=
  match r with Ok _ s => s | Fail _ => d end.
Definition final_state {A} (d : ksm) (r : result A) : ksm :=
  match r with Ok _ s => s | Fail _ => d end.

(** ** Vocabulary of the statements below *)

(** The walk of [unstable_tree_search_insert] for [page], started at the
    root of [t], comes to a tree entry whose page cannot be read any more. *)
Inductive walk_meets_vanished (s : ksm) (page : Z) : rb_root -> Prop :=
| vanished_here l k r :
    get_mergeable_page k s = Ok None s ->
    walk_meets_vanished s page (rb_node l k r)
| vanished_left l k r tp :
    get_mergeable_page k s = Ok (Some tp) s ->
    page <> tp -> memcmp_pages s page tp < 0 ->
    walk_meets_vanished s page l ->
    walk_meets_vanished s page (rb_node l k r)
| vanished_right l k r tp :
    get_mergeable_page k s = Ok (Some tp) s ->
    page <> tp -> 0 < memcmp_pages s page tp ->
    walk_meets_vanished s page r ->
    walk_meets_vanished s page (rb_node l k r).

(** The first owner's page has been unmapped after its rmap_item (address
    1000) went into the unstable tree; the second owner's page is about to be
    looked up. *)
Definition vanished_candidate : ksm :=
  set_root_unstable_tree (rb_node RB_ROOT 1000%nat RB_ROOT)
  (set_rmap_items (<[1000%nat := mk_rmap_item 1 (4096 + 256 + 1) 260 None]>
                  (<[1001%nat := mk_rmap_item 2 4096 260 None]> ∅))
  (set_page_table (<[(2%nat, 4096) := mk_pte 11 true]> ∅)
  (set_ksm_pages_unshared 1
  (set_ksm_scan_scan_round 1 two_owners)))).

(** The ranked value of a slot: [slot->nr_merged]. *)
Definition slot_value (s : ksm) (slot : nat) : Z :=
  match mm_slots s !! slot with Some m => ms_nr_merged m | None => 0 end.

(** [vips_list] holds live slots, and its in-order sequence never goes up in
    ranked value. *)
Definition vips_ranked (s : ksm) : Prop :=
  (forall x, x ∈ rb_inorder (vips_list s) -> is_Some (mm_slots s !! x)) /\
  StronglySorted (fun x y => slot_value s y <= slot_value s x) (rb_inorder (vips_list s)).

(** Two owners of equal ranked value, neither in the rank tree yet, both
    with page faults since they were last looked at; the crawler may take one
    vip. *)
Definition ranked_slot (mm : nat) (nr_merged : Z) : mm_slot :=
  mk_mm_slot mm [] (Z.lor KSM_MM_LISTED KSM_MM_SCANNED) 1 [nr_merged; 0; 0] nr_merged
    false 0 5 0 0.

Definition two_equal_vips : ksm :=
  set_lksm_max_vips 1
  (set_mm_slots (<[101%nat := ranked_slot 1 4]> (<[102%nat := ranked_slot 2 4]> ∅))
  (set_ksm_scan_head [] two_owners)).

(** The two owners after both have been ranked, 101 first. *)
Definition two_equal_vips_ranked : ksm :=
  final_state ksm_init
    (lksm_insert_mm_slot_ordered 102
       (final_state ksm_init (lksm_insert_mm_slot_ordered 101 two_equal_vips))).

(** Round 3, the first round in which [ksm_scan.scan_round < initial_round]
    no longer holds.  The first owner's rmap_item (1000) sits in the unstable
    tree; the second owner's page now holds the same bytes, but the checksum
    recorded for its rmap_item (1001) is that of other, earlier content. *)
Definition changed_since_last_round : ksm :=
  set_root_unstable_tree (rb_node RB_ROOT 1000%nat RB_ROOT)
  (set_rmap_items (<[1000%nat := mk_rmap_item 1 (4096 + 256 + 3) 260 None]>
                  (<[1001%nat := mk_rmap_item 2 4096 998 None]> ∅))
  (set_mm_slots (<[101%nat := ms_set_rmap_list [1000%nat] (fresh_mm_slot 1)]>
                 (<[102%nat := ms_set_rmap_list [1001%nat] (fresh_mm_slot 2)]> ∅))
  (set_ksm_pages_unshared 1
  (set_ksm_rmap_items 2
  (set_ksm_crawl_round 3
  (set_ksm_scan_scan_round 3 two_owners)))))).

(** ** What the sharing counters count

    The records attached to a stable node are the entries of its [hlist];
    a chain's [hlist] holds its dups instead, so a chain has none of its
    own. *)
Definition attached (nd : stable_node) : list nat :=
  if is_stable_node_chain nd then [] else sn_hlist nd.

Definition nodes_sum (f : stable_node -> Z) (m : gmap nat stable_node) : Z :=
  map_fold (fun _ nd acc => f nd + acc) 0 m.

Definition node_records (nd : stable_node) : Z := Z.of_nat (length (attached nd)).

Definition node_in_use (nd : stable_node) : Z :=
  match attached nd with [] => 0 | _ :: _ => 1 end.

(** The total number of records attached across all stable nodes, and the
    number of stable nodes with a non-empty list. *)
Definition records_attached (s : ksm) : Z := nodes_sum node_records (stable_nodes s).
Definition nodes_in_use (s : ksm) : Z := nodes_sum node_in_use (stable_nodes s).

(** The two directions of the link between a record and its node.  The
    length counter is an [int]: it follows the list up to [2 ^ 31] entries,
    the point at which [stable_tree_append] stops on its [BUG_ON]. *)
Definition node_ok (s : ksm) (n : nat) (nd : stable_node) : Prop :=
  NoDup (sn_hlist nd) /\
  sn_rmap_hlist_len nd = wrap_int (Z.of_nat (length (sn_hlist nd))) /\
  Z.of_nat (length (sn_hlist nd)) <= 2 ^ 31 /\
  forall r, r ∈ sn_hlist nd ->
    exists it, rmap_items s !! r = Some it /\ ri_head it = Some n /\
               test_bits (ri_address it) STABLE_FLAG = true.

Definition item_ok (s : ksm) (r : nat) (it : rmap_item) : Prop :=
  test_bits (ri_address it) STABLE_FLAG = true ->
  exists n nd, ri_head it = Some n /\ stable_nodes s !! n = Some nd /\
               is_stable_node_chain nd = false /\ r ∈ sn_hlist nd.

Record rmap_bookkeeping (s : ksm) : Prop := mk_rmap_bookkeeping {
  bk_nodes : forall n nd, stable_nodes s !! n = Some nd ->
             is_stable_node_chain nd = false -> node_ok s n nd;
  bk_items : forall r it, rmap_items s !! r = Some it -> item_ok s r it;
  bk_fresh : forall p, (next_ptr s <= p)%nat ->
             stable_nodes s !! p = None /\ rmap_items s !! p = None;
  bk_shared : ksm_pages_shared s = wrap_ulong (nodes_in_use s);
  bk_sharing : ksm_pages_sharing s = wrap_ulong (records_attached s - nodes_in_use s)
}.

(** ** Vocabulary for the walk over the dups of a chain

    What [get_ksm_page] and [is_page_sharing_candidate] read of a dup, as
    functions of the state the walk starts in. *)
Definition dup_live (e : env) (s : ksm) (d : nat) : bool :=
  match stable_nodes s !! d with
  | Some nd =>
      bool_decide (page_mapping_of s (sn_kpfn nd) = MAPPING_KSM (Some d))
      && get_page_unless_zero e (sn_kpfn nd)
  | None => false
  end.

Definition dup_len (s : ksm) (d : nat) : Z :=
  match stable_nodes s !! d with Some nd => sn_rmap_hlist_len nd | None => 0 end.

Definition dup_kpfn (s : ksm) (d : nat) : Z :=
  match stable_nodes s !! d with Some nd => sn_kpfn nd | None => 0 end.

Definition dup_candidate (s : ksm) (d : nat) : bool :=
  match stable_nodes s !! d with
  | Some nd => is_page_sharing_candidate s nd
  | None => false
  end.

(** The dups of the list whose page is still there, and among them those
    that may take one more record. *)
Definition live_dups (e : env) (s : ksm) (dups : list nat) : list nat :=
  filter (fun d => dup_live e s d = true) dups.

Definition live_candidates (e : env) (s : ksm) (dups : list nat) : list nat :=
  filter (fun d => dup_candidate s d = true) (live_dups e s dups).

(** Is a pruning walk of the chain due. *)
Definition prune_due (e : env) (s : ksm) (chain : stable_node) : bool :=
  negb (time_before (jiffies e)
          (wrap_ulong (sn_kpfn chain +
                       msecs_to_jiffies e (ksm_stable_node_chains_prune_millisecs s)))).

(** [f] is the first entry of [l] at which [m] is largest. *)
Definition first_largest (m : nat -> Z) (l : list nat) (f : nat) : Prop :=
  exists l1 l2, l = l1 ++ f :: l2 /\
                (forall d, d ∈ l1 -> m d < m f) /\
                (forall d, d ∈ l2 -> m d <= m f).

(** The remaining fan-out headroom of a dup. *)
Definition headroom (s : ksm) (d : nat) : Z := ksm_max_page_sharing s - dup_len s d.

(** The walk of [stable_node_dup] over the live dups, on its three
    counters. *)
Fixpoint dup_walk_live (prune : bool) (s : ksm) (lives : list nat)
    (fnd : option nat) (flen nr : Z) : option nat * Z * Z :=
  match lives with
  | [] => (fnd, flen, nr)
  | d :: rest =>
      let nr := wrap_int (nr + 1) in
      if dup_candidate s d &&
         (match fnd with None => true | Some _ => flen <? dup_len s d end)
      then if negb prune then (Some d, dup_len s d, nr)
           else dup_walk_live prune s rest (Some d) (dup_len s d) nr
      else dup_walk_live prune s rest fnd flen nr
  end.

(** The nodes of [s'] other than the chain [c] are nodes of [s] with the
    same page, counter and head, and the pages are the same. *)
Definition same_dups (c : nat) (s s' : ksm) : Prop :=
  mem_map s' = mem_map s /\
  ksm_max_page_sharing s' = ksm_max_page_sharing s /\
  forall x nd', x <> c -> stable_nodes s' !! x = Some nd' ->
    exists nd, stable_nodes s !! x = Some nd /\
               sn_kpfn nd' = sn_kpfn nd /\
               sn_rmap_hlist_len nd' = sn_rmap_hlist_len nd /\
               sn_head nd' = sn_head nd.

(** A kernel like [quiet] whose clock reads [j]. *)
Definition quiet_at (j : Z) : env :=
  mk_env j (msecs_to_jiffies quiet) (xxhash quiet) (get_page_unless_zero quiet)
    (PageSwapCache quiet) (trylock_page quiet) (page_mapped quiet) (page_mapcount quiet)
    (page_count_raised quiet) (kmem_cache_alloc quiet) (handle_mm_fault quiet)
    (signal_pending quiet) (ZERO_PAGE quiet) (stack_garbage quiet)
    (get_mm_counter quiet) (owner_faults quiet).

Definition attached_record (mm : nat) (node : nat) : rmap_item :=
  mk_rmap_item mm (Z.lor 4096 STABLE_FLAG) 0 (Some node).

(** A chain (node 50) in the stable tree with two dups: node 51 shared by
    one record and node 52 shared by two, both with their page. *)
Definition chain_of_two : ksm :=
  set_ksm_stable_node_chains 1 (set_ksm_stable_node_dups 2
  (set_ksm_pages_shared 2 (set_ksm_pages_sharing 1
  (set_root_stable_tree (rb_node RB_ROOT 50%nat RB_ROOT)
  (set_stable_nodes
     (<[50%nat := mk_stable_node HEAD_RB_NODE [51%nat; 52%nat] 0 STABLE_NODE_CHAIN]>
     (<[51%nat := mk_stable_node STABLE_NODE_DUP_HEAD [1000%nat] 11 1]>
     (<[52%nat := mk_stable_node STABLE_NODE_DUP_HEAD [1001%nat; 1002%nat] 12 2]> ∅)))
  (set_rmap_items
     (<[1000%nat := attached_record 1 51]>
     (<[1001%nat := attached_record 2 52]>
     (<[1002%nat := attached_record 3 52]> ∅)))
  (set_mem_map
     (<[11 := mk_page (MAPPING_KSM (Some 51%nat)) [65; 65; 65; 65]]>
     (<[12 := mk_page (MAPPING_KSM (Some 52%nat)) [65; 65; 65; 65]]> ∅))
  (set_next_ptr 2000 ksm_init)))))))).
(** A dup as [stable_node_chain_add_dup] leaves it, whose page
    [get_ksm_page] does not have to wait for. *)
Definition dup_settled (e : env) (s : ksm) (d : nat) : Prop :=
  exists nd, stable_nodes s !! d = Some nd /\
    0 <= sn_rmap_hlist_len nd /\
    sn_head nd = STABLE_NODE_DUP_HEAD /\
    (get_page_unless_zero e (sn_kpfn nd) = false -> PageSwapCache e (sn_kpfn nd) = false).

(** The dups of the list whose page is gone. *)
Definition stale_dups (e : env) (s : ksm) (dups : list nat) : list nat :=
  filter (fun d => dup_live e s d = false) dups.

(** The chain of [chain_of_two] after the page of dup 51 was freed. *)
Definition chain_with_stale_dup : ksm :=
  set_mem_map (delete 11 (mem_map chain_of_two)) chain_of_two.

(** ** Vocabulary for the fan-out limit *)

(** No page is the page of a chain: [page->mapping] only ever points to a
    node that holds records. *)
Definition no_page_on_a_chain (s : ksm) : Prop :=
  forall pfn n nd, page_mapping_of s pfn = MAPPING_KSM (Some n) ->
                   stable_nodes s !! n = Some nd -> is_stable_node_chain nd = false.

(** The node [d] has its page and may take one more record. *)
Definition offered (e : env) (s : ksm) (d : nat) : Prop :=
  exists nd, stable_nodes s !! d = Some nd /\
             is_page_sharing_candidate s nd = true /\
             page_mapping_of s (sn_kpfn nd) = MAPPING_KSM (Some d) /\
             get_page_unless_zero e (sn_kpfn nd) = true.

(** From [s] to [s'] no page changed and no node was made or refilled: the
    nodes of [s'] are nodes of [s] with the same counter and, unless they
    are chains, the same page. *)
Definition dups_persist (s s' : ksm) : Prop :=
  mem_map s' = mem_map s /\
  ksm_max_page_sharing s' = ksm_max_page_sharing s /\
  forall x nd', stable_nodes s' !! x = Some nd' ->
    exists nd, stable_nodes s !! x = Some nd /\
               sn_rmap_hlist_len nd' = sn_rmap_hlist_len nd /\
               (is_stable_node_chain nd = false -> sn_kpfn nd' = sn_kpfn nd).

(** What the walk has kept is a node that is offered, together with its
    page. *)
Definition walk_holds_offered (e : env) (s : ksm) (w : dup_walk) : Prop :=
  forall f, found w = Some f -> offered e s f /\ tree_page w = PAGE (dup_kpfn s f).

(** A stable node (50, in the tree) that has reached a fan-out limit of 2,
    and a third owner whose address 0x1000 maps the node's page, as a child
    forked from one of the two sharers has it; its tracking record 1002 is
    not attached yet. *)
Definition forked_ksm_page : ksm :=
  set_ksm_max_page_sharing 2
  (set_ksm_pages_shared 1 (set_ksm_pages_sharing 1
  (set_root_stable_tree (rb_node RB_ROOT 50%nat RB_ROOT)
  (set_stable_nodes
     (<[50%nat := mk_stable_node HEAD_RB_NODE [1000%nat; 1001%nat] 11 2]> ∅)
  (set_rmap_items
     (<[1000%nat := attached_record 1 50]>
     (<[1001%nat := attached_record 2 50]>
     (<[1002%nat := mk_rmap_item 3 4096 0 None]> ∅)))
  (set_mem_map (<[11 := mk_page (MAPPING_KSM (Some 50%nat)) [65; 65; 65; 65]]> ∅)
  (set_page_table
     (<[(1%nat, 4096) := mk_pte 11 false]>
     (<[(2%nat, 4096) := mk_pte 11 false]>
     (<[(3%nat, 4096) := mk_pte 11 false]> ∅)))
  (set_mm_structs
     (<[1%nat := mk_mm 1 [vma_0x1000]]>
     (<[2%nat := mk_mm 1 [vma_0x1000]]>
     (<[3%nat := mk_mm 1 [vma_0x1000]]> ∅)))
  (set_next_ptr 2000 ksm_init))))))))).

(** The same node under the default limit, and a third owner whose page 12
    is an ordinary anonymous page with the content of the node's page. *)
Definition shared_page_and_newcomer : ksm :=
  set_ksm_max_page_sharing 256
  (set_mem_map (<[12 := mk_page MAPPING_ANON [65; 65; 65; 65]]> (mem_map forked_ksm_page))
  (set_page_table (<[(3%nat, 4096) := mk_pte 12 true]> (page_table forked_ksm_page))
     forked_ksm_page)).

(** ** Vocabulary for undoing a merge *)

(** The address [addr] of [mm] is backed by a page of its own that it may
    write to. *)
Definition private_writable (s : ksm) (mm : nat) (addr : Z) : Prop :=
  exists p, page_table s !! (mm, Z.land addr PAGE_MASK) = Some p /\
            pte_write p = true /\ PageKsm s (pte_pfn p) = false.

(** [break_cow] on [r] finds the area of [r] and a KSM page at its address,
    and the write fault it raises there breaks the sharing. *)
Definition break_cow_ready (e : env) (s : ksm) (r : nat) : Prop :=
  exists it vma page,
    rmap_items s !! r = Some it /\
    find_mergeable_vma (ri_mm it) (ri_address it) s = Ok (Some vma) s /\
    follow_page s (ri_mm it) (ri_address it) = Some page /\
    PageKsm s page = true /\
    handle_mm_fault e (ri_mm it) (ri_address it) = VM_FAULT_WRITE.

(** The record is there and attached to no stable node. *)
Definition detached (r : nat) (s : ksm) : Prop :=
  exists it, rmap_items s !! r = Some it /\
             test_bits (ri_address it) STABLE_FLAG = false.

(** The state after the write fault that [break_cow] raises. *)
Definition cow_broken (s : ksm) (mm : nat) (addr : Z) (old : Z) : ksm :=
  set_next_pfn (next_pfn s + 1)
    (set_mem_map (<[next_pfn s := mk_page MAPPING_ANON (page_data s old)]> (mem_map s))
       (set_page_table (<[(mm, Z.land addr PAGE_MASK) := mk_pte (next_pfn s) true]>
                          (page_table s)) s)).

(** A kernel like [quiet] in which someone else holds the lock of page 10. *)
Definition page_10_locked : env :=
  mk_env (jiffies quiet) (msecs_to_jiffies quiet) (xxhash quiet)
    (get_page_unless_zero quiet) (PageSwapCache quiet) (fun p => negb (p =? 10))
    (page_mapped quiet) (page_mapcount quiet) (page_count_raised quiet)
    (kmem_cache_alloc quiet) (handle_mm_fault quiet) (signal_pending quiet)
    (ZERO_PAGE quiet) (stack_garbage quiet) (get_mm_counter quiet) (owner_faults quiet).

(** The scanner is at the page of the second owner; the record of the
    first owner is in the unstable tree. *)
Definition match_in_unstable_tree : ksm := set_next_ptr 1002 changed_since_last_round.

(** A kernel like [quiet] in which no allocation succeeds. *)
Definition no_memory : env :=
  mk_env (jiffies quiet) (msecs_to_jiffies quiet) (xxhash quiet)
    (get_page_unless_zero quiet) (PageSwapCache quiet) (trylock_page quiet)
    (page_mapped quiet) (page_mapcount quiet) (page_count_raised quiet)
    (fun _ => false) (handle_mm_fault quiet) (signal_pending quiet)
    (ZERO_PAGE quiet) (stack_garbage quiet) (get_mm_counter quiet) (owner_faults quiet).

(** ** Vocabulary for the sharing counters *)

(** [get_ksm_page] never has to wait for a page: a page whose reference
    count is found at zero is not in the swap cache. *)
Definition swapcache_settled (e : env) : Prop :=
  forall pfn, get_page_unless_zero e pfn = false -> PageSwapCache e pfn = false.

(** The record carries neither tree flag. *)
Definition on_no_tree (r : nat) (s : ksm) : Prop :=
  exists it, rmap_items s !! r = Some it /\
             test_bits (ri_address it) STABLE_FLAG = false /\
             test_bits (ri_address it) UNSTABLE_FLAG = false.

(** ** Vocabulary for merging one page *)

(** The page-aligned address that [follow_page] and the pte functions
    look up. *)
Definition pte_key (mm : nat) (addr : Z) : nat * Z := (mm, Z.land addr PAGE_MASK).

(** The address [addr] of [mm] lies in an area that may be merged: the owner
    is not exiting, and the area that covers the address is VM_MERGEABLE and
    has an anon_vma. *)
Definition in_mergeable_area (s : ksm) (mm : nat) (addr : Z) : Prop :=
  exists m vma,
    mm_structs s !! mm = Some m /\ mm_users m <> 0 /\
    vma_lookup m addr = Some vma /\
    vm_start vma <= addr < vm_end vma /\
    vm_mergeable vma = true /\ vm_anon_vma vma = true.

(** The machine of [changed_since_last_round] before the first owner's
    record went into the unstable tree. *)
Definition unstable_tree_still_empty : ksm :=
  set_root_unstable_tree RB_ROOT
  (set_rmap_items (<[1000%nat := mk_rmap_item 1 4096 260 None]>
                  (<[1001%nat := mk_rmap_item 2 4096 998 None]> ∅))
  (set_ksm_pages_unshared 0 changed_since_last_round)).

(** ** Vocabulary for unmerging *)

(** The address maps no KSM page. *)
Definition unmerged_at (s : ksm) (mm : nat) (addr : Z) : Prop :=
  match follow_page s mm addr with
  | Some pg => PageKsm s pg = false
  | None => True
  end.

(** What the owner reads at the address. *)
Definition content_at (s : ksm) (mm : nat) (addr : Z) : option (list Z) :=
  page_data s <$> follow_page s mm addr.

(** The page allocator hands out frames that nothing maps yet. *)
Definition frames_fresh (s : ksm) : Prop :=
  forall k p, page_table s !! k = Some p -> pte_pfn p < next_pfn s.

(** From [s] to [s'] only pages, ptes and the allocator's cursor changed. *)
Definition only_pages_changed (s s' : ksm) : Prop :=
  s' = set_next_pfn (next_pfn s') (set_mem_map (mem_map s') (set_page_table (page_table s') s)).

(** ** Vocabulary for the scan list *)

(** The owner of the slot has no user left ([ksm_test_exit]), or still has
    some. *)
Definition slot_exiting (s : ksm) (slot : nat) : Prop :=
  exists m mms, mm_slots s !! slot = Some m /\
                mm_structs s !! ms_mm m = Some mms /\ mm_users mms = 0.

Definition slot_alive (s : ksm) (slot : nat) : Prop :=
  exists m mms, mm_slots s !! slot = Some m /\
                mm_structs s !! ms_mm m = Some mms /\ mm_users mms <> 0.

(** The slots that [lksm_get_unscanned_mm_slot] walks over when it is
    entered with [slot]. *)
Definition slots_after (s : ksm) (slot : mm_slot_ptr) : list nat :=
  match slot with
  | SLOT p => list_after p (ksm_scan_head s)
  | _ => ksm_scan_head s
  end.

(** The two owners of [two_owners], the first of which has exited. *)
Definition first_owner_exited : ksm :=
  set_mm_structs (<[1%nat := mk_mm 0 [vma_0x1000]]> (mm_structs two_owners)) two_owners.

(** ** Vocabulary for the unmerge verb *)

(** The write faults that [break_ksm] raises always break copy-on-write,
    and no signal is pending. *)
Definition cow_always_breaks (e : env) : Prop :=
  (forall mm a, handle_mm_fault e mm a = VM_FAULT_WRITE) /\ signal_pending e = false.

(** The area does not reach the last page of the address space. *)
Definition vma_sane (vma : vm_area_struct) : Prop :=
  0 <= vm_start vma /\ vm_end vma + PAGE_SIZE <= 2 ^ 64.

(** The records on the slot's list. *)
Definition slot_records (s : ksm) (slot : nat) : list nat :=
  match mm_slots s !! slot with Some m => ms_rmap_list m | None => [] end.

(** The slot is there with its owner, and its records are there. *)
Definition slot_ready (s : ksm) (slot : nat) : Prop :=
  exists m mms,
    mm_slots s !! slot = Some m /\ mm_structs s !! ms_mm m = Some mms /\
    Forall vma_sane (mm_mmap mms) /\
    forall r, r ∈ ms_rmap_list m -> is_Some (rmap_items s !! r).

(** The address lies in a mergeable area of the slot's live owner, a whole
    number of pages from its start. *)
Definition mergeable_address (s : ksm) (slot : nat) (mm : nat) (a : Z) : Prop :=
  exists m mms vma,
    mm_slots s !! slot = Some m /\ ms_mm m = mm /\
    mm_structs s !! mm = Some mms /\ mm_users mms <> 0 /\
    vma ∈ mm_mmap mms /\ vm_mergeable vma = true /\ vm_anon_vma vma = true /\
    vm_start vma <= a < vm_end vma /\ (a - vm_start vma) mod PAGE_SIZE = 0.

(** ** Page migration (lines 4186-4209)

    The three [VM_BUG_ON_PAGE] checks are only compiled into debugging
    kernels; the function is embedded without them. *)
Definition ksm_migrate_page (newpage oldpage : Z) : M unit :=
  do s <- get;
  match page_stable_node s newpage with
  | Some stable_node =>
      stable_node_update stable_node (sn_set_kpfn newpage);;
      (* newpage->mapping was set in advance *)
      set_page_stable_node oldpage None
  | None => ret tt
  end.

(** The KSM page 11 of [forked_ksm_page] while it is migrated to frame 12:
    the contents and the mapping word have been copied. *)
Definition page_11_in_migration : ksm :=
  set_mem_map (<[12 := mk_page (MAPPING_KSM (Some 50%nat)) [65; 65; 65; 65]]>
                 (mem_map forked_ksm_page)) forked_ksm_page.

(** ** The knob for the sharing limit (lines 4541-4574)

    [knob] is the number [kstrtoint] parsed from the buffer and [count] the
    length of the write.  Nothing else runs between the unlocked read of
    [ksm_max_page_sharing] and the read under the mutex, so the second test
    always holds. *)
Definition max_page_sharing_store (budget : nat) (e : env) (knob count : Z) : M Z :=
  (* When a KSM page is created it is shared by 2 mappings.  This being a
     signed comparison, it implicitly verifies it's not negative. *)
  if knob <? 2 then ret (- EINVAL)
  else
    do s <- get;
    if ksm_max_page_sharing s =? knob then ret count
    else
      wait_while_offlining;;
      do s <- get;
      if negb (ksm_max_page_sharing s =? knob) then
        if negb (ksm_pages_shared s =? 0) then ret (- EBUSY)
        else
          do err <- remove_all_stable_nodes budget e;
          if negb (err =? 0) then ret (- EBUSY)
          else modify (set_ksm_max_page_sharing knob);; ret count
      else ret count.

(** No stable node has been allocated from [s] to [s']. *)
Definition nodes_only_freed (s s' : ksm) : Prop :=
  forall x, stable_nodes s !! x = None -> stable_nodes s' !! x = None.

(** Every node that is in the stable tree or on the migrate list in [s] is
    still there in [s'], unless it has been freed. *)
Definition kept_or_freed (s s' : ksm) : Prop :=
  forall y,
    (y ∈ rb_inorder (root_stable_tree s) ->
     y ∈ rb_inorder (root_stable_tree s') \/ stable_nodes s' !! y = None) /\
    (y ∈ migrate_nodes s ->
     y ∈ migrate_nodes s' \/ stable_nodes s' !! y = None).

(** A stable node (50, in the tree) that all its sharers have left: no
    record is attached and no page is shared, but its page 11 is still
    there. *)
Definition node_without_sharers : ksm :=
  set_root_stable_tree (rb_node RB_ROOT 50%nat RB_ROOT)
  (set_stable_nodes (<[50%nat := mk_stable_node HEAD_RB_NODE [] 11 0]> ∅)
  (set_mem_map (<[11 := mk_page (MAPPING_KSM (Some 50%nat)) [65; 65; 65; 65]]> ∅)
  (set_next_ptr 2000 ksm_init))).

(** ** Releasing the removed slots (lines 2796-2839)

    [list_del_init(&ksm_scan.remove_mm_list)] takes the list head out of the
    ring, which leaves the first slot as the head of a ring of the others.
    [clear_bit(MMF_VM_MERGEABLE)] and [mmdrop] act on the owner's mm, of
    which the machine keeps the users and the areas only. *)
Definition free_mm_slot (mm_slot : nat) : M unit :=
  modify (fun s => set_mm_slots (delete mm_slot (mm_slots s)) s).

(** The body of the [list_for_each_entry_safe] loop over the slots that
    follow [head]. *)
Fixpoint lksm_flush_removed_mm_list_loop (e : env) (slots : list nat) : M unit :=
  match slots with
  | [] => ret tt
  | slot :: next =>
      do m <- mm_slot_at slot;
      remove_trailing_rmap_items e (ms_rmap_list m);;
      mm_slot_update slot (ms_set_rmap_list []);;
      free_mm_slot slot;;
      lksm_flush_removed_mm_list_loop e next
  end.

Definition lksm_flush_removed_mm_list (e : env) : M unit :=
  do s <- get;
  match ksm_scan_remove_mm_list s with
  | [] => ret tt
  | head :: rest =>
      modify (set_ksm_scan_remove_mm_list []);;
      lksm_flush_removed_mm_list_loop e rest;;
      do m <- mm_slot_at head;
      remove_trailing_rmap_items e (ms_rmap_list m);;
      mm_slot_update head (ms_set_rmap_list []);;
      free_mm_slot head
  end.

(** The slot is there, and so are the records on its list. *)
Definition slot_with_records (s : ksm) (slot : nat) : Prop :=
  exists m, mm_slots s !! slot = Some m /\
            forall r, r ∈ ms_rmap_list m -> is_Some (rmap_items s !! r).

(** Two owners of [match_in_unstable_tree] have left: their slots wait on
    the list of removed slots. *)
Definition two_slots_removed : ksm :=
  set_ksm_scan_remove_mm_list [102%nat; 101%nat]
    (set_ksm_mm_head [] (set_ksm_scan_head [] match_in_unstable_tree)).

(** ** Memory hot-remove (lines 4211-4334)

    [rb_first] is the leftmost entry of the tree and [rb_next] the entry
    that follows in sort order, which is the order of [rb_inorder].  The
    [VM_BUG_ON] checks are only compiled into debugging kernels; the
    functions are embedded without them. *)
Definition rb_first (t : rb_root) : option nat := rb_leftmost t.

Definition rb_next (node : nat) (t : rb_root) : option nat :=
  head (list_after node (rb_inorder t)).

Definition stable_node_dup_remove_range (stable_node : nat) (start_pfn end_pfn : Z)
  : M bool :=
  do n <- stable_node_at stable_node;
  if (start_pfn <=? sn_kpfn n) && (sn_kpfn n <? end_pfn) then
    (* Don't get_ksm_page, page has already gone: which is why we keep kpfn
       instead of page* *)
    remove_node_from_stable_tree stable_node;;
    ret true
  else ret false.

(** The [hlist_for_each_entry_safe] loop over the dups of a chain. *)
Fixpoint stable_node_chain_remove_range_loop (dups : list nat) (start_pfn end_pfn : Z)
  : M unit :=
  match dups with
  | [] => ret tt
  | dup :: hlist_safe =>
      do _ <- stable_node_dup_remove_range dup start_pfn end_pfn;
      stable_node_chain_remove_range_loop hlist_safe start_pfn end_pfn
  end.

Definition stable_node_chain_remove_range (stable_node : nat) (start_pfn end_pfn : Z)
  : M bool :=
  do n <- stable_node_at stable_node;
  if negb (is_stable_node_chain n) then
    stable_node_dup_remove_range stable_node start_pfn end_pfn
  else
    stable_node_chain_remove_range_loop (sn_hlist n) start_pfn end_pfn;;
    do n <- stable_node_at stable_node;
    match sn_hlist n with
    | [] =>
        free_stable_node_chain stable_node;;
        ret true (* notify caller that tree was rebalanced *)
    | _ => ret false
    end.

(** The [while (node)] loop of [ksm_check_stable_tree]. *)
Fixpoint ksm_check_stable_tree_loop (budget : nat) (start_pfn end_pfn : Z)
    (node : option nat) : M unit :=
  match budget with
  | O => fail Spin
  | S budget =>
      match node with
      | None => ret tt
      | Some stable_node =>
          do rebalanced <- stable_node_chain_remove_range stable_node start_pfn end_pfn;
          do s <- get;
          ksm_check_stable_tree_loop budget start_pfn end_pfn
            (if rebalanced then rb_first (root_stable_tree s)
             else rb_next stable_node (root_stable_tree s))
      end
  end.

(** The [list_for_each_entry_safe] loop over [migrate_nodes]. *)
Fixpoint ksm_check_stable_tree_migrate (nodes : list nat) (start_pfn end_pfn : Z)
  : M unit :=
  match nodes with
  | [] => ret tt
  | stable_node :: next =>
      do n <- stable_node_at stable_node;
      (if (start_pfn <=? sn_kpfn n) && (sn_kpfn n <? end_pfn)
       then remove_node_from_stable_tree stable_node
       else ret tt);;
      ksm_check_stable_tree_migrate next start_pfn end_pfn
  end.

Definition ksm_check_stable_tree (budget : nat) (start_pfn end_pfn : Z) : M unit :=
  do s <- get;
  ksm_check_stable_tree_loop budget start_pfn end_pfn (rb_first (root_stable_tree s));;
  do s <- get;
  ksm_check_stable_tree_migrate (migrate_nodes s) start_pfn end_pfn.

(** The actions of the memory notifier chain; the callback acts on three
    of them. *)
Inductive memory_action : Type :=
| MEM_GOING_OFFLINE
| MEM_OFFLINE
| MEM_CANCEL_OFFLINE
| MEM_OTHER.

Definition NOTIFY_OK : Z := 1.

(** [mn] is given by its fields [start_pfn] and [nr_pages]. *)
Definition ksm_memory_callback (budget : nat) (action : memory_action)
    (start_pfn nr_pages : Z) : M Z :=
  match action with
  | MEM_GOING_OFFLINE =>
      modify (fun s => set_ksm_run (Z.lor (ksm_run s) KSM_RUN_OFFLINE) s);;
      ret NOTIFY_OK
  | MEM_OFFLINE =>
      (* Most of the work is done by page migration; but there might be a few
         stable_nodes left over, still pointing to struct pages which have
         been offlined: prune those from the tree. *)
      ksm_check_stable_tree budget start_pfn (wrap_ulong (start_pfn + nr_pages));;
      (* fallthrough *)
      modify (fun s => set_ksm_run (clear_bits (ksm_run s) KSM_RUN_OFFLINE) s);;
      ret NOTIFY_OK
  | MEM_CANCEL_OFFLINE =>
      modify (fun s => set_ksm_run (clear_bits (ksm_run s) KSM_RUN_OFFLINE) s);;
      ret NOTIFY_OK
  | MEM_OTHER => ret NOTIFY_OK
  end.

(** ** Vocabulary for hot-remove *)

(** The node's page lies in the range of frames. *)
Definition kpfn_in_range (start_pfn end_pfn : Z) (nd : stable_node) : Prop :=
  start_pfn <= sn_kpfn nd < end_pfn.

(** The tree entry [y] names no frame of the range: not by itself if it is
    a node with a page, and by none of its dups if it is a chain. *)
Definition range_pruned (start_pfn end_pfn : Z) (s : ksm) (y : nat) : Prop :=
  forall nd, stable_nodes s !! y = Some nd ->
    if is_stable_node_chain nd
    then forall d ndd, d ∈ sn_hlist nd -> stable_nodes s !! d = Some ndd ->
                       ~ kpfn_in_range start_pfn end_pfn ndd
    else ~ kpfn_in_range start_pfn end_pfn nd.

(** From [s] to [s'] nodes were only removed: a node of [s'] is a node of
    [s] with the same page and counter and no new entry on its list; the
    tree of [s'] is the tree of [s] without some entries, in the same
    order; and the migrate list has no new entry. *)
Definition only_removed (s s' : ksm) : Prop :=
  (forall y nd', stable_nodes s' !! y = Some nd' ->
     exists nd, stable_nodes s !! y = Some nd /\
                sn_kpfn nd' = sn_kpfn nd /\
                sn_rmap_hlist_len nd' = sn_rmap_hlist_len nd /\
                sn_hlist nd' ⊆ sn_hlist nd) /\
  kept_or_freed s s' /\
  (NoDup (rb_inorder (root_stable_tree s)) ->
   exists gone : list nat, rb_inorder (root_stable_tree s') =
                filter (fun y => y ∉ gone) (rb_inorder (root_stable_tree s))) /\
  migrate_nodes s' ⊆ migrate_nodes s.

(** The chain of [chain_of_two] after the frames 11 and 12 went offline
    with their pages still in place. *)
Definition chain_before_offline : ksm := set_ksm_run KSM_RUN_OFFLINE chain_of_two.

(** [break_cow] on [r] finds the area of [r] and a KSM page at its address,
    but the write fault it raises there fails for want of memory. *)
Definition break_cow_starved (e : env) (s : ksm) (r : nat) : Prop :=
  exists it vma page,
    rmap_items s !! r = Some it /\
    find_mergeable_vma (ri_mm it) (ri_address it) s = Ok (Some vma) s /\
    follow_page s (ri_mm it) (ri_address it) = Some page /\
    PageKsm s page = true /\
    handle_mm_fault e (ri_mm it) (ri_address it) = VM_FAULT_OOM.

(** The address [addr] of [mm] is mapped read-only to a KSM page that
    belongs to no stable node. *)
Definition left_write_protected (s : ksm) (mm : nat) (addr : Z) : Prop :=
  exists p, page_table s !! (mm, Z.land addr PAGE_MASK) = Some p /\
            pte_write p = false /\ PageKsm s (pte_pfn p) = true /\
            page_stable_node s (pte_pfn p) = None.

(** A kernel like [page_10_locked] in which, besides, a write fault finds no
    memory for the private copy. *)
Definition page_10_locked_no_memory : env :=
  mk_env (jiffies quiet) (msecs_to_jiffies quiet) (xxhash quiet)
    (get_page_unless_zero quiet) (PageSwapCache quiet) (fun p => negb (p =? 10))
    (page_mapped quiet) (page_mapcount quiet) (page_count_raised quiet)
    (kmem_cache_alloc quiet) (fun _ _ => VM_FAULT_OOM) (signal_pending quiet)
    (ZERO_PAGE quiet) (stack_garbage quiet) (get_mm_counter quiet) (owner_faults quiet).

(** The chain of [chain_with_stale_dup] with a list that went wrong: its
    entry 51, whose page is gone, does not read as a dup, so dropping the
    node does not take it off the chain's list. *)
Definition chain_with_stray_entry : ksm :=
  set_stable_nodes
    (<[51%nat := mk_stable_node HEAD_RB_NODE [1000%nat] 11 1]>
       (stable_nodes chain_with_stale_dup))
    chain_with_stale_dup.

(** The chain of [chain_of_two] under a fan-out limit of 2: both dups have
    their page, dup 51 may take one more record and dup 52 is full. *)
Definition chain_with_full_dup : ksm := set_ksm_max_page_sharing 2 chain_of_two.

(** The owner of [slot] has exited, as [ksm_test_exit] tells it. *)
Definition slot_exited (s : ksm) (slot : nat) : bool :=
  match mm_slots s !! slot with
  | Some m =>
      match mm_structs s !! ms_mm m with
      | Some mm => mm_users mm =? 0
      | None => false
      end
  | None => false
  end.

(** The two tests a vip has to pass in [lksm_prepare_partial_scan]: the slot
    is listed, and its owner has faulted since the count was last taken. *)
Definition slot_wanted (e : env) (s : ksm) (slot : nat) : bool :=
  match mm_slots s !! slot with
  | Some m =>
      lksm_test_mm_state m KSM_MM_LISTED
      && negb (ms_fault_cnt m =? owner_faults e (ms_mm m))
  | None => false
  end.

(** A kernel like [quiet] in which every page is still mapped somewhere, as
    the page of a stable node is while an owner that exits has not yet torn
    down its page tables. *)
Definition page_still_mapped : env :=
  mk_env (jiffies quiet) (msecs_to_jiffies quiet) (xxhash quiet)
    (get_page_unless_zero quiet) (PageSwapCache quiet) (trylock_page quiet)
    (fun _ => true) (page_mapcount quiet) (page_count_raised quiet)
    (kmem_cache_alloc quiet) (handle_mm_fault quiet) (signal_pending quiet)
    (ZERO_PAGE quiet) (stack_garbage quiet) (get_mm_counter quiet) (owner_faults quiet).

(** Every record of the store is on the list of a slot of [ksm_mm_head]. *)
Definition records_all_listed (s : ksm) : Prop :=
  forall r, is_Some (rmap_items s !! r) ->
            exists slot, slot ∈ ksm_mm_head s /\ r ∈ slot_records s slot.

(** A record that [remove_rmap_item_from_tree] takes for one of the unstable
    tree: [UNSTABLE_FLAG] is set in its address and [STABLE_FLAG] is not. *)
Definition unstable_record (it : rmap_item) : bool :=
  negb (test_bits (ri_address it) STABLE_FLAG) && test_bits (ri_address it) UNSTABLE_FLAG.

Definition unstable_records (s : ksm) : gmap nat rmap_item :=
  filter (fun kv => unstable_record kv.2 = true) (rmap_items s).

(** The unstable tree and [ksm_pages_unshared] in step with the records: the
    tree holds a record once at most, and only records flagged unstable whose
    sequence number is that of the round under way; the counter is the number
    of records flagged unstable. *)
Definition candidates_in_step (s : ksm) : Prop :=
  NoDup (rb_inorder (root_unstable_tree s)) /\
  (forall r, r ∈ rb_inorder (root_unstable_tree s) ->
     exists it, rmap_items s !! r = Some it /\ unstable_record it = true /\
                wrap_uchar (ksm_scan_scan_round s - ri_address it) = 0) /\
  ksm_pages_unshared s = wrap_ulong (Z.of_nat (size (unstable_records s))).

(** * Properties *)

(** ** Reasoning about runs *)

Lemma bind_Ok {A B} (m : M A) (k : A -> M B) s b s' :
  bind m k s = Ok b s' <-> exists a s1, m s = Ok a s1 /\ k a s1 = Ok b s'.
Proof.
  unfold bind. destruct (m s) as [a s1|f]; split.
  - intros H. eauto.
  - intros (a' & s1' & [= -> ->] & H). exact H.
  - discriminate.
  - intros (a' & s1' & [=] & _).
Qed.

Lemma ret_Ok {A} (a b : A) s s' : ret a s = Ok b s' <-> a = b /\ s = s'.
Proof. unfold ret. split; [intros [= -> ->]; auto | intros [-> ->]; auto]. Qed.

Lemma get_Ok s a s' : get s = Ok a s' <-> a = s /\ s' = s.
Proof. unfold get. split; [intros [= <- <-]; auto | intros [-> ->]; auto]. Qed.

Lemma modify_Ok f s a s' : modify f s = Ok a s' <-> s' = f s.
Proof. unfold modify. destruct a. split; [intros [= <-]; auto | intros ->; auto]. Qed.

Lemma fail_Ok {A} f s (a : A) s' : fail f s = Ok a s' <-> False.
Proof. unfold fail. split; [discriminate | tauto]. Qed.

Lemma BUG_ON_Ok c s a s' : BUG_ON c s = Ok a s' <-> c = false /\ s' = s.
Proof.
  unfold BUG_ON. destruct c; cbn; split; try discriminate.
  - intros [[=] _].
  - intros [= <-]. auto.
  - intros [_ ->]. destruct a. reflexivity.
Qed.

(** A computation keeps a state predicate. *)
Definition preserves {A} (P : ksm -> Prop) (m : M A) : Prop :=
  forall s a s', P s -> m s = Ok a s' -> P s'.

Lemma preserves_ret {A} P (a : A) : preserves P (ret a).
Proof. intros s b s' HP [-> ->]%ret_Ok. exact HP. Qed.

Lemma preserves_fail {A} P f : preserves P (@fail A f).
Proof. intros s b s' _ []%fail_Ok. Qed.

Lemma preserves_get P : preserves P get.
Proof. intros s b s' HP [-> ->]%get_Ok. exact HP. Qed.

Lemma preserves_BUG_ON P c : preserves P (BUG_ON c).
Proof. intros s b s' HP [_ ->]%BUG_ON_Ok. exact HP. Qed.

Lemma preserves_bind {A B} P (m : M A) (k : A -> M B) :
  preserves P m -> (forall a, preserves P (k a)) -> preserves P (bind m k).
Proof.
  intros Hm Hk s b s' HP (a & s1 & H1 & H2)%bind_Ok.
  eapply Hk; [|exact H2]. eapply Hm; eauto.
Qed.

Lemma preserves_modify P f :
  (forall s, P s -> P (f s)) -> preserves P (modify f).
Proof. intros Hf s b s' HP ->%modify_Ok. auto. Qed.

(** Reading an object changes nothing. *)
Lemma stable_node_at_Ok p s n s' :
  stable_node_at p s = Ok n s' <-> stable_nodes s !! p = Some n /\ s' = s.
Proof.
  unfold stable_node_at. destruct (stable_nodes s !! p); split;
    first [intros [= -> ->]; auto | intros [[= ->] ->]; auto | discriminate | intros [[=] _]].
Qed.

Lemma rmap_item_at_Ok p s r s' :
  rmap_item_at p s = Ok r s' <-> rmap_items s !! p = Some r /\ s' = s.
Proof.
  unfold rmap_item_at. destruct (rmap_items s !! p); split;
    first [intros [= -> ->]; auto | intros [[= ->] ->]; auto | discriminate | intros [[=] _]].
Qed.

Lemma mm_slot_at_Ok p s m s' :
  mm_slot_at p s = Ok m s' <-> mm_slots s !! p = Some m /\ s' = s.
Proof.
  unfold mm_slot_at. destruct (mm_slots s !! p); split;
    first [intros [= -> ->]; auto | intros [[= ->] ->]; auto | discriminate | intros [[=] _]].
Qed.

Lemma ksm_test_exit_Ok mm s b s' :
  ksm_test_exit mm s = Ok b s' ->
  s' = s /\ exists m, mm_structs s !! mm = Some m /\ b = (mm_users m =? 0).
Proof.
  unfold ksm_test_exit. destruct (mm_structs s !! mm) as [m|]; [|discriminate].
  intros [= <- <-]. eauto.
Qed.

Lemma preserves_stable_node_at P p : preserves P (stable_node_at p).
Proof. intros s n s' HP [_ ->]%stable_node_at_Ok. exact HP. Qed.

Lemma preserves_rmap_item_at P p : preserves P (rmap_item_at p).
Proof. intros s n s' HP [_ ->]%rmap_item_at_Ok. exact HP. Qed.

Lemma preserves_mm_slot_at P p : preserves P (mm_slot_at p).
Proof. intros s n s' HP [_ ->]%mm_slot_at_Ok. exact HP. Qed.

Lemma preserves_ksm_test_exit P mm : preserves P (ksm_test_exit mm).
Proof. intros s n s' HP [-> _]%ksm_test_exit_Ok. exact HP. Qed.

(** ** Frame lemmas

    [P] is a state predicate that survives the assignments listed as
    hypotheses; each lemma below then only depends on the assignments the
    function it is about can make.  The unstable tree root is assigned in
    three ways (erase, link, reset), which are kept apart. *)

Create HintDb frame.

Section Frame.
Variable P : ksm -> Prop.

Hypothesis P_stable_nodes : forall v s, P s -> P (set_stable_nodes v s).
Hypothesis P_rmap_items : forall v s, P s -> P (set_rmap_items v s).
Hypothesis P_mm_slots : forall v s, P s -> P (set_mm_slots v s).
Hypothesis P_next_ptr : forall v s, P s -> P (set_next_ptr v s).
Hypothesis P_root_stable_tree : forall v s, P s -> P (set_root_stable_tree v s).
Hypothesis P_migrate_nodes : forall v s, P s -> P (set_migrate_nodes v s).
Hypothesis P_vips_list : forall v s, P s -> P (set_vips_list v s).
Hypothesis P_ksm_mm_head : forall v s, P s -> P (set_ksm_mm_head v s).
Hypothesis P_ksm_scan_head : forall v s, P s -> P (set_ksm_scan_head v s).
Hypothesis P_ksm_scan_address : forall v s, P s -> P (set_ksm_scan_address v s).
Hypothesis P_ksm_scan_rmap_list : forall v s, P s -> P (set_ksm_scan_rmap_list v s).
Hypothesis P_ksm_scan_mm_slot : forall v s, P s -> P (set_ksm_scan_mm_slot v s).
Hypothesis P_ksm_scan_remove_mm_list : forall v s, P s -> P (set_ksm_scan_remove_mm_list v s).
Hypothesis P_ksm_scan_nr_scannable : forall v s, P s -> P (set_ksm_scan_nr_scannable v s).
Hypothesis P_ksm_scan_nr_frozen : forall v s, P s -> P (set_ksm_scan_nr_frozen v s).
Hypothesis P_ksm_scan_scan_round : forall v s, P s -> P (set_ksm_scan_scan_round v s).
Hypothesis P_ksm_scan_nr_full_scan : forall v s, P s -> P (set_ksm_scan_nr_full_scan v s).
Hypothesis P_ksm_scan_scan_mode : forall v s, P s -> P (set_ksm_scan_scan_mode v s).
Hypothesis P_ksm_pages_shared : forall v s, P s -> P (set_ksm_pages_shared v s).
Hypothesis P_ksm_pages_sharing : forall v s, P s -> P (set_ksm_pages_sharing v s).
Hypothesis P_ksm_pages_unshared : forall v s, P s -> P (set_ksm_pages_unshared v s).
Hypothesis P_ksm_rmap_items : forall v s, P s -> P (set_ksm_rmap_items v s).
Hypothesis P_ksm_stable_node_chains : forall v s, P s -> P (set_ksm_stable_node_chains v s).
Hypothesis P_ksm_stable_node_dups : forall v s, P s -> P (set_ksm_stable_node_dups v s).
Hypothesis P_ksm_max_page_sharing : forall v s, P s -> P (set_ksm_max_page_sharing v s).
Hypothesis P_ksm_stable_node_chains_prune_millisecs : forall v s, P s -> P (set_ksm_stable_node_chains_prune_millisecs v s).
Hypothesis P_ksm_use_zero_pages : forall v s, P s -> P (set_ksm_use_zero_pages v s).
Hypothesis P_zero_checksum : forall v s, P s -> P (set_zero_checksum v s).
Hypothesis P_lksm_max_vips : forall v s, P s -> P (set_lksm_max_vips v s).
Hypothesis P_initial_round : forall v s, P s -> P (set_initial_round v s).
Hypothesis P_ksm_run : forall v s, P s -> P (set_ksm_run v s).
Hypothesis P_ksm_crawl_round : forall v s, P s -> P (set_ksm_crawl_round v s).
Hypothesis P_lksm_nr_merged : forall v s, P s -> P (set_lksm_nr_merged v s).
Hypothesis P_lksm_nr_broken : forall v s, P s -> P (set_lksm_nr_broken v s).
Hypothesis P_lksm_nr_scanned_slot : forall v s, P s -> P (set_lksm_nr_scanned_slot v s).
Hypothesis P_lksm_slot_nr_merged : forall v s, P s -> P (set_lksm_slot_nr_merged v s).
Hypothesis P_lksm_slot_nr_broken : forall v s, P s -> P (set_lksm_slot_nr_broken v s).
Hypothesis P_mem_map : forall v s, P s -> P (set_mem_map v s).
Hypothesis P_page_table : forall v s, P s -> P (set_page_table v s).
Hypothesis P_mm_structs : forall v s, P s -> P (set_mm_structs v s).
Hypothesis P_next_pfn : forall v s, P s -> P (set_next_pfn v s).
Hypothesis P_unstable_erase :
  forall k s, P s -> P (set_root_unstable_tree (rb_erase k (root_unstable_tree s)) s).
Hypothesis P_unstable_link :
  forall k new s, P s -> P (set_root_unstable_tree (rb_link_node k new (root_unstable_tree s)) s).

Ltac frame_leaf :=
  intros;
  repeat match goal with
         | |- P (if ?c then _ else _) => destruct c
         | |- P (match ?c with _ => _ end) => destruct c
         end;
  auto 12.

Ltac frame_step :=
  first
    [ apply preserves_ret | apply preserves_fail | apply preserves_get
    | apply preserves_BUG_ON | apply preserves_stable_node_at
    | apply preserves_rmap_item_at | apply preserves_mm_slot_at
    | apply preserves_ksm_test_exit
    | assumption
    | apply preserves_bind; [ | intros ? ]
    | apply preserves_modify; solve [frame_leaf]
    | match goal with
      | |- preserves _ (match ?x with _ => _ end) => destruct x
      | |- preserves _ (let (_, _) := ?x in _) => destruct x
      end ].

Ltac frame := repeat frame_step.

Lemma preserves_stable_node_update p f : preserves P (stable_node_update p f).
Proof. unfold stable_node_update. frame. Qed.

Lemma preserves_rmap_item_update p f : preserves P (rmap_item_update p f).
Proof. unfold rmap_item_update. frame. Qed.

Lemma preserves_mm_slot_update p f : preserves P (mm_slot_update p f).
Proof. unfold mm_slot_update. frame. Qed.

Hint Resolve preserves_stable_node_update preserves_rmap_item_update
  preserves_mm_slot_update : frame.

Ltac frame' := repeat first [ solve [auto with frame] | frame_step ].

Lemma preserves_stable_node_chain_add_dup dup c :
  preserves P (stable_node_chain_add_dup dup c).
Proof. unfold stable_node_chain_add_dup. frame'. Qed.

Lemma preserves___stable_node_dup_del dup : preserves P (__stable_node_dup_del dup).
Proof. unfold __stable_node_dup_del, hlist_del_dup. frame'. Qed.

Lemma preserves_stable_node_dup_del dup : preserves P (stable_node_dup_del dup).
Proof.
  unfold stable_node_dup_del. pose proof (preserves___stable_node_dup_del dup).
  frame'.
Qed.

Lemma preserves_free_stable_node n : preserves P (free_stable_node n).
Proof. unfold free_stable_node. frame'. Qed.

Hint Resolve preserves_stable_node_chain_add_dup preserves___stable_node_dup_del
  preserves_stable_node_dup_del preserves_free_stable_node : frame.

Lemma preserves_alloc_stable_node e : preserves P (alloc_stable_node e).
Proof. unfold alloc_stable_node. frame'. Qed.
Hint Resolve preserves_alloc_stable_node : frame.

Lemma preserves_alloc_stable_node_chain e dup :
  preserves P (alloc_stable_node_chain e dup).
Proof. unfold alloc_stable_node_chain. frame'. Qed.

Lemma preserves_free_stable_node_chain c : preserves P (free_stable_node_chain c).
Proof. unfold free_stable_node_chain. frame'. Qed.

Lemma preserves_remove_node_from_stable_tree_loop n l :
  preserves P (remove_node_from_stable_tree_loop n l).
Proof. induction l as [|r l IH]; cbn [remove_node_from_stable_tree_loop]; frame'. Qed.
Hint Resolve preserves_alloc_stable_node_chain preserves_free_stable_node_chain
  preserves_remove_node_from_stable_tree_loop : frame.

Lemma preserves_remove_node_from_stable_tree n :
  preserves P (remove_node_from_stable_tree n).
Proof. unfold remove_node_from_stable_tree. frame'. Qed.
Hint Resolve preserves_remove_node_from_stable_tree : frame.

Lemma preserves_get_ksm_page e n flags : preserves P (get_ksm_page e n flags).
Proof. unfold get_ksm_page. frame'. Qed.
Hint Resolve preserves_get_ksm_page : frame.

Lemma preserves_remove_rmap_item_from_tree e r :
  preserves P (remove_rmap_item_from_tree e r).
Proof. unfold remove_rmap_item_from_tree. frame'. Qed.

Lemma preserves_free_rmap_item r : preserves P (free_rmap_item r).
Proof. unfold free_rmap_item. frame'. Qed.
Hint Resolve preserves_remove_rmap_item_from_tree preserves_free_rmap_item : frame.

Lemma preserves_remove_trailing_rmap_items e l :
  preserves P (remove_trailing_rmap_items e l).
Proof. induction l as [|r l IH]; cbn [remove_trailing_rmap_items]; frame'. Qed.

Lemma preserves_stable_tree_append r n b : preserves P (stable_tree_append r n b).
Proof. unfold stable_tree_append. frame'. Qed.
Hint Resolve preserves_remove_trailing_rmap_items preserves_stable_tree_append : frame.
Lemma preserves_find_mergeable_vma mm addr : preserves P (find_mergeable_vma mm addr).
Proof. unfold find_mergeable_vma. frame'. Qed.
Hint Resolve preserves_find_mergeable_vma : frame.

Lemma preserves_do_handle_mm_fault e mm addr : preserves P (do_handle_mm_fault e mm addr).
Proof. unfold do_handle_mm_fault. frame'. Qed.
Hint Resolve preserves_do_handle_mm_fault : frame.

Lemma preserves_break_ksm e mm addr : preserves P (break_ksm e mm addr).
Proof. unfold break_ksm. frame'. Qed.
Hint Resolve preserves_break_ksm : frame.

Lemma preserves_break_cow e r : preserves P (break_cow e r).
Proof. unfold break_cow. frame'. Qed.

Lemma preserves_get_mergeable_page r : preserves P (get_mergeable_page r).
Proof. unfold get_mergeable_page. frame'. Qed.

Lemma preserves_set_page_stable_node pfn n : preserves P (set_page_stable_node pfn n).
Proof. unfold set_page_stable_node. frame'. Qed.

Lemma preserves_write_protect_page e mm addr page :
  preserves P (write_protect_page e mm addr page).
Proof. unfold write_protect_page. frame'. Qed.

Lemma preserves_replace_page mm addr page kpage o :
  preserves P (replace_page mm addr page kpage o).
Proof. unfold replace_page. frame'. Qed.
Hint Resolve preserves_break_cow preserves_get_mergeable_page
  preserves_set_page_stable_node preserves_write_protect_page
  preserves_replace_page : frame.

Lemma preserves_try_to_merge_one_page e mm addr page kpage :
  preserves P (try_to_merge_one_page e mm addr page kpage).
Proof. unfold try_to_merge_one_page. frame'. Qed.
Hint Resolve preserves_try_to_merge_one_page : frame.

Lemma preserves_try_to_merge_with_ksm_page e r page kpage :
  preserves P (try_to_merge_with_ksm_page e r page kpage).
Proof. unfold try_to_merge_with_ksm_page. frame'. Qed.
Hint Resolve preserves_try_to_merge_with_ksm_page : frame.

Lemma preserves_try_to_merge_two_pages e r page tr tp :
  preserves P (try_to_merge_two_pages e r page tr tp).
Proof. unfold try_to_merge_two_pages. frame'. Qed.
Hint Resolve preserves_try_to_merge_two_pages : frame.

Lemma preserves_stable_node_dup_loop e prune dups w :
  preserves P (stable_node_dup_loop e prune dups w).
Proof.
  revert w. induction dups as [|d dups IH]; intros w;
    cbn [stable_node_dup_loop]; frame'.
Qed.
Hint Resolve preserves_stable_node_dup_loop : frame.

Lemma preserves_stable_node_dup e n prune : preserves P (stable_node_dup e n prune).
Proof. unfold stable_node_dup. frame'. Qed.

Lemma preserves_stable_node_dup_any n : preserves P (stable_node_dup_any n).
Proof. unfold stable_node_dup_any. frame'. Qed.
Hint Resolve preserves_stable_node_dup preserves_stable_node_dup_any : frame.

Lemma preserves___stable_node_chain e n prune :
  preserves P (__stable_node_chain e n prune).
Proof. unfold __stable_node_chain. frame'. Qed.
Hint Resolve preserves___stable_node_chain : frame.

Lemma preserves_chain_prune e n : preserves P (chain_prune e n).
Proof. unfold chain_prune. frame'. Qed.

Lemma preserves_chain e n : preserves P (chain e n).
Proof. unfold chain. frame'. Qed.
Hint Resolve preserves_chain_prune preserves_chain : frame.

Lemma preserves_stable_tree_search_out page pn :
  preserves P (stable_tree_search_out page pn).
Proof. unfold stable_tree_search_out. frame'. Qed.
Hint Resolve preserves_stable_tree_search_out : frame.

Lemma preserves_stable_tree_search_chain_append e page pn d a n :
  preserves P (stable_tree_search_chain_append e page pn d a n).
Proof. unfold stable_tree_search_chain_append. frame'. Qed.
Hint Resolve preserves_stable_tree_search_chain_append : frame.

Lemma preserves_stable_tree_search_walk budget e page pn new :
  preserves P (stable_tree_search_walk budget e page pn new).
Proof.
  revert new. induction budget as [|budget IH]; intros new;
    cbn [stable_tree_search_walk]; frame'.
Qed.
Hint Resolve preserves_stable_tree_search_walk : frame.

Lemma preserves_stable_tree_search budget e page :
  preserves P (stable_tree_search budget e page).
Proof. unfold stable_tree_search. frame'. Qed.

Lemma preserves_stable_tree_insert_walk budget e kpage new :
  preserves P (stable_tree_insert_walk budget e kpage new).
Proof.
  revert new. induction budget as [|budget IH]; intros new;
    cbn [stable_tree_insert_walk]; frame'.
Qed.
Hint Resolve preserves_stable_tree_search preserves_stable_tree_insert_walk : frame.

Lemma preserves_stable_tree_insert budget e kpage :
  preserves P (stable_tree_insert budget e kpage).
Proof. unfold stable_tree_insert. frame'. Qed.

Lemma preserves_unstable_tree_walk page t new :
  preserves P (unstable_tree_walk page t new).
Proof.
  revert new. induction t as [|l IHl k r IHr]; intros new;
    cbn [unstable_tree_walk]; frame'.
Qed.
Hint Resolve preserves_stable_tree_insert preserves_unstable_tree_walk : frame.

Lemma preserves_unstable_tree_search_insert r page :
  preserves P (unstable_tree_search_insert r page).
Proof. unfold unstable_tree_search_insert. frame'. Qed.
Hint Resolve preserves_unstable_tree_search_insert : frame.

Lemma preserves_cmp_and_merge_page_tree_item budget e page r tr tp :
  preserves P (cmp_and_merge_page_tree_item budget e page r tr tp).
Proof. unfold cmp_and_merge_page_tree_item. frame'. Qed.
Hint Resolve preserves_cmp_and_merge_page_tree_item : frame.

Lemma preserves_cmp_and_merge_page_unstable budget e page r :
  preserves P (cmp_and_merge_page_unstable budget e page r).
Proof. unfold cmp_and_merge_page_unstable. frame'. Qed.
Hint Resolve preserves_cmp_and_merge_page_unstable : frame.

Lemma preserves_cmp_and_merge_page budget e page r :
  preserves P (cmp_and_merge_page budget e page r).
Proof. unfold cmp_and_merge_page. frame'. Qed.

Lemma preserves_get_next_rmap_item_loop e slot addr l :
  preserves P (get_next_rmap_item_loop e slot addr l).
Proof. induction l as [|r l IH]; cbn [get_next_rmap_item_loop]; frame'. Qed.

Lemma preserves_alloc_rmap_item e : preserves P (alloc_rmap_item e).
Proof. unfold alloc_rmap_item. frame'. Qed.
Hint Resolve preserves_cmp_and_merge_page preserves_get_next_rmap_item_loop
  preserves_alloc_rmap_item : frame.

Lemma preserves_get_next_rmap_item e slot pos addr :
  preserves P (get_next_rmap_item e slot pos addr).
Proof. unfold get_next_rmap_item. frame'. Qed.

Lemma preserves_lksm_remove_mm_slot slot : preserves P (lksm_remove_mm_slot slot).
Proof. unfold lksm_remove_mm_slot. frame'. Qed.
Hint Resolve preserves_get_next_rmap_item preserves_lksm_remove_mm_slot : frame.

Lemma preserves_lksm_get_unscanned_mm_slot_loop l :
  preserves P (lksm_get_unscanned_mm_slot_loop l).
Proof. induction l as [|x l IH]; cbn [lksm_get_unscanned_mm_slot_loop]; frame'. Qed.
Hint Resolve preserves_lksm_get_unscanned_mm_slot_loop : frame.

Lemma preserves_lksm_get_unscanned_mm_slot slot :
  preserves P (lksm_get_unscanned_mm_slot slot).
Proof. unfold lksm_get_unscanned_mm_slot. frame'. Qed.

Lemma preserves_lksm_insert_mm_slot_ordered slot :
  preserves P (lksm_insert_mm_slot_ordered slot).
Proof. unfold lksm_insert_mm_slot_ordered. frame'. Qed.

Lemma preserves_lksm_account_mm_slot_nr_merge slot n :
  preserves P (lksm_account_mm_slot_nr_merge slot n).
Proof. unfold lksm_account_mm_slot_nr_merge. frame'. Qed.
Hint Resolve preserves_lksm_get_unscanned_mm_slot preserves_lksm_insert_mm_slot_ordered
  preserves_lksm_account_mm_slot_nr_merge : frame.

Lemma preserves___scan_next_rmap_item_pages n e mm slot vma :
  preserves P (__scan_next_rmap_item_pages n e mm slot vma).
Proof. induction n as [|n IH]; cbn [__scan_next_rmap_item_pages]; frame'. Qed.
Hint Resolve preserves___scan_next_rmap_item_pages : frame.

Lemma preserves___scan_next_rmap_item_vmas e mm slot vmas :
  preserves P (__scan_next_rmap_item_vmas e mm slot vmas).
Proof. induction vmas as [|v vmas IH]; cbn [__scan_next_rmap_item_vmas]; frame'. Qed.
Hint Resolve preserves___scan_next_rmap_item_vmas : frame.

Lemma preserves___scan_next_rmap_item e mm slot :
  preserves P (__scan_next_rmap_item e mm slot).
Proof. unfold __scan_next_rmap_item. frame'. Qed.
Hint Resolve preserves___scan_next_rmap_item : frame.

Lemma preserves_scan_one_mm_slot_scanned e slot m :
  preserves P (scan_one_mm_slot_scanned e slot m).
Proof. unfold scan_one_mm_slot_scanned. frame'. Qed.
Hint Resolve preserves_scan_one_mm_slot_scanned : frame.

Lemma preserves_scan_one_mm_slot e slot : preserves P (scan_one_mm_slot e slot).
Proof. unfold scan_one_mm_slot. frame'. Qed.
Hint Resolve preserves_scan_one_mm_slot : frame.

Lemma preserves_scan_mm_slots budget e slot restart :
  preserves P (scan_mm_slots budget e slot restart).
Proof.
  revert slot restart. induction budget as [|budget IH]; intros slot restart;
    cbn [scan_mm_slots]; frame'.
Qed.
End Frame.

(** ** The unstable tree at the start of a round (C7) *)

Definition unstable_tree_empty_in_round (c : Z) (s : ksm) : Prop :=
  root_unstable_tree s = RB_ROOT /\ ksm_scan_scan_round s = c.

Ltac frame_trivial :=
  intros; cbn in *;
  repeat match goal with
         | H : _ /\ _ |- _ => destruct H
         | H : root_unstable_tree _ = RB_ROOT |- _ => rewrite H in *; clear H
         end;
  repeat split; cbn; auto; congruence.

Lemma scan_mm_slots_keeps_empty_unstable_tree budget e slot restart c :
  preserves (unstable_tree_empty_in_round c) (scan_mm_slots budget e slot restart).
Proof. apply preserves_scan_mm_slots; unfold unstable_tree_empty_in_round; frame_trivial. Qed.

Lemma scan_mm_slots_keeps_round budget e slot restart c :
  preserves (fun s => ksm_scan_scan_round s = c) (scan_mm_slots budget e slot restart).
Proof. apply preserves_scan_mm_slots; frame_trivial. Qed.

Lemma lksm_get_unscanned_mm_slot_keeps_empty_unstable_tree slot c :
  preserves (unstable_tree_empty_in_round c) (lksm_get_unscanned_mm_slot slot).
Proof.
  apply preserves_lksm_get_unscanned_mm_slot; unfold unstable_tree_empty_in_round;
    frame_trivial.
Qed.

Lemma lksm_get_unscanned_mm_slot_keeps_round slot c :
  preserves (fun s => ksm_scan_scan_round s = c) (lksm_get_unscanned_mm_slot slot).
Proof. apply preserves_lksm_get_unscanned_mm_slot; frame_trivial. Qed.

Lemma mm_slot_update_keeps_empty_unstable_tree p f c :
  preserves (unstable_tree_empty_in_round c) (mm_slot_update p f).
Proof. apply preserves_mm_slot_update; unfold unstable_tree_empty_in_round; frame_trivial. Qed.

Lemma mm_slot_update_keeps_round p f c :
  preserves (fun s => ksm_scan_scan_round s = c) (mm_slot_update p f).
Proof. apply preserves_mm_slot_update; frame_trivial. Qed.

(** After the round check, whatever the rest of [scan_get_next_rmap_item]
    does keeps a state predicate that the pieces of the rest keep. *)
Lemma scan_after_round_check budget e (Q : ksm -> Prop) s0 r s' :
  (forall slot, preserves Q (lksm_get_unscanned_mm_slot slot)) ->
  (forall p f, preserves Q (mm_slot_update p f)) ->
  (forall slot restart, preserves Q (scan_mm_slots budget e slot restart)) ->
  (forall v s, Q s -> Q (set_ksm_scan_mm_slot v s)) ->
  Q s0 ->
  (do slot <- lksm_get_unscanned_mm_slot KSM_SCAN_HEAD;
   modify (set_ksm_scan_mm_slot slot);;
   match slot with
   | SLOT p => (mm_slot_update p (ms_set_elapsed (jiffies e));;
                scan_mm_slots budget e p true)
   | _ => ret None
   end)%ksm s0 = Ok r s' ->
  Q s'.
Proof.
  intros Hget Hupd Hscan Hset HQ Hrun.
  apply bind_Ok in Hrun as (slot & s1 & H1 & Hrun).
  apply bind_Ok in Hrun as ([] & s2 & H2%modify_Ok & Hrun). subst s2.
  assert (HQ2 : Q (set_ksm_scan_mm_slot slot s1)) by (apply Hset; eapply Hget; eauto).
  destruct slot as [| |p].
  - apply ret_Ok in Hrun as [_ <-]. exact HQ2.
  - apply ret_Ok in Hrun as [_ <-]. exact HQ2.
  - apply bind_Ok in Hrun as ([] & s3 & H3 & Hrun).
    eapply Hscan; [|exact Hrun]. eapply Hupd; eauto.
Qed.

(** C7.  Whenever a call of [scan_get_next_rmap_item] moves the scan
    cursor's round number, the cursor stood at the head of the scan list with
    its round number behind the crawler's, the number is now the crawler's,
    and the unstable tree is empty when the call returns: it was reset before
    the first slot of the round was picked, and nothing was put into it while
    the call walked the slots. *)
Theorem scan_round_entry_resets_unstable_tree budget e s r s' :
  scan_get_next_rmap_item budget e s = Ok r s' ->
  ksm_scan_scan_round s' <> ksm_scan_scan_round s ->
  ksm_scan_mm_slot s = KSM_SCAN_HEAD /\
  ksm_scan_scan_round s < ksm_crawl_round s /\
  ksm_scan_scan_round s' = ksm_crawl_round s /\
  root_unstable_tree (scan_enter_round s) = RB_ROOT /\
  root_unstable_tree s' = RB_ROOT.
Proof.
  unfold scan_get_next_rmap_item. intros Hrun Hmoved.
  apply bind_Ok in Hrun as (s0 & s1 & [-> ->]%get_Ok & Hrun).
  destruct (ksm_scan_head s) as [|x l].
  { apply ret_Ok in Hrun as [_ <-]. congruence. }
  destruct (ksm_scan_mm_slot s) as [| |p] eqn:Hcur.
  - apply bind_Ok in Hrun as ([] & s1 & ->%modify_Ok & Hrun).
    unfold scan_enter_round in *.
    destruct (ksm_scan_scan_round s <? ksm_crawl_round s) eqn:Hlt.
    + apply Z.ltb_lt in Hlt.
      assert (HP : unstable_tree_empty_in_round (ksm_crawl_round s) s').
      { eapply (scan_after_round_check budget e
                  (unstable_tree_empty_in_round (ksm_crawl_round s)));
          [ intros; apply lksm_get_unscanned_mm_slot_keeps_empty_unstable_tree
          | intros; apply mm_slot_update_keeps_empty_unstable_tree
          | intros; apply scan_mm_slots_keeps_empty_unstable_tree
          | unfold unstable_tree_empty_in_round; frame_trivial
          | | exact Hrun ].
        split; reflexivity. }
      destruct HP as [Ht Hr]. auto.
    + exfalso. apply Hmoved.
      eapply (scan_after_round_check budget e
                (fun s0 => ksm_scan_scan_round s0 = ksm_scan_scan_round s));
        [ intros; apply lksm_get_unscanned_mm_slot_keeps_round
        | intros; apply mm_slot_update_keeps_round
        | intros; apply scan_mm_slots_keeps_round
        | frame_trivial
        | | exact Hrun ].
      reflexivity.
  - apply fail_Ok in Hrun as [].
  - exfalso. apply Hmoved.
    eapply (scan_mm_slots_keeps_round budget e p false (ksm_scan_scan_round s));
      [|exact Hrun]. reflexivity.
Qed.

(** The first call of a round on a machine whose unstable tree still holds
    an entry of the round before. *)
Lemma scan_round_entry_resets_unstable_tree_witness :
  root_unstable_tree two_owners_leftover <> RB_ROOT /\
  root_unstable_tree
    (final_state ksm_init (scan_get_next_rmap_item 10 quiet two_owners_leftover))
  = RB_ROOT.
Proof.
  split; [discriminate|].
  refine (proj2 (proj2 (proj2 (proj2
    (scan_round_entry_resets_unstable_tree 10 quiet two_owners_leftover
       (run_value None (scan_get_next_rmap_item 10 quiet two_owners_leftover))
       (final_state ksm_init (scan_get_next_rmap_item 10 quiet two_owners_leftover))
       _ _))))).
  - vm_compute. reflexivity.
  - vm_compute. lia.
Defined.

(** ** A vanished candidate in the unstable tree (C9) *)

Lemma unstable_tree_walk_vanished s page t new :
  walk_meets_vanished s page t ->
  unstable_tree_walk page t new s = Ok WALK_GIVE_UP s.
Proof.
  intros H. revert new.
  induction H as [l k r Hk | l k r tp Hk Hne Hlt _ IH | l k r tp Hk Hne Hgt _ IH];
    intros new; cbn [unstable_tree_walk]; unfold bind; rewrite Hk.
  - reflexivity.
  - apply Z.eqb_neq in Hne. rewrite Hne. cbn [get].
    apply Z.ltb_lt in Hlt. rewrite Hlt. apply IH.
  - apply Z.eqb_neq in Hne. rewrite Hne. cbn [get].
    assert ((memcmp_pages s page tp <? 0) = false) as -> by (apply Z.ltb_ge; lia).
    apply Z.ltb_lt in Hgt. rewrite Hgt. apply IH.
Qed.

(** C9.  If the walk of [unstable_tree_search_insert] comes to a candidate
    whose page cannot be read, the search returns no match and leaves the
    whole state as it was: the querying rmap_item is not inserted, no flag
    and no counter changes, and the tree is not repaired. *)
Theorem unstable_search_gives_up_on_vanished_candidate s rmap_item page :
  walk_meets_vanished s page (root_unstable_tree s) ->
  unstable_tree_search_insert rmap_item page s = Ok None s.
Proof.
  intros H. unfold unstable_tree_search_insert, bind. cbn [get].
  rewrite (unstable_tree_walk_vanished s page _ [] H). reflexivity.
Qed.

Lemma unstable_search_gives_up_on_vanished_candidate_witness :
  unstable_tree_search_insert 1001%nat 11 vanished_candidate = Ok None vanished_candidate.
Proof.
  apply (unstable_search_gives_up_on_vanished_candidate vanished_candidate 1001%nat 11).
  apply vanished_here. vm_compute. reflexivity.
Defined.

(** ** Ranking owners and drawing vips (C8) *)

Lemma wrap_int_small z : - 2 ^ 31 <= z < 2 ^ 31 -> wrap_int z = z.
Proof. intros H. unfold wrap_int. rewrite Z.mod_small; lia. Qed.

Lemma wrap_int_add_l a b : wrap_int (wrap_int a + b) = wrap_int (a + b).
Proof.
  unfold wrap_int.
  replace ((a + 2 ^ 31) mod 2 ^ 32 - 2 ^ 31 + b + 2 ^ 31)
    with ((a + 2 ^ 31) mod 2 ^ 32 + b) by lia.
  rewrite Zplus_mod_idemp_l. f_equal. f_equal. lia.
Qed.

Lemma sum_merge_win_3 a b c : sum_merge_win [a; b; c] MERGE_WIN = wrap_int (a + b + c).
Proof.
  unfold sum_merge_win, MERGE_WIN.
  change (Z.to_nat 3) with 3%nat. cbn [take fold_left].
  rewrite (wrap_int_add_l (0 + a) b), (wrap_int_add_l (0 + a + b) c).
  reflexivity.
Qed.

Lemma insert_walk_prefix slots v t new :
  lksm_insert_mm_slot_ordered_walk slots v t new
  = (fun p => new ++ p) <$> lksm_insert_mm_slot_ordered_walk slots v t [].
Proof.
  revert new. induction t as [|l IHl x r IHr]; intros new;
    cbn [lksm_insert_mm_slot_ordered_walk].
  - cbn. by rewrite app_nil_r.
  - destruct (slots !! x) as [m|]; [|reflexivity].
    destruct (ms_nr_merged m <? v).
    + rewrite (IHl (new ++ [go_left])), (IHl ([] ++ [go_left])).
      destruct (lksm_insert_mm_slot_ordered_walk slots v l []); cbn; [|reflexivity].
      by rewrite <- app_assoc.
    + rewrite (IHr (new ++ [go_right])), (IHr ([] ++ [go_right])).
      destruct (lksm_insert_mm_slot_ordered_walk slots v r []); cbn; [|reflexivity].
      by rewrite <- app_assoc.
Qed.

(** Where the walk hangs the slot: behind every entry whose value is at
    least the slot's, ahead of every entry whose value is smaller. *)
Lemma insert_walk_inorder slots k v t p :
  let val x := match slots !! x with Some m => ms_nr_merged m | None => 0 end in
  StronglySorted (fun x y => val y <= val x) (rb_inorder t) ->
  lksm_insert_mm_slot_ordered_walk slots v t [] = Some p ->
  exists l1 l2,
    rb_inorder t = l1 ++ l2 /\
    rb_inorder (rb_link_node k p t) = l1 ++ k :: l2 /\
    (forall x, x ∈ l1 -> v <= val x) /\
    (forall x, x ∈ l2 -> val x < v).
Proof.
  intros val. revert p. induction t as [|l IHl x r IHr]; intros p Hs Hw.
  - cbn in Hw. injection Hw as <-. exists [], []. cbn.
    repeat split; intros y Hy; by apply elem_of_nil in Hy.
  - cbn [lksm_insert_mm_slot_ordered_walk] in Hw.
    cbn [rb_inorder] in Hs.
    apply StronglySorted_app in Hs as (Hlr & Hl & Hr).
    apply StronglySorted_inv in Hr as [Hr Hxr].
    rewrite Forall_forall in Hxr.
    assert (Hlx : forall y, y ∈ rb_inorder l -> val x <= val y).
    { intros y Hy. apply (Hlr y x Hy). by left. }
    destruct (slots !! x) as [m|] eqn:Hx; [|discriminate].
    assert (Hvx : val x = ms_nr_merged m) by (unfold val; by rewrite Hx).
    destruct (ms_nr_merged m <? v) eqn:Hlt.
    + apply Z.ltb_lt in Hlt.
      rewrite insert_walk_prefix in Hw.
      destruct (lksm_insert_mm_slot_ordered_walk slots v l []) as [q|] eqn:Hq;
        [|discriminate].
      cbn in Hw. injection Hw as <-.
      destruct (IHl q Hl eq_refl) as (l1 & l2 & E1 & E2 & H1 & H2).
      exists l1, (l2 ++ x :: rb_inorder r). cbn [app rb_link_node rb_inorder].
      rewrite E1, E2. repeat split.
      * by rewrite <- app_assoc.
      * by rewrite <- app_assoc.
      * exact H1.
      * intros y [Hy|Hy]%elem_of_app; [by apply H2|].
        apply elem_of_cons in Hy as [->|Hy]; [lia|].
        specialize (Hxr y Hy). cbn in Hxr. lia.
    + apply Z.ltb_ge in Hlt.
      rewrite insert_walk_prefix in Hw.
      destruct (lksm_insert_mm_slot_ordered_walk slots v r []) as [q|] eqn:Hq;
        [|discriminate].
      cbn in Hw. injection Hw as <-.
      destruct (IHr q Hr eq_refl) as (l1 & l2 & E1 & E2 & H1 & H2).
      exists (rb_inorder l ++ x :: l1), l2. cbn [app rb_link_node rb_inorder].
      rewrite E1, E2. repeat split.
      * by rewrite <- app_assoc.
      * by rewrite <- app_assoc.
      * intros y [Hy|Hy]%elem_of_app.
        -- specialize (Hlx y Hy). lia.
        -- apply elem_of_cons in Hy as [->|Hy]; [lia|]. by apply H1.
      * exact H2.
Qed.

Lemma insert_walk_total slots v t new :
  (forall x, x ∈ rb_inorder t -> is_Some (slots !! x)) ->
  is_Some (lksm_insert_mm_slot_ordered_walk slots v t new).
Proof.
  revert new. induction t as [|l IHl x r IHr]; intros new Hall;
    cbn [lksm_insert_mm_slot_ordered_walk].
  - eauto.
  - cbn [rb_inorder] in Hall.
    destruct (Hall x) as [m Hm]; [apply elem_of_app; right; by left|].
    rewrite Hm. destruct (ms_nr_merged m <? v).
    + apply IHl. intros y Hy. apply Hall, elem_of_app. by left.
    + apply IHr. intros y Hy. apply Hall, elem_of_app. right. by right.
Qed.

Lemma mm_slot_update_Ok p f s a s' :
  mm_slot_update p f s = Ok a s' <->
  exists m, mm_slots s !! p = Some m /\ s' = set_mm_slots (<[p := f m]> (mm_slots s)) s.
Proof.
  unfold mm_slot_update. rewrite bind_Ok. split.
  - intros (m & s1 & [Hm ->]%mm_slot_at_Ok & ->%modify_Ok). eauto.
  - intros (m & Hm & ->). exists m, s. split; [by apply mm_slot_at_Ok|by apply modify_Ok].
Qed.

(** Ranking a slot: it is hung behind the entries of at least its value and
    ahead of the smaller ones, and the tree stays ranked. *)
Lemma lksm_insert_mm_slot_ordered_spec s slot m :
  vips_ranked s ->
  mm_slots s !! slot = Some m ->
  exists s' l1 l2,
    lksm_insert_mm_slot_ordered slot s = Ok tt s' /\
    rb_inorder (vips_list s) = l1 ++ l2 /\
    rb_inorder (vips_list s') = l1 ++ slot :: l2 /\
    (forall x, x ∈ l1 -> ms_nr_merged m <= slot_value s x) /\
    (forall x, x ∈ l2 -> slot_value s x < ms_nr_merged m) /\
    (forall x, slot_value s' x = slot_value s x) /\
    vips_ranked s'.
Proof.
  intros [Hall Hsorted] Hm.
  destruct (insert_walk_total (mm_slots s) (ms_nr_merged m) (vips_list s) [] Hall)
    as [p Hp].
  destruct (insert_walk_inorder (mm_slots s) slot (ms_nr_merged m) (vips_list s) p
              Hsorted Hp) as (l1 & l2 & E1 & E2 & H1 & H2).
  set (s' := set_mm_slots (<[slot := ms_set_ordered true m]> (mm_slots s))
               (set_vips_list (rb_link_node slot p (vips_list s)) s)).
  assert (Hval : forall x, slot_value s' x = slot_value s x).
  { intros x. unfold slot_value, s'. cbn.
    destruct (decide (x = slot)) as [->|Hne].
    - by rewrite lookup_insert_eq, Hm.
    - by rewrite lookup_insert_ne. }
  exists s', l1, l2. repeat split; try assumption.
  - unfold lksm_insert_mm_slot_ordered.
    apply bind_Ok. exists m, s. split; [by apply mm_slot_at_Ok|].
    apply bind_Ok. exists s, s. split; [reflexivity|]. rewrite Hp.
    apply bind_Ok. eexists tt, _. split; [reflexivity|].
    apply mm_slot_update_Ok. exists m. split; [exact Hm|reflexivity].
  - intros x. unfold s'. cbn. rewrite E2.
    intros Hx. destruct (decide (x = slot)) as [->|Hne].
    + rewrite lookup_insert_eq. eauto.
    + rewrite lookup_insert_ne by done. apply Hall. rewrite E1.
      apply elem_of_app in Hx as [Hx|Hx]; apply elem_of_app; [by left|right].
      apply elem_of_cons in Hx as [->|Hx]; [done|exact Hx].
  - assert (Hs' : rb_inorder (vips_list s') = l1 ++ slot :: l2) by exact E2.
    rewrite Hs'. rewrite E1 in Hsorted.
    apply StronglySorted_app in Hsorted as (Hlr & Hl1 & Hl2).
    assert (Hslot : slot_value s slot = ms_nr_merged m)
      by (unfold slot_value; by rewrite Hm).
    apply StronglySorted_app_2.
    + intros x1 x2 Hx1 Hx2. rewrite !Hval.
      apply elem_of_cons in Hx2 as [->|Hx2].
      * rewrite Hslot. by apply H1.
      * by apply Hlr.
    + eapply StronglySorted_ind with (l := l1) (R := fun x y => slot_value s y <= slot_value s x);
        [constructor| |exact Hl1].
      intros a l _ IH Ha. constructor; [exact IH|].
      eapply Forall_impl; [exact Ha|]. intros y. cbn. by rewrite !Hval.
    + constructor.
      * eapply StronglySorted_ind with (l := l2) (R := fun x y => slot_value s y <= slot_value s x);
          [constructor| |exact Hl2].
        intros a l _ IH Ha. constructor; [exact IH|].
        eapply Forall_impl; [exact Ha|]. intros y. cbn. by rewrite !Hval.
      * apply Forall_forall. intros y Hy. rewrite !Hval, Hslot.
        specialize (H2 y Hy). unfold slot_value. lia.
Qed.

Lemma wait_while_offlining_Ok s a s' :
  wait_while_offlining s = Ok a s' ->
  s' = s /\ test_bits (ksm_run s) KSM_RUN_OFFLINE = false.
Proof.
  unfold wait_while_offlining. intros H.
  apply bind_Ok in H as (s0 & s1 & [-> ->]%get_Ok & H).
  destruct (test_bits (ksm_run s) KSM_RUN_OFFLINE); [discriminate H|].
  by apply ret_Ok in H as [_ <-].
Qed.

Lemma stable_node_update_Ok p f s a s' :
  stable_node_update p f s = Ok a s' <->
  exists n, stable_nodes s !! p = Some n /\
            s' = set_stable_nodes (<[p := f n]> (stable_nodes s)) s.
Proof.
  unfold stable_node_update. rewrite bind_Ok. split.
  - intros (m & s1 & [Hm ->]%stable_node_at_Ok & ->%modify_Ok). eauto.
  - intros (m & Hm & ->). exists m, s. split; [by apply stable_node_at_Ok|by apply modify_Ok].
Qed.

Lemma rmap_item_update_Ok p f s a s' :
  rmap_item_update p f s = Ok a s' <->
  exists r, rmap_items s !! p = Some r /\
            s' = set_rmap_items (<[p := f r]> (rmap_items s)) s.
Proof.
  unfold rmap_item_update. rewrite bind_Ok. split.
  - intros (m & s1 & [Hm ->]%rmap_item_at_Ok & ->%modify_Ok). eauto.
  - intros (m & Hm & ->). exists m, s. split; [by apply rmap_item_at_Ok|by apply modify_Ok].
Qed.

(** Taking a run that returned apart, one [bind] at a time. *)
Ltac minv_leaf H :=
  first
    [ apply get_Ok in H as [-> ->]
    | apply modify_Ok in H as ->
    | apply ret_Ok in H as [<- <-]
    | apply ret_Ok in H as [-> <-]
    | apply ret_Ok in H as [? <-]
    | apply fail_Ok in H as []
    | apply BUG_ON_Ok in H as [H ->]
    | apply stable_node_at_Ok in H as [H ->]
    | apply rmap_item_at_Ok in H as [H ->]
    | apply mm_slot_at_Ok in H as [H ->]
    | let m := fresh "m" in apply mm_slot_update_Ok in H as (m & H & ->)
    | let m := fresh "n" in apply stable_node_update_Ok in H as (m & H & ->)
    | let m := fresh "r" in apply rmap_item_update_Ok in H as (m & H & ->)
    | let m := fresh "m" in let E := fresh "E" in
      apply ksm_test_exit_Ok in H as (-> & m & H & E)
    | idtac ].

Ltac minv H :=
  repeat
    match type of H with
    | bind _ _ _ = Ok _ _ =>
        let a := fresh "a" in
        let s1 := fresh "s" in
        let H1 := fresh "H" in
        apply bind_Ok in H as (a & s1 & H1 & H);
        minv_leaf H1
    end;
  minv_leaf H.

Lemma partial_scan_loop_spec e na nf nodes :
  forall n0 rl0 s n rl s',
    0 <= na -> 0 <= nf -> 0 <= n0 ->
    n0 + na + nf + Z.of_nat (length nodes) <= INT_MAX ->
    lksm_prepare_partial_scan_loop e na nf nodes n0 rl0 s = Ok (Some (n, rl)) s' ->
    exists picked,
      rl = rl0 ++ picked /\
      picked `sublist_of` nodes /\
      n = n0 + Z.of_nat (length picked) /\
      (picked <> [] -> n + na + nf <= lksm_max_vips s) /\
      lksm_max_vips s' = lksm_max_vips s /\
      ksm_scan_head s' `sublist_of` ksm_scan_head s /\
      ksm_crawl_round s' = ksm_crawl_round s /\
      ksm_scan_scan_mode s' = ksm_scan_scan_mode s.
Proof.
  induction nodes as [|x nodes IH]; intros n0 rl0 s n rl s' Hna Hnf Hn0 Hrange Hrun;
    cbn [lksm_prepare_partial_scan_loop] in Hrun.
  - apply ret_Ok in Hrun as [[= <- <-] <-]. exists []. rewrite app_nil_r.
    repeat split; cbn; try lia; try done.
  - cbn [length] in Hrange.
    apply bind_Ok in Hrun as (s0 & s1 & [-> ->]%get_Ok & Hrun).
    assert (Hstop : forall n' rl' s1, ret (Some (n0, rl0)) s = Ok (Some (n', rl')) s1 ->
              exists picked,
                rl' = rl0 ++ picked /\ picked `sublist_of` x :: nodes /\
                n' = n0 + Z.of_nat (length picked) /\
                (picked <> [] -> n' + na + nf <= lksm_max_vips s) /\
                lksm_max_vips s1 = lksm_max_vips s /\
                ksm_scan_head s1 `sublist_of` ksm_scan_head s /\
                ksm_crawl_round s1 = ksm_crawl_round s /\
                ksm_scan_scan_mode s1 = ksm_scan_scan_mode s).
    { intros n' rl' s1 [[= <- <-] <-]%ret_Ok. exists []. rewrite app_nil_r.
      repeat split; cbn; try lia; try done. apply sublist_nil_l. }
    destruct (wrap_int (wrap_int (n0 + na) + nf) <? lksm_max_vips s) eqn:Hguard;
      cbn [negb] in Hrun; [|by apply Hstop].
    rewrite wrap_int_add_l, wrap_int_small in Hguard by (unfold INT_MAX in *; lia).
    apply Z.ltb_lt in Hguard.
    destruct (test_bits (ksm_run s) KSM_RUN_UNMERGE); [by apply ret_Ok in Hrun as [[=] _]|].
    apply bind_Ok in Hrun as (m & s1 & [Hm ->]%mm_slot_at_Ok & Hrun).
    apply bind_Ok in Hrun as (ex & s1 & Hex & Hrun).
    apply ksm_test_exit_Ok in Hex as (-> & mm & Hmm & ->).
    assert (Hskip : forall s1,
              lksm_max_vips s1 = lksm_max_vips s ->
              ksm_scan_head s1 `sublist_of` ksm_scan_head s ->
              ksm_crawl_round s1 = ksm_crawl_round s ->
              ksm_scan_scan_mode s1 = ksm_scan_scan_mode s ->
              lksm_prepare_partial_scan_loop e na nf nodes n0 rl0 s1 = Ok (Some (n, rl)) s' ->
              exists picked,
                rl = rl0 ++ picked /\ picked `sublist_of` x :: nodes /\
                n = n0 + Z.of_nat (length picked) /\
                (picked <> [] -> n + na + nf <= lksm_max_vips s) /\
                lksm_max_vips s' = lksm_max_vips s /\
                ksm_scan_head s' `sublist_of` ksm_scan_head s /\
                ksm_crawl_round s' = ksm_crawl_round s /\
                ksm_scan_scan_mode s' = ksm_scan_scan_mode s).
    { intros s1 E1 E2 E3 E4 Hrec.
      destruct (IH n0 rl0 s1 n rl s' Hna Hnf Hn0 ltac:(lia) Hrec)
        as (picked & -> & Hsub & -> & Hb & Hmax & Hhead & Hcr & Hmode).
      exists picked. repeat split; try congruence.
      - by apply sublist_cons.
      - rewrite <- E1. exact Hb.
      - etrans; eauto. }
    destruct (mm_users mm =? 0).
    + (* the owner has exited: it leaves the lists, and the walk ends or goes on *)
      apply bind_Ok in Hrun as ([] & s1 & H1 & Hrun).
      apply bind_Ok in Hrun as ([] & s2 & H2 & Hrun).
      assert (E : lksm_max_vips s2 = lksm_max_vips s /\
                  ksm_scan_head s2 `sublist_of` ksm_scan_head s /\
                  ksm_crawl_round s2 = ksm_crawl_round s /\
                  ksm_scan_scan_mode s2 = ksm_scan_scan_mode s).
      { assert (E1 : lksm_max_vips s1 = lksm_max_vips s /\
                     ksm_scan_head s1 = ksm_scan_head s /\
                     ksm_crawl_round s1 = ksm_crawl_round s /\
                     ksm_scan_scan_mode s1 = ksm_scan_scan_mode s).
        { destruct (negb (lksm_test_mm_state m KSM_MM_SCANNED)); minv H1; auto. }
        destruct E1 as (<- & <- & <- & <-).
        unfold lksm_remove_mm_slot in H2. minv H2.
        destruct (ms_ordered a); minv H2; cbn; repeat split; auto;
          apply sublist_filter. }
      destruct E as (E1 & E2 & E3 & E4).
      destruct (ms_ordered m).
      * apply ret_Ok in Hrun as [[= <- <-] <-]. exists []. rewrite app_nil_r.
        repeat split; cbn; try lia; try done. apply sublist_nil_l.
      * by apply Hskip with s2.
    + destruct (negb (lksm_test_mm_state m KSM_MM_LISTED)); [by apply Hskip with s|].
      destruct (ms_fault_cnt m =? owner_faults e (ms_mm m)); [by apply Hskip with s|].
      (* the owner is taken *)
      minv Hrun. cbn in *.
      match type of Hrun with
      | lksm_prepare_partial_scan_loop _ _ _ _ _ _ ?s1 = _ =>
          destruct (IH (wrap_int (n0 + 1)) (rl0 ++ [x]) s1 n rl s' Hna Hnf)
            as (picked & -> & Hsub & -> & Hb & Hmax & Hhead & Hcr & Hmode);
            [rewrite wrap_int_small by (unfold INT_MAX in *; lia); lia
            |rewrite wrap_int_small by (unfold INT_MAX in *; lia); lia
            |exact Hrun|]
      end.
      cbn in *. rewrite wrap_int_small by (unfold INT_MAX in *; lia).
      exists (x :: picked). rewrite <- app_assoc. cbn [app length].
      repeat split; auto.
      * by apply sublist_skip.
      * lia.
      * intros _. destruct picked as [|y picked]; [cbn; lia|].
        rewrite wrap_int_small in Hb by (unfold INT_MAX in *; lia).
        specialize (Hb ltac:(done)). cbn [length] in *. lia.
      * etrans; [exact Hhead|]. apply sublist_filter.
Qed.

Lemma partial_scan_loop_abort e na nf nodes :
  forall n0 rl0 s s',
    lksm_prepare_partial_scan_loop e na nf nodes n0 rl0 s = Ok None s' ->
    test_bits (ksm_run s) KSM_RUN_UNMERGE = true.
Proof.
  induction nodes as [|x nodes IH]; intros n0 rl0 s s' Hrun;
    cbn [lksm_prepare_partial_scan_loop] in Hrun.
  - by apply ret_Ok in Hrun as [[=] _].
  - apply bind_Ok in Hrun as (s0 & s1 & [-> ->]%get_Ok & Hrun).
    destruct (negb _); [by apply ret_Ok in Hrun as [[=] _]|].
    destruct (test_bits (ksm_run s) KSM_RUN_UNMERGE) eqn:Hbit; [done|].
    apply bind_Ok in Hrun as (m & s1 & [Hm ->]%mm_slot_at_Ok & Hrun).
    apply bind_Ok in Hrun as (ex & s1 & Hex & Hrun).
    apply ksm_test_exit_Ok in Hex as (-> & mm & Hmm & ->).
    destruct (mm_users mm =? 0).
    + apply bind_Ok in Hrun as ([] & s1 & H1 & Hrun).
      apply bind_Ok in Hrun as ([] & s2 & H2 & Hrun).
      assert (E : ksm_run s2 = ksm_run s).
      { assert (E1 : ksm_run s1 = ksm_run s).
        { destruct (negb (lksm_test_mm_state m KSM_MM_SCANNED)); minv H1; auto. }
        rewrite <- E1. unfold lksm_remove_mm_slot in H2. minv H2.
        destruct (ms_ordered a); minv H2; reflexivity. }
      destruct (ms_ordered m); [by apply ret_Ok in Hrun as [[=] _]|].
      apply IH in Hrun. congruence.
    + destruct (negb (lksm_test_mm_state m KSM_MM_LISTED));
        [apply IH in Hrun; congruence|].
      destruct (ms_fault_cnt m =? owner_faults e (ms_mm m));
        [apply IH in Hrun; congruence|].
      minv Hrun. apply IH in Hrun. cbn in Hrun. congruence.
Qed.

Lemma lksm_account_mm_slot_nr_merge_Ok slot n s v s' :
  lksm_account_mm_slot_nr_merge slot n s = Ok v s' ->
  exists m m',
    mm_slots s !! slot = Some m /\
    mm_slots s' !! slot = Some m' /\
    s' = set_mm_slots (<[slot := m']> (mm_slots s)) s /\
    ms_nr_merged_win m' = <[Z.to_nat (ms_merge_idx m) := n]> (ms_nr_merged_win m) /\
    ms_merge_idx m' = (if wrap_short (ms_merge_idx m + 1) =? MERGE_WIN
                       then 0 else wrap_short (ms_merge_idx m + 1)) /\
    ms_nr_merged m' = sum_merge_win (ms_nr_merged_win m') MERGE_WIN /\
    v = ms_nr_merged m'.
Proof.
  unfold lksm_account_mm_slot_nr_merge. intros Hrun. minv Hrun.
  cbn in H0. rewrite lookup_insert_eq in H0. injection H0 as <-.
  eexists m, _. split; [exact H|]. split; [cbn; apply lookup_insert_eq|].
  split; [reflexivity|]. cbn.
  destruct (wrap_short (ms_merge_idx m + 1) =? MERGE_WIN); cbn; auto.
Qed.

(** Three scans in a row leave the sum of their three merge counts as the
    slot's value, wherever the window index stood. *)
Lemma merge_window_holds_last_three s slot m a b c v1 v2 v3 s1 s2 s3 :
  mm_slots s !! slot = Some m ->
  length (ms_nr_merged_win m) = 3%nat ->
  0 <= ms_merge_idx m < MERGE_WIN ->
  lksm_account_mm_slot_nr_merge slot a s = Ok v1 s1 ->
  lksm_account_mm_slot_nr_merge slot b s1 = Ok v2 s2 ->
  lksm_account_mm_slot_nr_merge slot c s2 = Ok v3 s3 ->
  v3 = wrap_int (a + b + c) /\ slot_value s3 slot = v3.
Proof.
  intros Hm Hlen Hidx H1 H2 H3.
  apply lksm_account_mm_slot_nr_merge_Ok in H1
    as (m0 & m1 & Hm0 & Hm1 & -> & Hw1 & Hi1 & Hv1 & ->).
  apply lksm_account_mm_slot_nr_merge_Ok in H2
    as (m1' & m2 & Hm1' & Hm2 & -> & Hw2 & Hi2 & Hv2 & ->).
  apply lksm_account_mm_slot_nr_merge_Ok in H3
    as (m2' & m3 & Hm2' & Hm3 & -> & Hw3 & Hi3 & Hv3 & ->).
  rewrite Hm in Hm0. injection Hm0 as <-.
  rewrite Hm1 in Hm1'. injection Hm1' as <-.
  rewrite Hm2 in Hm2'. injection Hm2' as <-.
  split; [|unfold slot_value; by rewrite Hm3].
  rewrite Hv3, Hw3, Hw2, Hw1, Hi2, Hi1.
  destruct (ms_nr_merged_win m) as [|w0 [|w1 [|w2 [|]]]]; try discriminate.
  assert (Hcases : ms_merge_idx m = 0 \/ ms_merge_idx m = 1 \/ ms_merge_idx m = 2)
    by (unfold MERGE_WIN in Hidx; lia).
  destruct Hcases as [->|[->| ->]];
    repeat match goal with
           | |- context [Z.to_nat ?x] =>
               let y := eval vm_compute in (Z.to_nat x) in
               progress change (Z.to_nat x) with y
           end;
    cbn -[sum_merge_win wrap_int]; rewrite sum_merge_win_3; f_equal; lia.
Qed.

Lemma sublist_StronglySorted_keeps {A} (R : relation A) (l k : list A) :
  l `sublist_of` k -> StronglySorted R k -> StronglySorted R l.
Proof.
  intros Hsub. induction Hsub as [|x l k Hsub IH|x l k Hsub IH]; intros Hk.
  - constructor.
  - apply StronglySorted_inv in Hk as [Hk Hx]. constructor; [by apply IH|].
    rewrite Forall_forall in Hx |- *. intros y Hy. apply Hx.
    eapply elem_of_sublist; eauto.
  - apply StronglySorted_inv in Hk as [Hk _]. by apply IH.
Qed.

(** What the crawler draws from the rank tree for a partial scan. *)
Lemma lksm_prepare_partial_scan_vips_spec e nf na s ret_ s' :
  0 <= na -> 0 <= nf ->
  na + nf + Z.of_nat (length (rb_inorder (vips_list s))) <= INT_MAX ->
  test_bits (ksm_run s) KSM_RUN_UNMERGE = false ->
  lksm_prepare_partial_scan_vips e nf na s = Ok ret_ s' ->
  exists picked rest,
    ksm_scan_head s' = picked ++ rest /\
    picked `sublist_of` rb_inorder (vips_list s) /\
    rest `sublist_of` ksm_scan_head s /\
    ret_ = nf + na + Z.of_nat (length picked) /\
    (picked <> [] -> na + nf + Z.of_nat (length picked) <= lksm_max_vips s) /\
    ksm_scan_scan_mode s' = LKSM_SCAN_PARTIAL /\
    ksm_crawl_round s' = wrap_ulong (ksm_crawl_round s + 1).
Proof.
  intros Hna Hnf Hrange Hrun0 Hrun. unfold lksm_prepare_partial_scan_vips in Hrun.
  apply bind_Ok in Hrun as (s0 & s1 & [-> ->]%get_Ok & Hrun).
  apply bind_Ok in Hrun as (picked & s1 & Hpick & Hrun).
  assert (Hp : exists n rl,
             picked = Some (n, rl) /\
             rl `sublist_of` rb_inorder (vips_list s) /\
             n = Z.of_nat (length rl) /\
             (rl <> [] -> n + na + nf <= lksm_max_vips s) /\
             ksm_scan_head s1 `sublist_of` ksm_scan_head s /\
             ksm_crawl_round s1 = ksm_crawl_round s).
  { destruct (lksm_max_vips s <=? wrap_int (na + nf)).
    - apply ret_Ok in Hpick as [<- <-]. exists 0, []. repeat split; try done.
      apply sublist_nil_l.
    - destruct picked as [[n rl]|].
      + apply partial_scan_loop_spec in Hpick
          as (p & -> & Hsub & -> & Hb & _ & Hhead & Hcr & _); try lia.
        exists (0 + Z.of_nat (length p)), ([] ++ p). cbn [app].
        repeat split; auto.
      + apply partial_scan_loop_abort in Hpick. congruence. }
  destruct Hp as (n & rl & -> & Hsub & -> & Hb & Hhead & Hcr).
  minv Hrun. cbn. exists rl, (ksm_scan_head s1).
  assert (Hlen : Z.of_nat (length rl) <= Z.of_nat (length (rb_inorder (vips_list s)))).
  { apply inj_le. by apply sublist_length. }
  repeat split; auto.
  - rewrite wrap_int_add_l, wrap_int_small by (unfold INT_MAX in *; lia). lia.
  - intros Hne. specialize (Hb Hne). lia.
  - by rewrite Hcr.
Qed.

(** ** The checksum gate (C3) *)

Lemma cmp_and_merge_page_unstable_defers budget e page rmap_item s r :
  rmap_items s !! rmap_item = Some r ->
  ksm_scan_scan_round s < wrap_ulong (initial_round s) ->
  lksm_test_rmap_frozen r = false ->
  ri_oldchecksum r <> calc_checksum e s page ->
  cmp_and_merge_page_unstable budget e page rmap_item s
  = Ok tt (set_rmap_items
             (<[rmap_item := ri_set_oldchecksum (calc_checksum e s page) r]> (rmap_items s))
             s).
Proof.
  intros Hr Hround Hfrozen Hsum. unfold cmp_and_merge_page_unstable.
  apply bind_Ok. exists r, s. split; [by apply rmap_item_at_Ok|].
  apply bind_Ok. exists s, s. split; [reflexivity|].
  apply Z.ltb_lt in Hround. rewrite Hround, Hfrozen. cbn [negb andb].
  apply Z.eqb_neq in Hsum. rewrite Hsum. cbn [negb].
  apply bind_Ok. eexists (_, true), _. split.
  - apply bind_Ok. eexists tt, _. split; [|reflexivity].
    apply rmap_item_update_Ok. exists r. split; [exact Hr|reflexivity].
  - reflexivity.
Qed.

Lemma bind_run {A B} (m : M A) (k : A -> M B) s a s1 :
  m s = Ok a s1 -> bind m k s = k a s1.
Proof. unfold bind. by intros ->. Qed.

(** Where the checksum is not looked at, or is the stored one, and
    the zero-page attempt is off, what is left of [cmp_and_merge_page] is the
    unstable tree. *)
Lemma cmp_and_merge_page_unstable_goes_on budget e page rmap_item s r :
  rmap_items s !! rmap_item = Some r ->
  ksm_use_zero_pages s = false ->
  (wrap_ulong (initial_round s) <= ksm_scan_scan_round s \/
   lksm_test_rmap_frozen r = true \/
   ri_oldchecksum r = calc_checksum e s page) ->
  cmp_and_merge_page_unstable budget e page rmap_item s
  = (do found <- unstable_tree_search_insert rmap_item page;
     match found with
     | None => ret tt
     | Some (tree_rmap_item, tree_page) =>
         cmp_and_merge_page_tree_item budget e page rmap_item tree_rmap_item tree_page
     end) s.
Proof.
  intros Hr Hzero Hgate. unfold cmp_and_merge_page_unstable.
  rewrite (bind_run _ _ s r s) by (by apply rmap_item_at_Ok).
  rewrite (bind_run _ _ s s s) by done.
  assert (Hpast : exists c,
            (if (ksm_scan_scan_round s <? wrap_ulong (initial_round s))
                && negb (lksm_test_rmap_frozen r)
             then
               let checksum := calc_checksum e s page in
               if negb (ri_oldchecksum r =? checksum) then
                 rmap_item_update rmap_item (ri_set_oldchecksum checksum);;
                 ret (checksum, true)
               else ret (checksum, false)
             else ret (stack_garbage e, false)) s = Ok (c, false) s).
  { destruct (Z.ltb_spec (ksm_scan_scan_round s) (wrap_ulong (initial_round s)))
      as [Hlt|Hge]; cbn [andb]; [|eauto].
    destruct (lksm_test_rmap_frozen r) eqn:Hf; cbn [negb]; [eauto|].
    destruct Hgate as [Hge|[Hfr|Hsum]]; [lia|done|].
    cbn zeta. rewrite Hsum, Z.eqb_refl. cbn [negb]. eauto. }
  destruct Hpast as [c Hpast].
  rewrite (bind_run _ _ s (c, false) s) by exact Hpast.
  cbn beta iota. rewrite Hzero. cbn [andb].
  by rewrite (bind_run _ _ s false s).
Qed.

Lemma cmp_and_merge_page_after_search budget e page rmap_item s s1 s2 r0 kpage :
  rmap_items s !! rmap_item = Some r0 ->
  page_stable_node s page = None ->
  stable_tree_search budget e page s = Ok kpage s1 ->
  kpage <> PAGE page ->
  remove_rmap_item_from_tree e rmap_item s1 = Ok tt s2 ->
  cmp_and_merge_page budget e page rmap_item s
  = match kpage with
    | PAGE_EBUSY => ret tt
    | PAGE kp =>
        do err <- try_to_merge_with_ksm_page e rmap_item page (Some kp);
        if err =? 0 then
          do s <- get;
          match page_stable_node s kp with
          | Some sn => stable_tree_append rmap_item sn false
          | None => fail Oops
          end
        else ret tt
    | PAGE_NULL => cmp_and_merge_page_unstable budget e page rmap_item
    end s2.
Proof.
  intros Hr0 Hnoksm Hsearch Hne Hremove. unfold cmp_and_merge_page.
  rewrite (bind_run _ _ s r0 s) by (by apply rmap_item_at_Ok).
  rewrite (bind_run _ _ s s s) by done. rewrite Hnoksm.
  rewrite (bind_run _ _ s (false, false) s) by done. cbn beta iota.
  rewrite (bind_run _ _ s kpage s1) by exact Hsearch.
  assert (Hr1 : exists r1, rmap_items s1 !! rmap_item = Some r1).
  { unfold remove_rmap_item_from_tree in Hremove.
    apply bind_Ok in Hremove as (r1 & s1' & [H1 ->]%rmap_item_at_Ok & _). eauto. }
  destruct Hr1 as [r1 Hr1].
  rewrite (bind_run _ _ s1 r1 s1) by (by apply rmap_item_at_Ok).
  rewrite bool_decide_eq_false_2 by done. cbn [andb].
  rewrite (bind_run _ _ s1 tt s2) by exact Hremove.
  by destruct kpage.
Qed.

(** C3, as the code has it.  [cmp_and_merge_page] on a page that is not a
    KSM page.  (1) While the scan round number is below [initial_round], for
    an rmap_item that is not marked frozen and a page for which the stable
    tree has nothing to offer: if the page's checksum is not the one recorded
    in the rmap_item, the call records the new checksum and does nothing
    else.  The unstable tree, the stable nodes, the page tables and the
    sharing counters are left as the stable-tree stage left them: the page is
    neither inserted nor merged in this round.  (2) If the round number has
    reached [initial_round], or the rmap_item is marked frozen, or the
    checksum is the recorded one, then, with [ksm_use_zero_pages] off, the
    call goes on with [unstable_tree_search_insert] and the merge with the
    record it finds; in the first two cases no checksum is computed and the
    recorded one plays no part.  (3) If the stable tree offers another page,
    the call goes on with [try_to_merge_with_ksm_page] and
    [stable_tree_append], whatever the round number, the mark and the
    recorded checksum are. *)
Theorem changed_checksum_defers_in_initial_rounds budget e page rmap_item :
  (forall s s1 s2 r0 r,
     rmap_items s !! rmap_item = Some r0 ->
     page_stable_node s page = None ->
     stable_tree_search budget e page s = Ok PAGE_NULL s1 ->
     remove_rmap_item_from_tree e rmap_item s1 = Ok tt s2 ->
     rmap_items s2 !! rmap_item = Some r ->
     ksm_scan_scan_round s2 < wrap_ulong (initial_round s2) ->
     lksm_test_rmap_frozen r = false ->
     ri_oldchecksum r <> calc_checksum e s2 page ->
     exists s',
       cmp_and_merge_page budget e page rmap_item s = Ok tt s' /\
       s' = set_rmap_items
              (<[rmap_item := ri_set_oldchecksum (calc_checksum e s2 page) r]> (rmap_items s2))
              s2 /\
       root_unstable_tree s' = root_unstable_tree s2 /\
       stable_nodes s' = stable_nodes s2 /\
       page_table s' = page_table s2 /\
       ksm_pages_shared s' = ksm_pages_shared s2 /\
       ksm_pages_sharing s' = ksm_pages_sharing s2 /\
       ksm_pages_unshared s' = ksm_pages_unshared s2) /\
  (forall s s1 s2 r0 r,
     rmap_items s !! rmap_item = Some r0 ->
     page_stable_node s page = None ->
     stable_tree_search budget e page s = Ok PAGE_NULL s1 ->
     remove_rmap_item_from_tree e rmap_item s1 = Ok tt s2 ->
     rmap_items s2 !! rmap_item = Some r ->
     ksm_use_zero_pages s2 = false ->
     (wrap_ulong (initial_round s2) <= ksm_scan_scan_round s2 \/
      lksm_test_rmap_frozen r = true \/
      ri_oldchecksum r = calc_checksum e s2 page) ->
     cmp_and_merge_page budget e page rmap_item s
     = (do found <- unstable_tree_search_insert rmap_item page;
        match found with
        | None => ret tt
        | Some (tree_rmap_item, tree_page) =>
            cmp_and_merge_page_tree_item budget e page rmap_item tree_rmap_item tree_page
        end) s2) /\
  (forall s s1 s2 r0 kp,
     rmap_items s !! rmap_item = Some r0 ->
     page_stable_node s page = None ->
     stable_tree_search budget e page s = Ok (PAGE kp) s1 ->
     kp <> page ->
     remove_rmap_item_from_tree e rmap_item s1 = Ok tt s2 ->
     cmp_and_merge_page budget e page rmap_item s
     = (do err <- try_to_merge_with_ksm_page e rmap_item page (Some kp);
        if err =? 0 then
          do s <- get;
          match page_stable_node s kp with
          | Some sn => stable_tree_append rmap_item sn false
          | None => fail Oops
          end
        else ret tt) s2).
Proof.
  split_and!.
  - intros s s1 s2 r0 r Hr0 Hnoksm Hsearch Hremove Hr Hround Hfrozen Hsum.
    eexists. split; [|split; [reflexivity|repeat split]].
    rewrite (cmp_and_merge_page_after_search budget e page rmap_item s s1 s2 r0 PAGE_NULL)
      by done.
    by apply cmp_and_merge_page_unstable_defers.
  - intros s s1 s2 r0 r Hr0 Hnoksm Hsearch Hremove Hr Hzero Hgate.
    rewrite (cmp_and_merge_page_after_search budget e page rmap_item s s1 s2 r0 PAGE_NULL)
      by done.
    by apply cmp_and_merge_page_unstable_goes_on with r.
  - intros s s1 s2 r0 kp Hr0 Hnoksm Hsearch Hne Hremove.
    rewrite (cmp_and_merge_page_after_search budget e page rmap_item s s1 s2 r0 (PAGE kp));
      try done.
    congruence.
Qed.

Lemma changed_checksum_defers_in_initial_rounds_witness :
  (exists s',
     cmp_and_merge_page 10 quiet 10 1000%nat
       (final_state ksm_init (scan_get_next_rmap_item 10 quiet two_owners)) = Ok tt s' /\
     root_unstable_tree s' = RB_ROOT /\
     ksm_pages_unshared s' = 0) /\
  cmp_and_merge_page 10 quiet 11 1001%nat changed_since_last_round
  = (do found <- unstable_tree_search_insert 1001 11;
     match found with
     | None => ret tt
     | Some (tree_rmap_item, tree_page) =>
         cmp_and_merge_page_tree_item 10 quiet 11 1001 tree_rmap_item tree_page
     end) changed_since_last_round /\
  cmp_and_merge_page 10 quiet 12 1002%nat shared_page_and_newcomer
  = (do err <- try_to_merge_with_ksm_page quiet 1002 12 (Some 11);
     if err =? 0 then
       do s <- get;
       match page_stable_node s 11 with
       | Some sn => stable_tree_append 1002 sn false
       | None => fail Oops
       end
     else ret tt) shared_page_and_newcomer.
Proof.
  split_and!.
  - set (s := final_state ksm_init (scan_get_next_rmap_item 10 quiet two_owners)).
    destruct (changed_checksum_defers_in_initial_rounds 10 quiet 10 1000%nat) as (Hdefer & _).
    destruct (Hdefer s s s (mk_rmap_item 1 4096 0 None) (mk_rmap_item 1 4096 0 None))
      as (s' & Hrun & _ & Htree & _ & _ & _ & _ & Hun).
    + vm_compute. reflexivity.
    + vm_compute. reflexivity.
    + vm_compute. reflexivity.
    + vm_compute. reflexivity.
    + vm_compute. reflexivity.
    + vm_compute. reflexivity.
    + vm_compute. reflexivity.
    + vm_compute. discriminate.
    + exists s'. split; [exact Hrun|].
      split; [rewrite Htree|rewrite Hun]; vm_compute; reflexivity.
  - destruct (changed_checksum_defers_in_initial_rounds 10 quiet 11 1001%nat)
      as (_ & Hgo & _).
    apply (Hgo changed_since_last_round changed_since_last_round changed_since_last_round
             (mk_rmap_item 2 4096 998 None) (mk_rmap_item 2 4096 998 None)).
    + vm_compute. reflexivity.
    + vm_compute. reflexivity.
    + vm_compute. reflexivity.
    + vm_compute. reflexivity.
    + vm_compute. reflexivity.
    + vm_compute. reflexivity.
    + left. vm_compute. discriminate.
  - destruct (changed_checksum_defers_in_initial_rounds 10 quiet 12 1002%nat)
      as (_ & _ & Hstable).
    apply (Hstable shared_page_and_newcomer shared_page_and_newcomer shared_page_and_newcomer
             (mk_rmap_item 3 4096 0 None) 11).
    + vm_compute. reflexivity.
    + vm_compute. reflexivity.
    + vm_compute. reflexivity.
    + discriminate.
    + vm_compute. reflexivity.
Defined.

(** From round [initial_round] on no checksum is looked at: a page whose
    content is not the content last summed for its rmap_item is merged with
    the candidate of the unstable tree in the very round it is seen. *)
Lemma changed_page_merges_without_stable_checksum :
  ksm_scan_scan_round changed_since_last_round = 3 /\
  rmap_items changed_since_last_round !! 1001%nat = Some (mk_rmap_item 2 4096 998 None) /\
  lksm_test_rmap_frozen (mk_rmap_item 2 4096 998 None) = false /\
  calc_checksum quiet changed_since_last_round 11 <> 998 /\
  exists s',
    cmp_and_merge_page 10 quiet 11 1001%nat changed_since_last_round = Ok tt s' /\
    (exists r, rmap_items s' !! 1001%nat = Some r /\
               test_bits (ri_address r) STABLE_FLAG = true /\
               ri_oldchecksum r = 998) /\
    ksm_pages_shared s' = 1 /\ ksm_pages_sharing s' = 1.
Proof.
  repeat split; try (vm_compute; congruence).
  eexists. split; [vm_compute; reflexivity|].
  split; [eexists; split; [vm_compute; reflexivity|split; vm_compute; reflexivity]|].
  split; vm_compute; reflexivity.
Qed.

(** ** The sharing counters *)

Lemma wrap_ulong_add_l a b : wrap_ulong (wrap_ulong a + b) = wrap_ulong (a + b).
Proof. unfold wrap_ulong. apply Zplus_mod_idemp_l. Qed.

Lemma wrap_ulong_sub_l a b : wrap_ulong (wrap_ulong a - b) = wrap_ulong (a - b).
Proof. unfold wrap_ulong. apply Zminus_mod_idemp_l. Qed.

Lemma wrap_ulong_small z : 0 <= z < 2 ^ 64 -> wrap_ulong z = z.
Proof. intros H. unfold wrap_ulong. by apply Z.mod_small. Qed.

Lemma wrap_int_sub_l a b : wrap_int (wrap_int a - b) = wrap_int (a - b).
Proof.
  unfold wrap_int. f_equal.
  replace ((a + 2 ^ 31) mod 2 ^ 32 - 2 ^ 31 - b + 2 ^ 31)
    with ((a + 2 ^ 31) mod 2 ^ 32 - b) by lia.
  rewrite Zminus_mod_idemp_l. f_equal. lia.
Qed.

Lemma stable_flag_set a : test_bits (Z.lor a STABLE_FLAG) STABLE_FLAG = true.
Proof.
  unfold test_bits. rewrite Z.land_lor_distr_l, Z.land_diag.
  destruct (Z.eqb_spec (Z.lor (Z.land a STABLE_FLAG) STABLE_FLAG) 0) as [E|]; [|done].
  apply Z.lor_eq_0_iff in E as [_ E]. done.
Qed.

Lemma stable_flag_masked a : test_bits (Z.land a PAGE_MASK) STABLE_FLAG = false.
Proof.
  unfold test_bits. rewrite <- Z.land_assoc.
  change (Z.land PAGE_MASK STABLE_FLAG) with 0. by rewrite Z.land_0_r.
Qed.

(** Sums over the stable nodes. *)
Lemma nodes_sum_empty f : nodes_sum f ∅ = 0.
Proof. unfold nodes_sum. by rewrite map_fold_empty. Qed.

Lemma nodes_sum_insert_new f m i x :
  m !! i = None -> nodes_sum f (<[i := x]> m) = f x + nodes_sum f m.
Proof.
  intros H. unfold nodes_sum. rewrite map_fold_insert_L; [done| |done].
  intros. lia.
Qed.

Lemma nodes_sum_delete f m i x :
  m !! i = Some x -> nodes_sum f (delete i m) = nodes_sum f m - f x.
Proof.
  intros H. rewrite <- (insert_delete_id m i x H) at 2.
  rewrite nodes_sum_insert_new by apply lookup_delete_eq. lia.
Qed.

Lemma nodes_sum_insert f m i x y :
  m !! i = Some x -> nodes_sum f (<[i := y]> m) = nodes_sum f m - f x + f y.
Proof.
  intros H. rewrite <- insert_delete_eq.
  rewrite nodes_sum_insert_new by apply lookup_delete_eq.
  rewrite (nodes_sum_delete f m i x H). lia.
Qed.

Lemma nodes_sum_fmap f g m :
  (forall x, f (g x) = f x) -> nodes_sum f (g <$> m) = nodes_sum f m.
Proof.
  intros H. induction m as [|i x m Hi IH] using map_ind.
  - by rewrite fmap_empty.
  - rewrite fmap_insert, !nodes_sum_insert_new, IH, H; [done|done|].
    by rewrite lookup_fmap, Hi.
Qed.

Lemma nodes_sum_le f g m :
  (forall x, f x <= g x) -> nodes_sum f m <= nodes_sum g m.
Proof.
  intros H. induction m as [|i x m Hi IH] using map_ind.
  - by rewrite !nodes_sum_empty.
  - rewrite !nodes_sum_insert_new by done. specialize (H x). lia.
Qed.

Lemma nodes_sum_nonneg f m : (forall x, 0 <= f x) -> 0 <= nodes_sum f m.
Proof.
  intros H. induction m as [|i x m Hi IH] using map_ind.
  - by rewrite nodes_sum_empty.
  - rewrite nodes_sum_insert_new by done. specialize (H x). lia.
Qed.

Lemma attached_regular nd : is_stable_node_chain nd = false -> attached nd = sn_hlist nd.
Proof. intros H. unfold attached. by rewrite H. Qed.

Lemma attached_chain nd : is_stable_node_chain nd = true -> attached nd = [].
Proof. intros H. unfold attached. by rewrite H. Qed.

Lemma attached_elem r nd :
  r ∈ attached nd <-> is_stable_node_chain nd = false /\ r ∈ sn_hlist nd.
Proof.
  unfold attached. destruct (is_stable_node_chain nd); split.
  - by intros ?%elem_of_nil.
  - by intros [? _].
  - done.
  - by intros [_ ?].
Qed.

(** The bookkeeping only reads five components of the state. *)
Lemma rmap_bookkeeping_ext s s' :
  stable_nodes s' = stable_nodes s ->
  rmap_items s' = rmap_items s ->
  next_ptr s' = next_ptr s ->
  ksm_pages_shared s' = ksm_pages_shared s ->
  ksm_pages_sharing s' = ksm_pages_sharing s ->
  rmap_bookkeeping s -> rmap_bookkeeping s'.
Proof.
  intros E1 E2 E3 E4 E5 [H1 H2 H3 H4 H5]. split.
  - intros n nd. rewrite E1. intros Hn Hr.
    destruct (H1 n nd Hn Hr) as (? & ? & ? & Hm). repeat split; try done.
    intros r Hin. rewrite E2. by apply Hm.
  - intros r it. rewrite E2. intros Hr Hf.
    destruct (H2 r it Hr Hf) as (n & nd & ? & ? & ? & ?).
    exists n, nd. by rewrite E1.
  - intros p. rewrite E1, E2, E3. apply H3.
  - unfold nodes_in_use. by rewrite E4, E1.
  - unfold records_attached, nodes_in_use. by rewrite E5, E1.
Qed.

(** A store to a stable node that leaves its list of records and its
    counter alone; a node without records may become a chain. *)
Lemma rmap_bookkeeping_node_update s n nd nd' :
  rmap_bookkeeping s ->
  stable_nodes s !! n = Some nd ->
  attached nd' = attached nd ->
  (is_stable_node_chain nd' = false ->
   is_stable_node_chain nd = false /\ sn_rmap_hlist_len nd' = sn_rmap_hlist_len nd) ->
  rmap_bookkeeping (set_stable_nodes (<[n := nd']> (stable_nodes s)) s).
Proof.
  intros [H1 H2 H3 H4 H5] Hn Ha Hc. split; unfold item_ok, node_ok; cbn.
  - intros x ndx Hx Hr. destruct (decide (x = n)) as [->|Hne].
    + rewrite lookup_insert_eq in Hx. injection Hx as <-.
      destruct (Hc Hr) as [Hr' Hl].
      rewrite (attached_regular _ Hr), (attached_regular _ Hr') in Ha.
      destruct (H1 n nd Hn Hr') as (? & ? & ? & ?).
      unfold node_ok. cbn. rewrite Ha, Hl. done.
    + rewrite lookup_insert_ne in Hx by done. by apply H1.
  - intros r it Hr Hf. destruct (H2 r it Hr Hf) as (x & ndx & Hh & Hx & Hrx & Hin).
    destruct (decide (x = n)) as [->|Hne].
    + exists n, nd'. rewrite lookup_insert_eq.
      assert (nd = ndx) as <- by congruence.
      assert (Hin' : r ∈ attached nd') by (rewrite Ha; by apply attached_elem).
      apply attached_elem in Hin' as [? ?]. done.
    + exists x, ndx. by rewrite lookup_insert_ne.
  - intros p Hp. destruct (H3 p Hp) as [Hs Hi]. split; [|done].
    rewrite lookup_insert_ne; [done|]. intros ->. congruence.
  - rewrite H4. f_equal. unfold nodes_in_use. cbn.
    rewrite (nodes_sum_insert _ _ _ _ _ Hn). unfold node_in_use. rewrite Ha. lia.
  - rewrite H5. f_equal. unfold records_attached, nodes_in_use. cbn.
    rewrite !(nodes_sum_insert _ _ _ _ _ Hn). unfold node_records, node_in_use.
    rewrite Ha. lia.
Qed.

Lemma rmap_bookkeeping_hlist_del_dup s dup :
  rmap_bookkeeping s -> rmap_bookkeeping (hlist_del_dup dup s).
Proof.
  set (g := fun c => if is_stable_node_chain c
                     then sn_set_hlist (hlist_del dup (sn_hlist c)) c else c).
  assert (Hchain : forall c, is_stable_node_chain (g c) = is_stable_node_chain c).
  { intros c. unfold g. by destruct (is_stable_node_chain c) eqn:E. }
  assert (Hreg : forall c, is_stable_node_chain c = false -> g c = c).
  { intros c E. unfold g. by rewrite E. }
  assert (Hatt : forall c, attached (g c) = attached c).
  { intros c. unfold attached. rewrite Hchain.
    destruct (is_stable_node_chain c) eqn:E; [done|]. by rewrite Hreg. }
  intros [H1 H2 H3 H4 H5]. unfold hlist_del_dup. fold g. split; unfold item_ok, node_ok; cbn.
  - intros x ndx. rewrite lookup_fmap.
    destruct (stable_nodes s !! x) as [c|] eqn:Hx; [|done]. cbn.
    intros [= <-]. rewrite Hchain. intros Hr. rewrite (Hreg _ Hr).
    destruct (H1 x c Hx Hr) as (? & ? & ? & ?). done.
  - intros r it Hr Hf. destruct (H2 r it Hr Hf) as (x & ndx & Hh & Hx & Hrx & Hin).
    exists x, ndx. rewrite lookup_fmap, Hx. cbn. by rewrite (Hreg _ Hrx).
  - intros p Hp. destruct (H3 p Hp) as [Hs Hi]. by rewrite lookup_fmap, Hs.
  - rewrite H4. f_equal. unfold nodes_in_use. cbn.
    apply eq_sym, nodes_sum_fmap. intros c. unfold node_in_use. by rewrite Hatt.
  - rewrite H5. f_equal. unfold records_attached, nodes_in_use. cbn.
    rewrite !nodes_sum_fmap; [done| |].
    + intros c. unfold node_in_use. by rewrite Hatt.
    + intros c. unfold node_records. by rewrite Hatt.
Qed.

(** Freeing a node that has no record left. *)
Lemma rmap_bookkeeping_free_node s n :
  rmap_bookkeeping s ->
  (forall nd, stable_nodes s !! n = Some nd -> attached nd = []) ->
  rmap_bookkeeping (set_stable_nodes (delete n (stable_nodes s)) s).
Proof.
  intros [H1 H2 H3 H4 H5] He. split; unfold item_ok, node_ok; cbn.
  - intros x ndx Hx Hr. apply lookup_delete_Some in Hx as [Hne Hx].
    destruct (H1 x ndx Hx Hr) as (? & ? & ? & ?). done.
  - intros r it Hr Hf. destruct (H2 r it Hr Hf) as (x & ndx & Hh & Hx & Hrx & Hin).
    exists x, ndx. rewrite lookup_delete_ne; [done|]. intros <-.
    specialize (He _ Hx). rewrite (attached_regular _ Hrx) in He.
    rewrite He in Hin. by apply elem_of_nil in Hin.
  - intros p Hp. destruct (H3 p Hp) as [Hs Hi]. split; [|done].
    apply lookup_delete_None. by right.
  - rewrite H4. f_equal. unfold nodes_in_use. cbn.
    destruct (stable_nodes s !! n) as [nd|] eqn:Hn.
    + rewrite (nodes_sum_delete _ _ _ _ Hn). unfold node_in_use.
      rewrite (He nd eq_refl). lia.
    + by rewrite delete_id.
  - rewrite H5. f_equal. unfold records_attached, nodes_in_use. cbn.
    destruct (stable_nodes s !! n) as [nd|] eqn:Hn.
    + rewrite !(nodes_sum_delete _ _ _ _ Hn). unfold node_in_use, node_records.
      rewrite (He nd eq_refl). cbn. lia.
    + by rewrite delete_id.
Qed.

(** A new node has no record. *)
Lemma rmap_bookkeeping_alloc_node s nd :
  rmap_bookkeeping s ->
  attached nd = [] ->
  (is_stable_node_chain nd = false -> sn_hlist nd = [] /\ sn_rmap_hlist_len nd = 0) ->
  rmap_bookkeeping
    (set_next_ptr (S (next_ptr s))
       (set_stable_nodes (<[next_ptr s := nd]> (stable_nodes s)) s)).
Proof.
  intros [H1 H2 H3 H4 H5] Ha Hc.
  destruct (H3 (next_ptr s) (le_n _)) as [Hs Hi]. split; unfold item_ok, node_ok; cbn.
  - intros x ndx Hx Hr. apply lookup_insert_Some in Hx as [[<- <-]|[Hne Hx]].
    + destruct (Hc Hr) as [Hh Hl]. unfold node_ok. rewrite Hh, Hl. cbn.
      repeat split; [constructor|done|].
      by intros r ?%elem_of_nil.
    + destruct (H1 x ndx Hx Hr) as (? & ? & ? & ?). done.
  - intros r it Hr Hf. destruct (H2 r it Hr Hf) as (x & ndx & Hh & Hx & Hrx & Hin).
    exists x, ndx. rewrite lookup_insert_ne; [done|]. intros <-. congruence.
  - intros p Hp. destruct (H3 p) as [Hs' Hi']; [lia|]. split; [|done].
    rewrite lookup_insert_ne; [done|lia].
  - rewrite H4. f_equal. unfold nodes_in_use. cbn.
    rewrite (nodes_sum_insert_new _ _ _ _ Hs). unfold node_in_use. rewrite Ha. lia.
  - rewrite H5. f_equal. unfold records_attached, nodes_in_use. cbn.
    rewrite !(nodes_sum_insert_new _ _ _ _ Hs). unfold node_in_use, node_records.
    rewrite Ha. cbn. lia.
Qed.

(** A store to a record that leaves its flag and, for an attached record,
    its node alone. *)
Lemma rmap_bookkeeping_item_update s r it it' :
  rmap_bookkeeping s ->
  rmap_items s !! r = Some it ->
  test_bits (ri_address it') STABLE_FLAG = test_bits (ri_address it) STABLE_FLAG ->
  (test_bits (ri_address it) STABLE_FLAG = true -> ri_head it' = ri_head it) ->
  rmap_bookkeeping (set_rmap_items (<[r := it']> (rmap_items s)) s).
Proof.
  intros [H1 H2 H3 H4 H5] Hr Hf Hh. split; unfold item_ok, node_ok; cbn; [| | |done|done].
  - intros x ndx Hx Hrx. destruct (H1 x ndx Hx Hrx) as (? & ? & ? & Hm).
    repeat split; try done. intros q Hq.
    destruct (Hm q Hq) as (iq & Hiq & Hhq & Hfq).
    destruct (decide (q = r)) as [->|Hne].
    + exists it'. rewrite lookup_insert_eq. assert (iq = it) as -> by congruence.
      rewrite Hf, (Hh Hfq). done.
    + exists iq. by rewrite lookup_insert_ne.
  - intros q iq Hq Hfq. apply lookup_insert_Some in Hq as [[<- <-]|[Hne Hq]].
    + rewrite Hf in Hfq. rewrite (Hh Hfq). by apply H2.
    + by apply H2.
  - intros p Hp. destruct (H3 p Hp) as [Hs Hi]. split; [done|].
    rewrite lookup_insert_ne; [done|]. intros ->. congruence.
Qed.

Lemma rmap_bookkeeping_free_item s r :
  rmap_bookkeeping s ->
  (forall it, rmap_items s !! r = Some it -> test_bits (ri_address it) STABLE_FLAG = false) ->
  rmap_bookkeeping (set_rmap_items (delete r (rmap_items s)) s).
Proof.
  intros [H1 H2 H3 H4 H5] Hu. split; unfold item_ok, node_ok; cbn; [| | |done|done].
  - intros x ndx Hx Hrx. destruct (H1 x ndx Hx Hrx) as (? & ? & ? & Hm).
    repeat split; try done. intros q Hq.
    destruct (Hm q Hq) as (iq & Hiq & Hhq & Hfq).
    exists iq. rewrite lookup_delete_ne; [done|]. intros <-.
    rewrite (Hu _ Hiq) in Hfq. done.
  - intros q iq Hq Hfq. apply lookup_delete_Some in Hq as [Hne Hq]. by apply (H2 q).
  - intros p Hp. destruct (H3 p Hp) as [Hs Hi]. split; [done|].
    apply lookup_delete_None. by right.
Qed.

Lemma rmap_bookkeeping_alloc_item s it :
  rmap_bookkeeping s ->
  test_bits (ri_address it) STABLE_FLAG = false ->
  rmap_bookkeeping
    (set_next_ptr (S (next_ptr s))
       (set_rmap_items (<[next_ptr s := it]> (rmap_items s)) s)).
Proof.
  intros [H1 H2 H3 H4 H5] Hu.
  destruct (H3 (next_ptr s) (le_n _)) as [Hs Hi]. split; unfold item_ok, node_ok; cbn; [| | |done|done].
  - intros x ndx Hx Hrx. destruct (H1 x ndx Hx Hrx) as (? & ? & ? & Hm).
    repeat split; try done. intros q Hq.
    destruct (Hm q Hq) as (iq & Hiq & Hhq & Hfq).
    exists iq. rewrite lookup_insert_ne; [done|]. intros <-. congruence.
  - intros q iq Hq Hfq. apply lookup_insert_Some in Hq as [[<- <-]|[Hne Hq]].
    + congruence.
    + by apply (H2 q).
  - intros p Hp. destruct (H3 p) as [Hs' Hi']; [lia|]. split; [done|].
    rewrite lookup_insert_ne; [done|lia].
Qed.

Lemma wrap_int_top : wrap_int (2 ^ 31) = - 2 ^ 31.
Proof. reflexivity. Qed.

Lemma nonneg_not_chain nd : 0 <= sn_rmap_hlist_len nd -> is_stable_node_chain nd = false.
Proof.
  intros H. unfold is_stable_node_chain, STABLE_NODE_CHAIN.
  apply Z.eqb_neq. lia.
Qed.

(** A counter that is not negative is the length of the list. *)
Lemma node_ok_len s n nd :
  node_ok s n nd -> 0 <= sn_rmap_hlist_len nd ->
  sn_rmap_hlist_len nd = Z.of_nat (length (sn_hlist nd)) /\
  Z.of_nat (length (sn_hlist nd)) < 2 ^ 31.
Proof.
  intros (_ & Hl & Hb & _) H0.
  destruct (decide (Z.of_nat (length (sn_hlist nd)) = 2 ^ 31)) as [E|Hne].
  - rewrite Hl, E, wrap_int_top in H0. lia.
  - rewrite Hl. rewrite wrap_int_small by lia. lia.
Qed.

Lemma hlist_del_length (r : nat) l :
  NoDup l -> r ∈ l -> S (length (hlist_del r l)) = length l.
Proof.
  unfold hlist_del. induction 1 as [|x l Hx Hl IH]; [by intros ?%elem_of_nil|].
  intros [<-|Hin]%elem_of_cons.
  - rewrite filter_cons_False by (intros ?; done). cbn. f_equal.
    assert (E : filter (λ y : nat, y ≠ r) l = l); [|by rewrite E].
    clear IH Hl. induction l as [|y l IH]; [done|].
    rewrite filter_cons_True.
    + f_equal. apply IH. intros ?. apply Hx. by right.
    + intros ->. apply Hx. by left.
  - rewrite filter_cons_True by (intros ->; done). cbn. f_equal. by apply IH.
Qed.

Lemma hlist_del_elem (r q : nat) l : q ∈ hlist_del r l <-> q ≠ r /\ q ∈ l.
Proof. unfold hlist_del. by rewrite list_elem_of_filter. Qed.

Lemma hlist_del_NoDup (r : nat) l : NoDup l -> NoDup (hlist_del r l).
Proof. apply NoDup_filter. Qed.

(** Attaching a record that was not attached to a node that is not a
    chain. *)
Lemma rmap_bookkeeping_attach s s' n nd nd' r it it' :
  rmap_bookkeeping s ->
  stable_nodes s !! n = Some nd -> 0 <= sn_rmap_hlist_len nd ->
  rmap_items s !! r = Some it -> test_bits (ri_address it) STABLE_FLAG = false ->
  sn_hlist nd' = r :: sn_hlist nd ->
  sn_rmap_hlist_len nd' = wrap_int (sn_rmap_hlist_len nd + 1) ->
  ri_head it' = Some n -> test_bits (ri_address it') STABLE_FLAG = true ->
  stable_nodes s' = <[n := nd']> (stable_nodes s) ->
  rmap_items s' = <[r := it']> (rmap_items s) ->
  next_ptr s' = next_ptr s ->
  ksm_pages_shared s' =
    match sn_hlist nd with
    | [] => wrap_ulong (ksm_pages_shared s + 1) | _ :: _ => ksm_pages_shared s end ->
  ksm_pages_sharing s' =
    match sn_hlist nd with
    | [] => ksm_pages_sharing s | _ :: _ => wrap_ulong (ksm_pages_sharing s + 1) end ->
  rmap_bookkeeping s'.
Proof.
  intros [H1 H2 H3 H4 H5] Hn H0 Hr Hu Eh El Ehd Ef E1 E2 E3 E4 E5.
  assert (Hreg := nonneg_not_chain _ H0).
  assert (Hok := H1 n nd Hn Hreg).
  destruct (node_ok_len _ _ _ Hok H0) as [Hlen Hlt].
  destruct Hok as (Hnd & _ & _ & Hm).
  assert (Hnotin : r ∉ sn_hlist nd).
  { intros Hin. destruct (Hm r Hin) as (? & ? & _ & ?). congruence. }
  assert (Hlen' : sn_rmap_hlist_len nd' = wrap_int (Z.of_nat (length (sn_hlist nd'))))
    by (rewrite El, Eh, Hlen; cbn [length]; f_equal; lia).
  assert (Hreg' : is_stable_node_chain nd' = false).
  { unfold is_stable_node_chain, STABLE_NODE_CHAIN. apply Z.eqb_neq.
    rewrite El, Hlen. destruct (decide (Z.of_nat (length (sn_hlist nd)) + 1 = 2 ^ 31)) as [E|Hne].
    - by rewrite E, wrap_int_top.
    - rewrite wrap_int_small by lia. lia. }
  assert (Hiu : node_in_use nd = match sn_hlist nd with [] => 0 | _ :: _ => 1 end)
    by (unfold node_in_use; by rewrite attached_regular).
  assert (Hiu' : node_in_use nd' = 1)
    by (unfold node_in_use; by rewrite attached_regular, Eh).
  assert (Hc : node_records nd = Z.of_nat (length (sn_hlist nd)))
    by (unfold node_records; by rewrite attached_regular).
  assert (Hc' : node_records nd' = Z.of_nat (length (sn_hlist nd)) + 1)
    by (unfold node_records; rewrite attached_regular, Eh by done; cbn [length]; lia).
  split; unfold item_ok, node_ok.
  - intros x ndx. rewrite E1, E2. intros Hx Hrx.
    apply lookup_insert_Some in Hx as [[<- <-]|[Hne Hx]].
    + repeat split; [rewrite Eh; by constructor|done|rewrite Eh; cbn [length]; lia|].
      intros q. rewrite Eh. intros [->|Hq]%elem_of_cons.
      * exists it'. by rewrite lookup_insert_eq.
      * rewrite lookup_insert_ne by (intros <-; done). by apply Hm.
    + destruct (H1 x ndx Hx Hrx) as (? & ? & ? & Hmx). repeat split; try done.
      intros q Hq. destruct (Hmx q Hq) as (iq & Hiq & ? & ?).
      exists iq. rewrite lookup_insert_ne; [done|]. intros <-. congruence.
  - intros q iq. rewrite E1, E2. intros Hq Hfq.
    apply lookup_insert_Some in Hq as [[<- <-]|[Hne Hq]].
    + exists n, nd'. rewrite lookup_insert_eq, Eh. repeat split; try done. by left.
    + destruct (H2 q iq Hq Hfq) as (x & ndx & ? & Hx & ? & ?).
      destruct (decide (x = n)) as [->|Hxn].
      * exists n, nd'. rewrite lookup_insert_eq, Eh. repeat split; try done.
        right. congruence.
      * exists x, ndx. by rewrite lookup_insert_ne.
  - intros p. rewrite E1, E2, E3. intros Hp. destruct (H3 p Hp) as [? ?].
    split; (rewrite lookup_insert_ne; [done|]; intros <-; congruence).
  - unfold nodes_in_use. rewrite E4, E1, (nodes_sum_insert _ _ _ _ _ Hn), Hiu', Hiu.
    rewrite H4. unfold nodes_in_use.
    destruct (sn_hlist nd); [rewrite wrap_ulong_add_l|]; f_equal; lia.
  - unfold records_attached, nodes_in_use.
    rewrite E5, E1, !(nodes_sum_insert _ _ _ _ _ Hn), Hiu', Hiu, Hc', Hc.
    rewrite H5. unfold records_attached, nodes_in_use.
    destruct (sn_hlist nd); [|rewrite wrap_ulong_add_l]; f_equal; cbn [length]; lia.
Qed.

(** Detaching a record from the node it is attached to. *)
Lemma rmap_bookkeeping_detach s s' n nd nd' r it it' :
  rmap_bookkeeping s ->
  rmap_items s !! r = Some it -> test_bits (ri_address it) STABLE_FLAG = true ->
  ri_head it = Some n -> stable_nodes s !! n = Some nd ->
  sn_hlist nd' = hlist_del r (sn_hlist nd) ->
  sn_rmap_hlist_len nd' = wrap_int (sn_rmap_hlist_len nd - 1) ->
  test_bits (ri_address it') STABLE_FLAG = false ->
  stable_nodes s' = <[n := nd']> (stable_nodes s) ->
  rmap_items s' = <[r := it']> (rmap_items s) ->
  next_ptr s' = next_ptr s ->
  ksm_pages_shared s' =
    match sn_hlist nd' with
    | [] => wrap_ulong (ksm_pages_shared s - 1) | _ :: _ => ksm_pages_shared s end ->
  ksm_pages_sharing s' =
    match sn_hlist nd' with
    | [] => ksm_pages_sharing s | _ :: _ => wrap_ulong (ksm_pages_sharing s - 1) end ->
  rmap_bookkeeping s'.
Proof.
  intros [H1 H2 H3 H4 H5] Hr Hf Hhd Hn Eh El Ef E1 E2 E3 E4 E5.
  destruct (H2 r it Hr Hf) as (n_ & nd_ & ? & ? & Hreg & Hin).
  assert (n_ = n) as -> by congruence. assert (nd_ = nd) as -> by congruence.
  destruct (H1 n nd Hn Hreg) as (Hnd & Hlen & Hb & Hm).
  assert (Hdl := hlist_del_length r _ Hnd Hin).
  assert (Hlen' : sn_rmap_hlist_len nd' = wrap_int (Z.of_nat (length (sn_hlist nd'))))
    by (rewrite El, Eh, Hlen, wrap_int_sub_l; f_equal; lia).
  assert (Hreg' : is_stable_node_chain nd' = false).
  { unfold is_stable_node_chain, STABLE_NODE_CHAIN. apply Z.eqb_neq.
    rewrite Hlen', Eh. rewrite wrap_int_small by lia. lia. }
  assert (Hiu : node_in_use nd = 1).
  { unfold node_in_use. rewrite attached_regular by done.
    destruct (sn_hlist nd); [by apply elem_of_nil in Hin|done]. }
  assert (Hiu' : node_in_use nd' = match sn_hlist nd' with [] => 0 | _ :: _ => 1 end)
    by (unfold node_in_use; by rewrite attached_regular).
  assert (Hc : node_records nd = Z.of_nat (length (sn_hlist nd')) + 1)
    by (unfold node_records; rewrite attached_regular, Eh by done; lia).
  assert (Hc' : node_records nd' = Z.of_nat (length (sn_hlist nd')))
    by (unfold node_records; by rewrite attached_regular).
  split; unfold item_ok, node_ok.
  - intros x ndx. rewrite E1, E2. intros Hx Hrx.
    apply lookup_insert_Some in Hx as [[<- <-]|[Hne Hx]].
    + repeat split; [rewrite Eh; by apply hlist_del_NoDup|done|rewrite Eh; lia|].
      intros q. rewrite Eh. intros [Hqr Hq]%hlist_del_elem.
      rewrite lookup_insert_ne by done. by apply Hm.
    + destruct (H1 x ndx Hx Hrx) as (? & ? & ? & Hmx). repeat split; try done.
      intros q Hq. destruct (Hmx q Hq) as (iq & Hiq & ? & ?).
      exists iq. rewrite lookup_insert_ne; [done|]. intros <-. congruence.
  - intros q iq. rewrite E1, E2. intros Hq Hfq.
    apply lookup_insert_Some in Hq as [[<- <-]|[Hne Hq]]; [congruence|].
    destruct (H2 q iq Hq Hfq) as (x & ndx & ? & Hx & ? & ?).
    destruct (decide (x = n)) as [->|Hxn].
    + exists n, nd'. rewrite lookup_insert_eq, Eh. repeat split; try done.
      apply hlist_del_elem. split; [done|congruence].
    + exists x, ndx. by rewrite lookup_insert_ne.
  - intros p. rewrite E1, E2, E3. intros Hp. destruct (H3 p Hp) as [? ?].
    split; (rewrite lookup_insert_ne; [done|]; intros <-; congruence).
  - unfold nodes_in_use. rewrite E4, E1, (nodes_sum_insert _ _ _ _ _ Hn), Hiu', Hiu.
    rewrite H4. unfold nodes_in_use.
    destruct (sn_hlist nd'); [rewrite wrap_ulong_sub_l|]; f_equal; lia.
  - unfold records_attached, nodes_in_use.
    rewrite E5, E1, !(nodes_sum_insert _ _ _ _ _ Hn), Hiu', Hiu, Hc', Hc.
    rewrite H5. unfold records_attached, nodes_in_use.
    destruct (sn_hlist nd'); [|rewrite wrap_ulong_sub_l]; f_equal;
      cbn [length] in *; lia.
Qed.

(** Dropping a node together with all its records. *)
Lemma rmap_bookkeeping_drop_node s s' n nd :
  rmap_bookkeeping s ->
  stable_nodes s !! n = Some nd -> is_stable_node_chain nd = false ->
  stable_nodes s' = delete n (stable_nodes s) ->
  (forall r, r ∈ sn_hlist nd ->
     exists it', rmap_items s' !! r = Some it' /\
                 test_bits (ri_address it') STABLE_FLAG = false) ->
  (forall r, r ∉ sn_hlist nd -> rmap_items s' !! r = rmap_items s !! r) ->
  next_ptr s' = next_ptr s ->
  ksm_pages_shared s' = wrap_ulong (nodes_in_use s - node_in_use nd) ->
  ksm_pages_sharing s' =
    wrap_ulong (records_attached s - nodes_in_use s - (node_records nd - node_in_use nd)) ->
  rmap_bookkeeping s'.
Proof.
  intros [H1 H2 H3 H4 H5] Hn Hreg E1 Em Eo E3 E4 E5.
  destruct (H1 n nd Hn Hreg) as (Hnd & Hlen & Hb & Hm).
  split; unfold item_ok, node_ok.
  - intros x ndx. rewrite E1. intros [Hne Hx]%lookup_delete_Some Hrx.
    destruct (H1 x ndx Hx Hrx) as (? & ? & ? & Hmx). repeat split; try done.
    intros q Hq. destruct (Hmx q Hq) as (iq & Hiq & Hhq & ?).
    exists iq. rewrite Eo; [done|]. intros Hq'.
    destruct (Hm q Hq') as (? & ? & ? & _). congruence.
  - intros q iq Hq Hfq. destruct (decide (q ∈ sn_hlist nd)) as [Hin|Hnin].
    + destruct (Em q Hin) as (? & ? & ?). congruence.
    + rewrite Eo in Hq by done.
      destruct (H2 q iq Hq Hfq) as (x & ndx & ? & Hx & ? & ?).
      exists x, ndx. rewrite E1, lookup_delete_ne; [done|]. intros <-. congruence.
  - intros p. rewrite E1, E3. intros Hp. destruct (H3 p Hp) as [? Hi]. split.
    + apply lookup_delete_None. by right.
    + rewrite Eo; [done|]. intros Hin. destruct (Hm p Hin) as (? & ? & _). congruence.
  - rewrite E4. f_equal. unfold nodes_in_use.
    rewrite E1, (nodes_sum_delete _ _ _ _ Hn). done.
  - rewrite E5. f_equal. unfold records_attached, nodes_in_use.
    rewrite E1, !(nodes_sum_delete _ _ _ _ Hn). lia.
Qed.

Lemma stable_tree_append_bookkeeping r n b s s' it :
  rmap_bookkeeping s ->
  rmap_items s !! r = Some it ->
  test_bits (ri_address it) STABLE_FLAG = false ->
  stable_tree_append r n b s = Ok tt s' ->
  rmap_bookkeeping s'.
Proof.
  intros Hbk Hr Hu H. unfold stable_tree_append in H. minv H.
  cbn in *. rewrite lookup_insert_eq in H4. injection H4 as <-.
  assert (n0 = a) as -> by congruence. assert (r0 = it) as -> by congruence.
  apply Z.ltb_ge in H1.
  apply (rmap_bookkeeping_attach s s' n a
           (sn_set_hlist (r :: sn_hlist a)
              (sn_set_rmap_hlist_len (wrap_int (sn_rmap_hlist_len a + 1)) a))
           r it
           (ri_set_address (Z.lor (ri_address it) STABLE_FLAG)
              (ri_set_head (Some n) it)) Hbk H0 H1 Hr Hu);
    try reflexivity; try apply stable_flag_set;
    destruct (sn_hlist a) eqn:E; minv H; cbn; rewrite ?insert_insert_eq, ?E;
    reflexivity.
Qed.

Lemma mask_idem r :
  ri_set_address (Z.land (ri_address (ri_set_address (Z.land (ri_address r) PAGE_MASK) r))
                    PAGE_MASK)
    (ri_set_address (Z.land (ri_address r) PAGE_MASK) r) =
  ri_set_address (Z.land (ri_address r) PAGE_MASK) r.
Proof.
  destruct r. unfold ri_set_address. cbn. f_equal.
  rewrite <- Z.land_assoc. f_equal.
Qed.

(** The loop of [remove_node_from_stable_tree]: every entry of the list is
    masked, the counters go down by the number of entries, the node keeps
    its list. *)
Lemma remove_node_loop_spec n l :
  forall s nd A B a s',
    stable_nodes s !! n = Some nd ->
    ksm_pages_shared s = wrap_ulong A ->
    ksm_pages_sharing s = wrap_ulong B ->
    remove_node_from_stable_tree_loop n l s = Ok a s' ->
    (exists nd', stable_nodes s' = <[n := nd']> (stable_nodes s) /\
                 sn_hlist nd' = sn_hlist nd /\ sn_head nd' = sn_head nd /\
                 sn_kpfn nd' = sn_kpfn nd) /\
    (forall r, r ∈ l ->
       exists it, rmap_items s !! r = Some it /\
                  rmap_items s' !! r =
                    Some (ri_set_address (Z.land (ri_address it) PAGE_MASK) it)) /\
    (forall r, r ∉ l -> rmap_items s' !! r = rmap_items s !! r) /\
    next_ptr s' = next_ptr s /\
    ksm_pages_shared s' = wrap_ulong (A - match l with [] => 0 | _ :: _ => 1 end) /\
    ksm_pages_sharing s' =
      wrap_ulong (B - match l with [] => 0 | _ :: t => Z.of_nat (length t) end).
Proof.
  induction l as [|r l IH]; intros s nd A B a s' Hn HA HB H.
  - cbn in H. minv H. repeat split.
    + exists nd. by rewrite insert_id.
    + by intros r ?%elem_of_nil.
    + by rewrite HA, Z.sub_0_r.
    + by rewrite HB, Z.sub_0_r.
  - cbn [remove_node_from_stable_tree_loop] in H.
    apply bind_Ok in H as ([] & s1 & H1 & H).
    apply bind_Ok in H as ([] & s2 & H2 & H).
    apply bind_Ok in H as ([] & s3 & H3 & H).
    assert (E1 : stable_nodes s1 = stable_nodes s /\ rmap_items s1 = rmap_items s /\
                 next_ptr s1 = next_ptr s /\
                 ksm_pages_shared s1 =
                   wrap_ulong (A - match l with [] => 1 | _ :: _ => 0 end) /\
                 ksm_pages_sharing s1 =
                   wrap_ulong (B - match l with [] => 0 | _ :: _ => 1 end)).
    { destruct l; minv H1; cbn; rewrite HA, HB, ?wrap_ulong_sub_l, ?Z.sub_0_r; done. }
    destruct E1 as (E1 & E2 & E3 & E4 & E5).
    minv H2. rewrite E1 in H2. assert (n0 = nd) as -> by congruence.
    minv H3. cbn in H3. rewrite E2 in H3.
    eapply IH in H; cbn; [|by rewrite lookup_insert_eq|exact E4|exact E5].
    cbn in H. destruct H as ((nd' & F1 & F2 & F3 & F4) & F5 & F6 & F7 & F8 & F9).
    rewrite E1, E2, ?E3 in *. repeat split.
    + exists nd'. rewrite F1, insert_insert_eq. done.
    + intros q [->|Hq]%elem_of_cons.
      * exists r0. split; [done|]. destruct (decide (r ∈ l)) as [Hin|Hnin].
        -- destruct (F5 r Hin) as (it & Hit & ->). rewrite lookup_insert_eq in Hit.
           injection Hit as Hit. subst it. by rewrite mask_idem.
        -- rewrite F6, lookup_insert_eq; done.
      * destruct (F5 q Hq) as (it & Hit & ->).
        destruct (decide (q = r)) as [->|Hne].
        -- rewrite lookup_insert_eq in Hit. injection Hit as Hit. subst it.
           exists r0. split; [done|]. by rewrite mask_idem.
        -- rewrite lookup_insert_ne in Hit by done. eauto.
    + intros q Hq. rewrite F6 by (intros ?; apply Hq; by right).
      rewrite lookup_insert_ne; [done|]. intros <-. apply Hq. by left.
    + done.
    + rewrite F8. f_equal. destruct l; lia.
    + rewrite F9. f_equal. destruct l; cbn [length]; lia.
Qed.

Lemma remove_node_from_stable_tree_bookkeeping n s s' :
  rmap_bookkeeping s ->
  remove_node_from_stable_tree n s = Ok tt s' ->
  rmap_bookkeeping s' /\
  exists nd,
    stable_nodes s !! n = Some nd /\ 0 <= sn_rmap_hlist_len nd /\
    (stable_nodes s' = delete n (stable_nodes s) \/
     stable_nodes s' = delete n (stable_nodes (hlist_del_dup n s))) /\
    (forall r, r ∈ sn_hlist nd ->
       exists it, rmap_items s !! r = Some it /\
                  rmap_items s' !! r =
                    Some (ri_set_address (Z.land (ri_address it) PAGE_MASK) it)) /\
    (forall r, r ∉ sn_hlist nd -> rmap_items s' !! r = rmap_items s !! r).
Proof.
  intros Hbk H. unfold remove_node_from_stable_tree in H.
  apply bind_Ok in H as (nd & s0 & [Hn ->]%stable_node_at_Ok & H).
  apply bind_Ok in H as ([] & s0 & [H0 ->]%BUG_ON_Ok & H).
  apply Z.ltb_ge in H0.
  apply bind_Ok in H as ([] & s1 & Hloop & H).
  apply bind_Ok in H as (nd' & s0 & [Hn' ->]%stable_node_at_Ok & H).
  apply bind_Ok in H as ([] & s2 & Hdel & H).
  apply modify_Ok in H.
  destruct (remove_node_loop_spec n (sn_hlist nd) s nd _ _ _ _ Hn
              (bk_shared _ Hbk) (bk_sharing _ Hbk) Hloop)
    as ((nd1 & E1 & Eh & Ehd & _) & Em & Eo & E3 & E4 & E5).
  assert (Hreg := nonneg_not_chain _ H0).
  assert (Hs2 : rmap_items s2 = rmap_items s1 /\ next_ptr s2 = next_ptr s1 /\
                ksm_pages_shared s2 = ksm_pages_shared s1 /\
                ksm_pages_sharing s2 = ksm_pages_sharing s1 /\
                (stable_nodes s2 = stable_nodes s1 \/
                 stable_nodes s2 = stable_nodes (hlist_del_dup n s1))).
  { destruct (decide (sn_head nd' = HEAD_MIGRATE_NODES)).
    - minv Hdel. cbn. repeat split; auto.
    - unfold stable_node_dup_del in Hdel. minv Hdel.
      destruct (is_stable_node_dup a).
      + unfold __stable_node_dup_del in Hdel. minv Hdel. cbn. repeat split; auto.
      + minv Hdel. cbn. repeat split; auto. }
  destruct Hs2 as (G2 & G3 & G4 & G5 & G1).
  assert (Hmid : rmap_bookkeeping (set_stable_nodes (delete n (stable_nodes s)) s')).
  { apply (rmap_bookkeeping_drop_node s _ n nd Hbk Hn Hreg); subst s'; cbn;
      rewrite ?G2, ?G3, ?G4, ?G5; try done.
    - intros r Hr. destruct (Em r Hr) as (it & _ & ->). eexists. split; [done|].
      apply stable_flag_masked.
    - rewrite E4. f_equal. unfold node_in_use. by rewrite attached_regular.
    - rewrite E5. f_equal. unfold node_in_use, node_records.
      rewrite attached_regular by done. destruct (sn_hlist nd); cbn [length]; lia. }
  assert (Hmap : stable_nodes s' = delete n (stable_nodes s) \/
                 stable_nodes s' = delete n (stable_nodes (hlist_del_dup n s))).
  { subst s'. cbn. destruct G1 as [-> | ->]; [left|right].
    - by rewrite E1, delete_insert_eq.
    - unfold hlist_del_dup. cbn. rewrite E1, fmap_insert, delete_insert_eq. done. }
  split.
  - destruct Hmap as [E|E].
    + eapply rmap_bookkeeping_ext; [ | | | | |exact Hmid]; cbn; done.
    + apply (rmap_bookkeeping_hlist_del_dup _ n) in Hmid.
      eapply rmap_bookkeeping_ext; [ | | | | |exact Hmid]; cbn; try done.
      rewrite E. unfold hlist_del_dup. cbn. by rewrite fmap_delete.
  - exists nd. repeat split; try done.
    + intros r Hr. destruct (Em r Hr) as (it & ? & ?). exists it.
      subst s'. cbn. by rewrite G2.
    + intros r Hr. subst s'. cbn. rewrite G2. by apply Eo.
Qed.

(** What [get_ksm_page] returns: the node was stale and is gone, or its
    page is there and nothing changed. *)
Lemma get_ksm_page_Ok e n flags s p s' :
  get_ksm_page e n flags s = Ok p s' ->
  exists nd,
    stable_nodes s !! n = Some nd /\
    ((p = PAGE_NULL /\ remove_node_from_stable_tree n s = Ok tt s' /\
      (page_mapping_of s (sn_kpfn nd) <> MAPPING_KSM (Some n) \/
       get_page_unless_zero e (sn_kpfn nd) = false)) \/
     (s' = s /\ page_mapping_of s (sn_kpfn nd) = MAPPING_KSM (Some n) /\
      get_page_unless_zero e (sn_kpfn nd) = true /\
      (p = PAGE (sn_kpfn nd) \/
       (p = PAGE_EBUSY /\ flags = GET_KSM_PAGE_TRYLOCK /\
        trylock_page e (sn_kpfn nd) = false)))).
Proof.
  unfold get_ksm_page. intros H.
  apply bind_Ok in H as (nd & s0 & [Hn ->]%stable_node_at_Ok & H).
  apply bind_Ok in H as (s0 & s1 & [-> ->]%get_Ok & H).
  exists nd. split; [done|].
  destruct (bool_decide_reflect (page_mapping_of s (sn_kpfn nd) = MAPPING_KSM (Some n)))
    as [Hmap|Hmap]; cbn [negb] in H.
  - destruct (get_page_unless_zero e (sn_kpfn nd)) eqn:Hget; cbn [negb] in H.
    + right.
      assert (s' = s /\ (p = PAGE (sn_kpfn nd) \/
                (p = PAGE_EBUSY /\ flags = GET_KSM_PAGE_TRYLOCK /\
                 trylock_page e (sn_kpfn nd) = false))) as [-> Hp]; [|done].
      destruct flags; try (apply ret_Ok in H as [<- <-]; by auto).
      destruct (trylock_page e (sn_kpfn nd)) eqn:Hlock; cbn [negb] in H;
        apply ret_Ok in H as [<- <-]; auto.
    + destruct (PageSwapCache e (sn_kpfn nd)); cbn [negb] in H; [done|].
      apply bind_Ok in H as ([] & s1 & H1 & [<- <-]%ret_Ok). left. auto.
  - apply bind_Ok in H as ([] & s1 & H1 & [<- <-]%ret_Ok). left. auto.
Qed.

Lemma get_ksm_page_bookkeeping e n flags s p s' :
  rmap_bookkeeping s -> get_ksm_page e n flags s = Ok p s' -> rmap_bookkeeping s'.
Proof.
  intros Hbk (nd & Hn & [(_ & H & _)|(-> & _)])%get_ksm_page_Ok; [|done].
  by apply (remove_node_from_stable_tree_bookkeeping n s s' Hbk).
Qed.

(** After [remove_rmap_item_from_tree] the record is on no tree. *)
Lemma remove_rmap_item_from_tree_bookkeeping e r s s' :
  rmap_bookkeeping s ->
  remove_rmap_item_from_tree e r s = Ok tt s' ->
  rmap_bookkeeping s' /\
  exists it it', rmap_items s !! r = Some it /\ rmap_items s' !! r = Some it' /\
                 test_bits (ri_address it') STABLE_FLAG = false /\
                 ri_mm it' = ri_mm it /\ ri_oldchecksum it' = ri_oldchecksum it.
Proof.
  intros Hbk H. unfold remove_rmap_item_from_tree in H.
  apply bind_Ok in H as (it & s0 & [Hr ->]%rmap_item_at_Ok & H).
  destruct (test_bits (ri_address it) STABLE_FLAG) eqn:Hf.
  - destruct (ri_head it) as [n|] eqn:Hhd; [|done].
    apply bind_Ok in H as (p & s1 & Hget & H).
    destruct (bk_items _ Hbk r it Hr Hf) as (n_ & nd & En & Hn & Hreg & Hin).
    assert (n_ = n) as -> by congruence.
    apply get_ksm_page_Ok in Hget as (nd_ & Hn_ & [(-> & Hrm & _)|(-> & _ & _ & Hp)]).
    + apply ret_Ok in H as [_ <-].
      destruct (remove_node_from_stable_tree_bookkeeping n s s1 Hbk Hrm)
        as (Hbk' & nd0 & Hn0 & _ & _ & Hm & _).
      split; [done|]. assert (nd0 = nd) as -> by congruence.
      destruct (Hm r Hin) as (it0 & Hit0 & ->). assert (it0 = it) as -> by congruence.
      exists it. eexists. repeat split; try done. apply stable_flag_masked.
    + assert (H' : (stable_node_update n
                      (fun n0 => sn_set_hlist (hlist_del r (sn_hlist n0)) n0);;
                    do n0 <- stable_node_at n;
                    (match sn_hlist n0 with
                     | _ :: _ =>
                         modify (fun s => set_ksm_pages_sharing (wrap_ulong (ksm_pages_sharing s - 1)) s);;
                         modify (fun s => set_lksm_slot_nr_broken (wrap_int (lksm_slot_nr_broken s + 1)) s);;
                         modify (fun s => set_lksm_nr_broken (wrap_int (lksm_nr_broken s + 1)) s)
                     | [] =>
                         modify (fun s => set_ksm_pages_shared (wrap_ulong (ksm_pages_shared s - 1)) s)
                     end);;
                    stable_node_update n
                      (fun n0 => sn_set_rmap_hlist_len (wrap_int (sn_rmap_hlist_len n0 - 1)) n0);;
                    rmap_item_update r
                      (fun r0 => ri_set_address (Z.land (ri_address r0) PAGE_MASK)
                                  (ri_set_head None r0))) s = Ok tt s').
      { destruct Hp as [->|(-> & _)]; exact H. }
      clear H Hp. rename H' into H.
      apply bind_Ok in H as ([] & s1 & (n0 & Hn0 & ->)%stable_node_update_Ok & H).
      assert (n0 = nd) as -> by congruence.
      apply bind_Ok in H as (n1 & s1 & [Hn1 ->]%stable_node_at_Ok & H).
      cbn in Hn1. rewrite lookup_insert_eq in Hn1. injection Hn1 as <-.
      apply bind_Ok in H as ([] & s2 & Hc & H).
      cbn [sn_hlist sn_set_hlist] in Hc.
      apply bind_Ok in H as ([] & s3 & (n2 & Hn2 & ->)%stable_node_update_Ok & H).
      apply rmap_item_update_Ok in H as (r2 & Hr2 & ->).
      set (nd' := sn_set_rmap_hlist_len (wrap_int (sn_rmap_hlist_len nd - 1))
                    (sn_set_hlist (hlist_del r (sn_hlist nd)) nd)).
      set (it' := ri_set_address (Z.land (ri_address it) PAGE_MASK) (ri_set_head None it)).
      assert (E : stable_nodes s2 = <[n := sn_set_hlist (hlist_del r (sn_hlist nd)) nd]> (stable_nodes s) /\
                  rmap_items s2 = rmap_items s /\ next_ptr s2 = next_ptr s /\
                  ksm_pages_shared s2 =
                    match hlist_del r (sn_hlist nd) with
                    | [] => wrap_ulong (ksm_pages_shared s - 1) | _ :: _ => ksm_pages_shared s end /\
                  ksm_pages_sharing s2 =
                    match hlist_del r (sn_hlist nd) with
                    | [] => ksm_pages_sharing s | _ :: _ => wrap_ulong (ksm_pages_sharing s - 1) end).
      { destruct (hlist_del r (sn_hlist nd)); minv Hc; cbn; done. }
      destruct E as (E1 & E2 & E3 & E4 & E5).
      rewrite E1, lookup_insert_eq in Hn2. injection Hn2 as <-.
      cbn in Hr2. rewrite E2 in Hr2. assert (r2 = it) as -> by congruence.
      split.
      * apply (rmap_bookkeeping_detach s _ n nd nd' r it it' Hbk Hr Hf Hhd Hn);
          cbn; rewrite ?E1, ?E2, ?E3, ?E4, ?E5, ?insert_insert_eq; try done.
        apply stable_flag_masked.
      * exists it, it'. cbn. rewrite lookup_insert_eq. repeat split; try done.
        apply stable_flag_masked.
  - destruct (test_bits (ri_address it) UNSTABLE_FLAG) eqn:Hunst.
    + apply bind_Ok in H as (s0 & s1 & [-> ->]%get_Ok & H).
      apply bind_Ok in H as ([] & s1 & H1 & H).
      apply bind_Ok in H as ([] & s2 & ->%modify_Ok & H).
      apply rmap_item_update_Ok in H as (r2 & Hr2 & ->).
      assert (E : stable_nodes s1 = stable_nodes s /\ rmap_items s1 = rmap_items s /\
                  next_ptr s1 = next_ptr s /\ ksm_pages_shared s1 = ksm_pages_shared s /\
                  ksm_pages_sharing s1 = ksm_pages_sharing s).
      { destruct (wrap_uchar (ksm_scan_scan_round s - ri_address it) =? 0); minv H1; done. }
      destruct E as (E1 & E2 & E3 & E4 & E5).
      cbn in Hr2. rewrite E2 in Hr2. assert (r2 = it) as -> by congruence.
      split.
      * eapply rmap_bookkeeping_ext;
          [ | | | | |apply (rmap_bookkeeping_item_update s r it
                       (ri_set_address (Z.land (ri_address it) PAGE_MASK) it) Hbk Hr)];
          cbn; rewrite ?E1, ?E2, ?E3, ?E4, ?E5, ?stable_flag_masked, ?Hf; done.
      * exists it. eexists. cbn. rewrite lookup_insert_eq. repeat split; try done.
        apply stable_flag_masked.
    + apply ret_Ok in H as [_ <-]. split; [done|]. exists it, it. done.
Qed.

(** ** The walk over the dups of a chain (C2, C5) *)

Lemma same_dups_refl c s : same_dups c s s.
Proof. repeat split. intros x nd _ Hx. exists nd. done. Qed.

Lemma same_dups_trans c s1 s2 s3 :
  same_dups c s1 s2 -> same_dups c s2 s3 -> same_dups c s1 s3.
Proof.
  intros (A1 & A2 & A3) (B1 & B2 & B3). repeat split; [congruence|congruence|].
  intros x nd Hc Hx. destruct (B3 x nd Hc Hx) as (nd2 & Hx2 & ? & ? & ?).
  destruct (A3 x nd2 Hc Hx2) as (nd1 & Hx1 & ? & ? & ?).
  exists nd1. repeat split; congruence.
Qed.

Lemma remove_node_loop_nodes n l :
  forall s nd a s',
    stable_nodes s !! n = Some nd ->
    remove_node_from_stable_tree_loop n l s = Ok a s' ->
    exists nd', stable_nodes s' = <[n := nd']> (stable_nodes s) /\
                sn_hlist nd' = sn_hlist nd /\ sn_head nd' = sn_head nd /\
                sn_kpfn nd' = sn_kpfn nd.
Proof.
  induction l as [|r l IH]; intros s nd a s' Hn H.
  - cbn in H. minv H. exists nd. by rewrite insert_id.
  - cbn [remove_node_from_stable_tree_loop] in H.
    apply bind_Ok in H as ([] & s1 & H1 & H).
    apply bind_Ok in H as ([] & s2 & H2 & H).
    apply bind_Ok in H as ([] & s3 & H3 & H).
    assert (E1 : stable_nodes s1 = stable_nodes s) by (destruct l; minv H1; done).
    minv H2. rewrite E1 in H2. assert (n0 = nd) as -> by congruence.
    minv H3. eapply IH in H; cbn; [|by rewrite lookup_insert_eq].
    cbn in H. destruct H as (nd' & F1 & F2 & F3 & F4).
    exists nd'. rewrite F1, E1, insert_insert_eq. done.
Qed.

(** What [remove_node_from_stable_tree] does to the nodes and the trees. *)
Lemma remove_node_from_stable_tree_Ok n s s' :
  remove_node_from_stable_tree n s = Ok tt s' ->
  exists nd,
    stable_nodes s !! n = Some nd /\ 0 <= sn_rmap_hlist_len nd /\
    stable_nodes s' =
      delete n (if is_stable_node_dup nd then stable_nodes (hlist_del_dup n s)
                else stable_nodes s) /\
    root_stable_tree s' =
      (if is_stable_node_dup nd || bool_decide (sn_head nd = HEAD_MIGRATE_NODES)
       then root_stable_tree s else rb_erase n (root_stable_tree s)) /\
    ksm_stable_node_dups s' =
      (if is_stable_node_dup nd then wrap_ulong (ksm_stable_node_dups s - 1)
       else ksm_stable_node_dups s) /\
    ksm_stable_node_chains s' = ksm_stable_node_chains s /\
    mem_map s' = mem_map s /\
    ksm_max_page_sharing s' = ksm_max_page_sharing s /\
    ksm_stable_node_chains_prune_millisecs s' = ksm_stable_node_chains_prune_millisecs s /\
    next_ptr s' = next_ptr s.
Proof.
  intros H. assert (H' := H). unfold remove_node_from_stable_tree in H.
  apply bind_Ok in H as (nd & s0 & [Hn ->]%stable_node_at_Ok & H).
  apply bind_Ok in H as ([] & s0 & [H0 ->]%BUG_ON_Ok & H).
  apply Z.ltb_ge in H0.
  apply bind_Ok in H as ([] & s1 & Hloop & H).
  apply bind_Ok in H as (nd' & s0 & [Hn' ->]%stable_node_at_Ok & H).
  apply bind_Ok in H as ([] & s2 & Hdel & H).
  apply modify_Ok in H.
  destruct (remove_node_loop_nodes n _ s nd _ _ Hn Hloop) as (nd1 & E1 & Eh & Ehd & Ek).
  rewrite E1, lookup_insert_eq in Hn'. injection Hn' as <-.
  assert (Hroot1 : root_stable_tree s1 = root_stable_tree s /\
                   ksm_stable_node_dups s1 = ksm_stable_node_dups s).
  { split; revert Hloop.
    - apply (preserves_remove_node_from_stable_tree_loop
               (fun x => root_stable_tree x = root_stable_tree s)); frame_trivial.
    - apply (preserves_remove_node_from_stable_tree_loop
               (fun x => ksm_stable_node_dups x = ksm_stable_node_dups s)); frame_trivial. }
  destruct Hroot1 as [Er1 Ed1].
  exists nd. split; [done|]. split; [done|].
  assert (Hdup : is_stable_node_dup nd1 = is_stable_node_dup nd)
    by (unfold is_stable_node_dup; by rewrite Ehd).
  repeat split.
  - subst s'. cbn. rewrite <- Hdup.
    destruct (decide (sn_head nd1 = HEAD_MIGRATE_NODES)) as [Em|Em].
    + minv Hdel. cbn. unfold is_stable_node_dup. rewrite Em.
      rewrite bool_decide_eq_false_2 by done. by rewrite E1, delete_insert_eq.
    + unfold stable_node_dup_del in Hdel. minv Hdel.
      rewrite E1, lookup_insert_eq in H. injection H as <-.
      destruct (is_stable_node_dup nd1).
      * unfold __stable_node_dup_del in Hdel. minv Hdel. cbn.
        rewrite E1, fmap_insert, delete_insert_eq. done.
      * minv Hdel. cbn. by rewrite E1, delete_insert_eq.
  - subst s'. cbn. rewrite <- Hdup, <- Ehd.
    destruct (decide (sn_head nd1 = HEAD_MIGRATE_NODES)) as [Em|Em].
    + minv Hdel. cbn. rewrite (bool_decide_eq_true_2 _ Em), orb_true_r. done.
    + rewrite (bool_decide_eq_false_2 _ Em), orb_false_r.
      unfold stable_node_dup_del in Hdel. minv Hdel.
      rewrite E1, lookup_insert_eq in H. injection H as <-.
      destruct (is_stable_node_dup nd1).
      * unfold __stable_node_dup_del in Hdel. minv Hdel. cbn. done.
      * minv Hdel. cbn. by rewrite Er1.
  - subst s'. cbn. rewrite <- Hdup.
    destruct (decide (sn_head nd1 = HEAD_MIGRATE_NODES)) as [Em|Em].
    + minv Hdel. cbn. unfold is_stable_node_dup. rewrite Em.
      rewrite bool_decide_eq_false_2 by done. done.
    + unfold stable_node_dup_del in Hdel. minv Hdel.
      rewrite E1, lookup_insert_eq in H. injection H as <-.
      destruct (is_stable_node_dup nd1).
      * unfold __stable_node_dup_del in Hdel. minv Hdel. cbn. by rewrite Ed1.
      * minv Hdel. cbn. done.
  - revert H'. apply (preserves_remove_node_from_stable_tree
                        (fun x => ksm_stable_node_chains x = ksm_stable_node_chains s));
      frame_trivial.
  - revert H'. apply (preserves_remove_node_from_stable_tree
                        (fun x => mem_map x = mem_map s)); frame_trivial.
  - revert H'. apply (preserves_remove_node_from_stable_tree
                        (fun x => ksm_max_page_sharing x = ksm_max_page_sharing s));
      frame_trivial.
  - revert H'. apply (preserves_remove_node_from_stable_tree
                        (fun x => ksm_stable_node_chains_prune_millisecs x =
                                  ksm_stable_node_chains_prune_millisecs s));
      frame_trivial.
  - revert H'. apply (preserves_remove_node_from_stable_tree
                        (fun x => next_ptr x = next_ptr s)); frame_trivial.
Qed.

Lemma remove_node_from_stable_tree_same_dups c n s s' :
  remove_node_from_stable_tree n s = Ok tt s' -> same_dups c s s'.
Proof.
  intros (nd & Hn & _ & E & _ & _ & _ & Em & Ex & _)%remove_node_from_stable_tree_Ok.
  repeat split; [done|done|].
  intros x nd' _. rewrite E. intros [Hne Hx]%lookup_delete_Some.
  destruct (is_stable_node_dup nd).
  - unfold hlist_del_dup in Hx. cbn in Hx. rewrite lookup_fmap in Hx.
    destruct (stable_nodes s !! x) as [cn|]; [|done]. cbn in Hx. injection Hx as <-.
    exists cn. split; [done|]. by destruct (is_stable_node_chain cn).
  - exists nd'. done.
Qed.

Lemma get_ksm_page_same_dups c e n flags s p s' :
  get_ksm_page e n flags s = Ok p s' -> same_dups c s s'.
Proof.
  intros (nd & Hn & [(_ & H & _)|(-> & _)])%get_ksm_page_Ok.
  - by apply (remove_node_from_stable_tree_same_dups c n).
  - apply same_dups_refl.
Qed.

(** What the walk reads of a dup it reaches is what the state it started
    in holds. *)
Lemma same_dups_read c e s0 s d nd :
  same_dups c s0 s -> d <> c -> stable_nodes s !! d = Some nd ->
  dup_len s0 d = sn_rmap_hlist_len nd /\ dup_kpfn s0 d = sn_kpfn nd /\
  dup_candidate s0 d = is_page_sharing_candidate s nd /\
  dup_live e s0 d =
    bool_decide (page_mapping_of s (sn_kpfn nd) = MAPPING_KSM (Some d))
    && get_page_unless_zero e (sn_kpfn nd).
Proof.
  intros (Em & Ex & Hn) Hc Hd. destruct (Hn d nd Hc Hd) as (nd0 & Hd0 & Ek & El & _).
  unfold dup_len, dup_kpfn, dup_candidate, dup_live. rewrite Hd0.
  unfold is_page_sharing_candidate, __is_page_sharing_candidate, page_mapping_of.
  rewrite Ek, El, Ex, Em. done.
Qed.

(** The walk of [stable_node_dup] is the walk over the live dups. *)
Lemma stable_node_dup_loop_spec c e prune s0 dups :
  c ∉ dups ->
  forall w s w' s',
    same_dups c s0 s ->
    (match found w with
     | Some f => tree_page w = PAGE (dup_kpfn s0 f) | None => tree_page w = PAGE_NULL end) ->
    stable_node_dup_loop e prune dups w s = Ok w' s' ->
    same_dups c s0 s' /\
    (found w', found_rmap_hlist_len w', nr w') =
      dup_walk_live prune s0 (live_dups e s0 dups) (found w) (found_rmap_hlist_len w) (nr w) /\
    (match found w' with
     | Some f => tree_page w' = PAGE (dup_kpfn s0 f) | None => tree_page w' = PAGE_NULL end).
Proof.
  induction dups as [|d dups IH]; intros Hc w s w' s' HR HT H.
  - cbn in H. apply ret_Ok in H as [<- <-]. done.
  - apply not_elem_of_cons in Hc as [Hdc Hc]. specialize (IH Hc).
    assert (Hdc' : d <> c) by congruence. clear Hdc. rename Hdc' into Hdc.
    cbn [stable_node_dup_loop] in H.
    apply bind_Ok in H as (p & s1 & Hget & H).
    assert (HR1 : same_dups c s0 s1)
      by (eapply same_dups_trans; [exact HR|by eapply get_ksm_page_same_dups]).
    apply get_ksm_page_Ok in Hget as (nd & Hd & [(-> & Hrm & Hdead)|(-> & Hmap & Hgp & Hp)]).
    + (* the dup was stale *)
      destruct (same_dups_read c e s0 s d nd HR Hdc Hd) as (_ & _ & _ & Hlive).
      assert (Hl : dup_live e s0 d = false).
      { rewrite Hlive. destruct Hdead as [Hm|Hg].
        - by rewrite bool_decide_eq_false_2.
        - by rewrite Hg, andb_false_r. }
      unfold live_dups. rewrite filter_cons_False by (rewrite Hl; done).
      by apply (IH w s1 w' s').
    + destruct (same_dups_read c e s0 s d nd HR Hdc Hd) as (Hlen & Hk & Hcd & Hlive).
      assert (Hl : dup_live e s0 d = true)
        by (rewrite Hlive, Hgp, bool_decide_eq_true_2; done).
      unfold live_dups. rewrite filter_cons_True by done. fold (live_dups e s0 dups).
      cbn [dup_walk_live]. rewrite Hcd, Hlen.
      assert (Hp' : p = PAGE (sn_kpfn nd)) by (destruct Hp as [->|(_ & [=] & _)]; done).
      subst p.
      apply bind_Ok in H as (d' & s1 & [Hd' ->]%stable_node_at_Ok & H).
      assert (d' = nd) as -> by congruence.
      apply bind_Ok in H as (s1 & s2 & [-> ->]%get_Ok & H).
      cbn [found found_rmap_hlist_len tree_page nr] in H.
      destruct (is_page_sharing_candidate s nd &&
                match found w with
                | Some _ => found_rmap_hlist_len w <? sn_rmap_hlist_len nd
                | None => true
                end) eqn:Hpick.
      * destruct prune; cbn [negb] in *.
        -- apply IH in H; cbn; [done|done|by rewrite Hk].
        -- apply ret_Ok in H as [<- <-]. cbn. by rewrite Hk.
      * apply IH in H; cbn; done.
Qed.

(** The pruning walk keeps the first of the fullest candidates. *)
Lemma dup_walk_live_from s lives :
  forall a nr,
  exists f n,
    dup_walk_live true s lives (Some a) (dup_len s a) nr = (Some f, dup_len s f, n) /\
    first_largest (dup_len s) (a :: filter (fun d => dup_candidate s d = true) lives) f.
Proof.
  induction lives as [|d lives IH]; intros a nr.
  - exists a, nr. split; [done|]. exists [], []. repeat split; by intros ? ?%elem_of_nil.
  - cbn [dup_walk_live negb].
    destruct (dup_candidate s d) eqn:Hc; cbn [andb].
    + rewrite filter_cons_True by done.
      destruct (Z.ltb_spec (dup_len s a) (dup_len s d)) as [Hlt|Hge].
      * destruct (IH d (wrap_int (nr + 1))) as (f & n & -> & l1 & l2 & E & H1 & H2).
        exists f, n. split; [done|]. exists (a :: l1), l2. rewrite E. split; [done|].
        split; [|done]. intros x [->|Hx]%elem_of_cons; [|by apply H1].
        destruct l1 as [|y l1]; [injection E as -> _; done|].
        injection E as <- _. specialize (H1 d (list_elem_of_here _ _)). lia.
      * destruct (IH a (wrap_int (nr + 1))) as (f & n & -> & l1 & l2 & E & H1 & H2).
        exists f, n. split; [done|]. destruct l1 as [|y l1].
        -- injection E as <- E. exists [], (d :: l2). rewrite E. split; [done|].
           split; [by intros ? ?%elem_of_nil|].
           intros x [->|Hx]%elem_of_cons; [done|by apply H2].
        -- injection E as <- E. exists (a :: d :: l1), l2. rewrite E. split; [done|].
           split; [|done].
           assert (Ha := H1 a (list_elem_of_here _ _)).
           intros x [->|[->|Hx]%elem_of_cons]%elem_of_cons; [done|lia|].
           apply H1. by right.
    + rewrite filter_cons_False by (rewrite Hc; done). apply IH.
Qed.

Lemma dup_walk_live_prune s lives :
  forall flen nr,
  match dup_walk_live true s lives None flen nr with
  | (Some f, fl, _) =>
      fl = dup_len s f /\
      first_largest (dup_len s) (filter (fun d => dup_candidate s d = true) lives) f
  | (None, _, _) => filter (fun d => dup_candidate s d = true) lives = []
  end.
Proof.
  induction lives as [|d lives IH]; intros flen nr; [done|].
  cbn [dup_walk_live negb]. destruct (dup_candidate s d) eqn:Hc; cbn [andb].
  - rewrite filter_cons_True by done.
    destruct (dup_walk_live_from s lives d (wrap_int (nr + 1))) as (f & n & -> & Hf).
    done.
  - rewrite filter_cons_False by (rewrite Hc; done). apply IH.
Qed.

(** The walk that does not prune stops at the first candidate. *)
Lemma dup_walk_live_first s lives :
  forall flen nr,
  (dup_walk_live false s lives None flen nr).1.1 =
    head (filter (fun d => dup_candidate s d = true) lives).
Proof.
  induction lives as [|d lives IH]; intros flen nr; [done|].
  cbn [dup_walk_live negb]. destruct (dup_candidate s d) eqn:Hc; cbn [andb].
  - by rewrite filter_cons_True.
  - rewrite filter_cons_False by (rewrite Hc; done). apply IH.
Qed.

(** The pruning walk counts the live dups. *)
Lemma dup_walk_live_nr s lives :
  forall fnd flen n,
  (dup_walk_live true s lives fnd flen (wrap_int n)).2 =
    wrap_int (n + Z.of_nat (length lives)).
Proof.
  induction lives as [|d lives IH]; intros fnd flen n.
  - cbn. f_equal. lia.
  - cbn [dup_walk_live negb length]. rewrite wrap_int_add_l.
    destruct (dup_candidate s d &&
              match fnd with Some _ => flen <? dup_len s d | None => true end);
      rewrite IH; f_equal; lia.
Qed.

(** [stable_node_dup] returns what the walk over the live dups of the chain
    keeps. *)
Lemma stable_node_dup_walk e n prune s fd sn' tp s' chain :
  stable_nodes s !! n = Some chain ->
  n ∉ sn_hlist chain ->
  stable_node_dup e n prune s = Ok (fd, sn', tp) s' ->
  exists fl nr_,
    (fd, fl, nr_) =
      dup_walk_live (prune && prune_due e s chain) s
        (live_dups e s (sn_hlist chain)) None 0 0 /\
    tp = match fd with Some f => PAGE (dup_kpfn s f) | None => PAGE_NULL end.
Proof.
  intros Hn Hnin H. unfold stable_node_dup in H.
  apply bind_Ok in H as (chain_ & s0 & [Hn' ->]%stable_node_at_Ok & H).
  assert (chain_ = chain) as -> by congruence.
  apply bind_Ok in H as (s0 & s1 & [-> ->]%get_Ok & H).
  set (eff := if negb prune ||
                 time_before (jiffies e)
                   (wrap_ulong (sn_kpfn chain +
                      msecs_to_jiffies e (ksm_stable_node_chains_prune_millisecs s)))
              then false else true) in H.
  assert (Heff : eff = prune && prune_due e s chain).
  { unfold eff, prune_due. destruct prune; cbn; [|done].
    by destruct (time_before _ _). }
  apply bind_Ok in H as ([] & s1 & Hstamp & H).
  assert (HR : same_dups n s s1).
  { destruct eff.
    - apply stable_node_update_Ok in Hstamp as (c & Hc & ->). repeat split.
      intros x nd' Hx. cbn. rewrite lookup_insert_ne by done. eauto.
    - apply ret_Ok in Hstamp as [_ <-]. apply same_dups_refl. }
  apply bind_Ok in H as (w & s2 & Hloop & H).
  destruct (stable_node_dup_loop_spec n e eff s (sn_hlist chain) Hnin
              (mk_dup_walk None 0 PAGE_NULL 0) s1 w s2 HR eq_refl Hloop)
    as (HR2 & Hw & Htp).
  cbn [found found_rmap_hlist_len nr] in Hw. rewrite Heff in Hw.
  assert (Hfd : fd = found w /\
                tp = match found w with Some f => PAGE (dup_kpfn s f) | None => PAGE_NULL end).
  { destruct (found w) as [f|] eqn:Hf.
    - destruct (eff && (nr w =? 1)).
      + minv H.
        match goal with E : (_, _, _) = (_, _, _) |- _ => injection E as <- _ <- end.
        done.
      + apply bind_Ok in H as (c1 & s3 & _ & H).
        apply bind_Ok in H as (f1 & s4 & _ & H).
        apply bind_Ok in H as (s5 & s6 & _ & H).
        apply bind_Ok in H as ([] & s7 & _ & H).
        apply ret_Ok in H as [H _]. injection H as <- _ <-. done.
    - apply ret_Ok in H as [H _]. injection H as <- _ <-. done. }
  destruct Hfd as [-> ->]. eauto.
Qed.

(** C2 (amended).  A lookup that comes to a chain walks the chain's dups.
    Among the dups whose page is still there and that may take one more
    record (at least one record, fewer than [ksm_max_page_sharing]), a walk
    that prunes (asked for by the caller and due by the chain's prune time)
    returns the one with the LARGEST number of records, which is the one
    with the smallest remaining headroom, and the first of them when
    several have that number; a walk that does not prune returns the first
    such dup it meets.  When there is none, no dup is returned. *)
Theorem chain_walk_keeps_fullest_candidate e n prune s fd sn' tp s' chain :
  stable_nodes s !! n = Some chain ->
  is_stable_node_chain chain = true ->
  n ∉ sn_hlist chain ->
  __stable_node_chain e n prune s = Ok (fd, sn', tp) s' ->
  if prune && prune_due e s chain
  then match fd with
       | Some f =>
           first_largest (dup_len s) (live_candidates e s (sn_hlist chain)) f /\
           tp = PAGE (dup_kpfn s f)
       | None => live_candidates e s (sn_hlist chain) = [] /\ tp = PAGE_NULL
       end
  else fd = head (live_candidates e s (sn_hlist chain)).
Proof.
  intros Hn Hchain Hnin H. unfold __stable_node_chain in H.
  apply bind_Ok in H as (chain_ & s0 & [Hn' ->]%stable_node_at_Ok & H).
  assert (chain_ = chain) as -> by congruence.
  rewrite Hchain in H. cbn [negb] in H.
  destruct (stable_node_dup_walk e n prune s fd sn' tp s' chain Hn Hnin H)
    as (fl & nr_ & Hw & ->).
  unfold live_candidates. destruct (prune && prune_due e s chain).
  - assert (Hp := dup_walk_live_prune s (live_dups e s (sn_hlist chain)) 0 0).
    rewrite <- Hw in Hp. destruct fd as [f|]; [destruct Hp|]; done.
  - assert (Hp := dup_walk_live_first s (live_dups e s (sn_hlist chain)) 0 0).
    rewrite <- Hw in Hp. done.
Qed.

Lemma chain_walk_keeps_fullest_candidate_witness :
  first_largest (dup_len chain_of_two)
    (live_candidates (quiet_at 5000) chain_of_two [51%nat; 52%nat]) 52%nat /\
  PAGE 12 = PAGE (dup_kpfn chain_of_two 52).
Proof.
  exact (chain_walk_keeps_fullest_candidate (quiet_at 5000) 50 true chain_of_two
           (Some 52%nat) 50%nat (PAGE 12)
           (final_state ksm_init (__stable_node_chain (quiet_at 5000) 50 true chain_of_two))
           (mk_stable_node HEAD_RB_NODE [51%nat; 52%nat] 0 STABLE_NODE_CHAIN)
           eq_refl eq_refl
           (bool_decide_unpack (50%nat ∉ [51%nat; 52%nat]) I)
           eq_refl).
Defined.

(** C2 as stated fails: of two live dups with headroom the lookup returns
    the one with LESS headroom left. *)
Lemma chain_walk_passes_over_the_roomiest :
  run_value (None, 0%nat, PAGE_NULL) (chain_prune (quiet_at 5000) 50 chain_of_two) =
    (Some 52%nat, 50%nat, PAGE 12) /\
  live_candidates (quiet_at 5000) chain_of_two [51%nat; 52%nat] = [51%nat; 52%nat] /\
  headroom chain_of_two 51 = 255 /\ headroom chain_of_two 52 = 254 /\
  ~ first_largest (headroom chain_of_two)
      (live_candidates (quiet_at 5000) chain_of_two [51%nat; 52%nat]) 52%nat.
Proof.
  assert (E : live_candidates (quiet_at 5000) chain_of_two [51%nat; 52%nat] =
              [51%nat; 52%nat]) by (vm_compute; reflexivity).
  repeat split; try (vm_compute; reflexivity).
  rewrite E. intros (l1 & l2 & El & H1 & H2).
  destruct l1 as [|x l1]; [discriminate|]. injection El as <- El.
  specialize (H1 51%nat (list_elem_of_here _ _)). vm_compute in H1. discriminate.
Qed.
(** ** Collapsing a chain (C5) *)

Lemma filter_ext_elem {A} (P Q : A -> Prop) `{!forall x, Decision (P x)}
    `{!forall x, Decision (Q x)} (l : list A) :
  (forall x, x ∈ l -> P x <-> Q x) -> filter P l = filter Q l.
Proof.
  induction l as [|a l IH]; intros Hext; [done|].
  assert (Ha := Hext a (list_elem_of_here _ _)).
  assert (IH' : filter P l = filter Q l)
    by (apply IH; intros x Hx; apply Hext; by right).
  destruct (decide (P a)) as [HP|HP].
  - rewrite !filter_cons_True by tauto. by rewrite IH'.
  - rewrite !filter_cons_False by tauto. done.
Qed.

Lemma remove_node_loop_total n l :
  forall s,
    is_Some (stable_nodes s !! n) ->
    (forall r, r ∈ l -> is_Some (rmap_items s !! r)) ->
    exists s', remove_node_from_stable_tree_loop n l s = Ok tt s'.
Proof.
  induction l as [|r l IH]; intros s [nd Hn] Hl; [by exists s|].
  cbn [remove_node_from_stable_tree_loop].
  destruct (Hl r (list_elem_of_here _ _)) as [it Hit].
  set (c := match l with
            | [] => modify (fun s => set_ksm_pages_shared (wrap_ulong (ksm_pages_shared s - 1)) s)
            | _ :: _ =>
                modify (fun s => set_ksm_pages_sharing (wrap_ulong (ksm_pages_sharing s - 1)) s);;
                modify (fun s => set_lksm_slot_nr_broken (wrap_int (lksm_slot_nr_broken s + 1)) s);;
                modify (fun s => set_lksm_nr_broken (wrap_int (lksm_nr_broken s + 1)) s)
            end).
  assert (Hc : exists s1, c s = Ok tt s1 /\ stable_nodes s1 = stable_nodes s /\
                          rmap_items s1 = rmap_items s).
  { unfold c. destruct l; eexists; (split; [reflexivity|done]). }
  destruct Hc as (s1 & Hc & E1 & E2).
  set (s2 := set_stable_nodes
               (<[n := sn_set_rmap_hlist_len (wrap_int (sn_rmap_hlist_len nd - 1)) nd]>
                  (stable_nodes s1)) s1).
  set (s3 := set_rmap_items
               (<[r := ri_set_address (Z.land (ri_address it) PAGE_MASK) it]>
                  (rmap_items s2)) s2).
  destruct (IH s3) as [s' Hs'].
  - unfold s3, s2. cbn. rewrite lookup_insert_eq. eauto.
  - intros q Hq. unfold s3, s2. cbn. rewrite E2.
    destruct (decide (q = r)) as [->|Hne].
    + rewrite lookup_insert_eq. eauto.
    + rewrite lookup_insert_ne by done. apply Hl. by right.
  - exists s'. apply bind_Ok. exists tt, s1. split; [exact Hc|].
    apply bind_Ok. exists tt, s2. split.
    { apply stable_node_update_Ok. exists nd. split; [by rewrite E1|reflexivity]. }
    apply bind_Ok. exists tt, s3. split; [|exact Hs'].
    apply rmap_item_update_Ok. exists it. split; [|reflexivity].
    unfold s2. cbn. by rewrite E2.
Qed.

(** A node that is not a chain can always be removed. *)
Lemma remove_node_from_stable_tree_total n s nd :
  rmap_bookkeeping s ->
  stable_nodes s !! n = Some nd -> 0 <= sn_rmap_hlist_len nd ->
  exists s', remove_node_from_stable_tree n s = Ok tt s'.
Proof.
  intros Hbk Hn H0.
  assert (Hreg := nonneg_not_chain _ H0).
  destruct (bk_nodes _ Hbk n nd Hn Hreg) as (_ & _ & _ & Hm).
  destruct (remove_node_loop_total n (sn_hlist nd) s) as [s1 H1]; [eauto| |].
  { intros r Hr. destruct (Hm r Hr) as (it & -> & _). eauto. }
  destruct (remove_node_loop_nodes n _ s nd _ _ Hn H1) as (nd1 & E1 & _).
  assert (Hn1 : stable_nodes s1 !! n = Some nd1) by (rewrite E1; apply lookup_insert_eq).
  assert (Hdel : exists s2,
             (if decide (sn_head nd1 = HEAD_MIGRATE_NODES)
              then modify (fun s => set_migrate_nodes (hlist_del n (migrate_nodes s)) s)
              else stable_node_dup_del n) s1 = Ok tt s2).
  { destruct (decide (sn_head nd1 = HEAD_MIGRATE_NODES)); [by eexists|].
    unfold stable_node_dup_del.
    destruct (is_stable_node_dup nd1) eqn:Ed; eexists; apply bind_Ok; exists nd1, s1;
      (split; [by apply stable_node_at_Ok|]); rewrite Ed; reflexivity. }
  destruct Hdel as [s2 Hdel].
  eexists. unfold remove_node_from_stable_tree.
  apply bind_Ok. exists nd, s. split; [by apply stable_node_at_Ok|].
  apply bind_Ok. exists tt, s. split; [apply BUG_ON_Ok; split; [by apply Z.ltb_ge|done]|].
  apply bind_Ok. exists tt, s1. split; [exact H1|].
  apply bind_Ok. exists nd1, s1. split; [by apply stable_node_at_Ok|].
  apply bind_Ok. exists tt, s2. split; [exact Hdel|]. reflexivity.
Qed.

Lemma get_ksm_page_live e d flags s nd :
  stable_nodes s !! d = Some nd -> dup_live e s d = true ->
  flags <> GET_KSM_PAGE_TRYLOCK ->
  get_ksm_page e d flags s = Ok (PAGE (sn_kpfn nd)) s.
Proof.
  intros Hd Hl Hf. unfold dup_live in Hl. rewrite Hd in Hl.
  apply andb_true_iff in Hl as [Hm Hg].
  unfold get_ksm_page. apply bind_Ok. exists nd, s. split; [by apply stable_node_at_Ok|].
  apply bind_Ok. exists s, s. split; [done|].
  rewrite Hm, Hg. cbn [negb]. by destruct flags.
Qed.

Lemma get_ksm_page_stale e d flags s :
  rmap_bookkeeping s -> dup_settled e s d -> dup_live e s d = false ->
  exists s', get_ksm_page e d flags s = Ok PAGE_NULL s' /\
             remove_node_from_stable_tree d s = Ok tt s'.
Proof.
  intros Hbk (nd & Hd & H0 & _ & Hw) Hl. unfold dup_live in Hl. rewrite Hd in Hl.
  destruct (remove_node_from_stable_tree_total d s nd Hbk Hd H0) as [s' Hrm].
  exists s'. split; [|done].
  unfold get_ksm_page. apply bind_Ok. exists nd, s. split; [by apply stable_node_at_Ok|].
  apply bind_Ok. exists s, s. split; [done|].
  destruct (bool_decide (page_mapping_of s (sn_kpfn nd) = MAPPING_KSM (Some d)));
    cbn [negb andb] in *.
  - rewrite Hl. cbn [negb]. rewrite (Hw Hl). cbn [negb].
    apply bind_Ok. exists tt, s'. done.
  - apply bind_Ok. exists tt, s'. done.
Qed.

Lemma sn_set_hlist_same cn : sn_set_hlist (sn_hlist cn) cn = cn.
Proof. by destruct cn. Qed.

Lemma filter_not_in_nil (l : list nat) : filter (fun x => x ∉ @nil nat) l = l.
Proof.
  induction l as [|a l IH]; [done|].
  rewrite filter_cons_True by apply not_elem_of_nil. by rewrite IH.
Qed.

Lemma filter_not_in_cons (d : nat) S (l : list nat) :
  filter (fun x => x ∉ S) (hlist_del d l) = filter (fun x => x ∉ d :: S) l.
Proof.
  unfold hlist_del. rewrite list_filter_filter. apply filter_ext_elem.
  intros x _. rewrite not_elem_of_cons. tauto.
Qed.

(** What one eviction leaves of the other nodes. *)
Lemma evicted_dup_lookup d s s' nd :
  stable_nodes s !! d = Some nd -> sn_head nd = STABLE_NODE_DUP_HEAD ->
  remove_node_from_stable_tree d s = Ok tt s' ->
  (forall x ndx, x <> d -> stable_nodes s !! x = Some ndx ->
     stable_nodes s' !! x =
       Some (if is_stable_node_chain ndx
             then sn_set_hlist (hlist_del d (sn_hlist ndx)) ndx else ndx)) /\
  root_stable_tree s' = root_stable_tree s /\
  ksm_stable_node_chains s' = ksm_stable_node_chains s /\
  ksm_stable_node_dups s' = wrap_ulong (ksm_stable_node_dups s - 1) /\
  mem_map s' = mem_map s.
Proof.
  intros Hd Hh (nd_ & Hd_ & _ & E & Er & Ed & Ec & Em & _)%remove_node_from_stable_tree_Ok.
  assert (nd_ = nd) as -> by congruence.
  assert (Hdup : is_stable_node_dup nd = true)
    by (unfold is_stable_node_dup; by apply bool_decide_eq_true_2).
  rewrite Hdup in *. cbn [orb] in Er. repeat split; try done.
  intros x ndx Hne Hx. rewrite E, lookup_delete_ne by done.
  unfold hlist_del_dup. cbn. by rewrite lookup_fmap, Hx.
Qed.

(** The pruning walk runs to its end: every stale dup is dropped and
    unlinked from the chain, the others stay as they are. *)
Lemma stable_node_dup_loop_prunes e c dups :
  forall w s cn,
    rmap_bookkeeping s -> NoDup dups -> Forall (dup_settled e s) dups ->
    stable_nodes s !! c = Some cn -> is_stable_node_chain cn = true ->
    exists w' s',
      stable_node_dup_loop e true dups w s = Ok w' s' /\
      rmap_bookkeeping s' /\
      stable_nodes s' !! c =
        Some (sn_set_hlist (filter (fun x => x ∉ stale_dups e s dups) (sn_hlist cn)) cn) /\
      (forall x nd, stable_nodes s !! x = Some nd -> is_stable_node_chain nd = false ->
                    x ∉ stale_dups e s dups -> stable_nodes s' !! x = Some nd) /\
      root_stable_tree s' = root_stable_tree s /\
      ksm_stable_node_chains s' = ksm_stable_node_chains s /\
      wrap_ulong (ksm_stable_node_dups s') =
        wrap_ulong (ksm_stable_node_dups s - Z.of_nat (length (stale_dups e s dups))).
Proof.
  induction dups as [|d dups IH]; intros w s cn Hbk Hnd Hset Hc Hchain.
  - exists w, s. cbn. rewrite filter_not_in_nil, sn_set_hlist_same, Z.sub_0_r.
    split_and!; done.
  - apply NoDup_cons in Hnd as [Hd_notin Hnd].
    apply Forall_cons in Hset as [Hd_set Hset].
    destruct (Hd_set) as (nd & Hd & H0 & Hhd & Hw).
    assert (Hregd := nonneg_not_chain _ H0).
    assert (Hcd : c <> d) by (intros ->; congruence).
    cbn [stable_node_dup_loop]. unfold stale_dups.
    destruct (dup_live e s d) eqn:Hl.
    + (* the page is there *)
      rewrite filter_cons_False by (rewrite Hl; done). fold (stale_dups e s dups).
      assert (Hget := get_ksm_page_live e d GET_KSM_PAGE_NOLOCK s nd Hd Hl ltac:(done)).
      set (w1 := mk_dup_walk (found w) (found_rmap_hlist_len w) (tree_page w)
                   (wrap_int (nr w + 1))).
      set (w2 := mk_dup_walk (Some d) (sn_rmap_hlist_len nd) (PAGE (sn_kpfn nd)) (nr w1)).
      destruct (is_page_sharing_candidate s nd &&
                match found w1 with
                | Some _ => found_rmap_hlist_len w1 <? sn_rmap_hlist_len nd
                | None => true
                end) eqn:Hpick.
      * destruct (IH w2 s cn Hbk Hnd Hset Hc Hchain) as (w' & s' & Hrun & Hrest).
        exists w', s'. split; [|exact Hrest].
        apply bind_Ok. exists (PAGE (sn_kpfn nd)), s. split; [exact Hget|].
        apply bind_Ok. exists nd, s. split; [by apply stable_node_at_Ok|].
        apply bind_Ok. exists s, s. split; [done|].
        fold w1. rewrite Hpick. exact Hrun.
      * destruct (IH w1 s cn Hbk Hnd Hset Hc Hchain) as (w' & s' & Hrun & Hrest).
        exists w', s'. split; [|exact Hrest].
        apply bind_Ok. exists (PAGE (sn_kpfn nd)), s. split; [exact Hget|].
        apply bind_Ok. exists nd, s. split; [by apply stable_node_at_Ok|].
        apply bind_Ok. exists s, s. split; [done|].
        fold w1. rewrite Hpick. exact Hrun.
    + (* the page is gone: the dup is dropped *)
      rewrite filter_cons_True by done. fold (stale_dups e s dups).
      destruct (get_ksm_page_stale e d GET_KSM_PAGE_NOLOCK s Hbk Hd_set Hl)
        as (s1 & Hget & Hrm).
      destruct (remove_node_from_stable_tree_bookkeeping d s s1 Hbk Hrm) as [Hbk1 _].
      destruct (evicted_dup_lookup d s s1 nd Hd Hhd Hrm) as (Hlk & Er & Ec & Ed & Em).
      assert (Hc1 := Hlk c cn Hcd Hc). rewrite Hchain in Hc1.
      assert (Hsame : forall x, x ∈ dups ->
                forall ndx, stable_nodes s !! x = Some ndx -> 0 <= sn_rmap_hlist_len ndx ->
                            stable_nodes s1 !! x = Some ndx).
      { intros x Hx ndx Hndx Hx0. rewrite (Hlk x ndx); [|intros ->; done|done].
        by rewrite (nonneg_not_chain _ Hx0). }
      assert (Hset1 : Forall (dup_settled e s1) dups).
      { apply Forall_forall. intros x Hx.
        destruct (proj1 (Forall_forall _ _) Hset x Hx) as (ndx & Hndx & Hx0 & Hxh & Hxw).
        exists ndx. split; [by apply Hsame|done]. }
      assert (Hstale : stale_dups e s1 dups = stale_dups e s dups).
      { apply filter_ext_elem. intros x Hx.
        destruct (proj1 (Forall_forall _ _) Hset x Hx) as (ndx & Hndx & Hx0 & _).
        unfold dup_live, page_mapping_of. by rewrite (Hsame x Hx ndx Hndx Hx0), Hndx, Em. }
      destruct (IH w s1 _ Hbk1 Hnd Hset1 Hc1 Hchain)
        as (w' & s' & Hrun & Hbk' & Hc' & Hreg' & Er' & Ec' & Ed').
      exists w', s'. split.
      { apply bind_Ok. exists PAGE_NULL, s1. split; [exact Hget|exact Hrun]. }
      rewrite Hstale in *. split_and!; try done.
      * rewrite Hc'. cbn. by rewrite filter_not_in_cons.
      * intros x ndx Hx Hrx Hnot. apply not_elem_of_cons in Hnot as [Hxd Hnot].
        apply Hreg'; [|done|done]. rewrite (Hlk x ndx Hxd Hx). by rewrite Hrx.
      * congruence.
      * congruence.
      * rewrite Ed', Ed, wrap_ulong_sub_l. f_equal. cbn [length]. lia.
Qed.

(** [rb_replace_node] keeps the shape of the tree: the in-order sequence is
    the old one with [new] written where [victim] stood. *)
Lemma rb_inorder_replace victim new t :
  rb_inorder (rb_replace_node victim new t) =
    (fun x => if decide (x = victim) then new else x) <$> rb_inorder t.
Proof.
  induction t as [|l IHl x r IHr]; [done|].
  cbn [rb_replace_node rb_inorder]. by rewrite fmap_app, fmap_cons, IHl, IHr.
Qed.

Lemma live_dups_alt e s (l : list nat) :
  filter (fun x => x ∉ stale_dups e s l) l = live_dups e s l.
Proof.
  apply filter_ext_elem. intros x Hx. unfold stale_dups.
  rewrite list_elem_of_filter. destruct (dup_live e s x); split; try done.
  - intros _ [? _]. done.
  - intros H. exfalso. apply H. done.
Qed.

Lemma settled_not_chain e s n chain d :
  stable_nodes s !! n = Some chain -> is_stable_node_chain chain = true ->
  dup_settled e s d -> d <> n.
Proof.
  intros Hn Hc (nd & Hd & H0 & _) ->. assert (nd = chain) as -> by congruence.
  by rewrite (nonneg_not_chain _ H0) in Hc.
Qed.

(** When a pruning walk is due for a chain, and once the stale dups are
    dropped exactly one dup of the chain has its page and may take one more
    record, the lookup collapses the chain onto that dup.  The [BUG_ON] that
    checks that the chain's list holds a single entry does not fire. *)
Lemma chain_prune_collapses e n s chain fnd f :
  rmap_bookkeeping s ->
  stable_nodes s !! n = Some chain -> is_stable_node_chain chain = true ->
  prune_due e s chain = true ->
  NoDup (sn_hlist chain) -> Forall (dup_settled e s) (sn_hlist chain) ->
  live_dups e s (sn_hlist chain) = [fnd] ->
  stable_nodes s !! fnd = Some f ->
  is_page_sharing_candidate s f = true ->
  exists s',
    chain_prune e n s = Ok (Some fnd, fnd, PAGE (sn_kpfn f)) s' /\
    root_stable_tree s' = rb_replace_node n fnd (root_stable_tree s) /\
    rb_inorder (root_stable_tree s') =
      (fun x => if decide (x = n) then fnd else x) <$> rb_inorder (root_stable_tree s) /\
    stable_nodes s' !! n = None /\
    stable_nodes s' !! fnd = Some (sn_set_head HEAD_RB_NODE f) /\
    is_stable_node_dup (sn_set_head HEAD_RB_NODE f) = false /\
    is_stable_node_chain (sn_set_head HEAD_RB_NODE f) = false /\
    ksm_stable_node_chains s' = wrap_ulong (ksm_stable_node_chains s - 1) /\
    ksm_stable_node_dups s' =
      wrap_ulong (ksm_stable_node_dups s
                  - Z.of_nat (length (stale_dups e s (sn_hlist chain))) - 1) /\
    rmap_bookkeeping s'.
Proof.
  intros Hbk Hn Hchain Hdue Hnd Hset Hlive Hf Hcand.
  assert (Hfin : fnd ∈ sn_hlist chain).
  { assert (H : fnd ∈ live_dups e s (sn_hlist chain)) by (rewrite Hlive; by left).
    by apply list_elem_of_filter in H as [_ ?]. }
  assert (Hflive : dup_live e s fnd = true).
  { assert (H : fnd ∈ live_dups e s (sn_hlist chain)) by (rewrite Hlive; by left).
    by apply list_elem_of_filter in H as [? _]. }
  assert (Hne : forall d, d ∈ sn_hlist chain -> d <> n).
  { intros d Hd. eapply settled_not_chain; [exact Hn|exact Hchain|].
    by apply (proj1 (Forall_forall _ _) Hset). }
  assert (Hnin : n ∉ sn_hlist chain) by (intros H; by apply (Hne n H)).
  assert (Hfn : fnd <> n) by by apply Hne.
  destruct (proj1 (Forall_forall _ _) Hset fnd Hfin) as (f_ & Hf_ & Hf0 & _).
  assert (f_ = f) as -> by congruence.
  assert (Hfreg := nonneg_not_chain _ Hf0).
  (* the prune time is stamped *)
  set (cn1 := sn_set_kpfn (jiffies e) chain).
  set (s1 := set_stable_nodes (<[n := cn1]> (stable_nodes s)) s).
  assert (Hbk1 : rmap_bookkeeping s1).
  { apply (rmap_bookkeeping_node_update s n chain cn1 Hbk Hn).
    - unfold attached. cbn. unfold is_stable_node_chain in *. cbn. done.
    - unfold is_stable_node_chain in *. cbn. congruence. }
  assert (Hn1 : stable_nodes s1 !! n = Some cn1) by apply lookup_insert_eq.
  assert (Hchain1 : is_stable_node_chain cn1 = true) by exact Hchain.
  assert (Hsame1 : forall d, d <> n -> stable_nodes s1 !! d = stable_nodes s !! d).
  { intros d Hd. unfold s1. cbn. by rewrite lookup_insert_ne. }
  assert (Hset1 : Forall (dup_settled e s1) (sn_hlist chain)).
  { apply Forall_forall. intros d Hd.
    destruct (proj1 (Forall_forall _ _) Hset d Hd) as (nd & ? & ?).
    exists nd. rewrite Hsame1 by by apply Hne. done. }
  assert (Hstale1 : stale_dups e s1 (sn_hlist chain) = stale_dups e s (sn_hlist chain)).
  { apply filter_ext_elem. intros d Hd. unfold dup_live, page_mapping_of.
    rewrite Hsame1 by by apply Hne. done. }
  destruct (stable_node_dup_loop_prunes e n (sn_hlist chain)
              (mk_dup_walk None 0 PAGE_NULL 0) s1 cn1 Hbk1 Hnd Hset1 Hn1 Hchain1)
    as (w & s2 & Hloop & Hbk2 & Hn2 & Hreg2 & Er2 & Ec2 & Ed2).
  rewrite Hstale1 in *. cbn [sn_hlist cn1 sn_set_kpfn] in Hn2.
  rewrite live_dups_alt, Hlive in Hn2.
  (* what the walk kept *)
  assert (HR : same_dups n s s1).
  { repeat split. intros x nd' Hx. rewrite Hsame1 by done. eauto. }
  destruct (stable_node_dup_loop_spec n e true s (sn_hlist chain) Hnin
              (mk_dup_walk None 0 PAGE_NULL 0) s1 w s2 HR eq_refl Hloop)
    as (_ & Hw & Htp).
  rewrite Hlive in Hw. cbn [dup_walk_live found found_rmap_hlist_len nr negb] in Hw.
  assert (Hdc : dup_candidate s fnd = true) by (unfold dup_candidate; by rewrite Hf).
  rewrite Hdc in Hw. cbn [andb] in Hw. injection Hw as Hfound Hflen Hnr.
  rewrite Hfound in Htp. unfold dup_kpfn in Htp. rewrite Hf in Htp.
  assert (Hf2 : stable_nodes s2 !! fnd = Some f).
  { apply Hreg2; [by rewrite Hsame1|done|].
    unfold stale_dups. rewrite list_elem_of_filter. intros [? _]. congruence. }
  (* the collapse *)
  set (s3 := set_root_stable_tree (rb_replace_node n fnd (root_stable_tree s2)) s2).
  set (s4 := set_stable_nodes (<[fnd := sn_set_head HEAD_RB_NODE f]> (stable_nodes s3)) s3).
  set (s5 := set_stable_nodes (delete n (stable_nodes s4)) s4).
  set (s6 := set_ksm_stable_node_chains (wrap_ulong (ksm_stable_node_chains s5 - 1)) s5).
  set (s7 := set_ksm_stable_node_dups (wrap_ulong (ksm_stable_node_dups s6 - 1)) s6).
  exists s7. split_and!.
  - unfold chain_prune, __stable_node_chain.
    apply bind_Ok. exists chain, s. split; [by apply stable_node_at_Ok|].
    rewrite Hchain. cbn [negb]. unfold stable_node_dup.
    apply bind_Ok. exists chain, s. split; [by apply stable_node_at_Ok|].
    apply bind_Ok. exists s, s. split; [done|].
    unfold prune_due in Hdue. apply negb_true_iff in Hdue. rewrite Hdue. cbn [negb orb].
    apply bind_Ok. exists tt, s1. split.
    { apply stable_node_update_Ok. exists chain. done. }
    apply bind_Ok. exists w, s2. split; [exact Hloop|].
    rewrite Hfound, Hnr. cbn [andb Z.eqb Pos.eqb].
    apply bind_Ok. eexists _, s2. split; [apply stable_node_at_Ok; split; [exact Hn2|done]|].
    apply bind_Ok. exists tt, s2. split; [by apply BUG_ON_Ok|].
    apply bind_Ok. exists tt, s3. split; [done|].
    apply bind_Ok. exists tt, s4. split.
    { apply stable_node_update_Ok. exists f. done. }
    apply bind_Ok. exists tt, s5. split; [done|].
    apply bind_Ok. exists tt, s6. split; [done|].
    apply bind_Ok. exists tt, s7. split; [done|].
    rewrite Htp. done.
  - cbn. rewrite Er2. done.
  - cbn. rewrite Er2. apply rb_inorder_replace.
  - cbn. apply lookup_delete_eq.
  - cbn. rewrite lookup_delete_ne, lookup_insert_eq by done. done.
  - done.
  - exact Hfreg.
  - cbn. rewrite Ec2. done.
  - cbn. rewrite <- wrap_ulong_sub_l, Ed2, wrap_ulong_sub_l. done.
  - assert (Hbk4 : rmap_bookkeeping s4).
    { apply (rmap_bookkeeping_node_update s3 fnd f _); [|exact Hf2|done|done].
      eapply rmap_bookkeeping_ext; [ | | | | |exact Hbk2]; done. }
    assert (Hbk5 : rmap_bookkeeping s5).
    { apply rmap_bookkeeping_free_node; [exact Hbk4|].
      intros nd. cbn. rewrite lookup_insert_ne by done. rewrite Hn2.
      intros [= <-]. by apply attached_chain. }
    eapply rmap_bookkeeping_ext; [ | | | | |exact Hbk5]; done.
Qed.

(** Reading a map that is written out. *)
Ltac lookup_cases H :=
  repeat (apply lookup_insert_Some in H as [[<- <-]|[? H]]);
  try (rewrite lookup_empty in H; discriminate H).

Lemma chain_of_two_bookkeeping : rmap_bookkeeping chain_of_two.
Proof.
  split.
  - intros n nd H Hreg. cbn in H. lookup_cases H; try discriminate Hreg.
    + split_and!; [apply NoDup_singleton|done|done|].
      intros r Hr. apply list_elem_of_singleton in Hr as ->.
      eexists. split_and!; reflexivity.
    + split_and!; [by apply (bool_decide_unpack _)|done|done|].
      intros r [->|Hr]%elem_of_cons; [|apply list_elem_of_singleton in Hr as ->];
        eexists; split_and!; reflexivity.
  - intros r it H Hf. cbn in H. lookup_cases H.
    + exists 51%nat. eexists. split_and!; [reflexivity|reflexivity|done|by left].
    + exists 52%nat. eexists. split_and!; [reflexivity|reflexivity|done|by left].
    + exists 52%nat. eexists. split_and!; [reflexivity|reflexivity|done|].
      right. by left.
  - intros p Hp. cbn in Hp. cbn.
    rewrite !lookup_insert_ne by lia. done.
  - reflexivity.
  - reflexivity.
Qed.

Lemma chain_with_stale_dup_bookkeeping : rmap_bookkeeping chain_with_stale_dup.
Proof.
  eapply rmap_bookkeeping_ext; [ | | | | |exact chain_of_two_bookkeeping]; reflexivity.
Qed.

(** The assertion of the collapse: a walk that counted one live dup and
    kept it, over a chain whose list does not hold exactly one entry, stops
    at the [BUG_ON]. *)
Lemma chain_prune_asserts_single_entry e n s chain w s2 chain2 fnd :
  stable_nodes s !! n = Some chain -> is_stable_node_chain chain = true ->
  prune_due e s chain = true ->
  stable_node_dup_loop e true (sn_hlist chain) (mk_dup_walk None 0 PAGE_NULL 0)
    (set_stable_nodes (<[n := sn_set_kpfn (jiffies e) chain]> (stable_nodes s)) s)
    = Ok w s2 ->
  found w = Some fnd -> nr w = 1 ->
  stable_nodes s2 !! n = Some chain2 ->
  length (sn_hlist chain2) <> 1%nat ->
  chain_prune e n s = Fail Oops.
Proof.
  intros Hn Hchain Hdue Hloop Hfound Hnr Hn2 Hlen.
  unfold chain_prune, __stable_node_chain.
  rewrite (bind_run _ _ s chain s) by (by apply stable_node_at_Ok).
  rewrite Hchain. cbn [negb]. unfold stable_node_dup.
  rewrite (bind_run _ _ s chain s) by (by apply stable_node_at_Ok).
  rewrite (bind_run _ _ s s s) by done.
  unfold prune_due in Hdue. apply negb_true_iff in Hdue. rewrite Hdue. cbn [negb orb].
  rewrite (bind_run _ _ s tt
             (set_stable_nodes (<[n := sn_set_kpfn (jiffies e) chain]> (stable_nodes s)) s))
    by (apply stable_node_update_Ok; exists chain; done).
  rewrite (bind_run _ _ _ w s2) by exact Hloop.
  rewrite Hfound, Hnr. cbn [andb Z.eqb Pos.eqb].
  rewrite (bind_run _ _ s2 chain2 s2) by (by apply stable_node_at_Ok).
  unfold bind, BUG_ON.
  destruct (sn_hlist chain2) as [|x [|y l]]; [done| |done].
  by cbn in Hlen.
Qed.

Lemma dup_walk_live_found s lives :
  forall fnd flen n f,
    (dup_walk_live true s lives fnd flen n).1.1 = Some f ->
    fnd = Some f \/ f ∈ lives.
Proof.
  induction lives as [|d lives IH]; intros fnd flen n f H.
  - cbn in H. by left.
  - cbn [dup_walk_live negb] in H.
    destruct (dup_candidate s d &&
              match fnd with Some _ => flen <? dup_len s d | None => true end).
    + apply IH in H as [[= ->]|H]; right; [by left|by right].
    + apply IH in H as [H|H]; [by left|right; by right].
Qed.

(** With two or more live dups the pruning walk keeps the chain. *)
Lemma chain_prune_keeps_chain e n s chain :
  rmap_bookkeeping s ->
  stable_nodes s !! n = Some chain -> is_stable_node_chain chain = true ->
  prune_due e s chain = true ->
  NoDup (sn_hlist chain) -> Forall (dup_settled e s) (sn_hlist chain) ->
  (2 <= length (live_dups e s (sn_hlist chain)))%nat ->
  Z.of_nat (length (sn_hlist chain)) <= INT_MAX ->
  exists fd tp s' chain',
    chain_prune e n s = Ok (fd, n, tp) s' /\
    stable_nodes s' !! n = Some chain' /\
    is_stable_node_chain chain' = true /\
    (forall d, d ∈ sn_hlist chain' <-> d ∈ live_dups e s (sn_hlist chain)) /\
    root_stable_tree s' = root_stable_tree s /\
    ksm_stable_node_chains s' = ksm_stable_node_chains s.
Proof.
  intros Hbk Hn Hchain Hdue Hnd Hset Htwo Hmax.
  assert (Hne : forall d, d ∈ sn_hlist chain -> d <> n).
  { intros d Hd. eapply settled_not_chain; [exact Hn|exact Hchain|].
    by apply (proj1 (Forall_forall _ _) Hset). }
  assert (Hnin : n ∉ sn_hlist chain) by (intros H; by apply (Hne n H)).
  set (cn1 := sn_set_kpfn (jiffies e) chain).
  set (s1 := set_stable_nodes (<[n := cn1]> (stable_nodes s)) s).
  assert (Hbk1 : rmap_bookkeeping s1).
  { apply (rmap_bookkeeping_node_update s n chain cn1 Hbk Hn).
    - unfold attached. cbn. unfold is_stable_node_chain in *. cbn. done.
    - unfold is_stable_node_chain in *. cbn. congruence. }
  assert (Hn1 : stable_nodes s1 !! n = Some cn1) by apply lookup_insert_eq.
  assert (Hchain1 : is_stable_node_chain cn1 = true) by exact Hchain.
  assert (Hsame1 : forall d, d <> n -> stable_nodes s1 !! d = stable_nodes s !! d).
  { intros d Hd. unfold s1. cbn. by rewrite lookup_insert_ne. }
  assert (Hset1 : Forall (dup_settled e s1) (sn_hlist chain)).
  { apply Forall_forall. intros d Hd.
    destruct (proj1 (Forall_forall _ _) Hset d Hd) as (nd & ? & ?).
    exists nd. rewrite Hsame1 by by apply Hne. done. }
  assert (Hstale1 : stale_dups e s1 (sn_hlist chain) = stale_dups e s (sn_hlist chain)).
  { apply filter_ext_elem. intros d Hd. unfold dup_live, page_mapping_of.
    rewrite Hsame1 by by apply Hne. done. }
  destruct (stable_node_dup_loop_prunes e n (sn_hlist chain)
              (mk_dup_walk None 0 PAGE_NULL 0) s1 cn1 Hbk1 Hnd Hset1 Hn1 Hchain1)
    as (w & s2 & Hloop & Hbk2 & Hn2 & Hreg2 & Er2 & Ec2 & Ed2).
  rewrite Hstale1 in *. cbn [sn_hlist cn1 sn_set_kpfn] in Hn2.
  rewrite live_dups_alt in Hn2.
  assert (HR : same_dups n s s1).
  { repeat split. intros x nd' Hx. rewrite Hsame1 by done. eauto. }
  destruct (stable_node_dup_loop_spec n e true s (sn_hlist chain) Hnin
              (mk_dup_walk None 0 PAGE_NULL 0) s1 w s2 HR eq_refl Hloop)
    as (_ & Hw & Htp).
  cbn [found found_rmap_hlist_len nr] in Hw.
  (* the walk counted every live dup *)
  assert (Hnr : nr w <> 1).
  { pose proof (dup_walk_live_nr s (live_dups e s (sn_hlist chain)) None 0 0) as Hc.
    change (wrap_int 0) with 0 in Hc. rewrite <- Hw in Hc. cbn in Hc. rewrite Hc.
    assert (Hle : (length (live_dups e s (sn_hlist chain)) <= length (sn_hlist chain))%nat)
      by apply length_filter.
    rewrite wrap_int_small by (unfold INT_MAX in Hmax; lia). lia. }
  apply Z.eqb_neq in Hnr.
  set (c2 := sn_set_hlist (live_dups e s (sn_hlist chain))
               (sn_set_kpfn (jiffies e) chain)) in *.
  assert (Hc2 : is_stable_node_chain c2 = true) by exact Hchain.
  assert (Hrun : forall r s',
            match found w with
            | Some fnd =>
                (do chain <- stable_node_at n;
                 do f <- stable_node_at fnd;
                 do s <- get;
                 (if negb (bool_decide (head (sn_hlist chain) = Some fnd)) &&
                     __is_page_sharing_candidate s f 1
                  then stable_node_update n
                         (fun c => sn_set_hlist (fnd :: hlist_del fnd (sn_hlist c)) c)
                  else ret tt);;
                 ret (Some fnd, n, tree_page w)) s2
            | None => ret (None, n, tree_page w) s2
            end = Ok r s' ->
            chain_prune e n s = Ok r s').
  { intros r s' Hk. unfold chain_prune, __stable_node_chain.
    rewrite (bind_run _ _ s chain s) by (by apply stable_node_at_Ok).
    rewrite Hchain. cbn [negb]. unfold stable_node_dup.
    rewrite (bind_run _ _ s chain s) by (by apply stable_node_at_Ok).
    rewrite (bind_run _ _ s s s) by done.
    unfold prune_due in Hdue. apply negb_true_iff in Hdue. rewrite Hdue. cbn [negb orb].
    rewrite (bind_run _ _ s tt s1) by (apply stable_node_update_Ok; exists chain; done).
    rewrite (bind_run _ _ s1 w s2) by exact Hloop.
    destruct (found w) as [fnd|]; [|exact Hk].
    rewrite Hnr. cbn [andb]. exact Hk. }
  destruct (found w) as [fnd|] eqn:Hfound.
  - assert (Hfl : fnd ∈ live_dups e s (sn_hlist chain)).
    { pose proof (dup_walk_live_found s (live_dups e s (sn_hlist chain)) None 0 0 fnd) as H.
      rewrite <- Hw in H. destruct (H eq_refl) as [[=]|H']. exact H'. }
    pose proof Hfl as Hfl'. apply list_elem_of_filter in Hfl' as [Hlive Hfin].
    destruct (proj1 (Forall_forall _ _) Hset fnd Hfin) as (f & Hf & Hf0 & _).
    assert (Hf2 : stable_nodes s2 !! fnd = Some f).
    { apply Hreg2; [rewrite Hsame1; [done|by apply Hne]|by apply nonneg_not_chain|].
      unfold stale_dups. rewrite list_elem_of_filter. intros [? _]. congruence. }
    destruct (negb (bool_decide (head (sn_hlist c2) = Some fnd)) &&
              __is_page_sharing_candidate s2 f 1) eqn:Hmove.
    + set (c3 := sn_set_hlist (fnd :: hlist_del fnd (sn_hlist c2)) c2).
      exists (Some fnd), (tree_page w),
        (set_stable_nodes (<[n := c3]> (stable_nodes s2)) s2), c3.
      split_and!.
      * apply Hrun.
        rewrite (bind_run _ _ s2 c2 s2) by (by apply stable_node_at_Ok).
        rewrite (bind_run _ _ s2 f s2) by (by apply stable_node_at_Ok).
        rewrite (bind_run _ _ s2 s2 s2) by done. rewrite Hmove.
        rewrite (bind_run _ _ s2 tt (set_stable_nodes (<[n := c3]> (stable_nodes s2)) s2))
          by (apply stable_node_update_Ok; exists c2; done).
        done.
      * cbn. apply lookup_insert_eq.
      * exact Hchain.
      * intros d. unfold c3, c2. cbn. unfold hlist_del.
        rewrite elem_of_cons, list_elem_of_filter. split.
        -- intros [->|[_ H]]; done.
        -- intros H. destruct (decide (d = fnd)) as [->|Hd]; [by left|right; done].
      * cbn. done.
      * cbn. done.
    + exists (Some fnd), (tree_page w), s2, c2. split_and!; try done.
      apply Hrun.
      rewrite (bind_run _ _ s2 c2 s2) by (by apply stable_node_at_Ok).
      rewrite (bind_run _ _ s2 f s2) by (by apply stable_node_at_Ok).
      rewrite (bind_run _ _ s2 s2 s2) by done. rewrite Hmove.
      by rewrite (bind_run _ _ s2 tt s2).
  - exists None, (tree_page w), s2, c2. split_and!; try done. by apply Hrun.
Qed.

(** C5, as the code has it.  A pruning walk is due for a chain.  (1) If,
    once the stale dups are dropped, exactly one dup of the chain has its
    page, and it may take one more record, the lookup puts that dup at the
    chain's place in the stable tree (same shape, same in-order sequence with
    the dup where the chain stood), frees the chain and hands the dup back as
    the tree node; the dup no longer reads as a dup nor as a chain.
    [ksm_stable_node_chains] drops by one and [ksm_stable_node_dups] by one
    for the collapse on top of one for each stale dup dropped on the way.
    (2) The collapse is guarded: when the walk has counted one live dup and
    kept it but the chain's list does not hold exactly one entry, the
    [BUG_ON] fires and nothing is collapsed.  (3) If two or more dups have
    their page, whether or not they may take another record, the chain is
    kept: it stays at its place in the tree with the live dups on its list,
    and [ksm_stable_node_chains] is unchanged. *)
Theorem chain_collapses_onto_last_dup e n :
  (forall s chain fnd f,
     rmap_bookkeeping s ->
     stable_nodes s !! n = Some chain -> is_stable_node_chain chain = true ->
     prune_due e s chain = true ->
     NoDup (sn_hlist chain) -> Forall (dup_settled e s) (sn_hlist chain) ->
     live_dups e s (sn_hlist chain) = [fnd] ->
     stable_nodes s !! fnd = Some f ->
     is_page_sharing_candidate s f = true ->
     exists s',
       chain_prune e n s = Ok (Some fnd, fnd, PAGE (sn_kpfn f)) s' /\
       root_stable_tree s' = rb_replace_node n fnd (root_stable_tree s) /\
       rb_inorder (root_stable_tree s') =
         (fun x => if decide (x = n) then fnd else x) <$> rb_inorder (root_stable_tree s) /\
       stable_nodes s' !! n = None /\
       stable_nodes s' !! fnd = Some (sn_set_head HEAD_RB_NODE f) /\
       is_stable_node_dup (sn_set_head HEAD_RB_NODE f) = false /\
       is_stable_node_chain (sn_set_head HEAD_RB_NODE f) = false /\
       ksm_stable_node_chains s' = wrap_ulong (ksm_stable_node_chains s - 1) /\
       ksm_stable_node_dups s' =
         wrap_ulong (ksm_stable_node_dups s
                     - Z.of_nat (length (stale_dups e s (sn_hlist chain))) - 1) /\
       rmap_bookkeeping s') /\
  (forall s chain w s2 chain2 fnd,
     stable_nodes s !! n = Some chain -> is_stable_node_chain chain = true ->
     prune_due e s chain = true ->
     stable_node_dup_loop e true (sn_hlist chain) (mk_dup_walk None 0 PAGE_NULL 0)
       (set_stable_nodes (<[n := sn_set_kpfn (jiffies e) chain]> (stable_nodes s)) s)
       = Ok w s2 ->
     found w = Some fnd -> nr w = 1 ->
     stable_nodes s2 !! n = Some chain2 ->
     length (sn_hlist chain2) <> 1%nat ->
     chain_prune e n s = Fail Oops) /\
  (forall s chain,
     rmap_bookkeeping s ->
     stable_nodes s !! n = Some chain -> is_stable_node_chain chain = true ->
     prune_due e s chain = true ->
     NoDup (sn_hlist chain) -> Forall (dup_settled e s) (sn_hlist chain) ->
     (2 <= length (live_dups e s (sn_hlist chain)))%nat ->
     Z.of_nat (length (sn_hlist chain)) <= INT_MAX ->
     exists fd tp s' chain',
       chain_prune e n s = Ok (fd, n, tp) s' /\
       stable_nodes s' !! n = Some chain' /\
       is_stable_node_chain chain' = true /\
       (forall d, d ∈ sn_hlist chain' <-> d ∈ live_dups e s (sn_hlist chain)) /\
       root_stable_tree s' = root_stable_tree s /\
       ksm_stable_node_chains s' = ksm_stable_node_chains s).
Proof.
  split_and!.
  - intros s chain fnd f. apply chain_prune_collapses.
  - intros s chain w s2 chain2 fnd. apply chain_prune_asserts_single_entry.
  - intros s chain. apply chain_prune_keeps_chain.
Qed.

Lemma chain_of_two_settled s :
  stable_nodes s = stable_nodes chain_of_two ->
  Forall (dup_settled (quiet_at 5000) s) [51%nat; 52%nat].
Proof.
  intros E. repeat constructor; eexists; (split; [rewrite E; reflexivity|]);
    split_and!; try done.
Qed.

Lemma chain_collapses_onto_last_dup_witness :
  (exists s',
     chain_prune (quiet_at 5000) 50 chain_with_stale_dup =
       Ok (Some 52%nat, 52%nat, PAGE 12) s' /\
     root_stable_tree s' = rb_node RB_ROOT 52%nat RB_ROOT /\
     stable_nodes s' !! 50%nat = None /\
     ksm_stable_node_chains s' = 0 /\
     ksm_stable_node_dups s' = 0) /\
  chain_prune (quiet_at 5000) 50 chain_with_stray_entry = Fail Oops /\
  (exists fd tp s' chain',
     chain_prune (quiet_at 5000) 50 chain_of_two = Ok (fd, 50%nat, tp) s' /\
     stable_nodes s' !! 50%nat = Some chain' /\
     is_stable_node_chain chain' = true /\
     (forall d, d ∈ sn_hlist chain' <-> d ∈ [51%nat; 52%nat]) /\
     root_stable_tree s' = rb_node RB_ROOT 50%nat RB_ROOT /\
     ksm_stable_node_chains s' = 1).
Proof.
  destruct (chain_collapses_onto_last_dup (quiet_at 5000) 50) as (HA & HB & HC).
  split_and!.
  - destruct (HA chain_with_stale_dup
                (mk_stable_node HEAD_RB_NODE [51%nat; 52%nat] 0 STABLE_NODE_CHAIN) 52%nat
                (mk_stable_node STABLE_NODE_DUP_HEAD [1001%nat; 1002%nat] 12 2)
                chain_with_stale_dup_bookkeeping eq_refl eq_refl eq_refl
                ltac:(apply (bool_decide_unpack _); vm_compute; exact I))
      as (s' & Hrun & Hroot & _ & Hgone & _ & _ & _ & Hchains & Hdups & _).
    + by apply chain_of_two_settled.
    + reflexivity.
    + reflexivity.
    + reflexivity.
    + exists s'. split_and!; [exact Hrun|exact Hroot|exact Hgone|exact Hchains|exact Hdups].
  - set (run := stable_node_dup_loop (quiet_at 5000) true [51%nat; 52%nat]
                  (mk_dup_walk None 0 PAGE_NULL 0)
                  (set_stable_nodes
                     (<[50%nat := sn_set_kpfn 5000
                          (mk_stable_node HEAD_RB_NODE [51%nat; 52%nat] 0 STABLE_NODE_CHAIN)]>
                        (stable_nodes chain_with_stray_entry))
                     chain_with_stray_entry)).
    apply (HB chain_with_stray_entry
             (mk_stable_node HEAD_RB_NODE [51%nat; 52%nat] 0 STABLE_NODE_CHAIN)
             (run_value (mk_dup_walk None 0 PAGE_NULL 0) run)
             (final_state ksm_init run)
             (mk_stable_node HEAD_RB_NODE [51%nat; 52%nat] 5000 STABLE_NODE_CHAIN)
             52%nat).
    + reflexivity.
    + reflexivity.
    + reflexivity.
    + vm_compute. reflexivity.
    + vm_compute. reflexivity.
    + vm_compute. reflexivity.
    + vm_compute. reflexivity.
    + cbn. lia.
  - destruct (HC chain_of_two
                (mk_stable_node HEAD_RB_NODE [51%nat; 52%nat] 0 STABLE_NODE_CHAIN)
                chain_of_two_bookkeeping eq_refl eq_refl eq_refl
                ltac:(apply (bool_decide_unpack _); vm_compute; exact I))
      as (fd & tp & s' & chain' & Hrun & Hn & Hc & Hmem & Hroot & Hchains).
    + by apply chain_of_two_settled.
    + vm_compute. lia.
    + vm_compute. discriminate.
    + exists fd, tp, s', chain'. split_and!; try done.
Defined.

(** Under a fan-out limit of 2 the chain of [chain_with_full_dup] has
    exactly one live dup that may take one more record, dup 51, next to the
    full dup 52.  The pruning walk hands out dup 51 and keeps the chain. *)
Lemma chain_with_a_full_dup_is_kept :
  live_dups (quiet_at 5000) chain_with_full_dup [51%nat; 52%nat] = [51%nat; 52%nat] /\
  live_candidates (quiet_at 5000) chain_with_full_dup [51%nat; 52%nat] = [51%nat] /\
  exists s' c,
    chain_prune (quiet_at 5000) 50 chain_with_full_dup
      = Ok (Some 51%nat, 50%nat, PAGE 11) s' /\
    root_stable_tree s' = rb_node RB_ROOT 50%nat RB_ROOT /\
    stable_nodes s' !! 50%nat = Some c /\
    is_stable_node_chain c = true /\ sn_hlist c = [51%nat; 52%nat] /\
    ksm_stable_node_chains s' = 1 /\ ksm_stable_node_dups s' = 2.
Proof.
  split; [vm_compute; reflexivity|]. split; [vm_compute; reflexivity|].
  eexists _, _. split; [vm_compute; reflexivity|].
  split; [vm_compute; reflexivity|]. split; [vm_compute; reflexivity|].
  repeat split; vm_compute; reflexivity.
Qed.

(** ** The fan-out limit (C1) *)

Lemma dups_persist_refl s : dups_persist s s.
Proof. split_and!; [done|done|]. intros x nd Hx. exists nd. done. Qed.

Lemma dups_persist_trans s1 s2 s3 :
  dups_persist s1 s2 -> dups_persist s2 s3 -> dups_persist s1 s3.
Proof.
  intros (A1 & A2 & A3) (B1 & B2 & B3). split_and!; [congruence|congruence|].
  intros x nd Hx. destruct (B3 x nd Hx) as (nd2 & Hx2 & El2 & Ek2).
  destruct (A3 x nd2 Hx2) as (nd1 & Hx1 & El1 & Ek1).
  exists nd1. split_and!; [done|congruence|].
  intros Hreg. rewrite Ek2, Ek1; [done|done|].
  unfold is_stable_node_chain in *. by rewrite El1.
Qed.

Lemma dups_persist_no_page_on_a_chain s s' :
  dups_persist s s' -> no_page_on_a_chain s -> no_page_on_a_chain s'.
Proof.
  intros (Em & _ & Hn) HW pfn n nd' Hp Hnd.
  destruct (Hn n nd' Hnd) as (nd & Hnd0 & El & _).
  unfold page_mapping_of in Hp. rewrite Em in Hp.
  assert (Hreg := HW pfn n nd Hp Hnd0).
  unfold is_stable_node_chain in *. by rewrite El.
Qed.

(** A store to a node that keeps its counter and its page. *)
Lemma dups_persist_node_update s n nd nd' :
  stable_nodes s !! n = Some nd ->
  sn_rmap_hlist_len nd' = sn_rmap_hlist_len nd ->
  (is_stable_node_chain nd = false -> sn_kpfn nd' = sn_kpfn nd) ->
  dups_persist s (set_stable_nodes (<[n := nd']> (stable_nodes s)) s).
Proof.
  intros Hn El Ek. split_and!; [done|done|]. intros x ndx. cbn.
  intros [[<- <-]|[Hne Hx]]%lookup_insert_Some; eauto.
Qed.

Lemma dups_persist_free_node s n :
  dups_persist s (set_stable_nodes (delete n (stable_nodes s)) s).
Proof.
  split_and!; [done|done|]. intros x ndx. cbn.
  intros [Hne Hx]%lookup_delete_Some. eauto.
Qed.

Lemma dups_persist_ext s s' :
  stable_nodes s' = stable_nodes s -> mem_map s' = mem_map s ->
  ksm_max_page_sharing s' = ksm_max_page_sharing s -> dups_persist s s'.
Proof. intros E1 E2 E3. split_and!; [done|done|]. rewrite E1. eauto. Qed.

Lemma remove_node_from_stable_tree_persist n s s' :
  remove_node_from_stable_tree n s = Ok tt s' -> dups_persist s s'.
Proof.
  intros (nd & Hn & _ & E & _ & _ & _ & Em & Ex & _)%remove_node_from_stable_tree_Ok.
  split_and!; [done|done|].
  intros x nd'. rewrite E. intros [Hne Hx]%lookup_delete_Some.
  destruct (is_stable_node_dup nd).
  - unfold hlist_del_dup in Hx. cbn in Hx. rewrite lookup_fmap in Hx.
    destruct (stable_nodes s !! x) as [cn|]; [|done]. cbn in Hx. injection Hx as <-.
    exists cn. split; [done|]. by destruct (is_stable_node_chain cn).
  - exists nd'. done.
Qed.

Lemma get_ksm_page_persist e n flags s p s' :
  get_ksm_page e n flags s = Ok p s' -> dups_persist s s'.
Proof.
  intros (nd & Hn & [(_ & H & _)|(-> & _)])%get_ksm_page_Ok.
  - by apply (remove_node_from_stable_tree_persist n).
  - apply dups_persist_refl.
Qed.

(** An offered node stays offered as long as it is there. *)
Lemma offered_persist e s s' d :
  no_page_on_a_chain s -> dups_persist s s' -> offered e s d ->
  is_Some (stable_nodes s' !! d) -> offered e s' d.
Proof.
  intros HW (Em & Ex & Hn) (nd & Hd & Hc & Hm & Hg) [nd' Hd'].
  destruct (Hn d nd' Hd') as (nd_ & Hd_ & El & Ek).
  assert (nd_ = nd) as -> by congruence.
  assert (Ek' := Ek (HW _ _ _ Hm Hd)).
  exists nd'. split_and!; try done.
  - unfold is_page_sharing_candidate, __is_page_sharing_candidate in *.
    by rewrite El, Ex.
  - unfold page_mapping_of in *. by rewrite Ek', Em.
  - by rewrite Ek'.
Qed.

Lemma offered_not_chain e s d nd :
  no_page_on_a_chain s -> offered e s d -> stable_nodes s !! d = Some nd ->
  is_stable_node_chain nd = false.
Proof.
  intros HW (nd_ & Hd & _ & Hm & _) Hnd. assert (nd_ = nd) as -> by congruence.
  by apply (HW _ _ _ Hm).
Qed.

(** [get_ksm_page] on any node leaves an offered node offered. *)
Lemma get_ksm_page_offered e n flags s p s' d :
  no_page_on_a_chain s -> offered e s d ->
  get_ksm_page e n flags s = Ok p s' -> offered e s' d.
Proof.
  intros HW Hoff H. assert (Hp := get_ksm_page_persist _ _ _ _ _ _ H).
  apply (offered_persist e s s' d HW Hp Hoff).
  destruct Hoff as (nd & Hd & _ & Hm & Hg).
  apply get_ksm_page_Ok in H as (ndn & Hn & [(_ & Hrm & Hdead)|(-> & _)]); [|eauto].
  destruct (decide (n = d)) as [->|Hne].
  - assert (ndn = nd) as -> by congruence. destruct Hdead; congruence.
  - apply remove_node_from_stable_tree_Ok in Hrm as (nd_ & _ & _ & E & _).
    rewrite E, lookup_delete_ne by done. destruct (is_stable_node_dup nd_); [|eauto].
    unfold hlist_del_dup. cbn. rewrite lookup_fmap, Hd. eauto.
Qed.

Lemma dup_kpfn_persist e s s' d :
  no_page_on_a_chain s -> dups_persist s s' -> offered e s d ->
  is_Some (stable_nodes s' !! d) -> dup_kpfn s' d = dup_kpfn s d.
Proof.
  intros HW (Em & Ex & Hn) (nd & Hd & Hc & Hm & Hg) [nd' Hd'].
  destruct (Hn d nd' Hd') as (nd_ & Hd_ & El & Ek).
  assert (nd_ = nd) as -> by congruence.
  unfold dup_kpfn. rewrite Hd, Hd'. apply Ek. by apply (HW _ _ _ Hm).
Qed.

Lemma stable_node_dup_loop_offers e prune dups :
  forall w s w' s',
    no_page_on_a_chain s -> walk_holds_offered e s w ->
    stable_node_dup_loop e prune dups w s = Ok w' s' ->
    dups_persist s s' /\ walk_holds_offered e s' w'.
Proof.
  induction dups as [|d dups IH]; intros w s w' s' HW HJ H.
  - cbn in H. apply ret_Ok in H as [<- <-]. split; [apply dups_persist_refl|done].
  - cbn [stable_node_dup_loop] in H.
    apply bind_Ok in H as (p & s1 & Hget & H).
    assert (Hp1 := get_ksm_page_persist _ _ _ _ _ _ Hget).
    assert (HW1 := dups_persist_no_page_on_a_chain _ _ Hp1 HW).
    assert (HJ1 : walk_holds_offered e s1 w).
    { intros f Hf. destruct (HJ f Hf) as [Hoff Htp].
      assert (Hoff1 := get_ksm_page_offered e d _ s p s1 f HW Hoff Hget).
      split; [done|]. rewrite Htp. f_equal. symmetry.
      apply (dup_kpfn_persist e s s1 f HW Hp1 Hoff).
      destruct Hoff1 as (nd1 & -> & _). eauto. }
    assert (Hgo : forall w0, walk_holds_offered e s1 w0 ->
                  stable_node_dup_loop e prune dups w0 s1 = Ok w' s' ->
                  dups_persist s s' /\ walk_holds_offered e s' w').
    { intros w0 HJ0 H0. destruct (IH w0 s1 w' s' HW1 HJ0 H0) as [Hp2 HJ2].
      split; [by eapply dups_persist_trans|done]. }
    apply get_ksm_page_Ok in Hget as (nd & Hd & [(-> & _)|(-> & Hmap & Hgp & Hp)]).
    + apply (Hgo w HJ1 H).
    + assert (Hp' : p = PAGE (sn_kpfn nd)) by (destruct Hp as [->|(_ & [=] & _)]; done).
      subst p.
      apply bind_Ok in H as (d' & s1 & [Hd' ->]%stable_node_at_Ok & H).
      assert (d' = nd) as -> by congruence.
      apply bind_Ok in H as (s1 & s2 & [-> ->]%get_Ok & H).
      cbn [found found_rmap_hlist_len tree_page nr] in H.
      destruct (is_page_sharing_candidate s nd) eqn:Hcand; cbn [andb] in H.
      * assert (HJd : walk_holds_offered e s
                        (mk_dup_walk (Some d) (sn_rmap_hlist_len nd) (PAGE (sn_kpfn nd))
                                     (wrap_int (nr w + 1)))).
        { intros f [= <-]. split; [by exists nd|]. cbn. unfold dup_kpfn. by rewrite Hd. }
        destruct (match found w with
                  | Some _ => found_rmap_hlist_len w <? sn_rmap_hlist_len nd
                  | None => true
                  end).
        -- destruct prune; cbn [negb] in H.
           ++ by apply (Hgo _ HJd).
           ++ apply ret_Ok in H as [<- <-]. done.
        -- apply (Hgo (mk_dup_walk (found w) (found_rmap_hlist_len w) (tree_page w)
                                    (wrap_int (nr w + 1))) HJ1 H).
      * apply (Hgo (mk_dup_walk (found w) (found_rmap_hlist_len w) (tree_page w)
                                (wrap_int (nr w + 1))) HJ1 H).
Qed.

Lemma offered_exists e s d : offered e s d -> is_Some (stable_nodes s !! d).
Proof. intros (nd & -> & _). eauto. Qed.

(** One more step that keeps the pages and the nodes' counters keeps an
    offered node offered, with the same page. *)
Lemma offered_step e s s' d p :
  no_page_on_a_chain s -> dups_persist s s' ->
  is_Some (stable_nodes s' !! d) ->
  offered e s d /\ p = PAGE (dup_kpfn s d) ->
  offered e s' d /\ p = PAGE (dup_kpfn s' d).
Proof.
  intros HW Hp Hex [Hoff ->]. split; [by eapply offered_persist|].
  f_equal. symmetry. by eapply dup_kpfn_persist.
Qed.

Lemma stable_node_dup_offers e n prune s fd sn' tp s' chain :
  no_page_on_a_chain s ->
  stable_nodes s !! n = Some chain -> is_stable_node_chain chain = true ->
  stable_node_dup e n prune s = Ok (fd, sn', tp) s' ->
  dups_persist s s' /\
  forall f, fd = Some f -> offered e s' f /\ tp = PAGE (dup_kpfn s' f).
Proof.
  intros HW Hn Hchain H. unfold stable_node_dup in H.
  apply bind_Ok in H as (chain_ & s0 & [Hn' ->]%stable_node_at_Ok & H).
  assert (chain_ = chain) as -> by congruence.
  apply bind_Ok in H as (s0 & s1 & [-> ->]%get_Ok & H).
  set (eff := if negb prune ||
                 time_before (jiffies e)
                   (wrap_ulong (sn_kpfn chain +
                      msecs_to_jiffies e (ksm_stable_node_chains_prune_millisecs s)))
              then false else true) in H.
  apply bind_Ok in H as ([] & s1 & Hstamp & H).
  assert (Hp1 : dups_persist s s1).
  { destruct eff.
    - apply stable_node_update_Ok in Hstamp as (c & Hc & ->).
      apply (dups_persist_node_update s n c); [done|done|]. congruence.
    - apply ret_Ok in Hstamp as [_ <-]. apply dups_persist_refl. }
  assert (HW1 := dups_persist_no_page_on_a_chain _ _ Hp1 HW).
  apply bind_Ok in H as (w & s2 & Hloop & H).
  destruct (stable_node_dup_loop_offers e eff (sn_hlist chain)
              (mk_dup_walk None 0 PAGE_NULL 0) s1 w s2 HW1 ltac:(by intros f [=]) Hloop)
    as [Hp2 HJ].
  assert (Hp12 := dups_persist_trans _ _ _ Hp1 Hp2).
  assert (HW2 := dups_persist_no_page_on_a_chain _ _ Hp2 HW1).
  destruct (found w) as [fnd|] eqn:Hfound.
  - destruct (HJ fnd Hfound) as [Hoff Htp]. rewrite Htp in H.
    assert (Hstep : forall s3, dups_persist s2 s3 -> is_Some (stable_nodes s3 !! fnd) ->
              dups_persist s s3 /\
              forall f, Some fnd = Some f ->
                        offered e s3 f /\ PAGE (dup_kpfn s2 fnd) = PAGE (dup_kpfn s3 f)).
    { intros s3 Hp3 Hex. split; [by eapply dups_persist_trans|].
      intros f [= <-]. by apply (offered_step e s2 s3 fnd _ HW2 Hp3 Hex). }
    destruct (offered_exists _ _ _ Hoff) as [nf Hnf].
    assert (Hnfreg := offered_not_chain e s2 fnd nf HW2 Hoff Hnf).
    destruct (eff && (nr w =? 1)).
    + apply bind_Ok in H as (c2 & s0 & [Hc2 ->]%stable_node_at_Ok & H).
      apply bind_Ok in H as ([] & s0 & [_ ->]%BUG_ON_Ok & H).
      apply bind_Ok in H as ([] & s3 & ->%modify_Ok & H).
      apply bind_Ok in H as ([] & s4 & (f0 & Hf0 & ->)%stable_node_update_Ok & H).
      apply bind_Ok in H as ([] & s5 & ->%modify_Ok & H).
      apply bind_Ok in H as ([] & s6 & ->%modify_Ok & H).
      apply bind_Ok in H as ([] & s7 & ->%modify_Ok & H).
      apply ret_Ok in H as [H <-]. injection H as <- _ <-.
      cbn in Hf0. assert (f0 = nf) as -> by congruence.
      assert (Hne : n <> fnd).
      { intros ->. destruct Hp12 as (_ & _ & Hnodes).
        destruct (Hnodes fnd nf Hnf) as (c0 & Hc0 & El & _).
        assert (c0 = chain) as -> by congruence.
        unfold is_stable_node_chain in *. congruence. }
      apply Hstep.
      * eapply dups_persist_trans;
          [apply (dups_persist_node_update s2 fnd nf (sn_set_head HEAD_RB_NODE nf));
             done|].
        eapply dups_persist_trans; [|apply dups_persist_ext; reflexivity].
        eapply dups_persist_trans; [|apply dups_persist_free_node].
        apply dups_persist_ext; reflexivity.
      * cbn. rewrite lookup_delete_ne, lookup_insert_eq by done. eauto.
    + apply bind_Ok in H as (c2 & s0 & [Hc2 ->]%stable_node_at_Ok & H).
      apply bind_Ok in H as (f0 & s0 & [Hf0 ->]%stable_node_at_Ok & H).
      apply bind_Ok in H as (s0 & s3 & [-> ->]%get_Ok & H).
      apply bind_Ok in H as ([] & s3 & Hmove & H).
      apply ret_Ok in H as [H <-]. injection H as <- _ <-.
      destruct (negb (bool_decide (head (sn_hlist c2) = Some fnd)) &&
                __is_page_sharing_candidate s2 f0 1).
      * apply stable_node_update_Ok in Hmove as (c3 & Hc3 & ->).
        apply Hstep.
        -- apply (dups_persist_node_update s2 n c3); done.
        -- cbn. destruct (decide (n = fnd)) as [->|Hne].
           ++ rewrite lookup_insert_eq. eauto.
           ++ rewrite lookup_insert_ne by done. eauto.
      * apply ret_Ok in Hmove as [_ <-]. apply Hstep; [apply dups_persist_refl|eauto].
  - apply ret_Ok in H as [H <-]. injection H as <- _ _. split; [done|]. by intros f [=].
Qed.

Lemma stable_node_dup_any_persist n s r s' :
  stable_node_dup_any n s = Ok r s' -> dups_persist s s'.
Proof.
  unfold stable_node_dup_any. intros H.
  apply bind_Ok in H as (nd & s0 & [Hn ->]%stable_node_at_Ok & H).
  destruct (negb (is_stable_node_chain nd)).
  - apply ret_Ok in H as [_ <-]. apply dups_persist_refl.
  - destruct (sn_hlist nd).
    + unfold free_stable_node_chain, free_stable_node in H. minv H.
      eapply dups_persist_trans; [|apply dups_persist_ext; reflexivity].
      eapply dups_persist_trans; [|apply dups_persist_free_node].
      apply dups_persist_ext; reflexivity.
    + apply ret_Ok in H as [_ <-]. apply dups_persist_refl.
Qed.

(** The node that [__stable_node_chain] hands out with a page is
    offered. *)
Lemma __stable_node_chain_offers e n prune s fd sn' tp s' :
  no_page_on_a_chain s ->
  __stable_node_chain e n prune s = Ok (fd, sn', tp) s' ->
  dups_persist s s' /\
  forall f p, fd = Some f -> tp = PAGE p -> offered e s' f /\ p = dup_kpfn s' f.
Proof.
  intros HW H. unfold __stable_node_chain in H.
  apply bind_Ok in H as (nd & s0 & [Hn ->]%stable_node_at_Ok & H).
  destruct (is_stable_node_chain nd) eqn:Hchain; cbn [negb] in H.
  - destruct (stable_node_dup_offers e n prune s fd sn' tp s' nd HW Hn Hchain H)
      as [Hp Hoff].
    split; [done|]. intros f p Hf ->. destruct (Hoff f Hf) as [? [= ->]]. done.
  - apply bind_Ok in H as (s0 & s1 & [-> ->]%get_Ok & H).
    destruct (is_page_sharing_candidate s nd) eqn:Hcand.
    + apply bind_Ok in H as (p & s1 & Hget & H).
      apply ret_Ok in H as [H <-]. injection H as <- _ <-.
      split; [by eapply get_ksm_page_persist|].
      intros f p0 [= <-] ->.
      apply get_ksm_page_Ok in Hget as (nd_ & Hn_ & [([=] & _)|(-> & Hmap & Hgp & Hp)]).
      assert (nd_ = nd) as -> by congruence.
      split; [by exists nd|]. unfold dup_kpfn. rewrite Hn.
      destruct Hp as [[= ->]|([=] & _)]. done.
    + apply ret_Ok in H as [H <-]. injection H as <- _ <-.
      split; [apply dups_persist_refl|]. by intros f p [=].
Qed.

Lemma page_stable_node_of_mapping s pfn n :
  page_mapping_of s pfn = MAPPING_KSM (Some n) -> page_stable_node s pfn = Some n.
Proof. unfold page_stable_node. by intros ->. Qed.

(** The page that the search of the stable tree returns for a page that is
    not itself a KSM page is the page of an offered node. *)
Lemma stable_tree_search_walk_offers e page budget :
  forall new s tp s',
    no_page_on_a_chain s ->
    stable_tree_search_walk budget e page None new s = Ok (PAGE tp) s' ->
    exists d, page_stable_node s' tp = Some d /\ offered e s' d.
Proof.
  induction budget as [|budget IH]; intros new s tp s' HW H; [done|].
  cbn [stable_tree_search_walk] in H.
  apply bind_Ok in H as (s0 & s1 & [-> ->]%get_Ok & H).
  destruct (rb_entry (root_stable_tree s) new) as [sn|]; [|by apply ret_Ok in H as [[=] _]].
  apply bind_Ok in H as ([[fd sn2] tp1] & s1 & Hcp & H).
  destruct (__stable_node_chain_offers e sn true s fd sn2 tp1 s1 HW Hcp) as [Hp1 Hoff].
  assert (HW1 := dups_persist_no_page_on_a_chain _ _ Hp1 HW).
  apply bind_Ok in H as ([[any tp2] again] & s2 & Hany & H).
  assert (Hany' : no_page_on_a_chain s2 /\
                  (again = false ->
                   forall f p, fd = Some f -> tp2 = PAGE p ->
                               s2 = s1 /\ offered e s1 f /\ p = dup_kpfn s1 f)).
  { destruct fd as [f|].
    - apply ret_Ok in Hany as [Hany <-]. injection Hany as <- <- <-.
      split; [done|]. intros _ f0 p [= <-] ->. destruct (Hoff f p eq_refl eq_refl). done.
    - apply bind_Ok in Hany as (a & s3 & Ha & Hany).
      assert (Hp3 := stable_node_dup_any_persist _ _ _ _ Ha).
      assert (HW3 := dups_persist_no_page_on_a_chain _ _ Hp3 HW1).
      destruct a as [a|].
      + apply bind_Ok in Hany as (p & s4 & Hget & Hany).
        apply ret_Ok in Hany as [Hany <-]. injection Hany as <- <- <-.
        split; [|by intros _ f p0 [=]].
        eapply dups_persist_no_page_on_a_chain; [|exact HW3].
        by eapply get_ksm_page_persist.
      + apply ret_Ok in Hany as [Hany <-]. injection Hany as <- <- <-.
        split; [done|by intros [=]]. }
  destruct Hany' as [HW2 Hfd].
  destruct again; [by apply (IH _ _ _ _ HW2 H)|].
  specialize (Hfd eq_refl).
  destruct tp2 as [|tp2|]; try by apply (IH _ _ _ _ HW2 H).
  apply bind_Ok in H as (s0 & s3 & [-> ->]%get_Ok & H).
  destruct (memcmp_pages s2 page tp2 <? 0); [by apply (IH _ _ _ _ HW2 H)|].
  destruct (0 <? memcmp_pages s2 page tp2); [by apply (IH _ _ _ _ HW2 H)|].
  destruct fd as [dup|]; [|by apply ret_Ok in H as [[=] _]].
  destruct (Hfd dup tp2 eq_refl eq_refl) as (-> & Hoffd & ->).
  apply bind_Ok in H as (p & s3 & Hget & H).
  assert (HW3 : no_page_on_a_chain s3).
  { eapply dups_persist_no_page_on_a_chain; [|exact HW1]. by eapply get_ksm_page_persist. }
  destruct p as [|p|].
  - by apply (IH _ _ _ _ HW3 H).
  - apply ret_Ok in H as [[= <-] <-].
    apply get_ksm_page_Ok in Hget as (nd & Hnd & [([=] & _)|(-> & Hmap & Hgp & Hp)]).
    destruct Hp as [[= ->]|([=] & _)].
    exists dup. split; [by apply page_stable_node_of_mapping|done].
  - by apply ret_Ok in H as [[=] _].
Qed.

Lemma stable_tree_search_offers budget e page s tp s' :
  no_page_on_a_chain s ->
  page_stable_node s page = None ->
  stable_tree_search budget e page s = Ok (PAGE tp) s' ->
  exists d nd, page_stable_node s' tp = Some d /\ stable_nodes s' !! d = Some nd /\
               is_page_sharing_candidate s' nd = true.
Proof.
  intros HW Hpage H. unfold stable_tree_search in H.
  apply bind_Ok in H as (s0 & s1 & [-> ->]%get_Ok & H).
  rewrite Hpage in H.
  apply bind_Ok in H as (forked & s1 & [<- <-]%ret_Ok & H).
  destruct (stable_tree_search_walk_offers e page budget [] s tp s' HW H)
    as (d & Hd & nd & Hnd & Hc & _).
  eauto.
Qed.

Lemma length_le_size (l : list nat) (m : gmap nat rmap_item) :
  NoDup l -> (forall r, r ∈ l -> is_Some (m !! r)) -> (length l <= size m)%nat.
Proof.
  intros Hnd Hin. rewrite <- (size_dom (D := gset nat) m).
  unfold size, set_size. cbn. apply submseteq_length, NoDup_submseteq; [done|].
  intros r Hr. apply elem_of_elements, elem_of_dom. by apply Hin.
Qed.

(** With fewer than [2 ^ 31] records the counter of a node is the number
    of records on its list. *)
Lemma rmap_hlist_len_is_length s n nd :
  rmap_bookkeeping s -> Z.of_nat (size (rmap_items s)) < 2 ^ 31 ->
  stable_nodes s !! n = Some nd -> is_stable_node_chain nd = false ->
  sn_rmap_hlist_len nd = Z.of_nat (length (sn_hlist nd)).
Proof.
  intros Hbk Hsize Hn Hreg.
  destruct (bk_nodes _ Hbk n nd Hn Hreg) as (Hnd & Hlen & _ & Hm).
  assert (Hle := length_le_size (sn_hlist nd) (rmap_items s) Hnd).
  rewrite Hlen. apply wrap_int_small. split; [lia|].
  assert (length (sn_hlist nd) <= size (rmap_items s))%nat; [|lia].
  apply Hle. intros r Hr. destruct (Hm r Hr) as (it & -> & _). eauto.
Qed.

Lemma stable_tree_append_len r n b s s' nd :
  stable_nodes s !! n = Some nd ->
  stable_tree_append r n b s = Ok tt s' ->
  0 <= sn_rmap_hlist_len nd /\
  exists nd', stable_nodes s' !! n = Some nd' /\
              sn_rmap_hlist_len nd' = wrap_int (sn_rmap_hlist_len nd + 1) /\
              sn_hlist nd' = r :: sn_hlist nd /\
              ksm_max_page_sharing s' = ksm_max_page_sharing s.
Proof.
  intros Hn H. unfold stable_tree_append in H. minv H.
  cbn in *. rewrite lookup_insert_eq in H4. injection H4 as <-.
  assert (a = nd) as -> by congruence. assert (n0 = nd) as -> by congruence.
  apply Z.ltb_ge in H1. split; [done|].
  eexists. split_and!.
  - destruct (sn_hlist nd); minv H; cbn; rewrite insert_insert_eq; apply lookup_insert_eq.
  - done.
  - done.
  - destruct (sn_hlist nd); minv H; done.
Qed.

Lemma remove_rmap_item_from_tree_len e r s s' it n nd :
  rmap_items s !! r = Some it ->
  test_bits (ri_address it) STABLE_FLAG = true ->
  ri_head it = Some n ->
  stable_nodes s !! n = Some nd ->
  dup_live e s n = true ->
  remove_rmap_item_from_tree e r s = Ok tt s' ->
  exists nd', stable_nodes s' !! n = Some nd' /\
              sn_rmap_hlist_len nd' = wrap_int (sn_rmap_hlist_len nd - 1) /\
              sn_hlist nd' = hlist_del r (sn_hlist nd).
Proof.
  intros Hr Hf Hhd Hn Hlive H. unfold remove_rmap_item_from_tree in H.
  apply bind_Ok in H as (it_ & s0 & [Hr_ ->]%rmap_item_at_Ok & H).
  assert (it_ = it) as -> by congruence. rewrite Hf, Hhd in H.
  apply bind_Ok in H as (p & s1 & Hget & H).
  rewrite (get_ksm_page_live e n GET_KSM_PAGE_LOCK s nd Hn Hlive) in Hget by done.
  injection Hget as <- <-. cbn beta iota in H. minv H.
  cbn in *. rewrite lookup_insert_eq in H1. injection H1 as <-.
  assert (n0 = nd) as -> by congruence.
  assert (E : stable_nodes s0 =
              <[n := sn_set_hlist (hlist_del r (sn_hlist nd)) nd]> (stable_nodes s))
    by (cbn in H2; destruct (hlist_del r (sn_hlist nd)); minv H2; done).
  rewrite E, lookup_insert_eq in H3. injection H3 as <-.
  eexists. rewrite lookup_insert_eq. done.
Qed.

(** One more record on an offered node keeps it within the limit. *)
Lemma stable_tree_append_within_limit r n s s' nd :
  stable_nodes s !! n = Some nd ->
  is_page_sharing_candidate s nd = true ->
  sn_rmap_hlist_len nd <= INT_MAX -> ksm_max_page_sharing s <= INT_MAX ->
  stable_tree_append r n false s = Ok tt s' ->
  exists nd', stable_nodes s' !! n = Some nd' /\
              0 < sn_rmap_hlist_len nd' <= ksm_max_page_sharing s'.
Proof.
  intros Hn Hc Hi Hm H.
  destruct (stable_tree_append_len r n false s s' nd Hn H)
    as (H0 & nd' & Hn' & El & _ & Ex).
  exists nd'. split; [done|]. rewrite El, Ex.
  unfold is_page_sharing_candidate, __is_page_sharing_candidate in Hc.
  apply andb_true_iff in Hc as [_ Hlt%Z.ltb_lt].
  unfold INT_MAX in *. rewrite Z.add_0_r, wrap_int_small in Hlt by lia.
  rewrite wrap_int_small by lia. lia.
Qed.

(** C1 (amended).  For a stable node that is not a chain: (1) while fewer
    than [2 ^ 31] records exist, [rmap_hlist_len] is the number of records
    on the node's list, hence not negative; (2) [stable_tree_append] adds one
    to it; (3) [remove_rmap_item_from_tree] of a record attached to a node
    whose page is there takes one off; (4) for a page that is not itself a
    KSM page, the search of the stable tree only returns the page of a node
    whose counter is not zero and below [ksm_max_page_sharing]; (5) a record
    attached to such a node without the bypass leaves the counter positive
    and at most [ksm_max_page_sharing].  The limit itself is not an
    invariant: a forked KSM page is attached with the bypass. *)
Theorem fanout_counter_and_limit e :
  (forall s n nd,
     rmap_bookkeeping s -> Z.of_nat (size (rmap_items s)) < 2 ^ 31 ->
     stable_nodes s !! n = Some nd -> is_stable_node_chain nd = false ->
     sn_rmap_hlist_len nd = Z.of_nat (length (sn_hlist nd))) /\
  (forall r n b s s' nd,
     stable_nodes s !! n = Some nd -> sn_rmap_hlist_len nd < INT_MAX ->
     stable_tree_append r n b s = Ok tt s' ->
     exists nd', stable_nodes s' !! n = Some nd' /\
                 sn_rmap_hlist_len nd' = sn_rmap_hlist_len nd + 1) /\
  (forall r s s' it n nd,
     rmap_items s !! r = Some it -> test_bits (ri_address it) STABLE_FLAG = true ->
     ri_head it = Some n -> stable_nodes s !! n = Some nd ->
     0 < sn_rmap_hlist_len nd <= INT_MAX -> dup_live e s n = true ->
     remove_rmap_item_from_tree e r s = Ok tt s' ->
     exists nd', stable_nodes s' !! n = Some nd' /\
                 sn_rmap_hlist_len nd' = sn_rmap_hlist_len nd - 1) /\
  (forall budget page s tp s',
     no_page_on_a_chain s -> page_stable_node s page = None ->
     stable_tree_search budget e page s = Ok (PAGE tp) s' ->
     exists d nd, page_stable_node s' tp = Some d /\ stable_nodes s' !! d = Some nd /\
                  is_page_sharing_candidate s' nd = true) /\
  (forall r n s s' nd,
     stable_nodes s !! n = Some nd -> is_page_sharing_candidate s nd = true ->
     sn_rmap_hlist_len nd <= INT_MAX -> ksm_max_page_sharing s <= INT_MAX ->
     stable_tree_append r n false s = Ok tt s' ->
     exists nd', stable_nodes s' !! n = Some nd' /\
                 0 < sn_rmap_hlist_len nd' <= ksm_max_page_sharing s').
Proof.
  split_and!.
  - apply rmap_hlist_len_is_length.
  - intros r n b s s' nd Hn Hlt H.
    destruct (stable_tree_append_len r n b s s' nd Hn H) as (H0 & nd' & Hn' & El & _).
    exists nd'. split; [done|]. rewrite El. apply wrap_int_small.
    unfold INT_MAX in *. lia.
  - intros r s s' it n nd Hr Hf Hhd Hn Hlen Hlive H.
    destruct (remove_rmap_item_from_tree_len e r s s' it n nd Hr Hf Hhd Hn Hlive H)
      as (nd' & Hn' & El & _).
    exists nd'. split; [done|]. rewrite El. apply wrap_int_small.
    unfold INT_MAX in *. lia.
  - intros budget page s tp s'. apply stable_tree_search_offers.
  - apply stable_tree_append_within_limit.
Qed.

Lemma shared_page_and_newcomer_no_page_on_a_chain :
  no_page_on_a_chain shared_page_and_newcomer.
Proof. intros pfn n nd _ Hn. cbn in Hn. lookup_cases Hn. done. Qed.

Lemma fanout_counter_and_limit_witness :
  exists d nd,
    page_stable_node
      (final_state ksm_init (stable_tree_search 10 quiet 12 shared_page_and_newcomer)) 11
      = Some d /\
    stable_nodes
      (final_state ksm_init (stable_tree_search 10 quiet 12 shared_page_and_newcomer)) !! d
      = Some nd /\
    is_page_sharing_candidate
      (final_state ksm_init (stable_tree_search 10 quiet 12 shared_page_and_newcomer)) nd
      = true.
Proof.
  destruct (fanout_counter_and_limit quiet) as (_ & _ & _ & Hsearch & _).
  apply (Hsearch 10%nat 12 shared_page_and_newcomer 11).
  - exact shared_page_and_newcomer_no_page_on_a_chain.
  - vm_compute. reflexivity.
  - vm_compute. reflexivity.
Defined.

Lemma forked_ksm_page_bookkeeping : rmap_bookkeeping forked_ksm_page.
Proof.
  split.
  - intros n nd H Hreg. cbn in H. lookup_cases H.
    split_and!; [by apply (bool_decide_unpack _)|done|done|].
    intros r [->|Hr]%elem_of_cons; [|apply list_elem_of_singleton in Hr as ->];
      eexists; split_and!; reflexivity.
  - intros r it H Hf. cbn in H. lookup_cases H.
    + exists 50%nat. eexists. split_and!; [reflexivity|reflexivity|done|by left].
    + exists 50%nat. eexists. split_and!; [reflexivity|reflexivity|done|].
      right. by left.
    + discriminate Hf.
  - intros p Hp. cbn in Hp. cbn. rewrite !lookup_insert_ne by lia. done.
  - reflexivity.
  - reflexivity.
Qed.

(** C1 as stated fails: the record of a forked mapping of a KSM page is
    attached to a node that is already at the limit. *)
Lemma forked_page_goes_over_the_limit :
  rmap_bookkeeping forked_ksm_page /\
  exists s' nd,
    cmp_and_merge_page 10 quiet 11 1002 forked_ksm_page = Ok tt s' /\
    stable_nodes s' !! 50%nat = Some nd /\
    is_stable_node_chain nd = false /\
    sn_rmap_hlist_len nd = 3 /\ ksm_max_page_sharing s' = 2.
Proof.
  split; [exact forked_ksm_page_bookkeeping|].
  eexists. eexists. split; [vm_compute; reflexivity|].
  split_and!; vm_compute; reflexivity.
Qed.

(** ** Undoing a merge that cannot be completed (C6) *)

(** *** Predicates on the records that survive the two functions through
    which the stable tree's walks reach the records *)

Ltac pframe_leaf :=
  intros;
  repeat match goal with
         | |- _ (if ?c then _ else _) => destruct c
         | |- _ (match ?c with _ => _ end) => destruct c
         end;
  auto 12.

Ltac pframe_step :=
  first
    [ apply preserves_ret | apply preserves_fail | apply preserves_get
    | apply preserves_BUG_ON | apply preserves_stable_node_at
    | apply preserves_rmap_item_at | apply preserves_mm_slot_at
    | apply preserves_ksm_test_exit
    | assumption
    | apply preserves_bind; [ | intros ? ]
    | apply preserves_modify; solve [pframe_leaf]
    | match goal with
      | |- preserves _ (match ?x with _ => _ end) => destruct x
      | |- preserves _ (let (_, _) := ?x in _) => destruct x
      end ].

Create HintDb rframe.

Ltac pframe := repeat first [ solve [auto with rframe] | pframe_step ].

Section RecordFrame.
Variable P : ksm -> Prop.

Hypothesis P_stable_nodes : forall v s, P s -> P (set_stable_nodes v s).
Hypothesis P_next_ptr : forall v s, P s -> P (set_next_ptr v s).
Hypothesis P_root_stable_tree : forall v s, P s -> P (set_root_stable_tree v s).
Hypothesis P_migrate_nodes : forall v s, P s -> P (set_migrate_nodes v s).
Hypothesis P_ksm_stable_node_chains : forall v s, P s -> P (set_ksm_stable_node_chains v s).
Hypothesis P_ksm_stable_node_dups : forall v s, P s -> P (set_ksm_stable_node_dups v s).
Hypothesis P_mem_map : forall v s, P s -> P (set_mem_map v s).
Hypothesis P_page_table : forall v s, P s -> P (set_page_table v s).
Hypothesis P_next_pfn : forall v s, P s -> P (set_next_pfn v s).
Hypothesis P_get_ksm_page : forall e n flags, preserves P (get_ksm_page e n flags).
Hypothesis P_remove_rmap_item_from_tree :
  forall e r, preserves P (remove_rmap_item_from_tree e r).

Lemma records_stable_node_update p f : preserves P (stable_node_update p f).
Proof. unfold stable_node_update. pframe. Qed.
Hint Resolve records_stable_node_update : rframe.

Lemma records_stable_node_chain_add_dup dup c :
  preserves P (stable_node_chain_add_dup dup c).
Proof. unfold stable_node_chain_add_dup. pframe. Qed.

Lemma records_free_stable_node n : preserves P (free_stable_node n).
Proof. unfold free_stable_node. pframe. Qed.

Lemma records_alloc_stable_node e : preserves P (alloc_stable_node e).
Proof. unfold alloc_stable_node. pframe. Qed.
Hint Resolve records_stable_node_chain_add_dup records_free_stable_node
  records_alloc_stable_node : rframe.

Lemma records_alloc_stable_node_chain e dup : preserves P (alloc_stable_node_chain e dup).
Proof. unfold alloc_stable_node_chain. pframe. Qed.

Lemma records_free_stable_node_chain c : preserves P (free_stable_node_chain c).
Proof. unfold free_stable_node_chain. pframe. Qed.
Hint Resolve records_alloc_stable_node_chain records_free_stable_node_chain : rframe.

Lemma records_stable_node_dup_loop e prune dups w :
  preserves P (stable_node_dup_loop e prune dups w).
Proof.
  revert w. induction dups as [|d dups IH]; intros w;
    cbn [stable_node_dup_loop]; pframe.
Qed.
Hint Resolve records_stable_node_dup_loop : rframe.

Lemma records_stable_node_dup e n prune : preserves P (stable_node_dup e n prune).
Proof. unfold stable_node_dup. pframe. Qed.

Lemma records_stable_node_dup_any n : preserves P (stable_node_dup_any n).
Proof. unfold stable_node_dup_any. pframe. Qed.
Hint Resolve records_stable_node_dup records_stable_node_dup_any : rframe.

Lemma records___stable_node_chain e n prune :
  preserves P (__stable_node_chain e n prune).
Proof. unfold __stable_node_chain. pframe. Qed.
Hint Resolve records___stable_node_chain : rframe.

Lemma records_chain_prune e n : preserves P (chain_prune e n).
Proof. unfold chain_prune. pframe. Qed.

Lemma records_chain e n : preserves P (chain e n).
Proof. unfold chain. pframe. Qed.
Hint Resolve records_chain_prune records_chain : rframe.

Lemma records_stable_tree_search_out page pn :
  preserves P (stable_tree_search_out page pn).
Proof. unfold stable_tree_search_out. pframe. Qed.
Hint Resolve records_stable_tree_search_out : rframe.

Lemma records_stable_tree_search_chain_append e page pn d a n :
  preserves P (stable_tree_search_chain_append e page pn d a n).
Proof. unfold stable_tree_search_chain_append. pframe. Qed.
Hint Resolve records_stable_tree_search_chain_append : rframe.

Lemma records_stable_tree_search_walk budget e page pn new :
  preserves P (stable_tree_search_walk budget e page pn new).
Proof.
  revert new. induction budget as [|budget IH]; intros new;
    cbn [stable_tree_search_walk]; pframe.
Qed.
Hint Resolve records_stable_tree_search_walk : rframe.

Lemma records_stable_tree_search budget e page :
  preserves P (stable_tree_search budget e page).
Proof. unfold stable_tree_search. pframe. Qed.

Lemma records_stable_tree_insert_walk budget e kpage new :
  preserves P (stable_tree_insert_walk budget e kpage new).
Proof.
  revert new. induction budget as [|budget IH]; intros new;
    cbn [stable_tree_insert_walk]; pframe.
Qed.
Hint Resolve records_stable_tree_search records_stable_tree_insert_walk : rframe.

Lemma records_set_page_stable_node pfn n : preserves P (set_page_stable_node pfn n).
Proof. unfold set_page_stable_node. pframe. Qed.
Hint Resolve records_set_page_stable_node : rframe.

Lemma records_stable_tree_insert budget e kpage :
  preserves P (stable_tree_insert budget e kpage).
Proof. unfold stable_tree_insert. pframe. Qed.

Lemma records_find_mergeable_vma mm addr : preserves P (find_mergeable_vma mm addr).
Proof. unfold find_mergeable_vma. pframe. Qed.
Hint Resolve records_stable_tree_insert records_find_mergeable_vma : rframe.

Lemma records_do_handle_mm_fault e mm addr : preserves P (do_handle_mm_fault e mm addr).
Proof. unfold do_handle_mm_fault. pframe. Qed.
Hint Resolve records_do_handle_mm_fault : rframe.

Lemma records_break_ksm e mm addr : preserves P (break_ksm e mm addr).
Proof. unfold break_ksm. pframe. Qed.
Hint Resolve records_break_ksm : rframe.

Lemma records_break_cow e r : preserves P (break_cow e r).
Proof. unfold break_cow. pframe. Qed.

Lemma records_get_mergeable_page r : preserves P (get_mergeable_page r).
Proof. unfold get_mergeable_page. pframe. Qed.

Lemma records_write_protect_page e mm addr page :
  preserves P (write_protect_page e mm addr page).
Proof. unfold write_protect_page. pframe. Qed.

Lemma records_replace_page mm addr page kpage o :
  preserves P (replace_page mm addr page kpage o).
Proof. unfold replace_page. pframe. Qed.
Hint Resolve records_break_cow records_get_mergeable_page records_write_protect_page
  records_replace_page : rframe.

Lemma records_try_to_merge_one_page e mm addr page kpage :
  preserves P (try_to_merge_one_page e mm addr page kpage).
Proof. unfold try_to_merge_one_page. pframe. Qed.
Hint Resolve records_try_to_merge_one_page : rframe.

Lemma records_try_to_merge_with_ksm_page e r page kpage :
  preserves P (try_to_merge_with_ksm_page e r page kpage).
Proof. unfold try_to_merge_with_ksm_page. pframe. Qed.
Hint Resolve records_try_to_merge_with_ksm_page : rframe.

Lemma records_try_to_merge_two_pages e r page tr tp :
  preserves P (try_to_merge_two_pages e r page tr tp).
Proof. unfold try_to_merge_two_pages. pframe. Qed.

End RecordFrame.

(** *** A detached record stays detached *)

Lemma detached_ext q s s' : rmap_items s' = rmap_items s -> detached q s -> detached q s'.
Proof. unfold detached. by intros ->. Qed.

Lemma detached_rmap_item_update q r f :
  (forall it, test_bits (ri_address (f it)) STABLE_FLAG = true ->
              test_bits (ri_address it) STABLE_FLAG = true) ->
  preserves (detached q) (rmap_item_update r f).
Proof.
  intros Hf s a s' (it & Hq & Hu) (r0 & Hr & ->)%rmap_item_update_Ok.
  unfold detached. cbn. destruct (decide (q = r)) as [->|Hne].
  - rewrite lookup_insert_eq. exists (f r0). split; [done|].
    assert (r0 = it) as -> by congruence.
    destruct (test_bits (ri_address (f it)) STABLE_FLAG) eqn:E; [|done].
    rewrite (Hf it E) in Hu. done.
  - rewrite lookup_insert_ne by done. eauto.
Qed.

Lemma detached_mask q r :
  preserves (detached q)
    (rmap_item_update r (fun r => ri_set_address (Z.land (ri_address r) PAGE_MASK) r)).
Proof.
  apply detached_rmap_item_update. intros it. cbn. by rewrite stable_flag_masked.
Qed.

Lemma detached_mask_head q r :
  preserves (detached q)
    (rmap_item_update r (fun r => ri_set_address (Z.land (ri_address r) PAGE_MASK)
                                    (ri_set_head None r))).
Proof.
  apply detached_rmap_item_update. intros it. cbn. by rewrite stable_flag_masked.
Qed.

Ltac detached_setters :=
  try (intros; eapply detached_ext; [|eassumption]; reflexivity).

Lemma detached_remove_node_loop q n l :
  preserves (detached q) (remove_node_from_stable_tree_loop n l).
Proof.
  assert (Hm := detached_mask q).
  induction l as [|r l IH]; cbn [remove_node_from_stable_tree_loop]; [apply preserves_ret|].
  apply preserves_bind; [|intros ?].
  { destruct l; repeat (apply preserves_bind; [|intros ?]);
      apply preserves_modify; detached_setters. }
  apply preserves_bind; [|intros ?].
  { eapply records_stable_node_update. detached_setters. }
  apply preserves_bind; [apply Hm|intros ?]. exact IH.
Qed.

Lemma detached_remove_node q n :
  preserves (detached q) (remove_node_from_stable_tree n).
Proof.
  unfold remove_node_from_stable_tree.
  apply preserves_bind; [apply preserves_stable_node_at|intros nd].
  apply preserves_bind; [apply preserves_BUG_ON|intros ?].
  apply preserves_bind; [apply detached_remove_node_loop|intros ?].
  apply preserves_bind; [apply preserves_stable_node_at|intros nd'].
  apply preserves_bind; [|intros ?].
  - destruct (decide _); [apply preserves_modify; detached_setters|].
    unfold stable_node_dup_del.
    apply preserves_bind; [apply preserves_stable_node_at|intros d].
    destruct (is_stable_node_dup d).
    + unfold __stable_node_dup_del.
      apply preserves_bind; [|intros ?]; apply preserves_modify; detached_setters.
    + apply preserves_modify; detached_setters.
  - apply preserves_modify; detached_setters.
Qed.

Lemma detached_get_ksm_page q e n flags :
  preserves (detached q) (get_ksm_page e n flags).
Proof.
  intros s p s' Hq (nd & _ & [(_ & H & _)|(-> & _)])%get_ksm_page_Ok; [|done].
  by apply (detached_remove_node q n s tt s').
Qed.

Lemma detached_remove_rmap_item_from_tree q e r :
  preserves (detached q) (remove_rmap_item_from_tree e r).
Proof.
  assert (H1 := detached_mask q). assert (H2 := detached_mask_head q).
  assert (H3 := detached_get_ksm_page q).
  unfold remove_rmap_item_from_tree.
  apply preserves_bind; [apply preserves_rmap_item_at|intros it].
  destruct (test_bits (ri_address it) STABLE_FLAG).
  - destruct (ri_head it) as [n|]; [|apply preserves_fail].
    apply preserves_bind; [apply H3|intros p].
    assert (Hdetach :
      preserves (detached q)
        (stable_node_update n (fun n0 => sn_set_hlist (hlist_del r (sn_hlist n0)) n0);;
         do n0 <- stable_node_at n;
         (match sn_hlist n0 with
          | _ :: _ =>
              modify (fun s => set_ksm_pages_sharing (wrap_ulong (ksm_pages_sharing s - 1)) s);;
              modify (fun s => set_lksm_slot_nr_broken (wrap_int (lksm_slot_nr_broken s + 1)) s);;
              modify (fun s => set_lksm_nr_broken (wrap_int (lksm_nr_broken s + 1)) s)
          | [] =>
              modify (fun s => set_ksm_pages_shared (wrap_ulong (ksm_pages_shared s - 1)) s)
          end);;
         stable_node_update n
           (fun n0 => sn_set_rmap_hlist_len (wrap_int (sn_rmap_hlist_len n0 - 1)) n0);;
         rmap_item_update r
           (fun r0 => ri_set_address (Z.land (ri_address r0) PAGE_MASK)
                        (ri_set_head None r0)))).
    { apply preserves_bind; [eapply records_stable_node_update; detached_setters|intros ?].
      apply preserves_bind; [apply preserves_stable_node_at|intros n0].
      apply preserves_bind; [|intros ?].
      { destruct (sn_hlist n0); repeat (apply preserves_bind; [|intros ?]);
          apply preserves_modify; detached_setters. }
      apply preserves_bind; [eapply records_stable_node_update; detached_setters|intros ?].
      exact (H2 r). }
    destruct p; [apply preserves_ret|exact Hdetach|exact Hdetach].
  - destruct (test_bits (ri_address it) UNSTABLE_FLAG); [|apply preserves_ret].
    apply preserves_bind; [apply preserves_get|intros s0].
    apply preserves_bind; [|intros ?].
    { destruct (_ =? 0); [apply preserves_modify; detached_setters|apply preserves_ret]. }
    apply preserves_bind; [apply preserves_modify; detached_setters|intros ?].
    exact (H1 r).
Qed.

(** Everything that reaches the records through these two functions keeps
    a detached record detached. *)
Ltac detached_frame lemma :=
  apply lemma; detached_setters;
  first [ apply detached_get_ksm_page | apply detached_remove_rmap_item_from_tree ].

Lemma detached_stable_tree_insert q budget e kpage :
  preserves (detached q) (stable_tree_insert budget e kpage).
Proof. detached_frame records_stable_tree_insert. Qed.

Lemma detached_try_to_merge_with_ksm_page q e r page kpage :
  preserves (detached q) (try_to_merge_with_ksm_page e r page kpage).
Proof. detached_frame records_try_to_merge_with_ksm_page. Qed.

Lemma detached_break_cow q e r : preserves (detached q) (break_cow e r).
Proof. detached_frame records_break_cow. Qed.

(** *** What [break_cow] restores *)

Lemma find_mergeable_vma_ext mm addr s s' v :
  mm_structs s' = mm_structs s ->
  find_mergeable_vma mm addr s = Ok v s -> find_mergeable_vma mm addr s' = Ok v s'.
Proof.
  intros E H. unfold find_mergeable_vma in *.
  apply bind_Ok in H as (ex & s0 & Hex & H).
  apply ksm_test_exit_Ok in Hex as (-> & m & Hm & ->).
  apply bind_Ok. exists (mm_users m =? 0), s'. split.
  { unfold ksm_test_exit. by rewrite E, Hm. }
  destruct (mm_users m =? 0); [by apply ret_Ok in H as [<- _]|].
  apply bind_Ok in H as (s0 & s1 & [-> ->]%get_Ok & H).
  apply bind_Ok. exists s', s'. split; [done|]. rewrite E, Hm in *.
  destruct (vma_lookup m addr) as [vma|]; [|by apply ret_Ok in H as [<- _]].
  destruct (negb (vm_mergeable vma) || negb (vm_anon_vma vma));
    by apply ret_Ok in H as [<- _].
Qed.

Lemma break_cow_restores e s r it :
  rmap_items s !! r = Some it -> break_cow_ready e s r ->
  exists old,
    follow_page s (ri_mm it) (ri_address it) = Some old /\
    break_cow e r s = Ok tt (cow_broken s (ri_mm it) (ri_address it) old) /\
    private_writable (cow_broken s (ri_mm it) (ri_address it) old)
      (ri_mm it) (ri_address it).
Proof.
  intros Hr (it_ & vma & page & Hr_ & Hvma & Hfollow & Hksm & Hfault).
  assert (it_ = it) as -> by congruence.
  exists page. split; [done|]. split.
  - unfold break_cow. apply bind_Ok. exists it, s. split; [by apply rmap_item_at_Ok|].
    apply bind_Ok. exists (Some vma), s. split; [done|].
    apply bind_Ok. exists 0, (cow_broken s (ri_mm it) (ri_address it) page).
    split; [|done].
    unfold break_ksm. apply bind_Ok. exists s, s. split; [done|].
    rewrite Hfollow, Hksm.
    apply bind_Ok. exists VM_FAULT_WRITE, (cow_broken s (ri_mm it) (ri_address it) page).
    split; [|done].
    unfold do_handle_mm_fault. rewrite Hfault.
    apply bind_Ok. exists s, s. split; [done|]. rewrite Hfollow.
    apply bind_Ok. exists tt, (cow_broken s (ri_mm it) (ri_address it) page). done.
  - exists (mk_pte (next_pfn s) true). unfold cow_broken. cbn.
    rewrite lookup_insert_eq. split_and!; [done|done|].
    unfold PageKsm, page_mapping_of. cbn. by rewrite lookup_insert_eq.
Qed.

(** Breaking the sharing at one address leaves another address ready. *)
Lemma break_cow_ready_other e s r mm addr old :
  break_cow_ready e s r ->
  (forall it, rmap_items s !! r = Some it ->
     (ri_mm it, Z.land (ri_address it) PAGE_MASK) <> (mm, Z.land addr PAGE_MASK)) ->
  mem_map s !! next_pfn s = None ->
  break_cow_ready e (cow_broken s mm addr old) r.
Proof.
  intros (it & vma & page & Hr & Hvma & Hfollow & Hksm & Hfault) Hne Hfresh.
  exists it, vma, page. split_and!; try done.
  - by apply (find_mergeable_vma_ext _ _ s).
  - unfold follow_page, cow_broken in *. cbn.
    rewrite lookup_insert_ne; [done|]. intros E. by apply (Hne it Hr).
  - unfold PageKsm, page_mapping_of, cow_broken in *. cbn.
    rewrite lookup_insert_ne; [done|]. intros <-. by rewrite Hfresh in Hksm.
Qed.

Lemma private_writable_other s mm addr mm' addr' old :
  private_writable s mm addr ->
  (mm, Z.land addr PAGE_MASK) <> (mm', Z.land addr' PAGE_MASK) ->
  (forall p, page_table s !! (mm, Z.land addr PAGE_MASK) = Some p ->
             pte_pfn p <> next_pfn s) ->
  private_writable (cow_broken s mm' addr' old) mm addr.
Proof.
  intros (p & Hp & Hw & Hk) Hne Hfresh. exists p. unfold cow_broken. cbn.
  rewrite lookup_insert_ne by done. split_and!; [done|done|].
  unfold PageKsm, page_mapping_of in *. cbn.
  rewrite lookup_insert_ne; [done|]. intros E. by apply (Hfresh p Hp).
Qed.

(** *** The two sides of a merge *)

Lemma rmap_bookkeeping_try_to_merge_one_page e mm addr page kpage :
  preserves rmap_bookkeeping (try_to_merge_one_page e mm addr page kpage).
Proof.
  apply preserves_try_to_merge_one_page;
    intros; (eapply rmap_bookkeeping_ext; [ | | | | |eassumption]; reflexivity).
Qed.

Lemma detached_try_to_merge_one_page q e mm addr page kpage :
  preserves (detached q) (try_to_merge_one_page e mm addr page kpage).
Proof. apply preserves_try_to_merge_one_page; detached_setters. Qed.

(** A side that merged was taken off the trees. *)
Lemma try_to_merge_with_ksm_page_detaches e r page kpage s err s' :
  rmap_bookkeeping s ->
  try_to_merge_with_ksm_page e r page kpage s = Ok err s' ->
  rmap_bookkeeping s' /\ (err = 0 -> detached r s').
Proof.
  intros Hbk H. unfold try_to_merge_with_ksm_page in H.
  apply bind_Ok in H as (it & s0 & [Hr ->]%rmap_item_at_Ok & H).
  apply bind_Ok in H as (vma & s1 & Hvma & H).
  assert (Hbk1 : rmap_bookkeeping s1).
  { revert Hvma. apply preserves_find_mergeable_vma; done. }
  destruct vma as [vma|].
  - apply bind_Ok in H as (err1 & s2 & Hone & H).
    assert (Hbk2 := rmap_bookkeeping_try_to_merge_one_page _ _ _ _ _ _ _ _ Hbk1 Hone).
    destruct (Z.eqb_spec err1 0) as [->|Hne]; cbn [negb] in H.
    + apply bind_Ok in H as ([] & s3 & Hrm & [<- <-]%ret_Ok).
      destruct (remove_rmap_item_from_tree_bookkeeping e r s2 s3 Hbk2 Hrm)
        as (Hbk3 & it0 & it' & _ & Hit' & Hu & _).
      split; [done|]. intros _. by exists it'.
    + apply ret_Ok in H as [<- <-]. split; [done|]. intros ->. done.
  - apply ret_Ok in H as [<- <-]. split; [done|]. unfold EFAULT. lia.
Qed.

Lemma break_cow_starved_keeps e s r :
  break_cow_starved e s r -> break_cow e r s = Ok tt s.
Proof.
  intros (it & vma & page & Hr & Hvma & Hfollow & Hksm & Hfault).
  unfold break_cow. apply bind_Ok. exists it, s. split; [by apply rmap_item_at_Ok|].
  apply bind_Ok. exists (Some vma), s. split; [done|].
  apply bind_Ok. exists (- ENOMEM), s. split; [|done].
  unfold break_ksm. apply bind_Ok. exists s, s. split; [done|].
  rewrite Hfollow, Hksm.
  apply bind_Ok. exists VM_FAULT_OOM, s. split; [|done].
  unfold do_handle_mm_fault. by rewrite Hfault.
Qed.


Lemma match_in_unstable_tree_bookkeeping : rmap_bookkeeping match_in_unstable_tree.
Proof.
  split.
  - intros n nd H. cbn in H. by rewrite lookup_empty in H.
  - intros r it H Hf. cbn in H. lookup_cases H; discriminate Hf.
  - intros p Hp. cbn in Hp. cbn. rewrite lookup_empty, !lookup_insert_ne by lia. done.
  - reflexivity.
  - reflexivity.
Qed.



(** ** The sharing counters across attach and detach *)

Lemma stable_tree_append_total r n b s nd it :
  stable_nodes s !! n = Some nd -> 0 <= sn_rmap_hlist_len nd ->
  rmap_items s !! r = Some it ->
  exists s', stable_tree_append r n b s = Ok tt s'.
Proof.
  intros Hn Hl Hr.
  unfold stable_tree_append, stable_node_update, rmap_item_update, stable_node_at,
    rmap_item_at, BUG_ON, bind.
  rewrite Hn. apply Z.ltb_ge in Hl. rewrite Hl. cbn. rewrite Hn. cbn. rewrite Hr. cbn.
  rewrite lookup_insert_eq. destruct (sn_hlist nd); cbn; eauto.
Qed.

(** X1.  [stable_tree_append] on a record that is not attached yet and a node
    that is not a chain returns, and the counters still count what they
    counted: one more record is attached, and one more node is in use
    exactly when the node had no record before. *)
Theorem append_keeps_sharing_counters r n b s it nd :
  rmap_bookkeeping s ->
  rmap_items s !! r = Some it -> test_bits (ri_address it) STABLE_FLAG = false ->
  stable_nodes s !! n = Some nd -> 0 <= sn_rmap_hlist_len nd ->
  exists s',
    stable_tree_append r n b s = Ok tt s' /\
    rmap_bookkeeping s' /\
    records_attached s' = records_attached s + 1 /\
    nodes_in_use s' =
      nodes_in_use s + (match sn_hlist nd with [] => 1 | _ :: _ => 0 end) /\
    ksm_pages_shared s' = wrap_ulong (nodes_in_use s') /\
    ksm_pages_sharing s' = wrap_ulong (records_attached s' - nodes_in_use s').
Proof.
  intros Hbk Hr Hu Hn Hl.
  destruct (stable_tree_append_total r n b s nd it Hn Hl Hr) as [s' Hrun].
  exists s'. split; [done|].
  assert (Hbk' := stable_tree_append_bookkeeping r n b s s' it Hbk Hr Hu Hrun).
  split; [done|].
  destruct (stable_tree_append_len r n b s s' nd Hn Hrun) as (_ & nd' & Hn' & Hl' & Hh' & _).
  assert (Hreg := nonneg_not_chain nd Hl).
  destruct (node_ok_len s n nd (bk_nodes s Hbk n nd Hn Hreg) Hl) as [Hlen Hb].
  assert (Hreg' : is_stable_node_chain nd' = false).
  { unfold is_stable_node_chain, STABLE_NODE_CHAIN. apply Z.eqb_neq. rewrite Hl', Hlen.
    destruct (decide (Z.of_nat (length (sn_hlist nd)) + 1 = 2 ^ 31)) as [E|E].
    - rewrite E. done.
    - rewrite wrap_int_small by lia. lia. }
  assert (Hnodes : stable_nodes s' = <[n := nd']> (stable_nodes s)).
  { pose proof Hrun as Hrun'. unfold stable_tree_append in Hrun'. minv Hrun'.
    cbn in H3. rewrite lookup_insert_eq in H3. injection H3 as <-.
    assert (n0 = nd) as -> by congruence. assert (a = nd) as -> by congruence.
    assert (Hs : stable_nodes s' =
                 <[n := sn_set_hlist (r :: sn_hlist nd)
                          (sn_set_rmap_hlist_len (wrap_int (sn_rmap_hlist_len nd + 1)) nd)]>
                   (stable_nodes s)).
    { destruct (sn_hlist nd) eqn:E; minv Hrun'; cbn; by rewrite insert_insert_eq, ?E. }
    rewrite Hs in Hn'. rewrite lookup_insert_eq in Hn'. injection Hn' as <-. done. }
  split_and!.
  - unfold records_attached. rewrite Hnodes, (nodes_sum_insert _ _ _ _ _ Hn).
    unfold node_records. rewrite !attached_regular, Hh' by done. cbn [length]. lia.
  - unfold nodes_in_use. rewrite Hnodes, (nodes_sum_insert _ _ _ _ _ Hn).
    unfold node_in_use. rewrite !attached_regular, Hh' by done.
    destruct (sn_hlist nd); lia.
  - apply Hbk'.
  - apply Hbk'.
Qed.

Lemma append_keeps_sharing_counters_witness :
  exists s',
    stable_tree_append 1002 50 true forked_ksm_page = Ok tt s' /\
    rmap_bookkeeping s' /\
    records_attached s' = records_attached forked_ksm_page + 1 /\
    nodes_in_use s' = nodes_in_use forked_ksm_page + 0 /\
    ksm_pages_shared s' = wrap_ulong (nodes_in_use s') /\
    ksm_pages_sharing s' = wrap_ulong (records_attached s' - nodes_in_use s').
Proof.
  apply (append_keeps_sharing_counters 1002 50 true forked_ksm_page
           (mk_rmap_item 3 4096 0 None)
           (mk_stable_node HEAD_RB_NODE [1000%nat; 1001%nat] 11 2)).
  - exact forked_ksm_page_bookkeeping.
  - reflexivity.
  - reflexivity.
  - reflexivity.
  - vm_compute. discriminate.
Defined.

Lemma unstable_flag_masked a : test_bits (Z.land a PAGE_MASK) UNSTABLE_FLAG = false.
Proof.
  unfold test_bits. rewrite <- Z.land_assoc.
  change (Z.land PAGE_MASK UNSTABLE_FLAG) with 0. by rewrite Z.land_0_r.
Qed.

(** [get_ksm_page] on a node that is not a chain: either the page is the
    node's and nothing changes, or the node is stale and is removed. *)
Lemma get_ksm_page_run e n flags s nd :
  rmap_bookkeeping s -> swapcache_settled e ->
  stable_nodes s !! n = Some nd -> 0 <= sn_rmap_hlist_len nd ->
  (dup_live e s n = true /\
   get_ksm_page e n flags s =
     Ok (match flags with
         | GET_KSM_PAGE_TRYLOCK =>
             if trylock_page e (sn_kpfn nd) then PAGE (sn_kpfn nd) else PAGE_EBUSY
         | _ => PAGE (sn_kpfn nd)
         end) s) \/
  (dup_live e s n = false /\
   exists s', get_ksm_page e n flags s = Ok PAGE_NULL s' /\
              remove_node_from_stable_tree n s = Ok tt s').
Proof.
  intros Hbk Hw Hn H0. destruct (dup_live e s n) eqn:Hl; [left|right]; (split; [done|]).
  - unfold dup_live in Hl. rewrite Hn in Hl. apply andb_true_iff in Hl as [Hm Hg].
    unfold get_ksm_page. apply bind_Ok. exists nd, s. split; [by apply stable_node_at_Ok|].
    apply bind_Ok. exists s, s. split; [done|].
    rewrite Hm, Hg. cbn [negb]. destruct flags; try done.
    by destruct (trylock_page e (sn_kpfn nd)).
  - unfold dup_live in Hl. rewrite Hn in Hl.
    destruct (remove_node_from_stable_tree_total n s nd Hbk Hn H0) as [s' Hrm].
    exists s'. split; [|done].
    unfold get_ksm_page. apply bind_Ok. exists nd, s. split; [by apply stable_node_at_Ok|].
    apply bind_Ok. exists s, s. split; [done|].
    destruct (bool_decide (page_mapping_of s (sn_kpfn nd) = MAPPING_KSM (Some n)));
      cbn [negb andb] in *.
    + rewrite Hl. cbn [negb]. rewrite (Hw _ Hl). cbn [negb].
      apply bind_Ok. exists tt, s'. done.
    + apply bind_Ok. exists tt, s'. done.
Qed.

(** What is left of the store once a node has been removed. *)
Lemma remove_node_from_stable_tree_gone n s s' :
  remove_node_from_stable_tree n s = Ok tt s' -> stable_nodes s' !! n = None.
Proof.
  intros (nd & _ & _ & -> & _)%remove_node_from_stable_tree_Ok. apply lookup_delete_eq.
Qed.

(** X2.  The keyhole check of [get_ksm_page] on a node that holds records:
    a page is only returned when its mapping points back to the node, and
    then nothing has changed; the trylock flavour may report a busy page
    instead; a node whose page is gone is removed from the store together
    with its records, which are left detached, and [NULL] is returned. *)
Theorem get_ksm_page_returns_the_page_or_drops_the_node e n flags s nd :
  rmap_bookkeeping s -> swapcache_settled e ->
  stable_nodes s !! n = Some nd -> 0 <= sn_rmap_hlist_len nd ->
  exists p s',
    get_ksm_page e n flags s = Ok p s' /\
    match p with
    | PAGE pfn =>
        s' = s /\ pfn = sn_kpfn nd /\
        page_mapping_of s pfn = MAPPING_KSM (Some n) /\
        get_page_unless_zero e pfn = true
    | PAGE_EBUSY =>
        s' = s /\ flags = GET_KSM_PAGE_TRYLOCK /\ trylock_page e (sn_kpfn nd) = false
    | PAGE_NULL =>
        (page_mapping_of s (sn_kpfn nd) <> MAPPING_KSM (Some n) \/
         get_page_unless_zero e (sn_kpfn nd) = false) /\
        stable_nodes s' !! n = None /\
        (forall r, r ∈ sn_hlist nd -> on_no_tree r s') /\
        rmap_bookkeeping s'
    end.
Proof.
  intros Hbk Hw Hn H0.
  destruct (get_ksm_page_run e n flags s nd Hbk Hw Hn H0) as [[Hl H]|[Hl (s' & H & Hrm)]].
  - eexists _, s. split; [exact H|].
    unfold dup_live in Hl. rewrite Hn in Hl. apply andb_true_iff in Hl as [Hm Hg].
    apply bool_decide_eq_true in Hm.
    destruct flags; try done. by destruct (trylock_page e (sn_kpfn nd)) eqn:E.
  - exists PAGE_NULL, s'. split; [exact H|].
    destruct (remove_node_from_stable_tree_bookkeeping n s s' Hbk Hrm)
      as (Hbk' & nd_ & Hn_ & _ & _ & Hm & _).
    assert (nd_ = nd) as -> by congruence.
    split_and!.
    + unfold dup_live in Hl. rewrite Hn in Hl. apply andb_false_iff in Hl as [Hl|Hl].
      * left. by apply bool_decide_eq_false in Hl.
      * by right.
    + by apply (remove_node_from_stable_tree_gone n s).
    + intros r Hr. destruct (Hm r Hr) as (it & _ & Hit). eexists. split; [exact Hit|].
      cbn. by rewrite stable_flag_masked, unstable_flag_masked.
    + done.
Qed.

Lemma get_ksm_page_returns_the_page_or_drops_the_node_witness :
  exists p s',
    get_ksm_page quiet 51 GET_KSM_PAGE_NOLOCK chain_with_stale_dup = Ok p s' /\
    match p with
    | PAGE pfn =>
        s' = chain_with_stale_dup /\ pfn = 11 /\
        page_mapping_of chain_with_stale_dup pfn = MAPPING_KSM (Some 51%nat) /\
        get_page_unless_zero quiet pfn = true
    | PAGE_EBUSY =>
        s' = chain_with_stale_dup /\
        GET_KSM_PAGE_NOLOCK = GET_KSM_PAGE_TRYLOCK /\ trylock_page quiet 11 = false
    | PAGE_NULL =>
        (page_mapping_of chain_with_stale_dup 11 <> MAPPING_KSM (Some 51%nat) \/
         get_page_unless_zero quiet 11 = false) /\
        stable_nodes s' !! 51%nat = None /\
        (forall r, r ∈ [1000%nat] -> on_no_tree r s') /\
        rmap_bookkeeping s'
    end.
Proof.
  apply (get_ksm_page_returns_the_page_or_drops_the_node quiet 51 GET_KSM_PAGE_NOLOCK
           chain_with_stale_dup (mk_stable_node STABLE_NODE_DUP_HEAD [1000%nat] 11 1)).
  - exact chain_with_stale_dup_bookkeeping.
  - intros pfn H. discriminate H.
  - reflexivity.
  - vm_compute. discriminate.
Defined.

(** Unlinking a dup from its chain changes no list of records. *)
Lemma attached_unlink_dup dup c :
  attached (if is_stable_node_chain c
            then sn_set_hlist (hlist_del dup (sn_hlist c)) c else c) = attached c.
Proof.
  destruct (is_stable_node_chain c) eqn:E; [|done].
  unfold attached. cbn. unfold is_stable_node_chain in *. cbn. by rewrite E.
Qed.

Lemma nodes_sum_after_removal f n s s' nd :
  (forall x y, attached x = attached y -> f x = f y) ->
  stable_nodes s !! n = Some nd -> is_stable_node_chain nd = false ->
  stable_nodes s' =
    delete n (if is_stable_node_dup nd then stable_nodes (hlist_del_dup n s)
              else stable_nodes s) ->
  nodes_sum f (stable_nodes s') = nodes_sum f (stable_nodes s) - f nd.
Proof.
  intros Hf Hn Hreg ->. destruct (is_stable_node_dup nd).
  - unfold hlist_del_dup. cbn.
    rewrite (nodes_sum_delete f _ n nd).
    + rewrite nodes_sum_fmap; [done|]. intros x. apply Hf, attached_unlink_dup.
    + by rewrite lookup_fmap, Hn; cbn; rewrite Hreg.
  - by apply nodes_sum_delete.
Qed.

(** X3.  [remove_node_from_stable_tree] on a node that is not a chain
    returns; the node is gone from the store, each of its records is still
    allocated but on no tree, no other record is touched, and the counters
    have gone down by what the node contributed. *)
Theorem removing_a_node_detaches_its_records n s nd :
  rmap_bookkeeping s ->
  stable_nodes s !! n = Some nd -> 0 <= sn_rmap_hlist_len nd ->
  exists s',
    remove_node_from_stable_tree n s = Ok tt s' /\
    stable_nodes s' !! n = None /\
    (forall r, r ∈ sn_hlist nd -> on_no_tree r s') /\
    (forall r, r ∉ sn_hlist nd -> rmap_items s' !! r = rmap_items s !! r) /\
    records_attached s' = records_attached s - Z.of_nat (length (sn_hlist nd)) /\
    nodes_in_use s' =
      nodes_in_use s - (match sn_hlist nd with [] => 0 | _ :: _ => 1 end) /\
    rmap_bookkeeping s'.
Proof.
  intros Hbk Hn H0.
  destruct (remove_node_from_stable_tree_total n s nd Hbk Hn H0) as [s' Hrm].
  exists s'. split; [done|].
  destruct (remove_node_from_stable_tree_bookkeeping n s s' Hbk Hrm)
    as (Hbk' & nd_ & Hn_ & _ & _ & Hm & Ho).
  assert (nd_ = nd) as -> by congruence.
  destruct (remove_node_from_stable_tree_Ok n s s' Hrm) as (nd_ & Hn_' & _ & Hs & _).
  assert (nd_ = nd) as -> by congruence.
  assert (Hreg := nonneg_not_chain nd H0).
  split_and!; try done.
  - by apply (remove_node_from_stable_tree_gone n s).
  - intros r Hr. destruct (Hm r Hr) as (it & _ & Hit). eexists. split; [exact Hit|].
    cbn. by rewrite stable_flag_masked, unstable_flag_masked.
  - unfold records_attached.
    rewrite (nodes_sum_after_removal node_records n s s' nd); try done.
    + unfold node_records at 2. by rewrite attached_regular.
    + intros x y E. unfold node_records. by rewrite E.
  - unfold nodes_in_use.
    rewrite (nodes_sum_after_removal node_in_use n s s' nd); try done.
    + unfold node_in_use at 2. by rewrite attached_regular.
    + intros x y E. unfold node_in_use. by rewrite E.
Qed.

Lemma removing_a_node_detaches_its_records_witness :
  exists s',
    remove_node_from_stable_tree 52 chain_of_two = Ok tt s' /\
    stable_nodes s' !! 52%nat = None /\
    (forall r, r ∈ [1001%nat; 1002%nat] -> on_no_tree r s') /\
    (forall r, r ∉ [1001%nat; 1002%nat] ->
       rmap_items s' !! r = rmap_items chain_of_two !! r) /\
    records_attached s' = records_attached chain_of_two - 2 /\
    nodes_in_use s' = nodes_in_use chain_of_two - 1 /\
    rmap_bookkeeping s'.
Proof.
  apply (removing_a_node_detaches_its_records 52 chain_of_two
           (mk_stable_node STABLE_NODE_DUP_HEAD [1001%nat; 1002%nat] 12 2)).
  - exact chain_of_two_bookkeeping.
  - reflexivity.
  - vm_compute. discriminate.
Defined.

Lemma land_mask_idem a : Z.land (Z.land a PAGE_MASK) PAGE_MASK = Z.land a PAGE_MASK.
Proof. by rewrite <- Z.land_assoc, Z.land_diag. Qed.

(** [remove_rmap_item_from_tree] always returns on a well-kept store, and
    what it leaves of the record. *)
Lemma remove_rmap_item_from_tree_run e r s it :
  rmap_bookkeeping s -> Z.of_nat (size (rmap_items s)) < 2 ^ 31 ->
  swapcache_settled e ->
  rmap_items s !! r = Some it ->
  exists s' it',
    remove_rmap_item_from_tree e r s = Ok tt s' /\
    rmap_items s' !! r = Some it' /\
    ri_mm it' = ri_mm it /\ ri_oldchecksum it' = ri_oldchecksum it /\
    Z.land (ri_address it') PAGE_MASK = Z.land (ri_address it) PAGE_MASK /\
    test_bits (ri_address it') STABLE_FLAG = false /\
    test_bits (ri_address it') UNSTABLE_FLAG = false /\
    (forall q, is_Some (rmap_items s' !! q) <-> is_Some (rmap_items s !! q)).
Proof.
  intros Hbk Hsz Hw Hr. unfold remove_rmap_item_from_tree.
  destruct (test_bits (ri_address it) STABLE_FLAG) eqn:Hf.
  - destruct (bk_items _ Hbk r it Hr Hf) as (n & nd & Hhd & Hn & Hreg & Hin).
    assert (H0 : 0 <= sn_rmap_hlist_len nd).
    { rewrite (rmap_hlist_len_is_length s n nd Hbk Hsz Hn Hreg). lia. }
    destruct (get_ksm_page_run e n GET_KSM_PAGE_LOCK s nd Hbk Hw Hn H0)
      as [[Hl H]|[Hl (s' & H & Hrm)]].
    + set (s1 := set_stable_nodes
                   (<[n := sn_set_hlist (hlist_del r (sn_hlist nd)) nd]> (stable_nodes s)) s).
      set (c := match hlist_del r (sn_hlist nd) with
                | _ :: _ =>
                    modify (fun s => set_ksm_pages_sharing (wrap_ulong (ksm_pages_sharing s - 1)) s);;
                    modify (fun s => set_lksm_slot_nr_broken (wrap_int (lksm_slot_nr_broken s + 1)) s);;
                    modify (fun s => set_lksm_nr_broken (wrap_int (lksm_nr_broken s + 1)) s)
                | [] =>
                    modify (fun s => set_ksm_pages_shared (wrap_ulong (ksm_pages_shared s - 1)) s)
                end).
      assert (Hc : exists s2, c s1 = Ok tt s2 /\ stable_nodes s2 = stable_nodes s1 /\
                              rmap_items s2 = rmap_items s1).
      { unfold c. destruct (hlist_del r (sn_hlist nd)); eexists; (split; [reflexivity|done]). }
      destruct Hc as (s2 & Hc & E1 & E2).
      eexists _, (ri_set_address (Z.land (ri_address it) PAGE_MASK) (ri_set_head None it)).
      split.
      * apply bind_Ok. exists it, s. split; [by apply rmap_item_at_Ok|].
        rewrite Hf, Hhd. apply bind_Ok. eexists _, s. split; [exact H|].
        cbn beta iota.
        apply bind_Ok. exists tt, s1. split.
        { apply stable_node_update_Ok. exists nd. split; [done|reflexivity]. }
        apply bind_Ok. eexists _, s1. split.
        { apply stable_node_at_Ok. split; [cbn; apply lookup_insert_eq|reflexivity]. }
        cbn [sn_hlist sn_set_hlist].
        apply bind_Ok. exists tt, s2. split; [exact Hc|].
        apply bind_Ok. eexists tt, _. split.
        { apply stable_node_update_Ok. eexists. split; [|reflexivity].
          rewrite E1. cbn. apply lookup_insert_eq. }
        apply rmap_item_update_Ok. exists it. split; [|reflexivity].
        cbn. rewrite E2. exact Hr.
      * cbn. rewrite lookup_insert_eq.
        rewrite land_mask_idem, stable_flag_masked, unstable_flag_masked.
        split_and!; try done. intros q. rewrite E2. cbn.
        rewrite lookup_insert_is_Some. destruct (decide (r = q)) as [<-|Hne].
        -- split; [by eauto|by left].
        -- split; [by intros [?|[_ ?]]|by right].
    + destruct (remove_node_from_stable_tree_bookkeeping n s s' Hbk Hrm)
        as (_ & nd_ & Hn_ & _ & _ & Hm & Ho).
      assert (nd_ = nd) as -> by congruence.
      destruct (Hm r Hin) as (it0 & Hit0 & Hit').
      assert (it0 = it) as -> by congruence.
      exists s', (ri_set_address (Z.land (ri_address it) PAGE_MASK) it). split.
      * apply bind_Ok. exists it, s. split; [by apply rmap_item_at_Ok|].
        rewrite Hf, Hhd. apply bind_Ok. exists PAGE_NULL, s'. done.
      * cbn. rewrite land_mask_idem, stable_flag_masked, unstable_flag_masked.
        split_and!; try done. intros q.
        destruct (decide (q ∈ sn_hlist nd)) as [Hq|Hq].
        -- destruct (Hm q Hq) as (iq & -> & ->). done.
        -- by rewrite (Ho q Hq).
  - destruct (test_bits (ri_address it) UNSTABLE_FLAG) eqn:Hu.
    + set (c := if wrap_uchar (ksm_scan_scan_round s - ri_address it) =? 0
                then modify (fun s => set_root_unstable_tree
                                        (rb_erase r (root_unstable_tree s)) s)
                else ret tt).
      assert (Hc : exists s1, c s = Ok tt s1 /\ rmap_items s1 = rmap_items s).
      { unfold c. destruct (_ =? 0); eexists; (split; [reflexivity|done]). }
      destruct Hc as (s1 & Hc & E1).
      eexists _, (ri_set_address (Z.land (ri_address it) PAGE_MASK) it). split.
      * apply bind_Ok. exists it, s. split; [by apply rmap_item_at_Ok|].
        rewrite Hf, Hu. apply bind_Ok. exists s, s. split; [done|].
        apply bind_Ok. exists tt, s1. split; [exact Hc|].
        apply bind_Ok. eexists tt, _. split; [reflexivity|].
        apply rmap_item_update_Ok. exists it. split; [|reflexivity].
        cbn. rewrite E1. exact Hr.
      * cbn. rewrite lookup_insert_eq.
        rewrite land_mask_idem, stable_flag_masked, unstable_flag_masked.
        split_and!; try done. intros q. rewrite E1.
        rewrite lookup_insert_is_Some. destruct (decide (r = q)) as [<-|Hne].
        -- split; [by eauto|by left].
        -- split; [by intros [?|[_ ?]]|by right].
    + exists s, it. split; [|done].
      apply bind_Ok. exists it, s. split; [by apply rmap_item_at_Ok|].
      by rewrite Hf, Hu.
Qed.

(** X4.  On a store whose counters are in step, [remove_rmap_item_from_tree]
    returns for every record there is; afterwards the record carries neither
    tree flag, it still tracks the same page of the same owner with the same
    checksum, and the counters are in step again. *)
Theorem removed_record_is_on_no_tree e r s it :
  rmap_bookkeeping s -> Z.of_nat (size (rmap_items s)) < 2 ^ 31 ->
  swapcache_settled e ->
  rmap_items s !! r = Some it ->
  exists s' it',
    remove_rmap_item_from_tree e r s = Ok tt s' /\
    rmap_items s' !! r = Some it' /\
    ri_mm it' = ri_mm it /\ ri_oldchecksum it' = ri_oldchecksum it /\
    Z.land (ri_address it') PAGE_MASK = Z.land (ri_address it) PAGE_MASK /\
    on_no_tree r s' /\
    rmap_bookkeeping s'.
Proof.
  intros Hbk Hsz Hw Hr.
  destruct (remove_rmap_item_from_tree_run e r s it Hbk Hsz Hw Hr)
    as (s' & it' & Hrun & Hr' & Hmm & Hck & Ha & Hst & Hun & _).
  exists s', it'. split_and!; try done.
  - by exists it'.
  - by destruct (remove_rmap_item_from_tree_bookkeeping e r s s' Hbk Hrun).
Qed.

Lemma removed_record_is_on_no_tree_witness :
  exists s' it',
    remove_rmap_item_from_tree quiet 1001 forked_ksm_page = Ok tt s' /\
    rmap_items s' !! 1001%nat = Some it' /\
    ri_mm it' = 2%nat /\ ri_oldchecksum it' = 0 /\
    Z.land (ri_address it') PAGE_MASK = 4096 /\
    on_no_tree 1001 s' /\
    rmap_bookkeeping s'.
Proof.
  apply (removed_record_is_on_no_tree quiet 1001 forked_ksm_page (attached_record 2 50)).
  - exact forked_ksm_page_bookkeeping.
  - vm_compute. reflexivity.
  - intros pfn H. discriminate H.
  - reflexivity.
Defined.

Lemma remove_rmap_item_from_tree_keeps_ksm_rmap_items e r c :
  preserves (fun s => ksm_rmap_items s = c) (remove_rmap_item_from_tree e r).
Proof. apply preserves_remove_rmap_item_from_tree; frame_trivial. Qed.

Lemma same_records_same_size (m m' : gmap nat rmap_item) :
  (forall q, is_Some (m' !! q) <-> is_Some (m !! q)) -> size m' = size m.
Proof.
  intros H. rewrite <- !(size_dom (D := gset nat)). f_equal.
  apply set_eq. intros q. rewrite !elem_of_dom. apply H.
Qed.

(** What [remove_trailing_rmap_items] does to a list of distinct records. *)
Lemma remove_trailing_rmap_items_spec e l :
  forall s,
    rmap_bookkeeping s -> Z.of_nat (size (rmap_items s)) < 2 ^ 31 ->
    swapcache_settled e -> 0 <= ksm_rmap_items s < 2 ^ 64 ->
    NoDup l -> (forall r, r ∈ l -> is_Some (rmap_items s !! r)) ->
    exists s',
      remove_trailing_rmap_items e l s = Ok tt s' /\
      (forall r, r ∈ l -> rmap_items s' !! r = None) /\
      (forall r, r ∉ l -> is_Some (rmap_items s' !! r) <-> is_Some (rmap_items s !! r)) /\
      ksm_rmap_items s' = wrap_ulong (ksm_rmap_items s - Z.of_nat (length l)) /\
      rmap_bookkeeping s'.
Proof.
  induction l as [|r l IH]; intros s Hbk Hsz Hw Hc Hnd Hl.
  - exists s. cbn. split_and!; try done.
    + intros r Hr. by apply elem_of_nil in Hr.
    + rewrite Z.sub_0_r. by rewrite wrap_ulong_small.
  - apply NoDup_cons in Hnd as [Hr Hnd].
    destruct (Hl r (list_elem_of_here _ _)) as [it Hit].
    destruct (remove_rmap_item_from_tree_run e r s it Hbk Hsz Hw Hit)
      as (s1 & it' & Hrun & Hr' & _ & _ & _ & Hst & _ & Hdom).
    destruct (remove_rmap_item_from_tree_bookkeeping e r s s1 Hbk Hrun) as [Hbk1 _].
    assert (Hc1 := remove_rmap_item_from_tree_keeps_ksm_rmap_items e r _ s tt s1 eq_refl Hrun).
    cbn beta in Hc1.
    set (s2 := set_rmap_items (delete r (rmap_items s1))
                 (set_ksm_rmap_items (wrap_ulong (ksm_rmap_items s1 - 1)) s1)).
    assert (Hbk2 : rmap_bookkeeping s2).
    { apply (rmap_bookkeeping_ext (set_rmap_items (delete r (rmap_items s1)) s1)); try done.
      apply rmap_bookkeeping_free_item; [done|]. intros it0 Hit0. congruence. }
    destruct (IH s2) as (s' & Hrest & Hin & Hout & Hcnt & Hbk'); try done.
    + unfold s2. cbn.
      assert (size (delete r (rmap_items s1)) <= size (rmap_items s1))%nat
        by (apply map_subseteq_size, delete_subseteq).
      rewrite (same_records_same_size _ _ Hdom) in H. lia.
    + unfold s2. cbn. unfold wrap_ulong. apply Z.mod_pos_bound. lia.
    + intros q Hq. unfold s2. cbn. rewrite lookup_delete_ne by (intros <-; done).
      apply Hdom, Hl. by right.
    + exists s'. split_and!; try done.
      * cbn [remove_trailing_rmap_items]. apply bind_Ok. exists tt, s1. split; [done|].
        apply bind_Ok. exists tt, s2. split; [reflexivity|done].
      * intros q [->|Hq]%elem_of_cons; [|by apply Hin].
        destruct (rmap_items s' !! r) eqn:E; [|done].
        assert (Hs : is_Some (rmap_items s2 !! r)) by (apply Hout; [done|by rewrite E]).
        unfold s2 in Hs. cbn in Hs. rewrite lookup_delete_eq in Hs. by destruct Hs.
      * intros q Hq. apply not_elem_of_cons in Hq as [Hne Hq].
        rewrite (Hout q Hq). unfold s2. cbn. rewrite lookup_delete_ne by done. apply Hdom.
      * rewrite Hcnt. unfold s2. cbn. rewrite Hc1, wrap_ulong_sub_l. f_equal.
        cbn [length]. lia.
Qed.

(** X5.  [remove_trailing_rmap_items] returns on a well-kept store: every
    record of the list has been freed, no other record has been allocated or
    freed, [ksm_rmap_items] has gone down by the length of the list, and the
    sharing counters are still in step. *)
Theorem trailing_records_are_freed e l s :
  rmap_bookkeeping s -> Z.of_nat (size (rmap_items s)) < 2 ^ 31 ->
  swapcache_settled e -> 0 <= ksm_rmap_items s < 2 ^ 64 ->
  NoDup l -> (forall r, r ∈ l -> is_Some (rmap_items s !! r)) ->
  exists s',
    remove_trailing_rmap_items e l s = Ok tt s' /\
    (forall r, r ∈ l -> rmap_items s' !! r = None) /\
    (forall r, r ∉ l -> is_Some (rmap_items s' !! r) <-> is_Some (rmap_items s !! r)) /\
    ksm_rmap_items s' = wrap_ulong (ksm_rmap_items s - Z.of_nat (length l)) /\
    rmap_bookkeeping s'.
Proof.
  intros Hbk Hsz Hw Hc Hnd Hl.
  destruct (remove_trailing_rmap_items_spec e l s Hbk Hsz Hw Hc Hnd Hl)
    as (s' & Hrun & Hin & Hout & Hcnt & Hbk').
  exists s'. split_and!; done.
Qed.

Lemma trailing_records_are_freed_witness :
  exists s',
    remove_trailing_rmap_items quiet [1000%nat; 1001%nat]
      (set_ksm_rmap_items 3 forked_ksm_page) = Ok tt s' /\
    (forall r, r ∈ [1000%nat; 1001%nat] -> rmap_items s' !! r = None) /\
    (forall r, r ∉ [1000%nat; 1001%nat] ->
       is_Some (rmap_items s' !! r) <->
       is_Some (rmap_items (set_ksm_rmap_items 3 forked_ksm_page) !! r)) /\
    ksm_rmap_items s' = wrap_ulong (3 - 2) /\
    rmap_bookkeeping s'.
Proof.
  apply (trailing_records_are_freed quiet [1000%nat; 1001%nat]
           (set_ksm_rmap_items 3 forked_ksm_page)).
  - apply (rmap_bookkeeping_ext forked_ksm_page);
      [vm_compute; reflexivity|vm_compute; reflexivity|vm_compute; reflexivity
      |vm_compute; reflexivity|vm_compute; reflexivity|].
    exact forked_ksm_page_bookkeeping.
  - vm_compute. reflexivity.
  - intros pfn H. discriminate H.
  - vm_compute. split; [discriminate|reflexivity].
  - apply (bool_decide_unpack _). vm_compute. exact I.
  - intros r Hr. apply elem_of_cons in Hr as [->|Hr]; [by eexists|].
    apply list_elem_of_singleton in Hr as ->. by eexists.
Defined.

(** ** Merging one page, and the unstable tree *)

Lemma find_mergeable_vma_Some mm addr s vma s' :
  find_mergeable_vma mm addr s = Ok (Some vma) s' ->
  s' = s /\ exists m,
    mm_structs s !! mm = Some m /\ mm_users m <> 0 /\
    vma_lookup m addr = Some vma /\
    vm_mergeable vma = true /\ vm_anon_vma vma = true.
Proof.
  unfold find_mergeable_vma. intros H.
  apply bind_Ok in H as (ex & s0 & Hex & H).
  apply ksm_test_exit_Ok in Hex as (-> & m & Hm & ->).
  destruct (mm_users m =? 0) eqn:Eu; [by apply ret_Ok in H as [[=] _]|].
  apply bind_Ok in H as (s0 & s1 & [-> ->]%get_Ok & H). rewrite Hm in H.
  destruct (vma_lookup m addr) as [v|] eqn:Ev; [|by apply ret_Ok in H as [[=] _]].
  destruct (vm_mergeable v) eqn:E1, (vm_anon_vma v) eqn:E2; cbn in H;
    apply ret_Ok in H as [[=] <-]; subst.
  split; [done|]. exists m. split_and!; try done. by apply Z.eqb_neq.
Qed.

Lemma vma_lookup_covers m addr vma :
  vma_lookup m addr = Some vma -> vm_start vma <= addr < vm_end vma.
Proof.
  unfold vma_lookup. intros H. apply find_some in H as [_ H].
  apply andb_true_iff in H as [H1 H2]. apply Z.leb_le in H1. apply Z.ltb_lt in H2. lia.
Qed.

Lemma get_mergeable_page_Some r s pg s' :
  get_mergeable_page r s = Ok (Some pg) s' ->
  s' = s /\ exists it,
    rmap_items s !! r = Some it /\
    in_mergeable_area s (ri_mm it) (ri_address it) /\
    follow_page s (ri_mm it) (ri_address it) = Some pg /\
    PageAnon s pg = true.
Proof.
  unfold get_mergeable_page. intros H.
  apply bind_Ok in H as (it & s0 & [Hr ->]%rmap_item_at_Ok & H).
  apply bind_Ok in H as (v & s0 & Hv & H).
  destruct v as [vma|]; [|by apply ret_Ok in H as [[=] _]].
  apply find_mergeable_vma_Some in Hv as (-> & m & Hm & Hu & Hl & Hg & Ha).
  apply bind_Ok in H as (s0 & s1 & [-> ->]%get_Ok & H).
  destruct (follow_page s (ri_mm it) (ri_address it)) as [p|] eqn:Ef;
    [|by apply ret_Ok in H as [[=] _]].
  destruct (PageAnon s p) eqn:Ep; apply ret_Ok in H as [[=] <-]. subst.
  split; [done|]. exists it. split_and!; try done.
  exists m, vma. split_and!; try done; by apply (vma_lookup_covers m).
Qed.

Lemma get_mergeable_page_state r s o s' : get_mergeable_page r s = Ok o s' -> s' = s.
Proof. intros H. by apply (preserves_get_mergeable_page (fun x => x = s) r s o s'). Qed.

(** What each way out of the walk of the unstable tree tells. *)
Lemma unstable_tree_walk_Ok page t :
  forall acc s w s',
    unstable_tree_walk page t acc s = Ok w s' ->
    s' = s /\
    match w with
    | WALK_GIVE_UP => True
    | WALK_MATCH tr tp =>
        tr ∈ rb_inorder t /\ get_mergeable_page tr s = Ok (Some tp) s /\
        page <> tp /\ memcmp_pages s page tp = 0
    | WALK_LINK new =>
        exists p, new = acc ++ p /\
          forall k, exists l1 l2,
            rb_inorder t = l1 ++ l2 /\ rb_inorder (rb_link_node k p t) = l1 ++ k :: l2
    end.
Proof.
  induction t as [|l IHl x r IHr]; intros acc s w s' H; cbn [unstable_tree_walk] in H.
  - apply ret_Ok in H as [<- <-]. split; [done|]. exists []. split; [by rewrite app_nil_r|].
    intros k. by exists [], [].
  - apply bind_Ok in H as (o & s0 & Hg & H).
    assert (s0 = s) as -> by (by apply (get_mergeable_page_state x s o)).
    destruct o as [tp|]; [|by apply ret_Ok in H as [<- <-]].
    destruct (Z.eqb_spec page tp) as [E|Hne]; [by apply ret_Ok in H as [<- <-]|].
    apply bind_Ok in H as (s0 & s1 & [-> ->]%get_Ok & H).
    destruct (Z.ltb_spec (memcmp_pages s page tp) 0) as [Hlt|Hge].
    + destruct (IHl _ _ _ _ H) as [-> Hw]. split; [done|]. destruct w; [done| |].
      * destruct Hw as (Hin & ? & ? & ?). split_and!; try done.
        cbn [rb_inorder]. apply elem_of_app. by left.
      * destruct Hw as (p & -> & Hk). exists (go_left :: p).
        split; [by rewrite <- app_assoc|]. intros k.
        destruct (Hk k) as (l1 & l2 & E1 & E2).
        exists l1, (l2 ++ x :: rb_inorder r). cbn [rb_inorder rb_link_node].
        rewrite E1, E2. by rewrite <- !app_assoc.
    + destruct (Z.ltb_spec 0 (memcmp_pages s page tp)) as [Hgt|Hle].
      * destruct (IHr _ _ _ _ H) as [-> Hw]. split; [done|]. destruct w; [done| |].
        -- destruct Hw as (Hin & ? & ? & ?). split_and!; try done.
           cbn [rb_inorder]. apply elem_of_app. right. by right.
        -- destruct Hw as (p & -> & Hk). exists (go_right :: p).
           split; [by rewrite <- app_assoc|]. intros k.
           destruct (Hk k) as (l1 & l2 & E1 & E2).
           exists (rb_inorder l ++ x :: l1), l2. cbn [rb_inorder rb_link_node].
           rewrite E1, E2. by rewrite <- !app_assoc.
      * apply ret_Ok in H as [<- <-]. split; [done|]. split_and!; try done.
        -- cbn [rb_inorder]. apply elem_of_app. right. by left.
        -- lia.
Qed.

(** X6.  A match returned by [unstable_tree_search_insert] is a record of
    the unstable tree whose address, in an area that may be merged, maps an
    anonymous page other than the scanned one with the same content; the
    search has changed nothing. *)
Theorem unstable_match_is_an_identical_other_page r page s tr tp s' :
  unstable_tree_search_insert r page s = Ok (Some (tr, tp)) s' ->
  s' = s /\
  tr ∈ rb_inorder (root_unstable_tree s) /\
  tp <> page /\ pages_identical s page tp = true /\
  exists it,
    rmap_items s !! tr = Some it /\
    in_mergeable_area s (ri_mm it) (ri_address it) /\
    follow_page s (ri_mm it) (ri_address it) = Some tp /\
    PageAnon s tp = true.
Proof.
  unfold unstable_tree_search_insert. intros H.
  apply bind_Ok in H as (s0 & s1 & [-> ->]%get_Ok & H).
  apply bind_Ok in H as (w & s1 & Hw & H).
  apply unstable_tree_walk_Ok in Hw as [-> Hw].
  destruct w as [|tr' tp'|new].
  - by apply ret_Ok in H as [[=] _].
  - apply ret_Ok in H as [[= -> ->] <-].
    destruct Hw as (Hin & Hg & Hne & Hc).
    apply get_mergeable_page_Some in Hg as (_ & it & Hit & Ha & Hf & Hp).
    split_and!; try done.
    + unfold pages_identical. by apply Z.eqb_eq.
    + by exists it.
  - minv H. discriminate.
Qed.

Lemma unstable_match_is_an_identical_other_page_witness :
  final_state ksm_init (unstable_tree_search_insert 1001 11 match_in_unstable_tree)
    = match_in_unstable_tree /\
  1000%nat ∈ rb_inorder (root_unstable_tree match_in_unstable_tree) /\
  10 <> 11 /\ pages_identical match_in_unstable_tree 11 10 = true /\
  exists it,
    rmap_items match_in_unstable_tree !! 1000%nat = Some it /\
    in_mergeable_area match_in_unstable_tree (ri_mm it) (ri_address it) /\
    follow_page match_in_unstable_tree (ri_mm it) (ri_address it) = Some 10 /\
    PageAnon match_in_unstable_tree 10 = true.
Proof.
  apply (unstable_match_is_an_identical_other_page 1001 11 match_in_unstable_tree 1000 10).
  vm_compute. reflexivity.
Defined.

Lemma rb_erase_absent k t : k ∉ rb_inorder t -> rb_erase k t = t.
Proof.
  induction t as [|l IHl x r IHr]; [done|]. cbn [rb_inorder rb_erase]. intros H.
  apply not_elem_of_app in H as [Hl H]. apply not_elem_of_cons in H as [Hx Hr].
  destruct (decide (x = k)) as [->|_]; [done|]. by rewrite IHl, IHr.
Qed.

(** Erasing what was just linked gives the tree back. *)
Lemma rb_erase_link k t :
  forall new, k ∉ rb_inorder t -> rb_erase k (rb_link_node k new t) = t.
Proof.
  induction t as [|l IHl x r IHr]; intros new H.
  - destruct new; cbn; by destruct (decide (k = k)).
  - pose proof H as H'. cbn [rb_inorder] in H.
    apply not_elem_of_app in H as [Hl H]. apply not_elem_of_cons in H as [Hx Hr].
    destruct new as [|[] new]; cbn [rb_link_node].
    + by apply rb_erase_absent.
    + cbn [rb_erase]. destruct (decide (x = k)) as [->|_]; [done|].
      by rewrite IHl, rb_erase_absent.
    + cbn [rb_erase]. destruct (decide (x = k)) as [->|_]; [done|].
      by rewrite IHr, rb_erase_absent.
Qed.

(** The address word of a record in the unstable tree: the page address,
    the flag, and the low byte of the round in which it was inserted. *)
Lemma unstable_word_page a round :
  Z.land a PAGE_MASK = a ->
  Z.land (Z.lor (Z.lor a UNSTABLE_FLAG) (Z.land round SEQNR_MASK)) PAGE_MASK = a.
Proof.
  intros Ha. rewrite !Z.land_lor_distr_l, Ha, <- Z.land_assoc.
  change (Z.land UNSTABLE_FLAG PAGE_MASK) with 0.
  change (Z.land SEQNR_MASK PAGE_MASK) with 0.
  by rewrite Z.land_0_r, !Z.lor_0_r.
Qed.

Lemma unstable_word_flags a round :
  Z.land a PAGE_MASK = a ->
  test_bits (Z.lor (Z.lor a UNSTABLE_FLAG) (Z.land round SEQNR_MASK)) UNSTABLE_FLAG = true /\
  test_bits (Z.lor (Z.lor a UNSTABLE_FLAG) (Z.land round SEQNR_MASK)) STABLE_FLAG = false.
Proof.
  intros Ha. unfold test_bits. rewrite !Z.land_lor_distr_l, <- Ha, <- !Z.land_assoc.
  change (Z.land PAGE_MASK UNSTABLE_FLAG) with 0.
  change (Z.land PAGE_MASK STABLE_FLAG) with 0.
  change (Z.land SEQNR_MASK UNSTABLE_FLAG) with 0.
  change (Z.land SEQNR_MASK STABLE_FLAG) with 0.
  change (Z.land UNSTABLE_FLAG UNSTABLE_FLAG) with UNSTABLE_FLAG.
  change (Z.land UNSTABLE_FLAG STABLE_FLAG) with 0.
  by rewrite !Z.land_0_r, !Z.lor_0_r.
Qed.

Lemma unstable_word_seqnr a round :
  Z.land a PAGE_MASK = a ->
  Z.land (Z.lor (Z.lor a UNSTABLE_FLAG) (Z.land round SEQNR_MASK)) SEQNR_MASK =
  Z.land round SEQNR_MASK.
Proof.
  intros Ha. rewrite !Z.land_lor_distr_l, <- Ha, <- !Z.land_assoc.
  change (Z.land PAGE_MASK SEQNR_MASK) with 0.
  change (Z.land UNSTABLE_FLAG SEQNR_MASK) with 0.
  change (Z.land SEQNR_MASK SEQNR_MASK) with SEQNR_MASK.
  by rewrite !Z.land_0_r.
Qed.

(** A record inserted in this round has age zero. *)
Lemma unstable_word_age a round :
  Z.land a PAGE_MASK = a ->
  wrap_uchar (round - Z.lor (Z.lor a UNSTABLE_FLAG) (Z.land round SEQNR_MASK)) = 0.
Proof.
  intros Ha. unfold wrap_uchar. rewrite Zminus_mod.
  change (2 ^ 8) with (2 ^ 8) at 2.
  rewrite <- !(Z.land_ones _ 8) by lia.
  change (Z.ones 8) with SEQNR_MASK.
  rewrite (unstable_word_seqnr a round Ha), Z.sub_diag. done.
Qed.

(** X7.  A record that [unstable_tree_search_insert] hangs in the unstable
    tree is flagged unstable and stamped with the low byte of the scan
    round, and [ksm_pages_unshared] counts it; the other records of the tree
    stay.  [remove_rmap_item_from_tree] in the same round takes it out
    again: the tree then holds the records it held before, in the same
    order, and everything outside the tree is as it was. *)
Theorem unstable_insert_then_remove_restores e r page s it new :
  rmap_items s !! r = Some it ->
  Z.land (ri_address it) PAGE_MASK = ri_address it ->
  0 <= ksm_pages_unshared s < 2 ^ 64 ->
  r ∉ rb_inorder (root_unstable_tree s) ->
  unstable_tree_walk page (root_unstable_tree s) [] s = Ok (WALK_LINK new) s ->
  exists s1 it1 s2,
    unstable_tree_search_insert r page s = Ok None s1 /\
    rmap_items s1 !! r = Some it1 /\
    test_bits (ri_address it1) UNSTABLE_FLAG = true /\
    test_bits (ri_address it1) STABLE_FLAG = false /\
    Z.land (ri_address it1) SEQNR_MASK = Z.land (ksm_scan_scan_round s) SEQNR_MASK /\
    r ∈ rb_inorder (root_unstable_tree s1) /\
    (forall q, q <> r ->
       (q ∈ rb_inorder (root_unstable_tree s1) <-> q ∈ rb_inorder (root_unstable_tree s))) /\
    ksm_pages_unshared s1 = wrap_ulong (ksm_pages_unshared s + 1) /\
    remove_rmap_item_from_tree e r s1 = Ok tt s2 /\
    rb_inorder (root_unstable_tree s2) = rb_inorder (root_unstable_tree s) /\
    set_root_unstable_tree (root_unstable_tree s) s2 = s.
Proof.
  intros Hr Ha Hu Hnin Hw.
  set (a1 := Z.lor (Z.lor (ri_address it) UNSTABLE_FLAG)
               (Z.land (ksm_scan_scan_round s) SEQNR_MASK)).
  destruct (unstable_word_flags (ri_address it) (ksm_scan_scan_round s) Ha) as [Hfu Hfs].
  fold a1 in Hfu, Hfs.
  eexists _, (ri_set_address a1 it), s. split_and!.
  - unfold unstable_tree_search_insert. apply bind_Ok. exists s, s. split; [done|].
    apply bind_Ok. eexists _, s. split; [exact Hw|]. cbn beta iota.
    apply bind_Ok. exists s, s. split; [done|].
    apply bind_Ok. eexists tt, _. split.
    { apply rmap_item_update_Ok. exists it. split; [done|reflexivity]. }
    reflexivity.
  - cbn. apply lookup_insert_eq.
  - done.
  - done.
  - apply unstable_word_seqnr, Ha.
  - cbn. apply unstable_tree_walk_Ok in Hw as (_ & p & [= <-] & Hk).
    destruct (Hk r) as (l1 & l2 & _ & ->). apply elem_of_app. right. by left.
  - intros q Hq. cbn. apply unstable_tree_walk_Ok in Hw as (_ & p & [= <-] & Hk).
    destruct (Hk r) as (l1 & l2 & -> & ->).
    rewrite !elem_of_app, elem_of_cons. split.
    + intros [H|[H|H]]; [by left|done|by right].
    + intros [H|H]; [by left|right; by right].
  - reflexivity.
  - unfold remove_rmap_item_from_tree. apply bind_Ok. eexists _, _. split.
    { apply rmap_item_at_Ok. split; [cbn; apply lookup_insert_eq|reflexivity]. }
    cbn [ri_address ri_set_address]. fold a1. rewrite Hfs, Hfu.
    apply bind_Ok. eexists _, _. split; [reflexivity|].
    cbn [ksm_scan_scan_round set_ksm_pages_unshared set_root_unstable_tree set_rmap_items].
    unfold a1 at 1. rewrite (unstable_word_age _ _ Ha). cbn [Z.eqb].
    apply bind_Ok. eexists tt, _. split; [reflexivity|].
    apply bind_Ok. eexists tt, _. split; [reflexivity|].
    apply rmap_item_update_Ok. eexists. split; [cbn; apply lookup_insert_eq|].
    cbn. fold a1. unfold a1 at 1. rewrite (unstable_word_page _ _ Ha).
    rewrite rb_erase_link by done. rewrite insert_insert_eq.
    rewrite wrap_ulong_sub_l. replace (ksm_pages_unshared s + 1 - 1) with (ksm_pages_unshared s) by lia.
    rewrite wrap_ulong_small by done.
    replace (ri_set_address (ri_address it) (ri_set_address a1 it)) with it by (by destruct it).
    rewrite insert_id by done. by destruct s.
  - done.
  - by destruct s.
Qed.

Lemma unstable_insert_then_remove_restores_witness :
  exists s1 it1 s2,
    unstable_tree_search_insert 1001 11 unstable_tree_still_empty = Ok None s1 /\
    rmap_items s1 !! 1001%nat = Some it1 /\
    test_bits (ri_address it1) UNSTABLE_FLAG = true /\
    test_bits (ri_address it1) STABLE_FLAG = false /\
    Z.land (ri_address it1) SEQNR_MASK = Z.land 3 SEQNR_MASK /\
    1001%nat ∈ rb_inorder (root_unstable_tree s1) /\
    (forall q, q <> 1001%nat ->
       (q ∈ rb_inorder (root_unstable_tree s1)
        <-> q ∈ rb_inorder (root_unstable_tree unstable_tree_still_empty))) /\
    ksm_pages_unshared s1 = wrap_ulong (0 + 1) /\
    remove_rmap_item_from_tree quiet 1001 s1 = Ok tt s2 /\
    rb_inorder (root_unstable_tree s2)
      = rb_inorder (root_unstable_tree unstable_tree_still_empty) /\
    set_root_unstable_tree (root_unstable_tree unstable_tree_still_empty) s2
      = unstable_tree_still_empty.
Proof.
  apply (unstable_insert_then_remove_restores quiet 1001 11 unstable_tree_still_empty
           (mk_rmap_item 2 4096 998 None) []).
  - reflexivity.
  - reflexivity.
  - vm_compute. split; [discriminate|reflexivity].
  - apply not_elem_of_nil.
  - reflexivity.
Defined.

Lemma page_data_alter_mapping s s' pfn v q :
  mem_map s' = alter (pg_set_mapping v) pfn (mem_map s) -> page_data s' q = page_data s q.
Proof.
  intros E. unfold page_data. rewrite E. destruct (decide (pfn = q)) as [->|Hne].
  - rewrite lookup_alter_eq. by destruct (mem_map s !! q).
  - by rewrite lookup_alter_ne.
Qed.

Lemma pte_eta p pfn : (pte_pfn p =? pfn) = true -> pte_write p = false -> p = mk_pte pfn false.
Proof. destruct p. cbn. intros ->%Z.eqb_eq ->. done. Qed.

(** X8.  [try_to_merge_one_page] always returns, with [0] or [-EFAULT].  It
    touches no pte but the one at the address, and the content of no page.
    When it fails, the address still maps the frame it mapped, and no page
    has changed.  When it succeeds with no [kpage], the anonymous page has
    become a KSM page without a stable node, mapped read-only; when it
    succeeds with a [kpage] other than the page, the two pages had the same
    content and the address now maps [kpage] read-only. *)
Theorem merge_one_page_outcome e mm addr page kpage s :
  exists err s',
    try_to_merge_one_page e mm addr page kpage s = Ok err s' /\
    (err = 0 \/ err = - EFAULT) /\
    (forall k, k <> pte_key mm addr -> page_table s' !! k = page_table s !! k) /\
    (forall pfn, page_data s' pfn = page_data s pfn) /\
    (err <> 0 ->
       mem_map s' = mem_map s /\
       pte_pfn <$> page_table s' !! pte_key mm addr =
       pte_pfn <$> page_table s !! pte_key mm addr) /\
    (err = 0 ->
       match kpage with
       | None =>
           PageAnon s page = true /\
           follow_page s mm addr = Some page /\
           page_table s' !! pte_key mm addr = Some (mk_pte page false) /\
           page_mapping_of s' page = MAPPING_KSM None
       | Some kp =>
           (page = kp /\ s' = s) \/
           (page <> kp /\ PageAnon s page = true /\ pages_identical s page kp = true /\
            follow_page s mm addr = Some page /\
            mem_map s' = mem_map s /\
            page_table s' !! pte_key mm addr = Some (mk_pte kp false))
       end).
Proof.
  unfold try_to_merge_one_page, pte_key, follow_page.
  destruct (bool_decide_reflect (Some page = kpage)) as [<-|Hne].
  { exists 0, s. split_and!; try done; auto. }
  unfold bind at 1. cbn [get].
  destruct (PageAnon s page) eqn:Hanon; cbn [negb];
    [|exists (- EFAULT), s; split_and!; try done; auto].
  destruct (trylock_page e page); cbn [negb];
    [|exists (- EFAULT), s; split_and!; try done; auto].
  unfold write_protect_page. unfold bind at 2. unfold bind at 1. cbn [get].
  destruct (page_table s !! (mm, Z.land addr PAGE_MASK)) as [p|] eqn:Hp;
    [|exists (- EFAULT), s; cbn; rewrite ?Hp; split_and!; try done; auto].
  destruct (pte_pfn p =? page) eqn:Hpfn; cbn [negb];
    [|exists (- EFAULT), s; cbn; rewrite ?Hp; split_and!; try done; auto].
  assert (Hpfn' := proj1 (Z.eqb_eq _ _) Hpfn).
  destruct (pte_write p) eqn:Hwr.
  - destruct (page_count_raised e page);
      [exists (- EFAULT), s; cbn; rewrite ?Hp; split_and!; try done; auto|].
    cbn. destruct kpage as [kp|].
    + unfold bind at 1. cbn [get]. destruct (pages_identical _ page kp) eqn:Hid.
      * unfold replace_page, bind. cbn. rewrite lookup_insert_eq. cbn.
        rewrite Z.eqb_refl. cbn.
        eexists _, _. split; [reflexivity|]. cbn. split_and!; try done; auto.
        -- intros k Hk. by rewrite !lookup_insert_ne.
        -- intros _. right. rewrite ?Hp, ?lookup_insert_eq. cbn.
           split_and!; try done; [congruence|by rewrite Hpfn'].
      * eexists _, _. split; [reflexivity|]. cbn. split_and!; try done; auto.
        -- intros k Hk. by rewrite lookup_insert_ne.
        -- intros _. split; [done|]. rewrite ?Hp, ?lookup_insert_eq. cbn. by rewrite Hpfn'.
    + unfold set_page_stable_node, bind. cbn.
      eexists _, _. split; [reflexivity|]. cbn. split_and!; try done; auto.
      * intros k Hk. by rewrite lookup_insert_ne.
      * intros pfn. by apply (page_data_alter_mapping s _ page (MAPPING_KSM None) pfn).
      * intros _. rewrite ?Hp, ?lookup_insert_eq. cbn. split_and!; try done.
        -- by rewrite Hpfn'.
        -- unfold page_mapping_of. cbn. rewrite lookup_alter_eq.
           unfold PageAnon, page_mapping_of in Hanon.
           destruct (mem_map s !! page); [done|discriminate].
  - cbn. destruct kpage as [kp|].
    + unfold bind at 1. cbn [get]. destruct (pages_identical s page kp) eqn:Hid.
      * unfold replace_page, bind. cbn. rewrite Hp. cbn.
        rewrite Z.eqb_refl. rewrite bool_decide_eq_true_2 by done. cbn.
        eexists _, _. split; [reflexivity|]. cbn. split_and!; try done; auto.
        -- intros k Hk. by rewrite !lookup_insert_ne.
        -- intros _. right. rewrite ?Hp, ?lookup_insert_eq. cbn.
           split_and!; try done; [congruence|by rewrite Hpfn'].
      * eexists _, _. split; [reflexivity|]. cbn. split_and!; try done; auto.
        intros _. split; [done|]. by rewrite Hp.
    + unfold set_page_stable_node, bind. cbn.
      eexists _, _. split; [reflexivity|]. cbn. split_and!; try done; auto.
      * intros pfn. by apply (page_data_alter_mapping s _ page (MAPPING_KSM None) pfn).
      * intros _. rewrite ?Hp. cbn. split_and!; try done.
        -- by rewrite Hpfn'.
        -- f_equal. by apply pte_eta.
        -- unfold page_mapping_of. cbn. rewrite lookup_alter_eq.
           unfold PageAnon, page_mapping_of in Hanon.
           destruct (mem_map s !! page); [done|discriminate].
Qed.

(** ** Unmerging a range *)

Lemma only_pages_changed_refl s : only_pages_changed s s.
Proof. unfold only_pages_changed. by destruct s. Qed.

Lemma only_pages_changed_trans s1 s2 s3 :
  only_pages_changed s1 s2 -> only_pages_changed s2 s3 -> only_pages_changed s1 s3.
Proof.
  unfold only_pages_changed. intros H12 H23. rewrite H23 at 1. rewrite H12 at 1.
  by destruct s1.
Qed.

Lemma break_ksm_only_pages e mm addr s r s' :
  break_ksm e mm addr s = Ok r s' -> only_pages_changed s s'.
Proof.
  intros H. revert H. apply preserves_break_ksm; [| | |apply only_pages_changed_refl];
    unfold only_pages_changed; intros v x HP; rewrite HP at 1; by destruct s.
Qed.

Lemma only_pages_changed_mm_structs s s' :
  only_pages_changed s s' -> mm_structs s' = mm_structs s.
Proof. intros ->. reflexivity. Qed.

(** One write fault of [break_ksm], answered by a broken copy-on-write. *)
Lemma break_ksm_breaks e mm addr s :
  handle_mm_fault e mm addr = VM_FAULT_WRITE -> frames_fresh s ->
  exists s',
    break_ksm e mm addr s = Ok 0 s' /\
    unmerged_at s' mm addr /\
    (forall mm' a, unmerged_at s mm' a -> unmerged_at s' mm' a) /\
    (forall mm' a, content_at s' mm' a = content_at s mm' a) /\
    frames_fresh s'.
Proof.
  intros Hh Hfr. unfold break_ksm, bind. cbn [get].
  destruct (follow_page s mm addr) as [pg|] eqn:Hf.
  2:{ exists s. split_and!; try done. unfold unmerged_at. by rewrite Hf. }
  destruct (PageKsm s pg) eqn:Hk.
  2:{ exists s. split_and!; try done. unfold unmerged_at. by rewrite Hf. }
  unfold do_handle_mm_fault. rewrite Hh. unfold bind. cbn [get]. rewrite Hf. cbn.
  eexists. split; [reflexivity|].
  set (k := (mm, Z.land addr PAGE_MASK)).
  assert (Hold : exists p, page_table s !! k = Some p /\ pte_pfn p = pg).
  { unfold follow_page in Hf. fold k in Hf. destruct (page_table s !! k) as [p|]; [|done].
    injection Hf as <-. eauto. }
  destruct Hold as (p & Hp & Hpg).
  split_and!.
  - unfold unmerged_at, follow_page. cbn. fold k. rewrite lookup_insert_eq. cbn.
    unfold PageKsm, page_mapping_of. cbn. by rewrite lookup_insert_eq.
  - intros mm' a. unfold unmerged_at, follow_page. cbn. fold k.
    destruct (decide ((mm', Z.land a PAGE_MASK) = k)) as [->|Hne].
    + rewrite lookup_insert_eq. cbn. intros _.
      unfold PageKsm, page_mapping_of. cbn. by rewrite lookup_insert_eq.
    + rewrite lookup_insert_ne by done.
      destruct (page_table s !! (mm', Z.land a PAGE_MASK)) as [p'|]; [|done]. cbn.
      unfold PageKsm, page_mapping_of. cbn.
      destruct (decide (next_pfn s = pte_pfn p')) as [<-|Hn].
      * by rewrite lookup_insert_eq.
      * by rewrite lookup_insert_ne.
  - intros mm' a. unfold content_at, follow_page. cbn. fold k.
    destruct (decide ((mm', Z.land a PAGE_MASK) = k)) as [->|Hne].
    + rewrite lookup_insert_eq, Hp. cbn. unfold page_data at 1. cbn.
      by rewrite lookup_insert_eq, Hpg.
    + rewrite lookup_insert_ne by done.
      destruct (page_table s !! (mm', Z.land a PAGE_MASK)) as [p'|] eqn:Hp'; [|done]. cbn.
      unfold page_data. cbn. rewrite lookup_insert_ne; [done|].
      specialize (Hfr _ _ Hp'). lia.
  - intros k' p'. cbn. fold k. intros [[<- <-]|[_ Hp']]%lookup_insert_Some; cbn; [lia|].
    specialize (Hfr _ _ Hp'). lia.
Qed.

Lemma unmerge_ksm_pages_loop_spec e mm end_ m :
  (forall a, handle_mm_fault e mm a = VM_FAULT_WRITE) -> signal_pending e = false ->
  mm_users m <> 0 -> end_ + PAGE_SIZE <= 2 ^ 64 ->
  forall n addr s,
    mm_structs s !! mm = Some m -> frames_fresh s -> 0 <= addr ->
    (end_ - addr + PAGE_SIZE - 1) / PAGE_SIZE <= Z.of_nat n ->
    exists s',
      unmerge_ksm_pages_loop n e mm addr end_ s = Ok 0 s' /\
      (forall a, addr <= a < end_ -> (a - addr) mod PAGE_SIZE = 0 -> unmerged_at s' mm a) /\
      (forall mm' a, unmerged_at s mm' a -> unmerged_at s' mm' a) /\
      (forall mm' a, content_at s' mm' a = content_at s mm' a) /\
      frames_fresh s' /\ only_pages_changed s s'.
Proof.
  intros Hh Hsig Hu Hend. unfold PAGE_SIZE in *.
  induction n as [|n IH]; intros addr s Hm Hfr H0 Hfuel.
  - exists s. cbn. split_and!; try done; [|apply only_pages_changed_refl].
    intros a Ha _. exfalso.
    assert (0 < (end_ - addr + 4096 - 1) / 4096) by (apply Z.div_str_pos; lia). lia.
  - cbn [unmerge_ksm_pages_loop]. destruct (Z.ltb_spec addr end_) as [Hlt|Hge]; cbn [negb].
    2:{ exists s. split_and!; try done; [|apply only_pages_changed_refl]. intros a Ha. lia. }
    unfold bind at 1. unfold ksm_test_exit. rewrite Hm.
    apply Z.eqb_neq in Hu. rewrite Hu. rewrite Hsig.
    destruct (break_ksm_breaks e mm addr s (Hh addr) Hfr)
      as (s1 & Hb & Hun & Hkeep & Hcont & Hfr1).
    unfold bind. rewrite Hb. cbn [Z.eqb].
    unfold PAGE_SIZE. rewrite wrap_ulong_small by lia.
    assert (Hop := break_ksm_only_pages e mm addr s 0 s1 Hb).
    destruct (IH (addr + 4096) s1) as (s' & Hrun & Hun' & Hkeep' & Hcont' & Hfr' & Hop');
      try done.
    + by rewrite (only_pages_changed_mm_structs s s1 Hop).
    + lia.
    + replace (end_ - (addr + 4096) + 4096 - 1) with (end_ - addr + 4096 - 1 + (-1) * 4096)
        by lia.
      rewrite Z.div_add by lia. lia.
    + exists s'. split_and!; try done.
      * intros a Ha Hmod. destruct (decide (a = addr)) as [->|Hne].
        -- by apply Hkeep'.
        -- apply Z.mod_divide in Hmod as [q Hq]; [|lia].
           apply Hun'; [lia|].
           replace (a - (addr + 4096)) with ((q - 1) * 4096) by lia.
           apply Z.mod_mul. lia.
      * intros mm' a Ha. by apply Hkeep', Hkeep.
      * intros mm' a. by rewrite Hcont', Hcont.
      * by apply (only_pages_changed_trans s s1 s').
Qed.

(** X9.  With no signal pending, a live owner and a fault handler that breaks
    copy-on-write, [unmerge_ksm_pages] returns [0]; afterwards no page of
    the range is a KSM page, no address anywhere has become one, every
    address of every owner reads what it read before, and nothing but pages,
    ptes and the page allocator's cursor has changed. *)
Theorem unmerged_range_holds_no_ksm_page e mm start end_ s m :
  (forall a, handle_mm_fault e mm a = VM_FAULT_WRITE) -> signal_pending e = false ->
  mm_structs s !! mm = Some m -> mm_users m <> 0 ->
  frames_fresh s ->
  0 <= start -> end_ + PAGE_SIZE <= 2 ^ 64 ->
  exists s',
    unmerge_ksm_pages e mm start end_ s = Ok 0 s' /\
    (forall a, start <= a < end_ -> (a - start) mod PAGE_SIZE = 0 -> unmerged_at s' mm a) /\
    (forall mm' a, unmerged_at s mm' a -> unmerged_at s' mm' a) /\
    (forall mm' a, content_at s' mm' a = content_at s mm' a) /\
    frames_fresh s' /\ only_pages_changed s s'.
Proof.
  intros Hh Hsig Hm Hu Hfr H0 Hend. unfold unmerge_ksm_pages.
  apply (unmerge_ksm_pages_loop_spec e mm end_ m); try done.
  unfold pages_between.
  destruct (Z.le_gt_cases 0 ((end_ - start + PAGE_SIZE - 1) / PAGE_SIZE)); lia.
Qed.

Lemma forked_ksm_page_frames_fresh : frames_fresh (set_next_pfn 100 forked_ksm_page).
Proof.
  intros k p H. cbn in H.
  repeat (apply lookup_insert_Some in H as [[_ <-]|[_ H]]; [cbn; lia|]). done.
Qed.

Lemma unmerged_range_holds_no_ksm_page_witness :
  exists s',
    unmerge_ksm_pages quiet 3 4096 8192 (set_next_pfn 100 forked_ksm_page) = Ok 0 s' /\
    (forall a, 4096 <= a < 8192 -> (a - 4096) mod PAGE_SIZE = 0 -> unmerged_at s' 3 a) /\
    (forall mm' a, unmerged_at (set_next_pfn 100 forked_ksm_page) mm' a ->
                   unmerged_at s' mm' a) /\
    (forall mm' a, content_at s' mm' a =
                   content_at (set_next_pfn 100 forked_ksm_page) mm' a) /\
    frames_fresh s' /\ only_pages_changed (set_next_pfn 100 forked_ksm_page) s'.
Proof.
  apply (unmerged_range_holds_no_ksm_page quiet 3 4096 8192
           (set_next_pfn 100 forked_ksm_page) (mk_mm 1 [vma_0x1000])).
  - reflexivity.
  - reflexivity.
  - reflexivity.
  - discriminate.
  - exact forked_ksm_page_frames_fresh.
  - lia.
  - vm_compute. discriminate.
Defined.

(** X10.  [remove_stable_node] on a node that is not a chain returns
    [-EBUSY] and leaves everything as it was when the node's page is there
    and still mapped; otherwise it returns [0], the node is gone, its records
    are on no tree, and a page that was there is left as a KSM page without
    a stable node. *)
Theorem remove_stable_node_busy_or_gone e n s nd :
  rmap_bookkeeping s -> swapcache_settled e ->
  stable_nodes s !! n = Some nd -> 0 <= sn_rmap_hlist_len nd ->
  exists err s',
    remove_stable_node e n s = Ok err s' /\
    ((err = - EBUSY /\ s' = s /\
      dup_live e s n = true /\ page_mapped e (sn_kpfn nd) = true) \/
     (err = 0 /\
      (dup_live e s n = true -> page_mapped e (sn_kpfn nd) = false /\
                                page_mapping_of s' (sn_kpfn nd) = MAPPING_KSM None) /\
      stable_nodes s' !! n = None /\
      (forall r, r ∈ sn_hlist nd -> on_no_tree r s') /\
      rmap_bookkeeping s')).
Proof.
  intros Hbk Hw Hn H0. unfold remove_stable_node.
  destruct (get_ksm_page_run e n GET_KSM_PAGE_LOCK s nd Hbk Hw Hn H0)
    as [[Hl H]|[Hl (s' & H & Hrm)]].
  - destruct (page_mapped e (sn_kpfn nd)) eqn:Hmapped.
    + exists (- EBUSY), s. split.
      * apply bind_Ok. eexists _, s. split; [exact H|]. cbn beta iota.
        by rewrite Hmapped.
      * left. done.
    + set (s1 := set_mem_map
                   (alter (pg_set_mapping (MAPPING_KSM None)) (sn_kpfn nd) (mem_map s)) s).
      assert (Hbk1 : rmap_bookkeeping s1) by (by apply (rmap_bookkeeping_ext s)).
      destruct (remove_node_from_stable_tree_total n s1 nd Hbk1 Hn H0) as [s' Hrm].
      destruct (remove_node_from_stable_tree_bookkeeping n s1 s' Hbk1 Hrm)
        as (Hbk' & nd_ & Hn_ & _ & _ & Hm & _).
      assert (nd_ = nd) as -> by (cbn in Hn_; congruence).
      destruct (remove_node_from_stable_tree_Ok n s1 s' Hrm)
        as (_ & _ & _ & _ & _ & _ & _ & Hmem & _).
      exists 0, s'. split.
      * apply bind_Ok. eexists _, s. split; [exact H|]. cbn beta iota.
        rewrite Hmapped. cbn [negb].
        apply bind_Ok. exists tt, s1. split; [reflexivity|].
        apply bind_Ok. exists tt, s'. split; [exact Hrm|reflexivity].
      * right. split_and!; try done.
        -- intros _. split; [done|]. unfold page_mapping_of. rewrite Hmem. cbn.
           rewrite lookup_alter_eq.
           unfold dup_live in Hl. rewrite Hn in Hl. apply andb_true_iff in Hl as [Hl _].
           apply bool_decide_eq_true in Hl. unfold page_mapping_of in Hl.
           destruct (mem_map s !! sn_kpfn nd); [done|discriminate].
        -- by apply (remove_node_from_stable_tree_gone n s1).
        -- intros r Hr. destruct (Hm r Hr) as (it & _ & Hit). eexists. split; [exact Hit|].
           cbn. by rewrite stable_flag_masked, unstable_flag_masked.
  - destruct (remove_node_from_stable_tree_bookkeeping n s s' Hbk Hrm)
      as (Hbk' & nd_ & Hn_ & _ & _ & Hm & _).
    assert (nd_ = nd) as -> by congruence.
    exists 0, s'. split.
    + apply bind_Ok. exists PAGE_NULL, s'. split; [exact H|reflexivity].
    + right. split_and!; try done.
      * intros Hl'. congruence.
      * by apply (remove_node_from_stable_tree_gone n s).
      * intros r Hr. destruct (Hm r Hr) as (it & _ & Hit). eexists. split; [exact Hit|].
        cbn. by rewrite stable_flag_masked, unstable_flag_masked.
Qed.

Lemma remove_stable_node_busy_or_gone_witness :
  exists err s',
    remove_stable_node quiet 50 forked_ksm_page = Ok err s' /\
    ((err = - EBUSY /\ s' = forked_ksm_page /\
      dup_live quiet forked_ksm_page 50 = true /\ page_mapped quiet 11 = true) \/
     (err = 0 /\
      (dup_live quiet forked_ksm_page 50 = true ->
         page_mapped quiet 11 = false /\
         page_mapping_of s' 11 = MAPPING_KSM None) /\
      stable_nodes s' !! 50%nat = None /\
      (forall r, r ∈ [1000%nat; 1001%nat] -> on_no_tree r s') /\
      rmap_bookkeeping s')).
Proof.
  apply (remove_stable_node_busy_or_gone quiet 50 forked_ksm_page
           (mk_stable_node HEAD_RB_NODE [1000%nat; 1001%nat] 11 2)).
  - exact forked_ksm_page_bookkeeping.
  - intros pfn H. discriminate H.
  - reflexivity.
  - vm_compute. discriminate.
Defined.

(** ** Slots leaving the lists *)

Lemma rb_leftmost_None t : rb_leftmost t = None -> t = RB_ROOT.
Proof.
  induction t as [|l IHl x r _]; [done|]. cbn.
  destruct l; [done|]. intros H. specialize (IHl H). done.
Qed.

Lemma rb_leftmost_inorder t x :
  rb_leftmost t = Some x -> rb_inorder t = x :: rb_inorder (rb_drop_leftmost t).
Proof.
  induction t as [|l IHl y r _]; [done|]. cbn [rb_leftmost rb_drop_leftmost].
  destruct l as [|ll ly lr].
  - intros [= ->]. done.
  - intros H. specialize (IHl H). cbn [rb_inorder] in *. by rewrite IHl.
Qed.

Lemma hlist_del_absent k l : k ∉ l -> hlist_del k l = l.
Proof.
  unfold hlist_del. induction l as [|a l IH]; [done|]. intros H.
  apply not_elem_of_cons in H as [Hne H].
  rewrite filter_cons_True by done. by rewrite IH.
Qed.

(** [rb_erase] takes the entry out of the in-order sequence and leaves the
    order of the others. *)
Lemma rb_inorder_erase k t :
  NoDup (rb_inorder t) -> rb_inorder (rb_erase k t) = hlist_del k (rb_inorder t).
Proof.
  induction t as [|l IHl x r IHr]; [done|]. cbn [rb_inorder rb_erase]. intros Hnd.
  apply NoDup_app in Hnd as (Hl & Hlr & Hr). apply NoDup_cons in Hr as [Hx Hr].
  unfold hlist_del. rewrite filter_app.
  destruct (decide (x = k)) as [->|Hne].
  - rewrite filter_cons_False by (intros H; by apply H).
    fold (hlist_del k (rb_inorder l)). fold (hlist_del k (rb_inorder r)).
    rewrite !hlist_del_absent; [|done|].
    2:{ intros H. apply (Hlr k H). by left. }
    destruct l as [|ll lx lr]; [done|].
    destruct (rb_leftmost r) as [y|] eqn:Ey.
    + cbn [rb_inorder]. by rewrite (rb_leftmost_inorder r y Ey).
    + rewrite (rb_leftmost_None r Ey). cbn [rb_inorder]. by rewrite app_nil_r.
  - rewrite filter_cons_True by done. cbn [rb_inorder].
    rewrite IHl, IHr by done. done.
Qed.

Lemma lksm_remove_mm_slot_Ok slot s s' :
  lksm_remove_mm_slot slot s = Ok tt s' ->
  exists m,
    mm_slots s !! slot = Some m /\
    ksm_scan_head s' = hlist_del slot (ksm_scan_head s) /\
    ksm_mm_head s' = hlist_del slot (ksm_mm_head s) /\
    ksm_scan_remove_mm_list s' = slot :: hlist_del slot (ksm_scan_remove_mm_list s) /\
    vips_list s' = (if ms_ordered m then rb_erase slot (vips_list s) else vips_list s) /\
    mm_slots s' = <[slot := ms_set_ordered false m]> (mm_slots s) /\
    mm_structs s' = mm_structs s /\
    lksm_nr_scanned_slot s' = lksm_nr_scanned_slot s.
Proof.
  unfold lksm_remove_mm_slot. intros H. minv H. exists a. split; [done|].
  destruct (ms_ordered a) eqn:Eo.
  - minv H. cbn in *. assert (m = a) as -> by congruence. done.
  - minv H. cbn. split_and!; try done.
    symmetry. apply insert_id. rewrite H0. f_equal. destruct a. cbn in *. by subst.
Qed.

(** X11.  [lksm_remove_mm_slot] takes the slot off the scan list, the list
    of all slots and, for a slot whose rank-tree linkage says it is ranked,
    the rank tree, keeping the order of the slots that stay; it puts the
    slot on the list of slots to be released, and of the slots only the
    slot's own rank-tree linkage is touched. *)
Theorem removed_slot_is_on_no_list slot s s' :
  NoDup (rb_inorder (vips_list s)) ->
  (forall m, slot ∈ rb_inorder (vips_list s) -> mm_slots s !! slot = Some m ->
             ms_ordered m = true) ->
  lksm_remove_mm_slot slot s = Ok tt s' ->
  ksm_scan_head s' = hlist_del slot (ksm_scan_head s) /\
  ksm_mm_head s' = hlist_del slot (ksm_mm_head s) /\
  rb_inorder (vips_list s') = hlist_del slot (rb_inorder (vips_list s)) /\
  (slot ∉ ksm_scan_head s') /\ (slot ∉ ksm_mm_head s') /\
  (slot ∉ rb_inorder (vips_list s')) /\
  ksm_scan_remove_mm_list s' = slot :: hlist_del slot (ksm_scan_remove_mm_list s) /\
  (exists m, mm_slots s !! slot = Some m /\
             mm_slots s' = <[slot := ms_set_ordered false m]> (mm_slots s)).
Proof.
  intros Hnd Hord H. apply lksm_remove_mm_slot_Ok in H as (m & Hm & E1 & E2 & E3 & E4 & E5 & _).
  assert (Hv : rb_inorder (vips_list s') = hlist_del slot (rb_inorder (vips_list s))).
  { rewrite E4. destruct (ms_ordered m) eqn:Eo; [by apply rb_inorder_erase|].
    symmetry. apply hlist_del_absent. intros Hin.
    rewrite (Hord m Hin Hm) in Eo. discriminate. }
  assert (Hgone : forall l, slot ∉ hlist_del slot l).
  { intros l H. apply hlist_del_elem in H as [H _]. by apply H. }
  rewrite Hv, E1, E2. split_and!; try done. by exists m.
Qed.

Lemma removed_slot_is_on_no_list_witness :
  ksm_scan_head (final_state ksm_init (lksm_remove_mm_slot 101 two_equal_vips_ranked))
    = hlist_del 101 (ksm_scan_head two_equal_vips_ranked) /\
  ksm_mm_head (final_state ksm_init (lksm_remove_mm_slot 101 two_equal_vips_ranked))
    = hlist_del 101 (ksm_mm_head two_equal_vips_ranked) /\
  rb_inorder (vips_list (final_state ksm_init (lksm_remove_mm_slot 101 two_equal_vips_ranked)))
    = hlist_del 101 (rb_inorder (vips_list two_equal_vips_ranked)) /\
  (101%nat ∉ ksm_scan_head (final_state ksm_init (lksm_remove_mm_slot 101 two_equal_vips_ranked))) /\
  (101%nat ∉ ksm_mm_head (final_state ksm_init (lksm_remove_mm_slot 101 two_equal_vips_ranked))) /\
  (101%nat ∉ rb_inorder (vips_list (final_state ksm_init
                                      (lksm_remove_mm_slot 101 two_equal_vips_ranked)))) /\
  ksm_scan_remove_mm_list (final_state ksm_init (lksm_remove_mm_slot 101 two_equal_vips_ranked))
    = 101%nat :: hlist_del 101 (ksm_scan_remove_mm_list two_equal_vips_ranked) /\
  (exists m, mm_slots two_equal_vips_ranked !! 101%nat = Some m /\
             mm_slots (final_state ksm_init (lksm_remove_mm_slot 101 two_equal_vips_ranked))
             = <[101%nat := ms_set_ordered false m]> (mm_slots two_equal_vips_ranked)).
Proof.
  apply (removed_slot_is_on_no_list 101 two_equal_vips_ranked).
  - apply (bool_decide_unpack _). vm_compute. exact I.
  - intros m _ H. vm_compute in H. injection H as <-. reflexivity.
  - vm_compute. reflexivity.
Defined.

Lemma hlist_del_filter_not_in (y : nat) l1 (l : list nat) :
  filter (fun z => z ∉ l1) (hlist_del y l) = filter (fun z => z ∉ y :: l1) l.
Proof.
  unfold hlist_del. rewrite list_filter_filter. apply list_filter_iff.
  intros z. rewrite not_elem_of_cons. tauto.
Qed.

Lemma filter_not_in_nil_id (l : list nat) : filter (fun z => z ∉ @nil nat) l = l.
Proof.
  induction l as [|a l IH]; [done|].
  rewrite filter_cons_True by apply not_elem_of_nil. by rewrite IH.
Qed.

(** The walk of [lksm_get_unscanned_mm_slot] over [slots]: the slots [l1]
    it passes are those of exiting owners, and they leave the lists. *)
Lemma lksm_get_unscanned_mm_slot_loop_spec slots :
  forall s p s',
    NoDup slots ->
    lksm_get_unscanned_mm_slot_loop slots s = Ok p s' ->
    exists l1,
      Forall (slot_exiting s) l1 /\
      ksm_scan_head s' = filter (fun z => z ∉ l1) (ksm_scan_head s) /\
      ksm_mm_head s' = filter (fun z => z ∉ l1) (ksm_mm_head s) /\
      (forall z, z ∈ l1 -> z ∈ ksm_scan_remove_mm_list s') /\
      (forall z, z ∈ ksm_scan_remove_mm_list s -> z ∈ ksm_scan_remove_mm_list s') /\
      mm_structs s' = mm_structs s /\
      (forall z, z ∉ l1 -> mm_slots s' !! z = mm_slots s !! z) /\
      match p with
      | SLOT x =>
          exists l2, slots = l1 ++ x :: l2 /\ slot_alive s x /\
                     lksm_nr_scanned_slot s' = wrap_int (lksm_nr_scanned_slot s + 1)
      | KSM_SCAN_HEAD => slots = l1 /\ lksm_nr_scanned_slot s' = lksm_nr_scanned_slot s
      | KSM_MM_HEAD => False
      end.
Proof.
  induction slots as [|y next IH]; intros s p s' Hnd H;
    cbn [lksm_get_unscanned_mm_slot_loop] in H.
  - apply ret_Ok in H as [<- <-]. exists []. rewrite !filter_not_in_nil_id.
    split_and!; try done. intros z Hz. by apply elem_of_nil in Hz.
  - apply NoDup_cons in Hnd as [Hy Hnd].
    apply bind_Ok in H as (m & s0 & [Hm ->]%mm_slot_at_Ok & H).
    apply bind_Ok in H as (ex & s0 & Hex & H).
    apply ksm_test_exit_Ok in Hex as (-> & mms & Hmms & ->).
    destruct (Z.eqb_spec (mm_users mms) 0) as [Hu|Hu].
    + apply bind_Ok in H as ([] & s1 & H1 & H).
      apply bind_Ok in H as ([] & s2 & H2 & H).
      assert (E1 : ksm_scan_head s1 = ksm_scan_head s /\ ksm_mm_head s1 = ksm_mm_head s /\
                   ksm_scan_remove_mm_list s1 = ksm_scan_remove_mm_list s /\
                   mm_slots s1 = mm_slots s /\ mm_structs s1 = mm_structs s /\
                   lksm_nr_scanned_slot s1 = lksm_nr_scanned_slot s).
      { destruct (lksm_test_mm_state m KSM_MM_FROZEN); apply modify_Ok in H1 as ->; done. }
      destruct E1 as (Ea & Eb & Ec & Ed & Ee & Ef).
      apply lksm_remove_mm_slot_Ok in H2 as (m2 & Hm2 & E2a & E2b & E2c & _ & E2e & E2f & E2g).
      destruct (IH s2 p s' Hnd H) as (l1 & Hex & Hsh & Hmh & Hrm & Hrm' & Hst & Hsl & Hp).
      assert (Hl1 : forall z, z ∈ l1 -> z ∈ next).
      { intros z Hz. destruct p as [| |x]; [by destruct Hp as [-> _]|done|].
        destruct Hp as (l2 & -> & _). apply elem_of_app. by left. }
      assert (Hsame : forall z, z <> y -> mm_slots s2 !! z = mm_slots s !! z).
      { intros z Hz. by rewrite E2e, lookup_insert_ne, Ed. }
      assert (Hst2 : mm_structs s2 = mm_structs s) by congruence.
      exists (y :: l1). split_and!.
      * constructor; [by exists m, mms|].
        rewrite Forall_forall in *. intros z Hz.
        destruct (Hex z Hz) as (mz & mmz & H1z & H2z & H3z).
        exists mz, mmz. rewrite <- Hsame, <- Hst2; [done|]. intros ->. by apply Hy, Hl1.
      * by rewrite Hsh, E2a, Ea, hlist_del_filter_not_in.
      * by rewrite Hmh, E2b, Eb, hlist_del_filter_not_in.
      * intros z [->|Hz]%elem_of_cons; [|by apply Hrm].
        apply Hrm'. rewrite E2c. by left.
      * intros z Hz. apply Hrm'. rewrite E2c, Ec.
        destruct (decide (z = y)) as [->|Hne]; [by left|].
        right. by apply hlist_del_elem.
      * congruence.
      * intros z Hz. apply not_elem_of_cons in Hz as [Hzy Hz].
        by rewrite Hsl, Hsame.
      * destruct p as [| |x]; [|done|].
        -- destruct Hp as [-> Hn]. split; [done|]. congruence.
        -- destruct Hp as (l2 & -> & (mx & mmx & H1x & H2x & H3x) & Hn).
           exists l2. split_and!; [done| |congruence].
           exists mx, mmx. rewrite <- Hsame, <- Hst2; [done|].
           intros ->. apply Hy. apply elem_of_app. right. by left.
    + apply bind_Ok in H as ([] & s1 & ->%modify_Ok & H).
      apply ret_Ok in H as [<- <-]. exists []. cbn. rewrite !filter_not_in_nil_id.
      split_and!; try done.
      * intros z Hz. by apply elem_of_nil in Hz.
      * exists next. split_and!; try done. by exists m, mms.
Qed.

(** X12.  [lksm_get_unscanned_mm_slot] passes over the slots of exiting
    owners, taking each of them off the scan list and the list of all slots
    and onto the list of slots to be released, and stops at the first slot
    whose owner is alive, which it counts as scanned; when there is none it
    returns the list head.  The slots that stay keep their order. *)
Theorem next_unscanned_slot_is_alive slot s p s' :
  NoDup (ksm_scan_head s) ->
  lksm_get_unscanned_mm_slot slot s = Ok p s' ->
  exists passed,
    Forall (slot_exiting s) passed /\
    ksm_scan_head s' = filter (fun z => z ∉ passed) (ksm_scan_head s) /\
    ksm_mm_head s' = filter (fun z => z ∉ passed) (ksm_mm_head s) /\
    (forall z, z ∈ passed -> z ∈ ksm_scan_remove_mm_list s') /\
    match p with
    | SLOT x =>
        exists rest, slots_after s slot = passed ++ x :: rest /\ slot_alive s x /\
                     lksm_nr_scanned_slot s' = wrap_int (lksm_nr_scanned_slot s + 1)
    | KSM_SCAN_HEAD =>
        slots_after s slot = passed /\ lksm_nr_scanned_slot s' = lksm_nr_scanned_slot s
    | KSM_MM_HEAD => False
    end.
Proof.
  intros Hnd H. unfold lksm_get_unscanned_mm_slot in H.
  apply bind_Ok in H as (s0 & s1 & [-> ->]%get_Ok & H).
  assert (Hw : lksm_get_unscanned_mm_slot_loop (slots_after s slot) s = Ok p s')
    by (by destruct slot).
  assert (Hnd' : NoDup (slots_after s slot)).
  { destruct slot as [| |q]; try done. cbn.
    clear -Hnd. induction (ksm_scan_head s) as [|a l IH]; [constructor|].
    apply NoDup_cons in Hnd as [_ Hnd]. cbn. destruct (decide (a = q)); auto. }
  destruct (lksm_get_unscanned_mm_slot_loop_spec _ s p s' Hnd' Hw)
    as (l1 & Hex & Hsh & Hmh & Hrm & _ & _ & _ & Hp).
  exists l1. split_and!; done.
Qed.

Lemma next_unscanned_slot_is_alive_witness :
  exists passed,
    Forall (slot_exiting first_owner_exited) passed /\
    ksm_scan_head (final_state ksm_init
                     (lksm_get_unscanned_mm_slot KSM_SCAN_HEAD first_owner_exited))
      = filter (fun z => z ∉ passed) (ksm_scan_head first_owner_exited) /\
    ksm_mm_head (final_state ksm_init
                   (lksm_get_unscanned_mm_slot KSM_SCAN_HEAD first_owner_exited))
      = filter (fun z => z ∉ passed) (ksm_mm_head first_owner_exited) /\
    (forall z, z ∈ passed ->
       z ∈ ksm_scan_remove_mm_list
             (final_state ksm_init
                (lksm_get_unscanned_mm_slot KSM_SCAN_HEAD first_owner_exited))) /\
    exists rest,
      slots_after first_owner_exited KSM_SCAN_HEAD = passed ++ 102%nat :: rest /\
      slot_alive first_owner_exited 102 /\
      lksm_nr_scanned_slot (final_state ksm_init
                              (lksm_get_unscanned_mm_slot KSM_SCAN_HEAD first_owner_exited))
        = wrap_int (lksm_nr_scanned_slot first_owner_exited + 1).
Proof.
  apply (next_unscanned_slot_is_alive KSM_SCAN_HEAD first_owner_exited (SLOT 102)).
  - apply (bool_decide_unpack _). vm_compute. exact I.
  - vm_compute. reflexivity.
Defined.

(** ** The unmerge verb *)

Lemma unmerge_vmas_spec e mm mms :
  cow_always_breaks e ->
  forall vmas s,
    mm_structs s !! mm = Some mms -> frames_fresh s -> Forall vma_sane vmas ->
    exists s',
      unmerge_vmas e mm vmas s = Ok 0 s' /\
      only_pages_changed s s' /\ frames_fresh s' /\
      (forall mm' a, content_at s' mm' a = content_at s mm' a) /\
      (forall mm' a, unmerged_at s mm' a -> unmerged_at s' mm' a) /\
      (mm_users mms <> 0 ->
       forall vma a, vma ∈ vmas -> vm_mergeable vma = true -> vm_anon_vma vma = true ->
                     vm_start vma <= a < vm_end vma ->
                     (a - vm_start vma) mod PAGE_SIZE = 0 ->
                     unmerged_at s' mm a).
Proof.
  intros [Hh Hsig]. induction vmas as [|vma vmas IH]; intros s Hm Hfr Hsane.
  - exists s. cbn. split_and!; try done; [apply only_pages_changed_refl|].
    intros _ vma a Hin. by apply elem_of_nil in Hin.
  - apply Forall_cons in Hsane as [[Hs0 Hs1] Hsane].
    cbn [unmerge_vmas]. unfold bind at 1. unfold ksm_test_exit. rewrite Hm.
    destruct (Z.eqb_spec (mm_users mms) 0) as [Hu|Hu].
    { exists s. split_and!; try done. apply only_pages_changed_refl. }
    destruct (vm_mergeable vma) eqn:Hmg, (vm_anon_vma vma) eqn:Han; cbn [negb orb].
    2,3,4: destruct (IH s Hm Hfr Hsane) as (s' & Hrun & Hop & Hfr' & Hc & Hk & Hun);
      exists s'; split_and!; try done;
      intros _ v a Hin Hv1 Hv2; apply elem_of_cons in Hin as [->|Hin];
      [congruence|by apply Hun].
    destruct (unmerge_ksm_pages_loop_spec e mm (vm_end vma) mms (Hh mm) Hsig Hu Hs1
                (pages_between (vm_start vma) (vm_end vma)) (vm_start vma) s Hm Hfr Hs0)
      as (s1 & Hrun1 & Hun1 & Hk1 & Hc1 & Hfr1 & Hop1).
    { unfold pages_between.
      destruct (Z.le_gt_cases 0 ((vm_end vma - vm_start vma + PAGE_SIZE - 1) / PAGE_SIZE));
        lia. }
    destruct (IH s1) as (s' & Hrun & Hop & Hfr' & Hc & Hk & Hun); try done.
    { by rewrite (only_pages_changed_mm_structs s s1 Hop1). }
    exists s'. split_and!; try done.
    + unfold bind. unfold unmerge_ksm_pages. rewrite Hrun1. cbn. exact Hrun.
    + by apply (only_pages_changed_trans s s1 s').
    + intros mm' a. by rewrite Hc, Hc1.
    + intros mm' a Ha. by apply Hk, Hk1.
    + intros _ v a Hin Hv1 Hv2 Ha Hmod. apply elem_of_cons in Hin as [->|Hin].
      * by apply Hk, Hun1.
      * by apply (Hun Hu v a).
Qed.

Lemma only_pages_changed_fields s s' :
  only_pages_changed s s' ->
  stable_nodes s' = stable_nodes s /\ rmap_items s' = rmap_items s /\
  mm_slots s' = mm_slots s /\ next_ptr s' = next_ptr s /\
  ksm_pages_shared s' = ksm_pages_shared s /\ ksm_pages_sharing s' = ksm_pages_sharing s /\
  ksm_rmap_items s' = ksm_rmap_items s /\ ksm_scan_mm_slot s' = ksm_scan_mm_slot s /\
  ksm_mm_head s' = ksm_mm_head s.
Proof. intros H. rewrite H. done. Qed.

(** What is read of the pages only depends on the pages. *)
Lemma pages_ext s s' :
  page_table s' = page_table s -> mem_map s' = mem_map s ->
  (forall mm a, content_at s' mm a = content_at s mm a) /\
  (forall mm a, unmerged_at s' mm a <-> unmerged_at s mm a).
Proof.
  intros E1 E2. split; intros mm a.
  - unfold content_at, follow_page, page_data. rewrite E1.
    destruct (page_table s !! _); [|done]. cbn. by rewrite E2.
  - unfold unmerged_at, follow_page, PageKsm, page_mapping_of. rewrite E1.
    destruct (page_table s !! _); [|done]. cbn. by rewrite E2.
Qed.

Lemma frames_fresh_ext s s' :
  page_table s' = page_table s -> next_pfn s' = next_pfn s ->
  frames_fresh s -> frames_fresh s'.
Proof. intros E1 E2 H k p. rewrite E1, E2. apply H. Qed.

Lemma remove_trailing_rmap_items_frame e l s s' :
  remove_trailing_rmap_items e l s = Ok tt s' ->
  mm_slots s' = mm_slots s /\ mm_structs s' = mm_structs s /\
  page_table s' = page_table s /\ mem_map s' = mem_map s /\
  next_pfn s' = next_pfn s /\ ksm_scan_mm_slot s' = ksm_scan_mm_slot s /\
  ksm_mm_head s' = ksm_mm_head s.
Proof.
  intros H.
  apply (preserves_remove_trailing_rmap_items
           (fun x => mm_slots x = mm_slots s /\ mm_structs x = mm_structs s /\
                     page_table x = page_table s /\ mem_map x = mem_map s /\
                     next_pfn x = next_pfn s /\ ksm_scan_mm_slot x = ksm_scan_mm_slot s /\
                     ksm_mm_head x = ksm_mm_head s)) in H; frame_trivial.
Qed.

Lemma fewer_records_smaller_size (m m' : gmap nat rmap_item) :
  (forall q, is_Some (m' !! q) -> is_Some (m !! q)) -> (size m' <= size m)%nat.
Proof.
  intros H. rewrite <- !(size_dom (D := gset nat)). apply subseteq_size.
  intros q. rewrite !elem_of_dom. apply H.
Qed.

Lemma slot_records_same s s' slot :
  mm_slots s' !! slot = mm_slots s !! slot -> slot_records s' slot = slot_records s slot.
Proof. unfold slot_records. by intros ->. Qed.

(** The loop of [unmerge_and_remove_all_rmap_items] over the slots. *)
Lemma unmerge_mm_slots_spec e :
  cow_always_breaks e -> swapcache_settled e ->
  forall slots s,
    rmap_bookkeeping s -> Z.of_nat (size (rmap_items s)) < 2 ^ 31 ->
    0 <= ksm_rmap_items s < 2 ^ 64 -> frames_fresh s ->
    NoDup slots -> Forall (slot_ready s) slots ->
    NoDup (concat (slot_records s <$> slots)) ->
    exists s',
      unmerge_mm_slots e slots s = Ok 0 s' /\
      ksm_scan_mm_slot s' = KSM_MM_HEAD /\
      (forall slot m', slot ∈ slots -> mm_slots s' !! slot = Some m' ->
                       ms_rmap_list m' = []) /\
      (forall slot r, slot ∈ slots -> r ∈ slot_records s slot -> rmap_items s' !! r = None) /\
      (forall r, (forall slot, slot ∈ slots -> r ∉ slot_records s slot) ->
                 is_Some (rmap_items s' !! r) <-> is_Some (rmap_items s !! r)) /\
      (forall slot, slot ∉ slots -> mm_slots s' !! slot = mm_slots s !! slot) /\
      ksm_rmap_items s' =
        wrap_ulong (ksm_rmap_items s
                    - Z.of_nat (length (concat (slot_records s <$> slots)))) /\
      rmap_bookkeeping s' /\ frames_fresh s' /\
      (forall mm a, content_at s' mm a = content_at s mm a) /\
      (forall mm a, unmerged_at s mm a -> unmerged_at s' mm a) /\
      (forall slot mm a, slot ∈ slots -> mergeable_address s slot mm a ->
                         unmerged_at s' mm a) /\
      mm_structs s' = mm_structs s.
Proof.
  intros Hcow Hw. induction slots as [|slot next IH];
    intros s Hbk Hsz Hc Hfr Hnd Hready Hrec.
  - exists (set_ksm_scan_mm_slot KSM_MM_HEAD s). cbn. split_and!; try done.
    + intros slot m' Hin. by apply elem_of_nil in Hin.
    + intros slot r Hin. by apply elem_of_nil in Hin.
    + rewrite Z.sub_0_r. by rewrite wrap_ulong_small.
    + by apply (rmap_bookkeeping_ext s).
    + intros slot mm a Hin. by apply elem_of_nil in Hin.
  - apply NoDup_cons in Hnd as [Hslot Hnd].
    apply Forall_cons in Hready as [(m & mms & Hm & Hmms & Hsane & Hrs) Hready].
    cbn [fmap list_fmap concat] in Hrec. fold (fmap (slot_records s) next) in Hrec.
    assert (Hl : slot_records s slot = ms_rmap_list m) by (unfold slot_records; by rewrite Hm).
    rewrite Hl in Hrec. apply NoDup_app in Hrec as (Hndl & Hdisj & Hrec).
    set (s0 := set_ksm_scan_mm_slot (SLOT slot) s).
    destruct (unmerge_vmas_spec e (ms_mm m) mms Hcow (mm_mmap mms) s0 Hmms Hfr Hsane)
      as (s1 & Hrun1 & Hop1 & Hfr1 & Hc1 & Hk1 & Hun1).
    destruct (only_pages_changed_fields s0 s1 Hop1)
      as (F1 & F2 & F3 & F4 & F5 & F6 & F7 & F8 & F9).
    assert (Hst1 := only_pages_changed_mm_structs s0 s1 Hop1).
    cbn in F1, F2, F3, F4, F5, F6, F7, F8, F9, Hst1.
    assert (Hbk1 : rmap_bookkeeping s1) by (by apply (rmap_bookkeeping_ext s)).
    destruct (remove_trailing_rmap_items_spec e (ms_rmap_list m) s1) as
      (s2 & Hrun2 & Hin2 & Hout2 & Hcnt2 & Hbk2); try done.
    { by rewrite F2. }
    { by rewrite F7. }
    { intros r Hr. rewrite F2. by apply Hrs. }
    destruct (remove_trailing_rmap_items_frame e _ s1 s2 Hrun2)
      as (G1 & G2 & G3 & G4 & G5 & G6 & G7).
    set (s3 := set_mm_slots (<[slot := ms_set_rmap_list [] m]> (mm_slots s2)) s2).
    set (s4 := if mm_users mms =? 0
               then set_mm_slots (delete slot (mm_slots s3))
                      (set_ksm_mm_head (hlist_del slot (ksm_mm_head s3)) s3)
               else s3).
    assert (Hs4 : stable_nodes s4 = stable_nodes s2 /\ rmap_items s4 = rmap_items s2 /\
                  next_ptr s4 = next_ptr s2 /\ ksm_pages_shared s4 = ksm_pages_shared s2 /\
                  ksm_pages_sharing s4 = ksm_pages_sharing s2 /\
                  ksm_rmap_items s4 = ksm_rmap_items s2 /\
                  page_table s4 = page_table s2 /\ mem_map s4 = mem_map s2 /\
                  next_pfn s4 = next_pfn s2 /\ mm_structs s4 = mm_structs s2 /\
                  (forall x, x <> slot -> mm_slots s4 !! x = mm_slots s !! x) /\
                  (forall m', mm_slots s4 !! slot = Some m' -> ms_rmap_list m' = [])).
    { unfold s4, s3. destruct (mm_users mms =? 0); cbn; split_and!; try done.
      - intros x Hx. by rewrite lookup_delete_ne, lookup_insert_ne, G1, F3.
      - intros m'. by rewrite lookup_delete_eq.
      - intros x Hx. by rewrite lookup_insert_ne, G1, F3.
      - intros m'. rewrite lookup_insert_eq. by intros [= <-]. }
    destruct Hs4 as (K1 & K2 & K3 & K4 & K5 & K6 & K7 & K8 & K9 & K10 & K11 & K12).
    assert (Hsub : forall q, is_Some (rmap_items s2 !! q) -> is_Some (rmap_items s !! q)).
    { intros q Hq. destruct (decide (q ∈ ms_rmap_list m)) as [Hin|Hnin].
      - rewrite (Hin2 q Hin) in Hq. by destruct Hq.
      - apply Hout2 in Hq; [|done]. by rewrite F2 in Hq. }
    assert (Hrecs : forall x, x ∈ next -> slot_records s4 x = slot_records s x).
    { intros x Hx. apply slot_records_same, K11. intros ->. done. }
    assert (Hmap : slot_records s4 <$> next = slot_records s <$> next).
    { apply list_fmap_ext. intros i x Hx. apply Hrecs. by apply list_elem_of_lookup_2 in Hx. }
    destruct (IH s4) as
      (s' & Hrun & Hcur & Hemp & Hfreed & Hiff & Hslots & Hcnt & Hbk' & Hfr' & Hc' & Hk' &
       Hun' & Hst'); try done.
    { by apply (rmap_bookkeeping_ext s2). }
    { rewrite K2. assert (size (rmap_items s2) <= size (rmap_items s))%nat
        by (by apply fewer_records_smaller_size). lia. }
    { rewrite K6, Hcnt2. unfold wrap_ulong. apply Z.mod_pos_bound. lia. }
    { apply (frames_fresh_ext s1); [by rewrite K7, G3|by rewrite K9, G5|done]. }
    { rewrite Forall_forall in *. intros x Hx.
      destruct (Hready x Hx) as (mx & mmx & Hmx & Hmmx & Hsx & Hrx).
      assert (Hxs : x <> slot) by (intros ->; done).
      exists mx, mmx. rewrite (K11 x Hxs), K10, G2, Hst1. split_and!; try done.
      intros r Hr. rewrite K2. apply Hout2; [|rewrite F2; by apply Hrx].
      intros Hr'. apply (Hdisj r Hr'). apply list_elem_of_In, in_concat.
      exists (slot_records s x). split.
      - apply in_map_iff. exists x. split; [done|]. by apply list_elem_of_In.
      - apply list_elem_of_In. unfold slot_records. by rewrite Hmx. }
    { by rewrite Hmap. }
    assert (Hp24 : forall mm a, content_at s4 mm a = content_at s1 mm a).
    { apply pages_ext; [by rewrite K7, G3|by rewrite K8, G4]. }
    assert (Hu24 : forall mm a, unmerged_at s1 mm a -> unmerged_at s4 mm a).
    { intros mm a. apply pages_ext; [by rewrite K7, G3|by rewrite K8, G4]. }
    assert (Hnot : forall r x, r ∈ ms_rmap_list m -> x ∈ next -> r ∉ slot_records s x).
    { intros r x Hr Hx Hr'. apply (Hdisj r Hr). apply list_elem_of_In, in_concat.
      exists (slot_records s x). split; [|by apply list_elem_of_In].
      apply in_map_iff. exists x. split; [done|]. by apply list_elem_of_In. }
    exists s'. split_and!; try done.
    + cbn [unmerge_mm_slots]. apply bind_Ok. exists tt, s0. split; [reflexivity|].
      apply bind_Ok. exists m, s0. split; [by apply mm_slot_at_Ok|].
      apply bind_Ok. exists s0, s0. split; [reflexivity|].
      cbn [mm_structs s0 set_ksm_scan_mm_slot]. rewrite Hmms.
      apply bind_Ok. exists 0, s1. split; [exact Hrun1|]. cbn [Z.eqb negb].
      apply bind_Ok. exists tt, s2. split; [exact Hrun2|].
      apply bind_Ok. exists tt, s3. split.
      { apply mm_slot_update_Ok. exists m. split; [by rewrite G1, F3|reflexivity]. }
      apply bind_Ok. exists (mm_users mms =? 0), s3. split.
      { unfold ksm_test_exit. unfold s3. cbn. by rewrite G2, Hst1, Hmms. }
      apply bind_Ok. exists tt, s4. split; [|exact Hrun].
      unfold s4. by destruct (mm_users mms =? 0).
    + intros x m' [->|Hx]%elem_of_cons Hm'; [|by apply (Hemp x)].
      rewrite (Hslots slot Hslot) in Hm'. by apply K12.
    + intros x r [->|Hx]%elem_of_cons Hr.
      * rewrite Hl in Hr.
        destruct (rmap_items s' !! r) eqn:E; [|done].
        assert (is_Some (rmap_items s4 !! r)).
        { apply Hiff; [|by rewrite E]. intros y Hy. rewrite (Hrecs y Hy). by apply Hnot. }
        rewrite K2, (Hin2 r Hr) in H. by destruct H.
      * apply (Hfreed x r Hx). by rewrite (Hrecs x Hx).
    + intros r Hr. rewrite Hiff.
      * rewrite K2, Hout2, F2; [done|]. rewrite <- Hl. apply Hr. by left.
      * intros y Hy. rewrite (Hrecs y Hy). apply Hr. by right.
    + intros x Hx. apply not_elem_of_cons in Hx as [Hxs Hx].
      by rewrite (Hslots x Hx), (K11 x Hxs).
    + rewrite Hcnt, K6, Hcnt2, F7, Hmap, wrap_ulong_sub_l. f_equal.
      cbn [fmap list_fmap concat]. rewrite Hl, length_app. lia.
    + intros mm a. by rewrite Hc', Hp24, Hc1.
    + intros mm a Ha. by apply Hk', Hu24, Hk1.
    + intros x mm a [->|Hx]%elem_of_cons Ha.
      * apply Hk', Hu24.
        destruct Ha as (m_ & mms_ & vma & Hm_ & <- & Hmms_ & Hu_ & Hv & Hv1 & Hv2 & Hv3 & Hv4).
        assert (m_ = m) as -> by congruence. assert (mms_ = mms) as -> by congruence.
        by apply (Hun1 Hu_ vma a).
      * apply (Hun' x mm a Hx).
        destruct Ha as (mx & mmx & vma & Hmx & <- & Hmmx & Hux & Hv).
        assert (Hxs : x <> slot) by (intros ->; done).
        exists mx, mmx, vma. rewrite (K11 x Hxs), K10, G2, Hst1. done.
    + by rewrite Hst', K10, G2, Hst1.
Qed.


Lemma quiet_cow_always_breaks : cow_always_breaks quiet.
Proof. split; [intros mm a|]; reflexivity. Qed.

Lemma quiet_swapcache_settled : swapcache_settled quiet.
Proof. intros pfn H. discriminate H. Qed.

Lemma match_in_unstable_tree_slots_ready :
  Forall (slot_ready match_in_unstable_tree) [101%nat; 102%nat].
Proof.
  repeat constructor.
  - exists (ms_set_rmap_list [1000%nat] (fresh_mm_slot 1)), (mk_mm 1 [vma_0x1000]).
    split_and!; [reflexivity|reflexivity| |].
    + repeat constructor; vm_compute; discriminate.
    + intros r Hr. apply list_elem_of_singleton in Hr as ->. by eexists.
  - exists (ms_set_rmap_list [1001%nat] (fresh_mm_slot 2)), (mk_mm 1 [vma_0x1000]).
    split_and!; [reflexivity|reflexivity| |].
    + repeat constructor; vm_compute; discriminate.
    + intros r Hr. apply list_elem_of_singleton in Hr as ->. by eexists.
Qed.

Lemma match_in_unstable_tree_frames_fresh : frames_fresh match_in_unstable_tree.
Proof.
  intros k p H. cbn in H.
  repeat (apply lookup_insert_Some in H as [[_ <-]|[_ H]]; [cbn; lia|]). done.
Qed.


(** ** Checksums and the frozen flag *)

Lemma wrap_uint_land x : wrap_uint x = Z.land x (Z.ones 32).
Proof. unfold wrap_uint. by rewrite Z.land_ones. Qed.

Lemma clear_frozen_idem c :
  lksm_clear_checksum_frozen (lksm_clear_checksum_frozen c) = lksm_clear_checksum_frozen c.
Proof. unfold lksm_clear_checksum_frozen. by rewrite <- Z.land_assoc, Z.land_diag. Qed.

(** X14.  A checksum that [calc_checksum] returns is a 32-bit value whose
    lowest bit is clear, so a record that stores it does not read as
    frozen; marking the record frozen sets that bit and nothing else:
    clearing it again gives the checksum back. *)
Theorem checksum_leaves_room_for_frozen_flag e s page r :
  0 <= calc_checksum e s page < 2 ^ 32 /\
  lksm_test_rmap_frozen (ri_set_oldchecksum (calc_checksum e s page) r) = false /\
  lksm_test_rmap_frozen
    (lksm_set_rmap_frozen (ri_set_oldchecksum (calc_checksum e s page) r)) = true /\
  lksm_clear_checksum_frozen
    (ri_oldchecksum (lksm_set_rmap_frozen (ri_set_oldchecksum (calc_checksum e s page) r)))
  = calc_checksum e s page /\
  lksm_clear_rmap_frozen
    (lksm_set_rmap_frozen (ri_set_oldchecksum (calc_checksum e s page) r))
  = ri_set_oldchecksum (calc_checksum e s page) r.
Proof.
  unfold calc_checksum. set (h := wrap_uint (xxhash e (page_data s page))).
  assert (Hh : 0 <= h < 2 ^ 32) by (unfold h, wrap_uint; apply Z.mod_pos_bound; lia).
  set (c := lksm_clear_checksum_frozen h).
  assert (Hc0 : Z.land c FROZEN_BIT = 0).
  { unfold c, lksm_clear_checksum_frozen. rewrite <- Z.land_assoc.
    change (Z.land (2 ^ 32 - 1 - FROZEN_BIT) FROZEN_BIT) with 0. apply Z.land_0_r. }
  assert (Hc32 : Z.land c (Z.ones 32) = c).
  { unfold c, lksm_clear_checksum_frozen. rewrite <- Z.land_assoc.
    by change (Z.land (2 ^ 32 - 1 - FROZEN_BIT) (Z.ones 32)) with (2 ^ 32 - 1 - FROZEN_BIT). }
  assert (Hset : wrap_uint (Z.lor c FROZEN_BIT) = Z.lor c FROZEN_BIT).
  { rewrite wrap_uint_land, Z.land_lor_distr_l, Hc32. done. }
  split_and!.
  - rewrite <- Hc32, Z.land_ones by lia. apply Z.mod_pos_bound. lia.
  - rewrite <- Hc32, Z.land_ones by lia. apply Z.mod_pos_bound. lia.
  - unfold lksm_test_rmap_frozen, test_bits. cbn. by rewrite Hc0.
  - unfold lksm_test_rmap_frozen, lksm_set_rmap_frozen, test_bits. cbn. rewrite Hset.
    rewrite Z.land_lor_distr_l, Hc0. done.
  - unfold lksm_set_rmap_frozen. cbn. rewrite Hset.
    unfold lksm_clear_checksum_frozen at 1. rewrite Z.land_lor_distr_l.
    change (Z.land FROZEN_BIT (2 ^ 32 - 1 - FROZEN_BIT)) with 0. rewrite Z.lor_0_r.
    apply clear_frozen_idem.
  - unfold lksm_clear_rmap_frozen, lksm_set_rmap_frozen, ri_set_oldchecksum.
    destruct r. cbn. f_equal.
    rewrite Hset. unfold clear_bits. rewrite Z.land_lor_distr_l.
    change (Z.land FROZEN_BIT (Z.lnot FROZEN_BIT)) with 0. rewrite Z.lor_0_r.
    rewrite wrap_uint_land, <- Z.land_assoc.
    change (Z.land (Z.lnot FROZEN_BIT) (Z.ones 32)) with (2 ^ 32 - 1 - FROZEN_BIT).
    apply clear_frozen_idem.
Qed.

(** ** Page migration *)

(** X15.  [ksm_migrate_page] for a KSM page whose mapping word has been
    copied to the new frame: the stable node now names the new frame, the
    old frame is left a KSM page without stable node, the node's records and
    the counters are untouched, and the keyhole check of [get_ksm_page] on
    the node yields the new frame. *)
Theorem migrated_page_is_found_at_the_new_frame e newpage oldpage n nd s :
  page_mapping_of s newpage = MAPPING_KSM (Some n) ->
  page_mapping_of s oldpage = MAPPING_KSM (Some n) ->
  stable_nodes s !! n = Some nd -> sn_kpfn nd = oldpage ->
  newpage <> oldpage ->
  exists s',
    ksm_migrate_page newpage oldpage s = Ok tt s' /\
    stable_nodes s' = <[n := sn_set_kpfn newpage nd]> (stable_nodes s) /\
    page_mapping_of s' newpage = MAPPING_KSM (Some n) /\
    page_mapping_of s' oldpage = MAPPING_KSM None /\
    (forall pfn, page_data s' pfn = page_data s pfn) /\
    (get_page_unless_zero e newpage = true ->
     get_ksm_page e n GET_KSM_PAGE_NOLOCK s' = Ok (PAGE newpage) s') /\
    (rmap_bookkeeping s -> rmap_bookkeeping s').
Proof.
  intros Hnew Hold Hn Hk Hne.
  set (s1 := set_stable_nodes (<[n := sn_set_kpfn newpage nd]> (stable_nodes s)) s).
  set (s' := set_mem_map (alter (pg_set_mapping (MAPPING_KSM None)) oldpage (mem_map s1)) s1).
  assert (Hnew' : page_mapping_of s' newpage = MAPPING_KSM (Some n)).
  { unfold page_mapping_of, s', s1. cbn. by rewrite lookup_alter_ne. }
  exists s'. split_and!.
  - unfold ksm_migrate_page. apply bind_Ok. exists s, s. split; [done|].
    rewrite (page_stable_node_of_mapping s newpage n Hnew).
    apply bind_Ok. exists tt, s1. split; [|reflexivity].
    apply stable_node_update_Ok. exists nd. done.
  - reflexivity.
  - done.
  - unfold page_mapping_of, s', s1. cbn. rewrite lookup_alter_eq.
    unfold page_mapping_of in Hold. destruct (mem_map s !! oldpage); [done|discriminate].
  - intros pfn. by apply (page_data_alter_mapping s1 s' oldpage (MAPPING_KSM None) pfn).
  - intros Hg. apply (get_ksm_page_live e n GET_KSM_PAGE_NOLOCK s' (sn_set_kpfn newpage nd)).
    + unfold s', s1. cbn. apply lookup_insert_eq.
    + unfold dup_live.
      replace (stable_nodes s' !! n) with (Some (sn_set_kpfn newpage nd))
        by (symmetry; apply lookup_insert_eq).
      cbn [sn_kpfn sn_set_kpfn]. rewrite Hnew', Hg. by rewrite bool_decide_eq_true_2.
    + done.
  - intros Hbk. apply (rmap_bookkeeping_ext s1); try done.
    apply (rmap_bookkeeping_node_update s n nd); try done.
Qed.

Lemma migrated_page_is_found_at_the_new_frame_witness :
  exists s',
    ksm_migrate_page 12 11 page_11_in_migration = Ok tt s' /\
    stable_nodes s' =
      <[50%nat := sn_set_kpfn 12 (mk_stable_node HEAD_RB_NODE [1000%nat; 1001%nat] 11 2)]>
        (stable_nodes page_11_in_migration) /\
    page_mapping_of s' 12 = MAPPING_KSM (Some 50%nat) /\
    page_mapping_of s' 11 = MAPPING_KSM None /\
    (forall pfn, page_data s' pfn = page_data page_11_in_migration pfn) /\
    (get_page_unless_zero quiet 12 = true ->
     get_ksm_page quiet 50 GET_KSM_PAGE_NOLOCK s' = Ok (PAGE 12) s') /\
    (rmap_bookkeeping page_11_in_migration -> rmap_bookkeeping s').
Proof.
  apply (migrated_page_is_found_at_the_new_frame quiet 12 11 50
           (mk_stable_node HEAD_RB_NODE [1000%nat; 1001%nat] 11 2) page_11_in_migration).
  - vm_compute. reflexivity.
  - vm_compute. reflexivity.
  - vm_compute. reflexivity.
  - reflexivity.
  - discriminate.
Defined.

(** ** Removing all stable nodes *)

Section NodeRemovalFrame.
Variable P : ksm -> Prop.

Hypothesis P_mem_map : forall v s, P s -> P (set_mem_map v s).
Hypothesis P_root_stable_tree : forall v s, P s -> P (set_root_stable_tree v s).
Hypothesis P_stable_nodes : forall v s, P s -> P (set_stable_nodes v s).
Hypothesis P_ksm_stable_node_chains : forall v s, P s -> P (set_ksm_stable_node_chains v s).
Hypothesis P_get_ksm_page : forall e n flags, preserves P (get_ksm_page e n flags).
Hypothesis P_remove_node : forall n, preserves P (remove_node_from_stable_tree n).

Lemma removal_remove_stable_node e n : preserves P (remove_stable_node e n).
Proof. unfold remove_stable_node, set_page_stable_node. pframe. Qed.

Lemma removal_remove_stable_node_chain_loop e dups :
  preserves P (remove_stable_node_chain_loop e dups).
Proof.
  assert (H := removal_remove_stable_node).
  induction dups as [|d dups IH]; cbn [remove_stable_node_chain_loop]; pframe.
Qed.

Lemma removal_remove_stable_node_chain e n : preserves P (remove_stable_node_chain e n).
Proof.
  assert (H1 := removal_remove_stable_node).
  assert (H2 := removal_remove_stable_node_chain_loop).
  unfold remove_stable_node_chain, free_stable_node_chain, free_stable_node. pframe.
Qed.

Lemma removal_remove_all_stable_nodes_loop budget e :
  preserves P (remove_all_stable_nodes_loop budget e).
Proof.
  assert (H := removal_remove_stable_node_chain).
  induction budget as [|budget IH]; cbn [remove_all_stable_nodes_loop]; pframe.
Qed.

Lemma removal_remove_all_stable_nodes_migrate e nodes :
  forall err, preserves P (remove_all_stable_nodes_migrate e nodes err).
Proof.
  assert (H := removal_remove_stable_node).
  induction nodes as [|n nodes IH]; intros err; cbn [remove_all_stable_nodes_migrate]; pframe.
Qed.

Lemma removal_remove_all_stable_nodes budget e :
  preserves P (remove_all_stable_nodes budget e).
Proof.
  assert (H1 := removal_remove_all_stable_nodes_loop).
  assert (H2 := removal_remove_all_stable_nodes_migrate).
  unfold remove_all_stable_nodes. pframe.
Qed.

End NodeRemovalFrame.

Lemma rb_drop_leftmost_elem t x y :
  rb_leftmost t = Some x -> y ∈ rb_inorder t -> y = x \/ y ∈ rb_inorder (rb_drop_leftmost t).
Proof.
  intros Hx Hy. rewrite (rb_leftmost_inorder t x Hx) in Hy.
  apply elem_of_cons in Hy as [->|Hy]; auto.
Qed.

(** [rb_erase] only takes the erased entry out of the tree. *)
Lemma rb_erase_keeps k t y :
  y ∈ rb_inorder t -> y <> k -> y ∈ rb_inorder (rb_erase k t).
Proof.
  induction t as [|l IHl x r IHr]; [done|]. cbn [rb_inorder rb_erase]. intros Hy Hne.
  apply elem_of_app in Hy as [Hy|Hy]; [|apply elem_of_cons in Hy as [->|Hy]].
  - destruct (decide (x = k)) as [->|_].
    + destruct l as [|ll lx lr]; [by apply elem_of_nil in Hy|].
      destruct (rb_leftmost r); [|done]. cbn [rb_inorder]. apply elem_of_app. by left.
    + cbn [rb_inorder]. apply elem_of_app. left. by apply IHl.
  - destruct (decide (x = k)) as [->|_]; [done|].
    cbn [rb_inorder]. apply elem_of_app. right. by left.
  - destruct (decide (x = k)) as [->|_].
    + destruct l as [|ll lx lr]; [done|].
      destruct (rb_leftmost r) as [z|] eqn:Ez.
      * cbn [rb_inorder]. apply elem_of_app. right.
        destruct (rb_drop_leftmost_elem r z y Ez Hy) as [->|H]; [by left|by right].
      * rewrite (rb_leftmost_None r Ez) in Hy. by apply elem_of_nil in Hy.
    + cbn [rb_inorder]. apply elem_of_app. right. right. by apply IHr.
Qed.

Lemma nodes_only_freed_refl s : nodes_only_freed s s.
Proof. by intros x. Qed.

Lemma nodes_only_freed_trans s1 s2 s3 :
  nodes_only_freed s1 s2 -> nodes_only_freed s2 s3 -> nodes_only_freed s1 s3.
Proof. intros H1 H2 x Hx. by apply H2, H1. Qed.

Lemma kept_or_freed_refl s : kept_or_freed s s.
Proof. intros y. split; intros Hy; by left. Qed.

Lemma kept_or_freed_trans s1 s2 s3 :
  kept_or_freed s1 s2 -> kept_or_freed s2 s3 -> nodes_only_freed s2 s3 ->
  kept_or_freed s1 s3.
Proof.
  intros H1 H2 H3 y. split; intros Hy.
  - destruct (proj1 (H1 y) Hy) as [Hy2|Hy2]; [by apply H2|]. right. by apply H3.
  - destruct (proj2 (H1 y) Hy) as [Hy2|Hy2]; [by apply H2|]. right. by apply H3.
Qed.

(** [remove_node_from_stable_tree] takes at most the removed node off the
    migrate list. *)
Lemma remove_node_from_stable_tree_migrate n s s' :
  remove_node_from_stable_tree n s = Ok tt s' ->
  migrate_nodes s' = migrate_nodes s \/ migrate_nodes s' = hlist_del n (migrate_nodes s).
Proof.
  unfold remove_node_from_stable_tree. intros H.
  apply bind_Ok in H as (nd & s0 & [Hn ->]%stable_node_at_Ok & H).
  apply bind_Ok in H as ([] & s0 & [H0 ->]%BUG_ON_Ok & H).
  apply bind_Ok in H as ([] & s1 & Hloop & H).
  assert (E1 : migrate_nodes s1 = migrate_nodes s).
  { revert Hloop. apply (preserves_remove_node_from_stable_tree_loop
                            (fun x => migrate_nodes x = migrate_nodes s)); frame_trivial. }
  apply bind_Ok in H as (nd1 & s2 & [Hn1 ->]%stable_node_at_Ok & H).
  apply bind_Ok in H as ([] & s2 & Hdel & Hfree).
  assert (E3 : migrate_nodes s' = migrate_nodes s2).
  { revert Hfree. apply (preserves_free_stable_node
                            (fun x => migrate_nodes x = migrate_nodes s2)); frame_trivial. }
  rewrite E3. destruct (decide (sn_head nd1 = HEAD_MIGRATE_NODES)).
  - apply modify_Ok in Hdel as ->. cbn. rewrite E1. by right.
  - left. rewrite <- E1. revert Hdel.
    apply (preserves_stable_node_dup_del (fun x => migrate_nodes x = migrate_nodes s1));
      frame_trivial.
Qed.

Lemma remove_node_from_stable_tree_removal n s s' :
  remove_node_from_stable_tree n s = Ok tt s' ->
  stable_nodes s' !! n = None /\ nodes_only_freed s s' /\ kept_or_freed s s' /\
  (root_stable_tree s = RB_ROOT -> root_stable_tree s' = RB_ROOT).
Proof.
  intros H. pose proof (remove_node_from_stable_tree_gone n s s' H) as Hgone.
  pose proof (remove_node_from_stable_tree_migrate n s s' H) as Hmig.
  apply remove_node_from_stable_tree_Ok in H as (nd & Hn & _ & Hs & Hroot & _).
  split_and!; [done| | |].
  - intros x Hx. rewrite Hs. apply lookup_delete_None. right.
    destruct (is_stable_node_dup nd); [|done].
    unfold hlist_del_dup. cbn. by rewrite lookup_fmap, Hx.
  - intros y. destruct (decide (y = n)) as [->|Hne]; [split; by right|].
    split; intros Hy; left.
    + rewrite Hroot. destruct (_ || _); [done|]. by apply rb_erase_keeps.
    + destruct Hmig as [->| ->]; [done|]. by apply hlist_del_elem.
  - intros E. rewrite Hroot, E. by destruct (_ || _).
Qed.

Lemma remove_stable_node_Ok e n s r s' :
  remove_stable_node e n s = Ok r s' ->
  (r = 0 \/ r = - EBUSY) /\
  (r = 0 -> stable_nodes s' !! n = None) /\ (r <> 0 -> s' = s) /\
  nodes_only_freed s s' /\ kept_or_freed s s' /\
  (root_stable_tree s = RB_ROOT -> root_stable_tree s' = RB_ROOT).
Proof.
  unfold remove_stable_node. intros H.
  apply bind_Ok in H as (p & s1 & Hg & H).
  apply get_ksm_page_Ok in Hg as (nd & Hn & [(-> & Hrm & _)|(-> & _ & _ & Hp)]).
  - apply ret_Ok in H as [<- <-].
    destruct (remove_node_from_stable_tree_removal n s s1 Hrm) as (H1 & H2 & H3 & H4).
    split_and!; auto. done.
  - destruct Hp as [->|(_ & Hfl & _)]; [|discriminate Hfl].
    destruct (page_mapped e (sn_kpfn nd)); cbn [negb] in H.
    + apply ret_Ok in H as [<- <-]. split_and!; auto; try done.
      * apply nodes_only_freed_refl.
      * apply kept_or_freed_refl.
    + apply bind_Ok in H as ([] & s1 & ->%modify_Ok & H).
      apply bind_Ok in H as ([] & s2 & Hrm & [<- <-]%ret_Ok).
      destruct (remove_node_from_stable_tree_removal _ _ _ Hrm) as (H1 & H2 & H3 & H4).
      split_and!; auto. done.
Qed.

Lemma remove_stable_node_chain_loop_Ok e dups :
  forall s busy s',
    remove_stable_node_chain_loop e dups s = Ok busy s' ->
    nodes_only_freed s s' /\ kept_or_freed s s' /\
    (root_stable_tree s = RB_ROOT -> root_stable_tree s' = RB_ROOT) /\
    (busy = false -> forall d, d ∈ dups -> stable_nodes s' !! d = None).
Proof.
  induction dups as [|d dups IH]; intros s busy s' H; cbn [remove_stable_node_chain_loop] in H.
  - apply ret_Ok in H as [<- <-]. split_and!; try done.
    + apply nodes_only_freed_refl.
    + apply kept_or_freed_refl.
    + intros _ d Hd. by apply elem_of_nil in Hd.
  - apply bind_Ok in H as (r & s1 & H1 & H).
    apply remove_stable_node_Ok in H1 as (_ & Hz & _ & Hf1 & Hk1 & Hr1).
    destruct (Z.eqb_spec r 0) as [->|Hne]; cbn [negb] in H.
    + destruct (IH _ _ _ H) as (Hf & Hk & Hr & Hd).
      split_and!.
      * by apply (nodes_only_freed_trans s s1 s').
      * by apply (kept_or_freed_trans s s1 s').
      * auto.
      * intros Hb x [->|Hx]%elem_of_cons; [|by apply Hd]. apply Hf. by apply Hz.
    + apply ret_Ok in H as [<- <-]. split_and!; done.
Qed.

Lemma remove_stable_node_chain_Ok e n s busy s' :
  remove_stable_node_chain e n s = Ok busy s' ->
  nodes_only_freed s s' /\ kept_or_freed s s' /\
  (root_stable_tree s = RB_ROOT -> root_stable_tree s' = RB_ROOT) /\
  (busy = false -> stable_nodes s' !! n = None).
Proof.
  unfold remove_stable_node_chain. intros H.
  apply bind_Ok in H as (nd & s0 & [Hn ->]%stable_node_at_Ok & H).
  destruct (is_stable_node_chain nd); cbn [negb] in H.
  - apply bind_Ok in H as (b & s1 & H1 & H).
    apply remove_stable_node_chain_loop_Ok in H1 as (Hf1 & Hk1 & Hr1 & _).
    destruct b; [apply ret_Ok in H as [<- <-]; split_and!; done|].
    apply bind_Ok in H as (nd1 & s2 & [Hn1 ->]%stable_node_at_Ok & H).
    apply bind_Ok in H as ([] & s2 & [_ ->]%BUG_ON_Ok & H).
    apply bind_Ok in H as ([] & s2 & H2 & [<- <-]%ret_Ok).
    unfold free_stable_node_chain, free_stable_node in H2. minv H2. cbn.
    split_and!.
    + intros x Hx. cbn. apply lookup_delete_None. right. by apply Hf1.
    + intros y. destruct (decide (y = n)) as [->|Hne].
      { split; intros _; right; cbn; apply lookup_delete_eq. }
      split; intros Hy; cbn.
      * destruct (proj1 (Hk1 y) Hy) as [Hy1|Hy1].
        -- left. by apply rb_erase_keeps.
        -- right. apply lookup_delete_None. by right.
      * destruct (proj2 (Hk1 y) Hy) as [Hy1|Hy1]; [by left|].
        right. apply lookup_delete_None. by right.
    + intros E. cbn. by rewrite (Hr1 E).
    + intros _. cbn. apply lookup_delete_eq.
  - apply bind_Ok in H as (r & s1 & H1 & [<- <-]%ret_Ok).
    apply remove_stable_node_Ok in H1 as (_ & Hz & _ & Hf1 & Hk1 & Hr1).
    split_and!; try done. intros Hb. apply Hz.
    destruct (Z.eqb_spec r 0); [done|discriminate].
Qed.

Lemma remove_all_stable_nodes_loop_Ok budget e :
  forall s r s',
    remove_all_stable_nodes_loop budget e s = Ok r s' ->
    (r = 0 \/ r = - EBUSY) /\ nodes_only_freed s s' /\ kept_or_freed s s' /\
    (r = 0 -> root_stable_tree s' = RB_ROOT).
Proof.
  induction budget as [|budget IH]; intros s r s' H; cbn [remove_all_stable_nodes_loop] in H;
    [done|].
  apply bind_Ok in H as (s0 & s1 & [-> ->]%get_Ok & H).
  destruct (root_stable_tree s) as [|l x rr] eqn:Eroot.
  - apply ret_Ok in H as [<- <-]. split_and!; auto.
    + apply nodes_only_freed_refl.
    + apply kept_or_freed_refl.
  - apply bind_Ok in H as (busy & s1 & H1 & H).
    apply remove_stable_node_chain_Ok in H1 as (Hf1 & Hk1 & _ & Hx).
    destruct busy.
    + apply ret_Ok in H as [<- <-]. split_and!; auto. done.
    + destruct (IH _ _ _ H) as (Hr & Hf & Hk & Hz).
      split_and!; [done|by apply (nodes_only_freed_trans s s1 s')| |done].
      by apply (kept_or_freed_trans s s1 s').
Qed.

Lemma remove_all_stable_nodes_migrate_Ok e nodes :
  forall err s r s',
    remove_all_stable_nodes_migrate e nodes err s = Ok r s' ->
    (r = err \/ r = - EBUSY) /\ nodes_only_freed s s' /\ kept_or_freed s s' /\
    (root_stable_tree s = RB_ROOT -> root_stable_tree s' = RB_ROOT) /\
    (r = 0 -> forall y, y ∈ nodes -> stable_nodes s' !! y = None).
Proof.
  induction nodes as [|n nodes IH]; intros err s r s' H;
    cbn [remove_all_stable_nodes_migrate] in H.
  - apply ret_Ok in H as [<- <-]. split_and!; auto.
    + apply nodes_only_freed_refl.
    + apply kept_or_freed_refl.
    + intros _ y Hy. by apply elem_of_nil in Hy.
  - apply bind_Ok in H as (r1 & s1 & H1 & H).
    apply remove_stable_node_Ok in H1 as (_ & Hz & _ & Hf1 & Hk1 & Hr1).
    destruct (IH _ _ _ _ H) as (Hr & Hf & Hk & Hroot & Hall).
    split_and!.
    + destruct (Z.eqb_spec r1 0); cbn [negb] in Hr; tauto.
    + by apply (nodes_only_freed_trans s s1 s').
    + by apply (kept_or_freed_trans s s1 s').
    + auto.
    + intros E y [->|Hy]%elem_of_cons; [|by apply Hall].
      apply Hf, Hz. destruct (Z.eqb_spec r1 0) as [->|Hne]; [done|].
      cbn [negb] in Hr. subst r. destruct Hr as [Hr|Hr]; discriminate Hr.
Qed.

Lemma remove_all_stable_nodes_Ok budget e s r s' :
  remove_all_stable_nodes budget e s = Ok r s' ->
  (r = 0 \/ r = - EBUSY) /\ nodes_only_freed s s' /\
  (r = 0 ->
   root_stable_tree s' = RB_ROOT /\
   (forall y, y ∈ rb_inorder (root_stable_tree s) -> stable_nodes s' !! y = None) /\
   (forall y, y ∈ migrate_nodes s -> stable_nodes s' !! y = None)).
Proof.
  unfold remove_all_stable_nodes. intros H.
  apply bind_Ok in H as (err & s1 & H1 & H).
  apply bind_Ok in H as (s0 & s2 & [-> ->]%get_Ok & H).
  apply remove_all_stable_nodes_loop_Ok in H1 as (Herr & Hf1 & Hk1 & Hz1).
  apply remove_all_stable_nodes_migrate_Ok in H as (Hr & Hf & Hk & Hroot & Hall).
  split_and!.
  - destruct Hr as [Hr|Hr]; subst r; auto.
  - by apply (nodes_only_freed_trans s s1 s').
  - intros ->. assert (err = 0) as -> by (destruct Hr as [Hr|Hr]; [done|discriminate Hr]).
    specialize (Hz1 eq_refl). specialize (Hroot Hz1). split_and!; [done| |].
    + intros y Hy. destruct (proj1 (Hk1 y) Hy) as [Hy1|Hy1]; [|by apply Hf].
      rewrite Hz1 in Hy1. by apply elem_of_nil in Hy1.
    + intros y Hy. destruct (proj2 (Hk1 y) Hy) as [Hy1|Hy1]; [|by apply Hf].
      by apply Hall.
Qed.

(** X16.  Whenever [remove_all_stable_nodes] returns, it returns [0] or
    [-EBUSY] and has allocated no stable node.  When it returns [0], the
    stable tree is empty and every node that was in the tree or on the
    migrate list has been freed. *)
Theorem remove_all_stable_nodes_empties_the_tree budget e s r s' :
  remove_all_stable_nodes budget e s = Ok r s' ->
  (r = 0 \/ r = - EBUSY) /\ nodes_only_freed s s' /\
  (r = 0 ->
   root_stable_tree s' = RB_ROOT /\
   (forall y, y ∈ rb_inorder (root_stable_tree s) -> stable_nodes s' !! y = None) /\
   (forall y, y ∈ migrate_nodes s -> stable_nodes s' !! y = None)).
Proof.
  unfold remove_all_stable_nodes. intros H.
  apply bind_Ok in H as (err & s1 & H1 & H).
  apply bind_Ok in H as (s0 & s2 & [-> ->]%get_Ok & H).
  apply remove_all_stable_nodes_loop_Ok in H1 as (Herr & Hf1 & Hk1 & Hz1).
  apply remove_all_stable_nodes_migrate_Ok in H as (Hr & Hf & Hk & Hroot & Hall).
  split_and!.
  - destruct Hr as [Hr|Hr]; subst r; auto.
  - by apply (nodes_only_freed_trans s s1 s').
  - intros ->. assert (err = 0) as -> by (destruct Hr as [Hr|Hr]; [done|discriminate Hr]).
    specialize (Hz1 eq_refl). specialize (Hroot Hz1). split_and!; [done| |].
    + intros y Hy. destruct (proj1 (Hk1 y) Hy) as [Hy1|Hy1]; [|by apply Hf].
      rewrite Hz1 in Hy1. by apply elem_of_nil in Hy1.
    + intros y Hy. destruct (proj2 (Hk1 y) Hy) as [Hy1|Hy1]; [|by apply Hf].
      by apply Hall.
Qed.

Lemma remove_all_stable_nodes_empties_the_tree_witness :
  let s' := final_state ksm_init (remove_all_stable_nodes 5 quiet chain_of_two) in
  (0 = 0 \/ 0 = - EBUSY) /\ nodes_only_freed chain_of_two s' /\
  (0 = 0 ->
   root_stable_tree s' = RB_ROOT /\
   (forall y, y ∈ rb_inorder (root_stable_tree chain_of_two) ->
              stable_nodes s' !! y = None) /\
   (forall y, y ∈ migrate_nodes chain_of_two -> stable_nodes s' !! y = None)).
Proof.
  intros s'.
  apply (remove_all_stable_nodes_empties_the_tree 5 quiet chain_of_two 0 s').
  vm_compute. reflexivity.
Defined.

Lemma remove_all_stable_nodes_keeps_limit budget e c :
  preserves (fun x => ksm_max_page_sharing x = c) (remove_all_stable_nodes budget e).
Proof.
  apply removal_remove_all_stable_nodes; try (frame_trivial; fail).
  - intros e' n flags. apply preserves_get_ksm_page; frame_trivial.
  - intros n. apply preserves_remove_node_from_stable_tree; frame_trivial.
Qed.

(** X17.  A write of [knob] to the sharing-limit file, when it returns:
    a value below 2 is refused with [-EINVAL] and nothing changes; the
    result is otherwise the length of the write or [-EBUSY]; the limit is
    [knob] exactly when the length is returned, and it is changed only when
    no page was shared and the stable tree has been emptied; after
    [-EBUSY] the limit is the old one. *)
Theorem max_page_sharing_store_outcome budget e knob count s r s' :
  max_page_sharing_store budget e knob count s = Ok r s' ->
  (knob < 2 -> r = - EINVAL /\ s' = s) /\
  (2 <= knob ->
   (r = count /\ ksm_max_page_sharing s' = knob /\
    (ksm_max_page_sharing s = knob /\ s' = s \/
     ksm_pages_shared s = 0 /\ root_stable_tree s' = RB_ROOT /\
     nodes_only_freed s s')) \/
   (r = - EBUSY /\ ksm_max_page_sharing s <> knob /\
    ksm_max_page_sharing s' = ksm_max_page_sharing s)).
Proof.
  unfold max_page_sharing_store. intros H.
  destruct (Z.ltb_spec knob 2) as [Hlt|Hge].
  { apply ret_Ok in H as [<- <-]. split; [done|lia]. }
  split; [lia|]. intros _.
  apply bind_Ok in H as (s0 & s1 & [-> ->]%get_Ok & H).
  destruct (Z.eqb_spec (ksm_max_page_sharing s) knob) as [E|E].
  { apply ret_Ok in H as [<- <-]. left. split_and!; auto. }
  apply bind_Ok in H as ([] & s1 & [-> _]%wait_while_offlining_Ok & H).
  apply bind_Ok in H as (s0 & s1 & [-> ->]%get_Ok & H).
  destruct (Z.eqb_spec (ksm_max_page_sharing s) knob) as [E'|_]; [done|]. cbn [negb] in H.
  destruct (Z.eqb_spec (ksm_pages_shared s) 0) as [Hsh|Hsh]; cbn [negb] in H.
  - apply bind_Ok in H as (err & s1 & Hrm & H).
    pose proof (remove_all_stable_nodes_keeps_limit budget e _ s err s1 eq_refl Hrm) as Hlim.
    apply remove_all_stable_nodes_Ok in Hrm as (_ & Hf & Hz).
    destruct (Z.eqb_spec err 0) as [->|Herr]; cbn [negb] in H.
    + apply bind_Ok in H as ([] & s2 & ->%modify_Ok & [<- <-]%ret_Ok).
      destruct (Hz eq_refl) as (Hroot & _).
      left. split_and!; [done|done|]. right. split_and!; done.
    + apply ret_Ok in H as [<- <-]. right. done.
  - apply ret_Ok in H as [<- <-]. right. done.
Qed.

Lemma max_page_sharing_store_outcome_witness :
  let s' := final_state ksm_init (max_page_sharing_store 5 quiet 3 2 node_without_sharers) in
  (3 < 2 -> 2 = - EINVAL /\ s' = node_without_sharers) /\
  (2 <= 3 ->
   (2 = 2 /\ ksm_max_page_sharing s' = 3 /\
    (ksm_max_page_sharing node_without_sharers = 3 /\ s' = node_without_sharers \/
     ksm_pages_shared node_without_sharers = 0 /\ root_stable_tree s' = RB_ROOT /\
     nodes_only_freed node_without_sharers s')) \/
   (2 = - EBUSY /\ ksm_max_page_sharing node_without_sharers <> 3 /\
    ksm_max_page_sharing s' = ksm_max_page_sharing node_without_sharers)).
Proof.
  intros s'.
  apply (max_page_sharing_store_outcome 5 quiet 3 2 node_without_sharers 2 s').
  vm_compute. reflexivity.
Defined.

(** ** The cursor over a slot's records *)

(** One record that the cursor passes is taken off its tree and freed. *)
Lemma skip_one_record e r s :
  rmap_bookkeeping s -> Z.of_nat (size (rmap_items s)) < 2 ^ 31 ->
  swapcache_settled e -> is_Some (rmap_items s !! r) ->
  exists s',
    (remove_rmap_item_from_tree e r;; free_rmap_item r) s = Ok tt s' /\
    rmap_bookkeeping s' /\ Z.of_nat (size (rmap_items s')) < 2 ^ 31 /\
    rmap_items s' !! r = None /\
    (forall q, q <> r -> is_Some (rmap_items s' !! q) <-> is_Some (rmap_items s !! q)) /\
    mm_slots s' = mm_slots s /\ next_ptr s' = next_ptr s.
Proof.
  intros Hbk Hsz Hw [it Hit].
  destruct (remove_rmap_item_from_tree_run e r s it Hbk Hsz Hw Hit)
    as (s1 & it' & Hrun & Hr' & _ & _ & _ & Hst & _ & Hdom).
  destruct (remove_rmap_item_from_tree_bookkeeping e r s s1 Hbk Hrun) as [Hbk1 _].
  assert (Hsl : mm_slots s1 = mm_slots s).
  { revert Hrun. apply (preserves_remove_rmap_item_from_tree (fun x => mm_slots x = mm_slots s));
      frame_trivial. }
  assert (Hnp : next_ptr s1 = next_ptr s).
  { revert Hrun. apply (preserves_remove_rmap_item_from_tree (fun x => next_ptr x = next_ptr s));
      frame_trivial. }
  set (s2 := set_rmap_items (delete r (rmap_items s1))
               (set_ksm_rmap_items (wrap_ulong (ksm_rmap_items s1 - 1)) s1)).
  exists s2. split_and!.
  - apply bind_Ok. exists tt, s1. split; [done|reflexivity].
  - apply (rmap_bookkeeping_ext (set_rmap_items (delete r (rmap_items s1)) s1)); try done.
    apply rmap_bookkeeping_free_item; [done|]. intros it0 Hit0. congruence.
  - unfold s2. cbn.
    assert (size (delete r (rmap_items s1)) <= size (rmap_items s1))%nat
      by (apply map_subseteq_size, delete_subseteq).
    rewrite (same_records_same_size _ _ Hdom) in H. lia.
  - unfold s2. cbn. apply lookup_delete_eq.
  - intros q Hq. unfold s2. cbn. rewrite lookup_delete_ne by done. apply Hdom.
  - done.
  - done.
Qed.

(** What the loop of [get_next_rmap_item] does from the cursor on: it frees
    the records it passes and stops at the record of [addr], at a record
    beyond [addr], or at the end of the list. *)
Lemma get_next_rmap_item_loop_spec e slot addr l :
  forall s,
    rmap_bookkeeping s -> Z.of_nat (size (rmap_items s)) < 2 ^ 31 ->
    swapcache_settled e ->
    NoDup l -> (forall r, r ∈ l -> is_Some (rmap_items s !! r)) ->
    exists hit skipped rest s',
      get_next_rmap_item_loop e slot addr l s = Ok (hit, rest) s' /\
      l = skipped ++ rest /\
      (forall x, x ∈ skipped -> rmap_items s' !! x = None) /\
      (forall q, q ∉ skipped -> is_Some (rmap_items s' !! q) <-> is_Some (rmap_items s !! q)) /\
      mm_slots s' = mm_slots s /\ next_ptr s' = next_ptr s /\
      match hit with
      | Some r =>
          exists it,
            rest !! 0%nat = Some r /\ rmap_items s' !! r = Some it /\
            Z.land (ri_address it) PAGE_MASK = addr
      | None =>
          forall r, rest !! 0%nat = Some r ->
            exists it, rmap_items s' !! r = Some it /\
                       Z.land (ri_address it) PAGE_MASK <> addr /\ addr < ri_address it
      end.
Proof.
  induction l as [|r l IH]; intros s Hbk Hsz Hw Hnd Hl.
  - exists None, [], [], s. cbn. split_and!; try done.
    intros x Hx. by apply elem_of_nil in Hx.
  - apply NoDup_cons in Hnd as [Hr Hnd].
    destruct (Hl r (list_elem_of_here _ _)) as [it Hit].
    cbn [get_next_rmap_item_loop].
    destruct (Z.eqb_spec (Z.land (ri_address it) PAGE_MASK) addr) as [Hhit|Hmiss].
    + set (f := if lksm_test_mm_state slot KSM_MM_FROZEN
                     && test_bits (ri_address it) UNSTABLE_FLAG
                then lksm_set_rmap_frozen else lksm_clear_rmap_frozen).
      exists (Some r), [], (r :: l), (set_rmap_items (<[r := f it]> (rmap_items s)) s).
      split_and!; try done.
      * apply bind_Ok. exists it, s. split; [by apply rmap_item_at_Ok|].
        destruct (Z.eqb_spec (Z.land (ri_address it) PAGE_MASK) addr); [|done].
        apply bind_Ok. eexists tt, _. split; [|reflexivity].
        apply rmap_item_update_Ok. by exists it.
      * intros x Hx. by apply elem_of_nil in Hx.
      * intros q _. cbn. destruct (decide (q = r)) as [->|Hne].
        -- rewrite lookup_insert_eq, Hit. split; eauto.
        -- by rewrite lookup_insert_ne.
      * exists (f it). cbn. rewrite lookup_insert_eq.
        split_and!; try done. unfold f. by destruct (_ && _).
    + destruct (Z.ltb_spec addr (ri_address it)) as [Hgt|Hle].
      * exists None, [], (r :: l), s. split_and!; try done.
        -- apply bind_Ok. exists it, s. split; [by apply rmap_item_at_Ok|].
           destruct (Z.eqb_spec (Z.land (ri_address it) PAGE_MASK) addr); [done|].
           destruct (Z.ltb_spec addr (ri_address it)); [done|lia].
        -- intros x Hx. by apply elem_of_nil in Hx.
        -- intros q [= <-]. by exists it.
      * destruct (skip_one_record e r s Hbk Hsz Hw (mk_is_Some _ _ Hit))
          as (s2 & Hrun & Hbk2 & Hsz2 & Hgone & Hdom & Hsl & Hnp).
        destruct (IH s2 Hbk2 Hsz2 Hw Hnd) as (hit & skipped & rest & s' & Hloop & Hsplit &
                                              Hfreed & Hkept & Hsl' & Hnp' & Hhit).
        { intros q Hq. apply Hdom; [intros ->; done|]. apply Hl. by right. }
        exists hit, (r :: skipped), rest, s'. split_and!.
        -- apply bind_Ok. exists it, s. split; [by apply rmap_item_at_Ok|].
           destruct (Z.eqb_spec (Z.land (ri_address it) PAGE_MASK) addr); [done|].
           destruct (Z.ltb_spec addr (ri_address it)); [lia|].
           apply bind_Ok in Hrun as ([] & s1 & Hrm & Hfree).
           apply bind_Ok. exists tt, s1. split; [done|].
           apply bind_Ok. exists tt, s2. split; [done|done].
        -- by rewrite Hsplit.
        -- intros x [->|Hx]%elem_of_cons; [|by apply Hfreed].
           destruct (decide (r ∈ skipped)) as [Hin|Hnin]; [by apply Hfreed|].
           destruct (rmap_items s' !! r) eqn:E; [|done].
           assert (is_Some (rmap_items s2 !! r)) as [? ?] by (apply Hkept; eauto).
           congruence.
        -- intros q Hq. apply not_elem_of_cons in Hq as [Hne Hq].
           rewrite (Hkept q Hq). by apply Hdom.
        -- congruence.
        -- congruence.
        -- done.
Qed.

Lemma cursor_list_split {A} (pos : nat) (l rest : list A) :
  (pos <= length l)%nat ->
  take pos (take pos l ++ rest) = take pos l /\
  drop pos (take pos l ++ rest) = rest /\
  (take pos l ++ rest) !! pos = rest !! 0%nat.
Proof.
  intros Hp. assert (Hlen : length (take pos l) = pos) by (rewrite length_take; lia).
  split_and!.
  - by apply take_app_length'.
  - by apply drop_app_length'.
  - rewrite lookup_app_r by lia. rewrite Hlen. by replace (pos - pos)%nat with 0%nat by lia.
Qed.

(** X18.  [get_next_rmap_item] moves the cursor of a slot to the record of
    [addr]: the records it passes are freed, the entries before the cursor
    are kept, and the record it returns is at the cursor and is a record of
    the page at [addr].  A record that did not exist before belongs to the
    slot's owner, is on no tree, and was allocated; [NULL] is returned only
    when the allocation fails. *)
Theorem cursor_finds_or_makes_the_record e ms pos addr s slot :
  rmap_bookkeeping s -> Z.of_nat (size (rmap_items s)) < 2 ^ 31 ->
  swapcache_settled e ->
  mm_slots s !! ms = Some slot -> (pos <= length (ms_rmap_list slot))%nat ->
  NoDup (drop pos (ms_rmap_list slot)) ->
  (forall r, r ∈ drop pos (ms_rmap_list slot) -> is_Some (rmap_items s !! r)) ->
  Z.land addr PAGE_MASK = addr ->
  exists o s' slot',
    get_next_rmap_item e ms pos addr s = Ok o s' /\
    mm_slots s' !! ms = Some slot' /\
    take pos (ms_rmap_list slot') = take pos (ms_rmap_list slot) /\
    (forall x, x ∈ drop pos (ms_rmap_list slot) ->
               x ∉ drop pos (ms_rmap_list slot') -> rmap_items s' !! x = None) /\
    match o with
    | Some r =>
        exists it,
          ms_rmap_list slot' !! pos = Some r /\ rmap_items s' !! r = Some it /\
          Z.land (ri_address it) PAGE_MASK = addr /\
          (rmap_items s !! r = None ->
           kmem_cache_alloc e (next_ptr s) = true /\
           ri_mm it = ms_mm slot /\ ri_address it = addr /\ ri_head it = None)
    | None => kmem_cache_alloc e (next_ptr s) = false
    end.
Proof.
  intros Hbk Hsz Hw Hslot Hpos Hnd Hl Haddr.
  destruct (get_next_rmap_item_loop_spec e slot addr _ s Hbk Hsz Hw Hnd Hl)
    as (hit & skipped & rest & s1 & Hloop & Hsplit & Hfreed & Hkept & Hsl & Hnp & Hhit).
  assert (Hskipped : forall x, x ∈ drop pos (ms_rmap_list slot) -> x ∉ rest -> x ∈ skipped).
  { intros x Hx Hnx. rewrite Hsplit in Hx. apply elem_of_app in Hx as [Hx|Hx]; done. }
  destruct (cursor_list_split pos (ms_rmap_list slot) rest Hpos) as (Htake & Hdrop & Hat).
  unfold get_next_rmap_item.
  destruct hit as [r|].
  - destruct Hhit as (it & Hr & Hit & Hpage).
    set (slot' := ms_set_rmap_list (take pos (ms_rmap_list slot) ++ rest) slot).
    exists (Some r), (set_mm_slots (<[ms := slot']> (mm_slots s1)) s1), slot'.
    split_and!.
    + apply bind_Ok. exists slot, s. split; [by apply mm_slot_at_Ok|].
      apply bind_Ok. exists (Some r, rest), s1. split; [done|]. cbn beta iota.
      apply bind_Ok. eexists tt, _. split; [|reflexivity].
      apply mm_slot_update_Ok. exists slot. split; [by rewrite Hsl|done].
    + cbn. apply lookup_insert_eq.
    + done.
    + intros x Hx Hnx. cbn in Hnx |- *. rewrite Hdrop in Hnx. by apply Hfreed, Hskipped.
    + exists it. cbn. rewrite Hat. split_and!; try done.
      intros Hnone. assert (r ∉ skipped).
      { intros Hin. specialize (Hfreed r Hin). congruence. }
      assert (is_Some (rmap_items s !! r)) as [? ?] by (apply Hkept; eauto). congruence.
  - destruct (kmem_cache_alloc e (next_ptr s)) eqn:Halloc.
    + set (p := next_ptr s).
      set (new := (if lksm_test_mm_state slot FROZEN_BIT
                   then lksm_set_rmap_frozen else lksm_clear_rmap_frozen)
                    (mk_rmap_item (ms_mm slot) addr 0 None)).
      set (slot' := ms_set_rmap_list (take pos (ms_rmap_list slot) ++ p :: rest) slot).
      set (s2 := set_ksm_rmap_items (wrap_ulong (ksm_rmap_items s1 + 1))
                   (set_next_ptr (S p)
                      (set_rmap_items (<[p := mk_rmap_item 0 0 0 None]> (rmap_items s1)) s1))).
      set (s3 := set_rmap_items (<[p := new]> (rmap_items s2)) s2).
      destruct (cursor_list_split pos (ms_rmap_list slot) (p :: rest) Hpos)
        as (Htake' & Hdrop' & Hat').
      assert (Hp : rmap_items s !! p = None) by (apply (bk_fresh _ Hbk); unfold p; lia).
      exists (Some p), (set_mm_slots (<[ms := slot']> (mm_slots s3)) s3), slot'.
      split_and!.
      * apply bind_Ok. exists slot, s. split; [by apply mm_slot_at_Ok|].
        apply bind_Ok. exists (None, rest), s1. split; [done|]. cbn beta iota.
        apply bind_Ok. exists (Some p), s2. split.
        { unfold alloc_rmap_item. apply bind_Ok. exists s1, s1. split; [done|].
          rewrite Hnp, Halloc. fold p. reflexivity. }
        apply bind_Ok. exists tt, s3. split.
        { apply rmap_item_update_Ok. eexists. split; [|reflexivity].
          unfold s2. cbn. apply lookup_insert_eq. }
        apply bind_Ok. eexists tt, _. split; [|reflexivity].
        apply mm_slot_update_Ok. exists slot. split; [cbn; by rewrite Hsl|done].
      * cbn. apply lookup_insert_eq.
      * done.
      * intros x Hx Hnx. cbn in Hnx |- *. rewrite Hdrop' in Hnx.
        apply not_elem_of_cons in Hnx as [Hne Hnx].
        rewrite !lookup_insert_ne by done. by apply Hfreed, Hskipped.
      * exists new. cbn. rewrite Hat', lookup_insert_eq.
        assert (Hnew : ri_mm new = ms_mm slot /\ ri_address new = addr /\ ri_head new = None)
          by (unfold new; by destruct (lksm_test_mm_state _ _)).
        destruct Hnew as (Hm & Ha & Hh). rewrite Ha. split_and!; done.
    + set (slot' := ms_set_rmap_list (take pos (ms_rmap_list slot) ++ rest) slot).
      exists None, (set_mm_slots (<[ms := slot']> (mm_slots s1)) s1), slot'.
      split_and!; try done.
      * apply bind_Ok. exists slot, s. split; [by apply mm_slot_at_Ok|].
        apply bind_Ok. exists (None, rest), s1. split; [done|]. cbn beta iota.
        apply bind_Ok. exists None, s1. split.
        { unfold alloc_rmap_item. apply bind_Ok. exists s1, s1. split; [done|].
          by rewrite Hnp, Halloc. }
        apply bind_Ok. eexists tt, _. split; [|reflexivity].
        apply mm_slot_update_Ok. exists slot. split; [by rewrite Hsl|done].
      * cbn. apply lookup_insert_eq.
      * intros x Hx Hnx. cbn in Hnx |- *. rewrite Hdrop in Hnx. by apply Hfreed, Hskipped.
Qed.

Lemma cursor_finds_or_makes_the_record_witness :
  exists o s' slot',
    get_next_rmap_item quiet 101 0 8192 match_in_unstable_tree = Ok o s' /\
    mm_slots s' !! 101%nat = Some slot' /\
    take 0 (ms_rmap_list slot') =
      take 0 (ms_rmap_list (ms_set_rmap_list [1000%nat] (fresh_mm_slot 1))) /\
    (forall x, x ∈ drop 0 (ms_rmap_list (ms_set_rmap_list [1000%nat] (fresh_mm_slot 1))) ->
               x ∉ drop 0 (ms_rmap_list slot') -> rmap_items s' !! x = None) /\
    match o with
    | Some r =>
        exists it,
          ms_rmap_list slot' !! 0%nat = Some r /\ rmap_items s' !! r = Some it /\
          Z.land (ri_address it) PAGE_MASK = 8192 /\
          (rmap_items match_in_unstable_tree !! r = None ->
           kmem_cache_alloc quiet (next_ptr match_in_unstable_tree) = true /\
           ri_mm it = ms_mm (ms_set_rmap_list [1000%nat] (fresh_mm_slot 1)) /\
           ri_address it = 8192 /\ ri_head it = None)
    | None => kmem_cache_alloc quiet (next_ptr match_in_unstable_tree) = false
    end.
Proof.
  apply (cursor_finds_or_makes_the_record quiet 101 0 8192 match_in_unstable_tree
           (ms_set_rmap_list [1000%nat] (fresh_mm_slot 1))).
  - exact match_in_unstable_tree_bookkeeping.
  - vm_compute. reflexivity.
  - exact quiet_swapcache_settled.
  - vm_compute. reflexivity.
  - cbn. lia.
  - apply (bool_decide_unpack _). vm_compute. exact I.
  - intros r Hr. cbn in Hr. apply list_elem_of_singleton in Hr as ->.
    vm_compute. eauto.
  - vm_compute. reflexivity.
Defined.

(** ** The run knob *)

Section UnmergeFrame.
Variable P : ksm -> Prop.

Hypothesis P_mm_slots : forall v s, P s -> P (set_mm_slots v s).
Hypothesis P_ksm_mm_head : forall v s, P s -> P (set_ksm_mm_head v s).
Hypothesis P_ksm_scan_mm_slot : forall v s, P s -> P (set_ksm_scan_mm_slot v s).
Hypothesis P_ksm_scan_scan_round : forall v s, P s -> P (set_ksm_scan_scan_round v s).
Hypothesis P_break_ksm : forall e mm addr, preserves P (break_ksm e mm addr).
Hypothesis P_remove_trailing_rmap_items :
  forall e l, preserves P (remove_trailing_rmap_items e l).
Hypothesis P_remove_all_stable_nodes :
  forall budget e, preserves P (remove_all_stable_nodes budget e).

Lemma unmerging_unmerge_ksm_pages_loop n e mm :
  forall addr end_, preserves P (unmerge_ksm_pages_loop n e mm addr end_).
Proof.
  induction n as [|n IH]; intros addr end_; cbn [unmerge_ksm_pages_loop]; pframe.
Qed.

Lemma unmerging_unmerge_vmas e mm vmas : preserves P (unmerge_vmas e mm vmas).
Proof.
  assert (H := unmerging_unmerge_ksm_pages_loop).
  induction vmas as [|vma vmas IH]; cbn [unmerge_vmas]; unfold unmerge_ksm_pages; pframe.
Qed.

Lemma unmerging_unmerge_mm_slots e slots : preserves P (unmerge_mm_slots e slots).
Proof.
  assert (H := unmerging_unmerge_vmas).
  induction slots as [|slot slots IH]; cbn [unmerge_mm_slots]; unfold mm_slot_update; pframe.
Qed.

Lemma unmerging_unmerge_and_remove_all_rmap_items budget e :
  preserves P (unmerge_and_remove_all_rmap_items budget e).
Proof.
  assert (H := unmerging_unmerge_mm_slots).
  unfold unmerge_and_remove_all_rmap_items. pframe.
Qed.

End UnmergeFrame.

Lemma remove_all_stable_nodes_keeps_run budget e c :
  preserves (fun x => ksm_run x = c) (remove_all_stable_nodes budget e).
Proof.
  apply removal_remove_all_stable_nodes; try (frame_trivial; fail).
  - intros e' n flags. apply preserves_get_ksm_page; frame_trivial.
  - intros n. apply preserves_remove_node_from_stable_tree; frame_trivial.
Qed.

Lemma unmerge_and_remove_all_rmap_items_keeps_run budget e c :
  preserves (fun x => ksm_run x = c) (unmerge_and_remove_all_rmap_items budget e).
Proof.
  apply unmerging_unmerge_and_remove_all_rmap_items; try (frame_trivial; fail).
  - intros e' mm addr. apply preserves_break_ksm; frame_trivial.
  - intros e' l. apply preserves_remove_trailing_rmap_items; frame_trivial.
  - intros b e'. apply remove_all_stable_nodes_keeps_run.
Qed.

Lemma unmerge_and_remove_all_rmap_items_Ok budget e s r s' :
  unmerge_and_remove_all_rmap_items budget e s = Ok r s' ->
  r = 0 -> ksm_scan_scan_round s' = 0.
Proof.
  unfold unmerge_and_remove_all_rmap_items. intros H Hr.
  apply bind_Ok in H as (s0 & s1 & [-> ->]%get_Ok & H).
  apply bind_Ok in H as (err & s1 & _ & H).
  destruct (Z.eqb_spec err 0) as [->|Hne]; cbn [negb] in H.
  - apply bind_Ok in H as (x & s2 & _ & H).
    apply bind_Ok in H as ([] & s3 & ->%modify_Ok & [_ <-]%ret_Ok). done.
  - apply ret_Ok in H as [<- <-]. done.
Qed.

(** X19.  A write of [flags] to the run file, when it returns.  A value
    above [KSM_RUN_ONESHOT] is refused with [-EINVAL]; writing the value
    [ksm_run] already has changes nothing.  Otherwise either the length of
    the write is returned and [ksm_run] is the value written (the one-shot
    value together with the merge bit), with the scan round back at [0] if
    the unmerge bit was written; or the unmerge bit was written, unmerging
    failed, its error is returned and [ksm_run] is [KSM_RUN_STOP]. *)
Theorem run_store_outcome budget e flags count s r s' :
  run_store budget e flags count s = Ok r s' ->
  (KSM_RUN_ONESHOT < flags -> r = - EINVAL /\ s' = s) /\
  (flags <= KSM_RUN_ONESHOT -> ksm_run s = flags -> r = count /\ s' = s) /\
  (flags <= KSM_RUN_ONESHOT -> ksm_run s <> flags ->
   (r = count /\
    ksm_run s' = (if flags =? KSM_RUN_ONESHOT
                  then Z.lor KSM_RUN_MERGE KSM_RUN_ONESHOT else flags) /\
    (test_bits flags KSM_RUN_UNMERGE = true -> ksm_scan_scan_round s' = 0)) \/
   (r <> 0 /\ test_bits flags KSM_RUN_UNMERGE = true /\ ksm_run s' = KSM_RUN_STOP)).
Proof.
  unfold run_store. intros H.
  destruct (Z.ltb_spec KSM_RUN_ONESHOT flags) as [Hgt|Hle].
  { apply ret_Ok in H as [<- <-]. split_and!; [done|lia|lia]. }
  split; [lia|].
  apply bind_Ok in H as ([] & s1 & [-> _]%wait_while_offlining_Ok & H).
  apply bind_Ok in H as (s0 & s1 & [-> ->]%get_Ok & H).
  destruct (Z.eqb_spec (ksm_run s) flags) as [E|E]; cbn [negb] in H.
  { apply ret_Ok in H as [<- <-]. split; [done|]. intros _ Hne. done. }
  split; [done|]. intros _ _.
  apply bind_Ok in H as ([] & s1 & ->%modify_Ok & H).
  set (v := if flags =? KSM_RUN_ONESHOT then Z.lor KSM_RUN_MERGE KSM_RUN_ONESHOT else flags)
    in *.
  destruct (test_bits flags KSM_RUN_UNMERGE) eqn:Hun.
  - apply bind_Ok in H as (err & s1 & Hrun & H).
    assert (Hkeep : ksm_run s1 = v).
    { revert Hrun. by apply (unmerge_and_remove_all_rmap_items_keeps_run budget e v). }
    pose proof (unmerge_and_remove_all_rmap_items_Ok budget e _ err s1 Hrun) as Hround.
    destruct (Z.eqb_spec err 0) as [->|Hne]; cbn [negb] in H.
    + apply ret_Ok in H as [<- <-]. left. split_and!; auto.
    + apply bind_Ok in H as ([] & s2 & ->%modify_Ok & [<- <-]%ret_Ok). right. done.
  - apply ret_Ok in H as [<- <-]. left. split_and!; [done|done|discriminate].
Qed.

Lemma run_store_outcome_witness :
  let s := match_in_unstable_tree in
  let s' := final_state ksm_init (run_store 5 quiet KSM_RUN_UNMERGE 1 s) in
  (KSM_RUN_ONESHOT < KSM_RUN_UNMERGE -> 1 = - EINVAL /\ s' = s) /\
  (KSM_RUN_UNMERGE <= KSM_RUN_ONESHOT -> ksm_run s = KSM_RUN_UNMERGE -> 1 = 1 /\ s' = s) /\
  (KSM_RUN_UNMERGE <= KSM_RUN_ONESHOT -> ksm_run s <> KSM_RUN_UNMERGE ->
   (1 = 1 /\
    ksm_run s' = (if KSM_RUN_UNMERGE =? KSM_RUN_ONESHOT
                  then Z.lor KSM_RUN_MERGE KSM_RUN_ONESHOT else KSM_RUN_UNMERGE) /\
    (test_bits KSM_RUN_UNMERGE KSM_RUN_UNMERGE = true -> ksm_scan_scan_round s' = 0)) \/
   (1 <> 0 /\ test_bits KSM_RUN_UNMERGE KSM_RUN_UNMERGE = true /\
    ksm_run s' = KSM_RUN_STOP)).
Proof.
  intros s s'.
  apply (run_store_outcome 5 quiet KSM_RUN_UNMERGE 1 s 1 s').
  vm_compute. reflexivity.
Defined.

(** ** Inserting into the stable tree *)

Section WalkFrame.
Variable P : ksm -> Prop.

Hypothesis P_stable_nodes : forall v s, P s -> P (set_stable_nodes v s).
Hypothesis P_root_stable_tree : forall v s, P s -> P (set_root_stable_tree v s).
Hypothesis P_ksm_stable_node_chains : forall v s, P s -> P (set_ksm_stable_node_chains v s).
Hypothesis P_ksm_stable_node_dups : forall v s, P s -> P (set_ksm_stable_node_dups v s).
Hypothesis P_get_ksm_page : forall e n flags, preserves P (get_ksm_page e n flags).

Lemma walk_stable_node_update p f : preserves P (stable_node_update p f).
Proof. unfold stable_node_update. pframe. Qed.

Lemma walk_stable_node_dup_loop e prune dups :
  forall w, preserves P (stable_node_dup_loop e prune dups w).
Proof.
  induction dups as [|d dups IH]; intros w; cbn [stable_node_dup_loop]; pframe.
Qed.

Lemma walk_stable_node_dup e n prune : preserves P (stable_node_dup e n prune).
Proof.
  assert (H1 := walk_stable_node_update).
  assert (H2 := walk_stable_node_dup_loop).
  unfold stable_node_dup, free_stable_node. pframe.
Qed.

Lemma walk_stable_node_dup_any n : preserves P (stable_node_dup_any n).
Proof. unfold stable_node_dup_any, free_stable_node_chain, free_stable_node. pframe. Qed.

Lemma walk___stable_node_chain e n prune : preserves P (__stable_node_chain e n prune).
Proof. assert (H := walk_stable_node_dup). unfold __stable_node_chain. pframe. Qed.

Lemma walk_chain e n : preserves P (chain e n).
Proof. assert (H := walk___stable_node_chain). unfold chain. pframe. Qed.

Lemma walk_stable_tree_insert_walk budget e kpage :
  forall new, preserves P (stable_tree_insert_walk budget e kpage new).
Proof.
  assert (H1 := walk_chain). assert (H2 := walk_stable_node_dup_any).
  induction budget as [|budget IH]; intros new; cbn [stable_tree_insert_walk]; pframe.
Qed.

End WalkFrame.

Lemma get_ksm_page_keeps_pages e n flags m p :
  preserves (fun x => mem_map x = m /\ next_ptr x = p) (get_ksm_page e n flags).
Proof.
  intros s a s' [Hm Hp] H.
  apply get_ksm_page_Ok in H as (nd & _ & [(_ & Hrm & _)|(-> & _)]); [|done].
  apply remove_node_from_stable_tree_Ok in Hrm as (_ & _ & _ & _ & _ & _ & _ & E1 & _ & _ & E2).
  split; congruence.
Qed.

(** The walk of [stable_tree_insert] touches no page and allocates
    nothing. *)
Lemma stable_tree_insert_walk_keeps_pages budget e kpage new s r s' :
  stable_tree_insert_walk budget e kpage new s = Ok r s' ->
  mem_map s' = mem_map s /\ next_ptr s' = next_ptr s.
Proof.
  apply (walk_stable_tree_insert_walk (fun x => mem_map x = mem_map s /\ next_ptr x = next_ptr s));
    try done.
  intros e' n flags. apply get_ksm_page_keeps_pages.
Qed.

(** When the walk ends without a node of identical content, it ends at an
    empty link. *)
Lemma stable_tree_insert_walk_link budget e kpage :
  forall new s new' s',
    stable_tree_insert_walk budget e kpage new s = Ok (new', None) s' ->
    rb_entry (root_stable_tree s') new' = None.
Proof.
  induction budget as [|budget IH]; intros new s new' s' H; cbn [stable_tree_insert_walk] in H;
    [done|].
  apply bind_Ok in H as (s0 & s1 & [-> ->]%get_Ok & H).
  destruct (rb_entry (root_stable_tree s) new) as [n|] eqn:En.
  - apply bind_Ok in H as ([d tp] & s1 & _ & H).
    apply bind_Ok in H as ([tp' again] & s2 & _ & H).
    destruct again; [by apply IH in H|].
    destruct tp' as [|tp'|]; [by apply IH in H| |by apply IH in H].
    apply bind_Ok in H as (s0 & s3 & [-> ->]%get_Ok & H).
    destruct (_ <? 0); [by apply IH in H|].
    destruct (0 <? _); [by apply IH in H|].
    by apply ret_Ok in H as [[= _] _].
  - by apply ret_Ok in H as [[= <-] <-].
Qed.

Lemma rb_link_node_elem k new t :
  rb_entry t new = None -> k ∈ rb_inorder (rb_link_node k new t).
Proof.
  revert new. induction t as [|l IHl x r IHr]; intros new H.
  - destruct new; cbn; set_solver.
  - destruct new as [|[] new]; cbn in H |- *; [done| |].
    + apply elem_of_app. left. by apply IHl.
    + apply elem_of_app. right. right. by apply IHr.
Qed.

Lemma alloc_stable_node_Ok e s o s' :
  alloc_stable_node e s = Ok o s' ->
  (o = None /\ kmem_cache_alloc e (next_ptr s) = false /\ s' = s) \/
  (o = Some (next_ptr s) /\ kmem_cache_alloc e (next_ptr s) = true /\
   s' = set_next_ptr (S (next_ptr s))
          (set_stable_nodes (<[next_ptr s := mk_stable_node HEAD_RB_NODE [] 0 0]>
                               (stable_nodes s)) s)).
Proof.
  unfold alloc_stable_node. intros H.
  apply bind_Ok in H as (s0 & s1 & [-> ->]%get_Ok & H).
  destruct (kmem_cache_alloc e (next_ptr s)).
  - right. minv H. done.
  - left. by apply ret_Ok in H as [<- <-].
Qed.

(** What [stable_node_chain_add_dup] does to the chain [c] and to any other
    node [q]. *)
Lemma stable_node_chain_add_dup_Ok d c s s' :
  stable_node_chain_add_dup d c s = Ok tt s' ->
  mem_map s' = mem_map s /\ root_stable_tree s' = root_stable_tree s /\
  next_ptr s' = next_ptr s /\
  (exists cn', stable_nodes s' !! c = Some cn' /\ d ∈ sn_hlist cn' /\
               forall cn, stable_nodes s !! c = Some cn ->
                          sn_rmap_hlist_len cn' = sn_rmap_hlist_len cn) /\
  (forall q nd, q <> c -> stable_nodes s !! q = Some nd ->
     exists nd', stable_nodes s' !! q = Some nd' /\
                 sn_kpfn nd' = sn_kpfn nd /\ sn_hlist nd' = sn_hlist nd /\
                 sn_rmap_hlist_len nd' = sn_rmap_hlist_len nd /\
                 (q = d -> sn_head nd' = STABLE_NODE_DUP_HEAD) /\
                 (q <> d -> nd' = nd)).
Proof.
  unfold stable_node_chain_add_dup. intros H. minv H. cbn in *.
  split_and!; try done.
  - eexists. rewrite lookup_insert_eq. split; [done|]. split; [cbn; by left|].
    intros cn Hcn. cbn. destruct (decide (c = d)) as [->|Hne].
    + rewrite lookup_insert_eq in H1. injection H1 as <-. cbn. congruence.
    + rewrite lookup_insert_ne in H1 by done. congruence.
  - intros q nd Hq Hnd. rewrite lookup_insert_ne by done.
    destruct (decide (q = d)) as [->|Hne].
    + rewrite lookup_insert_eq. eexists. split; [done|].
      assert (n = nd) as -> by congruence. done.
    + rewrite lookup_insert_ne by done. exists nd. done.
Qed.

(** What [alloc_stable_node_chain] makes: a chain at the next free address,
    the other nodes keeping their page, their list and their counter. *)
Lemma alloc_stable_node_chain_Ok e orig s oc s' :
  alloc_stable_node_chain e orig s = Ok oc s' ->
  (oc = None /\ kmem_cache_alloc e (next_ptr s) = false /\ s' = s) \/
  (oc = Some (next_ptr s) /\ mem_map s' = mem_map s /\
   (exists cn, stable_nodes s' !! next_ptr s = Some cn /\ is_stable_node_chain cn = true) /\
   (forall q nd, q <> next_ptr s -> stable_nodes s !! q = Some nd ->
      exists nd', stable_nodes s' !! q = Some nd' /\
                  sn_kpfn nd' = sn_kpfn nd /\ sn_hlist nd' = sn_hlist nd /\
                  sn_rmap_hlist_len nd' = sn_rmap_hlist_len nd /\
                  (q <> orig -> nd' = nd))).
Proof.
  unfold alloc_stable_node_chain. intros H.
  apply bind_Ok in H as (o & s1 & Halloc & H).
  apply alloc_stable_node_Ok in Halloc as [(-> & Hno & ->)|(-> & Hyes & ->)].
  { apply ret_Ok in H as [<- <-]. by left. }
  right. set (c := next_ptr s) in *.
  apply bind_Ok in H as ([] & s2 & Hupd & H).
  apply stable_node_update_Ok in Hupd as (n0 & _ & ->). cbn in H.
  apply bind_Ok in H as ([] & s3 & Hadd & [<- <-]%ret_Ok).
  apply stable_node_chain_add_dup_Ok in Hadd as (Hm & _ & _ & (cn' & Hcn' & _ & Hlen) & Hq).
  cbn in *. split_and!; try done.
  - exists cn'. split; [done|]. unfold is_stable_node_chain.
    rewrite (Hlen _ (lookup_insert_eq _ _ _)). done.
  - intros q nd Hne Hnd.
    destruct (Hq q nd Hne) as (nd' & H1 & H2 & H3 & H4 & _ & H5).
    { by rewrite !lookup_insert_ne. }
    exists nd'. done.
Qed.

(** X20.  Whenever [stable_tree_insert] returns for a page that exists:
    a node it returns was allocated at the next free address, records the
    page with an empty list and a counter of [0], is what the page's
    mapping names, and is linked either into the stable tree or, as a dup,
    on the list of a chain; [get_ksm_page] on it then returns the page if a
    reference can be taken.  It returns [NULL] only when an allocation
    fails; if that is the allocation of the chain, the new node has been
    freed while the page's mapping still names it. *)
Theorem inserted_node_is_found_by_its_page budget e kpage s o s' :
  stable_tree_insert budget e kpage s = Ok o s' ->
  is_Some (mem_map s !! kpage) ->
  match o with
  | Some dup =>
      dup = next_ptr s /\ kmem_cache_alloc e dup = true /\
      page_mapping_of s' kpage = MAPPING_KSM (Some dup) /\
      (exists nd,
         stable_nodes s' !! dup = Some nd /\
         sn_kpfn nd = kpage /\ sn_hlist nd = [] /\ sn_rmap_hlist_len nd = 0 /\
         (sn_head nd = HEAD_RB_NODE /\ dup ∈ rb_inorder (root_stable_tree s') \/
          sn_head nd = STABLE_NODE_DUP_HEAD /\
          exists c cn, stable_nodes s' !! c = Some cn /\
                       is_stable_node_chain cn = true /\ dup ∈ sn_hlist cn)) /\
      (get_page_unless_zero e kpage = true ->
       get_ksm_page e dup GET_KSM_PAGE_NOLOCK s' = Ok (PAGE kpage) s')
  | None =>
      kmem_cache_alloc e (next_ptr s) = false \/
      (kmem_cache_alloc e (S (next_ptr s)) = false /\
       stable_nodes s' !! next_ptr s = None /\
       page_mapping_of s' kpage = MAPPING_KSM (Some (next_ptr s)))
  end.
Proof.
  unfold stable_tree_insert. intros H Hpage.
  apply bind_Ok in H as ([new need_chain] & s1 & Hwalk & H).
  destruct (stable_tree_insert_walk_keeps_pages _ _ _ _ _ _ _ Hwalk) as [Hmem Hptr].
  rewrite <- Hmem in Hpage. rewrite <- Hptr. clear Hmem Hptr.
  apply bind_Ok in H as (od & s2 & Halloc & H).
  apply alloc_stable_node_Ok in Halloc as [(-> & Hno & ->)|(-> & Hyes & ->)].
  { apply ret_Ok in H as [<- <-]. by left. }
  set (p := next_ptr s1) in *.
  apply bind_Ok in H as ([] & s3 & Hupd & H).
  apply stable_node_update_Ok in Hupd as (n0 & _ & ->). cbn in H.
  set (nd0 := mk_stable_node HEAD_RB_NODE [] kpage 0) in *.
  set (s4 := set_mem_map _ _) in H.
  assert (F1 : stable_nodes s4 !! p = Some nd0) by (cbn; apply lookup_insert_eq).
  assert (F2 : page_mapping_of s4 kpage = MAPPING_KSM (Some p))
    by (destruct Hpage as [pg Hpg]; unfold page_mapping_of; cbn;
        by rewrite lookup_alter_eq, Hpg).
  assert (F3 : root_stable_tree s4 = root_stable_tree s1) by done.
  assert (F4 : next_ptr s4 = S p) by done.
  clearbody s4.
  assert (Hfound : forall s' nd,
             stable_nodes s' !! p = Some nd -> sn_kpfn nd = kpage ->
             page_mapping_of s' kpage = MAPPING_KSM (Some p) ->
             get_page_unless_zero e kpage = true ->
             get_ksm_page e p GET_KSM_PAGE_NOLOCK s' = Ok (PAGE kpage) s').
  { intros s5 nd Hnd Hk Hm Hg. rewrite <- Hk. apply get_ksm_page_live; [done| |done].
    unfold dup_live. rewrite Hnd, Hk, Hm, Hg. by rewrite bool_decide_eq_true_2. }
  destruct need_chain as [sn|].
  - apply bind_Ok in H as (n & s0 & [Hn ->]%stable_node_at_Ok & H).
    apply bind_Ok in H as (oc & s5 & Hchain & H).
    assert (Hcase :
      (oc = None /\ s5 = s4 /\ kmem_cache_alloc e (S p) = false) \/
      (exists c ndp cn,
         oc = Some c /\ c <> p /\ mem_map s5 = mem_map s4 /\
         stable_nodes s5 !! p = Some ndp /\
         sn_kpfn ndp = kpage /\ sn_hlist ndp = [] /\ sn_rmap_hlist_len ndp = 0 /\
         stable_nodes s5 !! c = Some cn /\ is_stable_node_chain cn = true)).
    { destruct (is_stable_node_chain n) eqn:Hc; cbn [negb] in Hchain.
      - apply ret_Ok in Hchain as [<- <-]. right. exists sn, nd0, n.
        split_and!; try done. intros ->. rewrite F1 in Hn. injection Hn as <-. done.
      - apply alloc_stable_node_chain_Ok in Hchain
          as [(-> & Hno & ->)|(-> & Hm & (cn & Hcn & Hchain) & Hq)].
        + left. by rewrite <- F4.
        + right. rewrite F4 in *.
          destruct (Hq p nd0) as (ndp & Hp1 & Hp2 & Hp3 & Hp4 & _); [lia|done|].
          exists (S p), ndp, cn. split_and!; try done. }
    destruct Hcase as [(-> & -> & Hno)|(c & ndp & cn & -> & Hcp & Hm5 & Hp & Hk & Hl & Hlen & Hcn & Hch)].
    + unfold free_stable_node in H. minv H. right. split_and!; [done| |done].
      cbn. apply lookup_delete_eq.
    + apply bind_Ok in H as ([] & s6 & Hadd & [<- <-]%ret_Ok).
      apply stable_node_chain_add_dup_Ok in Hadd
        as (Hm6 & _ & _ & (cn' & Hcn' & Hin & Hlen') & Hq).
      destruct (Hq p ndp) as (nd' & Hp' & Hk' & Hl' & Hlen'' & Hhead & _); [done|done|].
      assert (Hmap : page_mapping_of s6 kpage = MAPPING_KSM (Some p)).
      { unfold page_mapping_of in *. by rewrite Hm6, Hm5. }
      split_and!; try done.
      * exists nd'. split_and!; try congruence. right. split; [by apply Hhead|].
        exists c, cn'. split_and!; try done.
        unfold is_stable_node_chain in *. by rewrite (Hlen' _ Hcn).
      * intros Hg. apply (Hfound _ nd'); try done. congruence.
  - minv H. split_and!; try done.
    + exists nd0. cbn. split_and!; try done. left. split; [done|].
      rewrite F3. apply rb_link_node_elem. by eapply stable_tree_insert_walk_link.
    + intros Hg. by apply (Hfound _ nd0).
Qed.

Lemma inserted_node_is_found_by_its_page_witness :
  let s := shared_page_and_newcomer in
  let s' := final_state ksm_init (stable_tree_insert 5 quiet 12 s) in
  2000%nat = next_ptr s /\ kmem_cache_alloc quiet 2000%nat = true /\
  page_mapping_of s' 12 = MAPPING_KSM (Some 2000%nat) /\
  (exists nd,
     stable_nodes s' !! 2000%nat = Some nd /\
     sn_kpfn nd = 12 /\ sn_hlist nd = [] /\ sn_rmap_hlist_len nd = 0 /\
     (sn_head nd = HEAD_RB_NODE /\ 2000%nat ∈ rb_inorder (root_stable_tree s') \/
      sn_head nd = STABLE_NODE_DUP_HEAD /\
      exists c cn, stable_nodes s' !! c = Some cn /\
                   is_stable_node_chain cn = true /\ 2000%nat ∈ sn_hlist cn)) /\
  (get_page_unless_zero quiet 12 = true ->
   get_ksm_page quiet 2000 GET_KSM_PAGE_NOLOCK s' = Ok (PAGE 12) s').
Proof.
  intros s s'.
  apply (inserted_node_is_found_by_its_page 5 quiet 12 s (Some 2000%nat) s').
  - vm_compute. reflexivity.
  - vm_compute. eauto.
Defined.

(** ** Releasing the removed slots *)

Lemma flush_loop_spec e :
  swapcache_settled e ->
  forall slots s,
    rmap_bookkeeping s -> Z.of_nat (size (rmap_items s)) < 2 ^ 31 ->
    0 <= ksm_rmap_items s < 2 ^ 64 ->
    NoDup slots -> Forall (slot_with_records s) slots ->
    NoDup (concat (slot_records s <$> slots)) ->
    exists s',
      lksm_flush_removed_mm_list_loop e slots s = Ok tt s' /\
      (forall slot, slot ∈ slots -> mm_slots s' !! slot = None) /\
      (forall slot, slot ∉ slots -> mm_slots s' !! slot = mm_slots s !! slot) /\
      (forall slot r, slot ∈ slots -> r ∈ slot_records s slot -> rmap_items s' !! r = None) /\
      (forall r, (forall slot, slot ∈ slots -> r ∉ slot_records s slot) ->
                 is_Some (rmap_items s' !! r) <-> is_Some (rmap_items s !! r)) /\
      ksm_rmap_items s' =
        wrap_ulong (ksm_rmap_items s
                    - Z.of_nat (length (concat (slot_records s <$> slots)))) /\
      rmap_bookkeeping s' /\
      ksm_scan_remove_mm_list s' = ksm_scan_remove_mm_list s /\
      ksm_mm_head s' = ksm_mm_head s.
Proof.
  intros Hw. induction slots as [|slot next IH]; intros s Hbk Hsz Hc Hnd Hready Hrec.
  - exists s. cbn. split_and!; try done.
    + intros slot Hin. by apply elem_of_nil in Hin.
    + intros slot r Hin. by apply elem_of_nil in Hin.
    + rewrite Z.sub_0_r. by rewrite wrap_ulong_small.
  - apply NoDup_cons in Hnd as [Hslot Hnd].
    apply Forall_cons in Hready as [(m & Hm & Hrs) Hready].
    cbn [fmap list_fmap concat] in Hrec. fold (fmap (slot_records s) next) in Hrec.
    assert (Hl : slot_records s slot = ms_rmap_list m) by (unfold slot_records; by rewrite Hm).
    rewrite Hl in Hrec. apply NoDup_app in Hrec as (Hndl & Hdisj & Hrec).
    destruct (remove_trailing_rmap_items_spec e (ms_rmap_list m) s) as
      (s2 & Hrun2 & Hin2 & Hout2 & Hcnt2 & Hbk2); try done.
    destruct (remove_trailing_rmap_items_frame e _ s s2 Hrun2)
      as (G1 & G2 & G3 & G4 & G5 & G6 & G7).
    assert (G8 : ksm_scan_remove_mm_list s2 = ksm_scan_remove_mm_list s).
    { revert Hrun2. apply (preserves_remove_trailing_rmap_items
                              (fun x => ksm_scan_remove_mm_list x = ksm_scan_remove_mm_list s));
        frame_trivial. }
    set (s3 := set_mm_slots (<[slot := ms_set_rmap_list [] m]> (mm_slots s2)) s2).
    set (s4 := set_mm_slots (delete slot (mm_slots s3)) s3).
    assert (K11 : forall x, x <> slot -> mm_slots s4 !! x = mm_slots s !! x).
    { intros x Hx. unfold s4, s3. cbn. by rewrite lookup_delete_ne, lookup_insert_ne, G1. }
    assert (K12 : mm_slots s4 !! slot = None) by (unfold s4; cbn; apply lookup_delete_eq).
    assert (Hsub : forall q, is_Some (rmap_items s2 !! q) -> is_Some (rmap_items s !! q)).
    { intros q Hq. destruct (decide (q ∈ ms_rmap_list m)) as [Hin|Hnin].
      - rewrite (Hin2 q Hin) in Hq. by destruct Hq.
      - by apply Hout2 in Hq. }
    assert (Hrecs : forall x, x ∈ next -> slot_records s4 x = slot_records s x).
    { intros x Hx. apply slot_records_same, K11. intros ->. done. }
    assert (Hmap : slot_records s4 <$> next = slot_records s <$> next).
    { apply list_fmap_ext. intros i x Hx. apply Hrecs. by apply list_elem_of_lookup_2 in Hx. }
    assert (Hnot : forall r x, r ∈ ms_rmap_list m -> x ∈ next -> r ∉ slot_records s x).
    { intros r x Hr Hx Hr'. apply (Hdisj r Hr). apply list_elem_of_In, in_concat.
      exists (slot_records s x). split; [|by apply list_elem_of_In].
      apply in_map_iff. exists x. split; [done|]. by apply list_elem_of_In. }
    destruct (IH s4) as (s' & Hrun & Hgone & Hslots & Hfreed & Hiff & Hcnt & Hbk' & Hrl & Hmh);
      try done.
    { by apply (rmap_bookkeeping_ext s2). }
    { assert (size (rmap_items s2) <= size (rmap_items s))%nat
        by (by apply fewer_records_smaller_size). cbn. lia. }
    { cbn. rewrite Hcnt2. unfold wrap_ulong. apply Z.mod_pos_bound. lia. }
    { rewrite Forall_forall in *. intros x Hx.
      destruct (Hready x Hx) as (mx & Hmx & Hrx).
      assert (Hxs : x <> slot) by (intros ->; done).
      exists mx. rewrite (K11 x Hxs). split; [done|].
      intros r Hr. cbn. apply Hout2; [|by apply Hrx].
      intros Hr'. apply (Hnot r x Hr' Hx). unfold slot_records. by rewrite Hmx. }
    { by rewrite Hmap. }
    exists s'. split_and!; try done.
    + cbn [lksm_flush_removed_mm_list_loop].
      apply bind_Ok. exists m, s. split; [by apply mm_slot_at_Ok|].
      apply bind_Ok. exists tt, s2. split; [exact Hrun2|].
      apply bind_Ok. exists tt, s3. split.
      { apply mm_slot_update_Ok. exists m. split; [by rewrite G1|reflexivity]. }
      apply bind_Ok. exists tt, s4. split; [reflexivity|exact Hrun].
    + intros x [->|Hx]%elem_of_cons; [|by apply Hgone].
      by rewrite (Hslots slot Hslot).
    + intros x Hx. apply not_elem_of_cons in Hx as [Hxs Hx].
      by rewrite (Hslots x Hx), (K11 x Hxs).
    + intros x r [->|Hx]%elem_of_cons Hr.
      * rewrite Hl in Hr.
        destruct (rmap_items s' !! r) eqn:E; [|done].
        assert (is_Some (rmap_items s4 !! r)).
        { apply Hiff; [|by rewrite E]. intros y Hy. rewrite (Hrecs y Hy). by apply Hnot. }
        cbn in H. rewrite (Hin2 r Hr) in H. by destruct H.
      * apply (Hfreed x r Hx). by rewrite (Hrecs x Hx).
    + intros r Hr. rewrite Hiff.
      * cbn. rewrite Hout2; [done|]. rewrite <- Hl. apply Hr. by left.
      * intros y Hy. rewrite (Hrecs y Hy). apply Hr. by right.
    + rewrite Hcnt. cbn [s4 s3 ksm_rmap_items set_mm_slots]. rewrite Hcnt2, Hmap, wrap_ulong_sub_l.
      f_equal. cbn [fmap list_fmap concat]. rewrite Hl, length_app. lia.
    + by rewrite Hrl.
    + by rewrite Hmh.
Qed.

Lemma flush_loop_snoc e x l :
  forall s s',
    lksm_flush_removed_mm_list_loop e (l ++ [x]) s = Ok tt s' ->
    (lksm_flush_removed_mm_list_loop e l;;
     do m <- mm_slot_at x;
     remove_trailing_rmap_items e (ms_rmap_list m);;
     mm_slot_update x (ms_set_rmap_list []);;
     free_mm_slot x) s = Ok tt s'.
Proof.
  induction l as [|y l IH]; intros s s' H.
  - cbn [app lksm_flush_removed_mm_list_loop] in H.
    apply bind_Ok in H as (m & s1 & Hm & H).
    apply bind_Ok in H as ([] & s2 & H2 & H).
    apply bind_Ok in H as ([] & s3 & H3 & H).
    apply bind_Ok in H as ([] & s4 & H4 & [_ <-]%ret_Ok).
    apply bind_Ok. exists tt, s. split; [done|].
    apply bind_Ok. exists m, s1. split; [done|].
    apply bind_Ok. exists tt, s2. split; [done|].
    apply bind_Ok. exists tt, s3. split; [done|done].
  - cbn [app lksm_flush_removed_mm_list_loop] in H.
    apply bind_Ok in H as (m & s1 & Hm & H).
    apply bind_Ok in H as ([] & s2 & H2 & H).
    apply bind_Ok in H as ([] & s3 & H3 & H).
    apply bind_Ok in H as ([] & s4 & H4 & H).
    apply IH in H. apply bind_Ok in H as ([] & s5 & H5 & H).
    apply bind_Ok. exists tt, s5. split; [|done].
    cbn [lksm_flush_removed_mm_list_loop].
    apply bind_Ok. exists m, s1. split; [done|].
    apply bind_Ok. exists tt, s2. split; [done|].
    apply bind_Ok. exists tt, s3. split; [done|].
    apply bind_Ok. exists tt, s4. split; [done|done].
Qed.

(** X21.  [lksm_flush_removed_mm_list], on a store whose counters are in
    step and whose list of removed slots holds distinct slots with distinct
    records that are all there: it returns with the list empty; every slot
    that was on the list and every record of such a slot has been freed, no
    other slot or record is touched, [ksm_rmap_items] has gone down by the
    number of records freed, and the counters are still in step. *)
Theorem removed_slots_are_released e s :
  swapcache_settled e ->
  rmap_bookkeeping s -> Z.of_nat (size (rmap_items s)) < 2 ^ 31 ->
  0 <= ksm_rmap_items s < 2 ^ 64 ->
  NoDup (ksm_scan_remove_mm_list s) ->
  Forall (slot_with_records s) (ksm_scan_remove_mm_list s) ->
  NoDup (concat (slot_records s <$> ksm_scan_remove_mm_list s)) ->
  exists s',
    lksm_flush_removed_mm_list e s = Ok tt s' /\
    ksm_scan_remove_mm_list s' = [] /\
    (forall slot, slot ∈ ksm_scan_remove_mm_list s -> mm_slots s' !! slot = None) /\
    (forall slot, slot ∉ ksm_scan_remove_mm_list s ->
                  mm_slots s' !! slot = mm_slots s !! slot) /\
    (forall slot r, slot ∈ ksm_scan_remove_mm_list s -> r ∈ slot_records s slot ->
                    rmap_items s' !! r = None) /\
    (forall r, (forall slot, slot ∈ ksm_scan_remove_mm_list s -> r ∉ slot_records s slot) ->
               is_Some (rmap_items s' !! r) <-> is_Some (rmap_items s !! r)) /\
    ksm_rmap_items s' =
      wrap_ulong (ksm_rmap_items s
                  - Z.of_nat (length (concat (slot_records s <$> ksm_scan_remove_mm_list s)))) /\
    rmap_bookkeeping s'.
Proof.
  intros Hw Hbk Hsz Hc Hnd Hready Hrec. unfold lksm_flush_removed_mm_list.
  destruct (ksm_scan_remove_mm_list s) as [|head rest] eqn:El.
  { exists s. split_and!; [|done| | | | | |done].
    - apply bind_Ok. exists s, s. split; [done|]. by rewrite El.
    - intros slot Hin. by apply elem_of_nil in Hin.
    - done.
    - intros slot r Hin. by apply elem_of_nil in Hin.
    - done.
    - cbn. rewrite Z.sub_0_r. by rewrite wrap_ulong_small. }
  set (s0 := set_ksm_scan_remove_mm_list [] s).
  assert (Hperm : rest ++ [head] ≡ₚ head :: rest) by (by rewrite Permutation_app_comm).
  assert (Hcperm : concat (slot_records s0 <$> rest ++ [head]) ≡ₚ
                   concat (slot_records s <$> head :: rest)).
  { rewrite fmap_app, concat_app. cbn. rewrite app_nil_r. apply Permutation_app_comm. }
  destruct (flush_loop_spec e Hw (rest ++ [head]) s0)
    as (s' & Hrun & Hgone & Hslots & Hfreed & Hiff & Hcnt & Hbk' & Hrl & _); try done.
  { by apply (rmap_bookkeeping_ext s). }
  { by rewrite Hperm. }
  { rewrite Hperm. done. }
  { by rewrite Hcperm. }
  exists s'. split_and!; try done.
  - apply bind_Ok. exists s, s. split; [done|]. rewrite El.
    apply bind_Ok. exists tt, s0. split; [done|].
    by apply flush_loop_snoc.
  - intros slot Hin. apply Hgone. by rewrite Hperm.
  - intros slot Hin. rewrite Hslots; [done|]. by rewrite Hperm.
  - intros slot r Hin Hr. apply (Hfreed slot r); [by rewrite Hperm|done].
  - intros r Hr. rewrite Hiff; [done|]. intros slot Hin. apply Hr. by rewrite <- Hperm.
  - rewrite Hcnt. cbn [s0 ksm_rmap_items set_ksm_scan_remove_mm_list]. by rewrite Hcperm.
Qed.

Lemma removed_slots_are_released_witness :
  exists s',
    lksm_flush_removed_mm_list quiet two_slots_removed = Ok tt s' /\
    ksm_scan_remove_mm_list s' = [] /\
    (forall slot, slot ∈ ksm_scan_remove_mm_list two_slots_removed ->
                  mm_slots s' !! slot = None) /\
    (forall slot, slot ∉ ksm_scan_remove_mm_list two_slots_removed ->
                  mm_slots s' !! slot = mm_slots two_slots_removed !! slot) /\
    (forall slot r, slot ∈ ksm_scan_remove_mm_list two_slots_removed ->
                    r ∈ slot_records two_slots_removed slot ->
                    rmap_items s' !! r = None) /\
    (forall r, (forall slot, slot ∈ ksm_scan_remove_mm_list two_slots_removed ->
                             r ∉ slot_records two_slots_removed slot) ->
               is_Some (rmap_items s' !! r) <->
               is_Some (rmap_items two_slots_removed !! r)) /\
    ksm_rmap_items s' =
      wrap_ulong (ksm_rmap_items two_slots_removed
                  - Z.of_nat (length (concat (slot_records two_slots_removed <$>
                                                ksm_scan_remove_mm_list two_slots_removed)))) /\
    rmap_bookkeeping s'.
Proof.
  apply (removed_slots_are_released quiet two_slots_removed).
  - exact quiet_swapcache_settled.
  - apply (rmap_bookkeeping_ext match_in_unstable_tree);
      [vm_compute; reflexivity|vm_compute; reflexivity|vm_compute; reflexivity
      |vm_compute; reflexivity|vm_compute; reflexivity|].
    exact match_in_unstable_tree_bookkeeping.
  - vm_compute. reflexivity.
  - vm_compute. split; [discriminate|reflexivity].
  - apply (bool_decide_unpack _). vm_compute. exact I.
  - apply Forall_cons. split; [|apply Forall_cons; split; [|by apply Forall_nil]].
    + eexists. split; [vm_compute; reflexivity|].
      intros r Hr. cbn in Hr. apply list_elem_of_singleton in Hr as ->. vm_compute. eauto.
    + eexists. split; [vm_compute; reflexivity|].
      intros r Hr. cbn in Hr. apply list_elem_of_singleton in Hr as ->. vm_compute. eauto.
  - apply (bool_decide_unpack _). vm_compute. exact I.
Defined.

(** ** Memory hot-remove *)

Lemma filter_not_in_app (g1 g2 l : list nat) :
  filter (fun y => y ∉ g2) (filter (fun y => y ∉ g1) l) = filter (fun y => y ∉ g1 ++ g2) l.
Proof.
  rewrite list_filter_filter. apply list_filter_iff.
  intros z. rewrite not_elem_of_app. tauto.
Qed.

Lemma only_removed_refl s : only_removed s s.
Proof.
  split_and!.
  - intros y nd Hy. exists nd. done.
  - apply kept_or_freed_refl.
  - intros _. exists []. by rewrite filter_not_in_nil_id.
  - done.
Qed.

Lemma only_removed_nodes_only_freed s s' : only_removed s s' -> nodes_only_freed s s'.
Proof.
  intros (H & _) x Hx. destruct (stable_nodes s' !! x) as [nd'|] eqn:E; [|done].
  destruct (H x nd' E) as (nd & Hnd & _). congruence.
Qed.

Lemma only_removed_trans s1 s2 s3 :
  only_removed s1 s2 -> only_removed s2 s3 -> only_removed s1 s3.
Proof.
  intros H12 H23. pose proof (only_removed_nodes_only_freed _ _ H23) as Hf.
  destruct H12 as (A1 & A2 & A3 & A4). destruct H23 as (B1 & B2 & B3 & B4).
  split_and!.
  - intros y nd3 Hy. destruct (B1 y nd3 Hy) as (nd2 & Hy2 & K1 & K2 & K3).
    destruct (A1 y nd2 Hy2) as (nd1 & Hy1 & L1 & L2 & L3).
    exists nd1. split_and!; [done|congruence|congruence|set_solver].
  - by apply (kept_or_freed_trans s1 s2 s3).
  - intros Hnd. destruct (A3 Hnd) as [g1 E1].
    destruct B3 as [g2 E2]. { rewrite E1. by apply NoDup_filter. }
    exists (g1 ++ g2). by rewrite E2, E1, filter_not_in_app.
  - set_solver.
Qed.

Lemma remove_node_from_stable_tree_only_removed n s s' :
  remove_node_from_stable_tree n s = Ok tt s' -> only_removed s s'.
Proof.
  intros H. pose proof (remove_node_from_stable_tree_migrate n s s' H) as Hmig.
  destruct (remove_node_from_stable_tree_removal n s s' H) as (_ & _ & Hk & _).
  apply remove_node_from_stable_tree_Ok in H as (nd & Hn & _ & Hs & Hroot & _).
  split_and!; [| done | |].
  - intros y nd' Hy. rewrite Hs in Hy. apply lookup_delete_Some in Hy as [Hne Hy].
    destruct (is_stable_node_dup nd).
    + unfold hlist_del_dup in Hy. cbn in Hy. rewrite lookup_fmap in Hy.
      destruct (stable_nodes s !! y) as [ndy|] eqn:Ey; [|done].
      cbn in Hy. injection Hy as <-. exists ndy. split; [done|].
      destruct (is_stable_node_chain ndy); cbn; split_and!; try done.
      intros z Hz. by apply hlist_del_elem in Hz as [_ Hz].
    + exists nd'. done.
  - intros Hnd. rewrite Hroot. destruct (_ || _).
    + exists []. by rewrite filter_not_in_nil_id.
    + exists [n]. rewrite (rb_inorder_erase _ _ Hnd).
      by rewrite <- (hlist_del_filter_not_in n []), filter_not_in_nil_id.
  - destruct Hmig as [->| ->]; [done|]. intros z Hz. by apply hlist_del_elem in Hz as [_ Hz].
Qed.

Lemma range_pruned_only_removed a b s s' y :
  only_removed s s' -> range_pruned a b s y -> range_pruned a b s' y.
Proof.
  intros (H & _) Hp nd' Hy. destruct (H y nd' Hy) as (nd & Hnd & K1 & K2 & K3).
  specialize (Hp nd Hnd). unfold is_stable_node_chain, kpfn_in_range in *. rewrite K2, K1.
  destruct (sn_rmap_hlist_len nd =? STABLE_NODE_CHAIN); [|done].
  intros d ndd' Hd Hdd. destruct (H d ndd' Hdd) as (ndd & Hndd & M1 & _).
  rewrite M1. apply (Hp d ndd); [by apply K3|done].
Qed.

Lemma stable_node_dup_remove_range_Ok n a b s r s' :
  stable_node_dup_remove_range n a b s = Ok r s' ->
  only_removed s s' /\
  (r = false -> s' = s /\ exists nd, stable_nodes s !! n = Some nd /\ ~ kpfn_in_range a b nd) /\
  (r = true -> stable_nodes s' !! n = None).
Proof.
  unfold stable_node_dup_remove_range. intros H.
  apply bind_Ok in H as (nd & s0 & [Hn ->]%stable_node_at_Ok & H).
  destruct (Z.leb_spec a (sn_kpfn nd)) as [H1|H1]; cbn [andb] in H;
    [destruct (Z.ltb_spec (sn_kpfn nd) b) as [H2|H2]|].
  - apply bind_Ok in H as ([] & s1 & Hrm & [<- <-]%ret_Ok).
    split_and!; [by eapply remove_node_from_stable_tree_only_removed|done|].
    intros _. by eapply remove_node_from_stable_tree_gone.
  - apply ret_Ok in H as [<- <-]. split_and!; [apply only_removed_refl| |done].
    intros _. split; [done|]. exists nd. split; [done|]. unfold kpfn_in_range. lia.
  - apply ret_Ok in H as [<- <-]. split_and!; [apply only_removed_refl| |done].
    intros _. split; [done|]. exists nd. split; [done|]. unfold kpfn_in_range. lia.
Qed.

Lemma out_of_range_only_removed a b s s' d :
  only_removed s s' ->
  (forall nd, stable_nodes s !! d = Some nd -> ~ kpfn_in_range a b nd) ->
  forall nd', stable_nodes s' !! d = Some nd' -> ~ kpfn_in_range a b nd'.
Proof.
  intros (H & _) Hp nd' Hd. destruct (H d nd' Hd) as (nd & Hnd & K1 & _).
  unfold kpfn_in_range in *. rewrite K1. by apply Hp.
Qed.

Lemma stable_node_chain_remove_range_loop_Ok a b dups :
  forall s s',
    stable_node_chain_remove_range_loop dups a b s = Ok tt s' ->
    only_removed s s' /\
    forall d nd, d ∈ dups -> stable_nodes s' !! d = Some nd -> ~ kpfn_in_range a b nd.
Proof.
  induction dups as [|d dups IH]; intros s s' H; cbn [stable_node_chain_remove_range_loop] in H.
  - apply ret_Ok in H as [_ <-]. split; [apply only_removed_refl|].
    intros d nd Hd. by apply elem_of_nil in Hd.
  - apply bind_Ok in H as (r & s1 & H1 & H).
    apply stable_node_dup_remove_range_Ok in H1 as (Ho1 & Hfalse & Htrue).
    destruct (IH _ _ H) as (Ho & Hall).
    split; [by apply (only_removed_trans s s1 s')|].
    intros x nd [->|Hx]%elem_of_cons Hnd; [|by apply (Hall x)].
    revert nd Hnd. apply (out_of_range_only_removed a b s1 s' d Ho).
    intros nd1 Hnd1. destruct r.
    + rewrite (Htrue eq_refl) in Hnd1. done.
    + destruct (Hfalse eq_refl) as (-> & nd0 & Hnd0 & Hout). congruence.
Qed.

Lemma free_stable_node_chain_only_removed n s s' :
  free_stable_node_chain n s = Ok tt s' -> only_removed s s'.
Proof.
  unfold free_stable_node_chain, free_stable_node. intros H. minv H. cbn.
  split_and!.
  - intros y nd'. cbn. intros Hy. apply lookup_delete_Some in Hy as [_ Hy]. exists nd'. done.
  - intros y. cbn. destruct (decide (y = n)) as [->|Hne].
    { split; intros _; right; apply lookup_delete_eq. }
    split; intros Hy; left; [by apply rb_erase_keeps|done].
  - cbn. intros Hnd. exists [n]. rewrite (rb_inorder_erase _ _ Hnd).
    by rewrite <- (hlist_del_filter_not_in n []), filter_not_in_nil_id.
  - done.
Qed.

Lemma stable_node_chain_remove_range_Ok n a b s r s' :
  stable_node_chain_remove_range n a b s = Ok r s' ->
  only_removed s s' /\
  (r = false ->
   range_pruned a b s' n /\
   (n ∈ rb_inorder (root_stable_tree s) -> n ∈ rb_inorder (root_stable_tree s'))).
Proof.
  unfold stable_node_chain_remove_range. intros H.
  apply bind_Ok in H as (nd & s0 & [Hn ->]%stable_node_at_Ok & H).
  destruct (is_stable_node_chain nd) eqn:Hc; cbn [negb] in H.
  - apply bind_Ok in H as ([] & s1 & Hloop & H).
    apply stable_node_chain_remove_range_loop_Ok in Hloop as (Ho1 & Hall).
    apply bind_Ok in H as (nd1 & s2 & [Hn1 ->]%stable_node_at_Ok & H).
    destruct (sn_hlist nd1) as [|d0 l0] eqn:El.
    + apply bind_Ok in H as ([] & s2 & Hfree & [<- <-]%ret_Ok).
      split; [|done]. apply (only_removed_trans s s1 s2); [done|].
      by apply (free_stable_node_chain_only_removed n).
    + apply ret_Ok in H as [<- <-]. split; [done|]. intros _. split.
      * intros nd1' Hn1'. assert (nd1' = nd1) as -> by congruence.
        destruct Ho1 as (Hsh & _). destruct (Hsh n nd1 Hn1) as (nd0 & Hnd0 & K1 & K2 & K3).
        assert (nd0 = nd) as -> by congruence.
        unfold is_stable_node_chain in *. rewrite K2, Hc.
        intros d ndd Hd Hdd. apply (Hall d ndd); [by apply K3|done].
      * intros Hin. destruct Ho1 as (_ & Hk & _).
        destruct (proj1 (Hk n) Hin) as [Hin'|Hgone]; [done|congruence].
  - apply stable_node_dup_remove_range_Ok in H as (Ho & Hfalse & _).
    split; [done|]. intros ->. destruct (Hfalse eq_refl) as (-> & nd0 & Hnd0 & Hout).
    split; [|done]. intros nd' Hn'. assert (nd' = nd) as -> by congruence.
    assert (nd0 = nd) as -> by congruence. by rewrite Hc.
Qed.

Lemma list_after_split (n : nat) p q : n ∉ p -> list_after n (p ++ n :: q) = q.
Proof.
  induction p as [|x p IH]; intros Hn; cbn.
  - by destruct (decide (n = n)).
  - apply not_elem_of_cons in Hn as [Hne Hn].
    destruct (decide (x = n)) as [->|_]; [done|]. by apply IH.
Qed.

Lemma rb_first_head t : rb_first t = head (rb_inorder t).
Proof.
  unfold rb_first. destruct (rb_leftmost t) as [x|] eqn:E.
  - by rewrite (rb_leftmost_inorder t x E).
  - by rewrite (rb_leftmost_None t E).
Qed.

(** The cursor of [ksm_check_stable_tree] leaves behind it only entries
    that name no frame of the range. *)
Lemma ksm_check_stable_tree_loop_Ok a b budget :
  forall node s s',
    ksm_check_stable_tree_loop budget a b node s = Ok tt s' ->
    NoDup (rb_inorder (root_stable_tree s)) ->
    (exists passed rest,
       rb_inorder (root_stable_tree s) = passed ++ rest /\ head rest = node /\
       forall y, y ∈ passed -> range_pruned a b s y) ->
    only_removed s s' /\
    forall y, y ∈ rb_inorder (root_stable_tree s') -> range_pruned a b s' y.
Proof.
  induction budget as [|budget IH]; intros node s s' H Hnd (passed & rest & Hsplit & Hhead & Hp);
    cbn [ksm_check_stable_tree_loop] in H; [done|].
  destruct node as [n|].
  - destruct rest as [|n' rest]; [done|]. injection Hhead as ->.
    apply bind_Ok in H as (r & s1 & Hop & H).
    apply bind_Ok in H as (s0 & s2 & [-> ->]%get_Ok & H).
    apply stable_node_chain_remove_range_Ok in Hop as (Ho & Hfalse).
    destruct (proj1 (proj2 (proj2 Ho)) Hnd) as [gone Hg].
    assert (Hnd1 : NoDup (rb_inorder (root_stable_tree s1))).
    { rewrite Hg. by apply NoDup_filter. }
    assert (Hinv : exists passed' rest',
               rb_inorder (root_stable_tree s1) = passed' ++ rest' /\
               head rest' = (if r then rb_first (root_stable_tree s1)
                             else rb_next n (root_stable_tree s1)) /\
               forall y, y ∈ passed' -> range_pruned a b s1 y).
    { destruct r.
      - exists [], (rb_inorder (root_stable_tree s1)). split_and!; [done| |].
        + by rewrite rb_first_head.
        + intros y Hy. by apply elem_of_nil in Hy.
      - destruct (Hfalse eq_refl) as [Hpn Hin].
        assert (Hn1 : n ∈ rb_inorder (root_stable_tree s1)).
        { apply Hin. rewrite Hsplit. apply elem_of_app. right. by left. }
        assert (Hng : n ∉ gone).
        { rewrite Hg in Hn1. by apply list_elem_of_filter in Hn1 as [? _]. }
        assert (Hnp : n ∉ passed).
        { rewrite Hsplit in Hnd. apply NoDup_app in Hnd as (_ & Hd & _).
          intros Hin'. apply (Hd n Hin'). by left. }
        assert (E : rb_inorder (root_stable_tree s1) =
                    filter (fun y => y ∉ gone) passed ++ n :: filter (fun y => y ∉ gone) rest).
        { rewrite Hg, Hsplit, filter_app. by rewrite filter_cons_True. }
        exists (filter (fun y => y ∉ gone) passed ++ [n]), (filter (fun y => y ∉ gone) rest).
        split_and!.
        + rewrite E, <- app_assoc. done.
        + unfold rb_next. rewrite E, list_after_split; [done|].
          intros Hin'. by apply list_elem_of_filter in Hin' as [_ ?].
        + intros y [Hy| ->%list_elem_of_singleton]%elem_of_app; [|done].
          apply list_elem_of_filter in Hy as [_ Hy].
          apply (range_pruned_only_removed a b s s1 y Ho). by apply Hp. }
    destruct (IH _ _ _ H Hnd1 Hinv) as [Ho' Hall].
    split; [by apply (only_removed_trans s s1 s')|done].
  - apply ret_Ok in H as [_ <-]. split; [apply only_removed_refl|].
    destruct rest; [|done]. rewrite Hsplit, app_nil_r. done.
Qed.

Lemma ksm_check_stable_tree_migrate_Ok a b nodes :
  forall s s',
    ksm_check_stable_tree_migrate nodes a b s = Ok tt s' ->
    only_removed s s' /\
    forall y nd, y ∈ nodes -> stable_nodes s' !! y = Some nd -> ~ kpfn_in_range a b nd.
Proof.
  induction nodes as [|n nodes IH]; intros s s' H; cbn [ksm_check_stable_tree_migrate] in H.
  - apply ret_Ok in H as [_ <-]. split; [apply only_removed_refl|].
    intros y nd Hy. by apply elem_of_nil in Hy.
  - apply bind_Ok in H as (nd & s0 & [Hn ->]%stable_node_at_Ok & H).
    apply bind_Ok in H as ([] & s1 & Hrm & H).
    destruct (IH _ _ H) as (Ho & Hall).
    assert (Ho1 : only_removed s s1 /\
                  forall nd1, stable_nodes s1 !! n = Some nd1 -> ~ kpfn_in_range a b nd1).
    { destruct (Z.leb_spec a (sn_kpfn nd)) as [H1|H1]; cbn [andb] in Hrm;
        [destruct (Z.ltb_spec (sn_kpfn nd) b) as [H2|H2]|].
      - split; [by eapply remove_node_from_stable_tree_only_removed|].
        intros nd1. by rewrite (remove_node_from_stable_tree_gone n s s1 Hrm).
      - apply ret_Ok in Hrm as [_ <-]. split; [apply only_removed_refl|].
        intros nd1 Hnd1. assert (nd1 = nd) as -> by congruence. unfold kpfn_in_range. lia.
      - apply ret_Ok in Hrm as [_ <-]. split; [apply only_removed_refl|].
        intros nd1 Hnd1. assert (nd1 = nd) as -> by congruence. unfold kpfn_in_range. lia. }
    destruct Ho1 as [Ho1 Hout].
    split; [by apply (only_removed_trans s s1 s')|].
    intros y ndy [->|Hy]%elem_of_cons Hndy; [|by apply (Hall y)].
    by apply (out_of_range_only_removed a b s1 s' n Ho Hout).
Qed.

(** What [ksm_check_stable_tree] leaves in the tree and on the migrate list. *)
Lemma ksm_check_stable_tree_Ok budget start_pfn end_pfn s s' :
  ksm_check_stable_tree budget start_pfn end_pfn s = Ok tt s' ->
  NoDup (rb_inorder (root_stable_tree s)) ->
  (forall y, y ∈ rb_inorder (root_stable_tree s') -> range_pruned start_pfn end_pfn s' y) /\
  (forall y nd, y ∈ migrate_nodes s' -> stable_nodes s' !! y = Some nd ->
                ~ kpfn_in_range start_pfn end_pfn nd) /\
  only_removed s s'.
Proof.
  unfold ksm_check_stable_tree. intros H Hnd.
  apply bind_Ok in H as (s0 & s1 & [-> ->]%get_Ok & H).
  apply bind_Ok in H as ([] & s1 & Hloop & H).
  apply bind_Ok in H as (s0 & s2 & [-> ->]%get_Ok & H).
  apply ksm_check_stable_tree_loop_Ok in Hloop as [Ho1 Hall1]; [|done|].
  - apply ksm_check_stable_tree_migrate_Ok in H as [Ho2 Hall2].
    pose proof (only_removed_trans _ _ _ Ho1 Ho2) as Ho.
    assert (Hnd1 : NoDup (rb_inorder (root_stable_tree s1))).
    { destruct (proj1 (proj2 (proj2 Ho1)) Hnd) as [g ->]. by apply NoDup_filter. }
    split_and!; [| |done].
    + intros y Hy. apply (range_pruned_only_removed _ _ s1 s' y Ho2). apply Hall1.
      destruct (proj1 (proj2 (proj2 Ho2)) Hnd1) as [g Hg]. rewrite Hg in Hy.
      by apply list_elem_of_filter in Hy as [_ ?].
    + intros y nd Hy. apply Hall2. by apply (proj2 (proj2 (proj2 Ho2))).
  - exists [], (rb_inorder (root_stable_tree s)). split_and!; [done| |].
    + by rewrite rb_first_head.
    + intros y Hy. by apply elem_of_nil in Hy.
Qed.

(** X22.  Whenever [ksm_check_stable_tree] returns on a stable tree without
    repeated entries: no entry left in the tree names a frame of the range
    (a node by its page, a chain by the pages of its dups), and neither does
    a node left on the migrate list; nodes were only removed, so every node
    that is left has the page and the counter it had. *)
Theorem offlined_frames_leave_the_stable_tree budget start_pfn end_pfn s s' :
  ksm_check_stable_tree budget start_pfn end_pfn s = Ok tt s' ->
  NoDup (rb_inorder (root_stable_tree s)) ->
  (forall y, y ∈ rb_inorder (root_stable_tree s') -> range_pruned start_pfn end_pfn s' y) /\
  (forall y nd, y ∈ migrate_nodes s' -> stable_nodes s' !! y = Some nd ->
                ~ kpfn_in_range start_pfn end_pfn nd) /\
  only_removed s s'.
Proof.
  unfold ksm_check_stable_tree. intros H Hnd.
  apply bind_Ok in H as (s0 & s1 & [-> ->]%get_Ok & H).
  apply bind_Ok in H as ([] & s1 & Hloop & H).
  apply bind_Ok in H as (s0 & s2 & [-> ->]%get_Ok & H).
  apply ksm_check_stable_tree_loop_Ok in Hloop as [Ho1 Hall1]; [|done|].
  - apply ksm_check_stable_tree_migrate_Ok in H as [Ho2 Hall2].
    pose proof (only_removed_trans _ _ _ Ho1 Ho2) as Ho.
    assert (Hnd1 : NoDup (rb_inorder (root_stable_tree s1))).
    { destruct (proj1 (proj2 (proj2 Ho1)) Hnd) as [g ->]. by apply NoDup_filter. }
    split_and!; [| |done].
    + intros y Hy. apply (range_pruned_only_removed _ _ s1 s' y Ho2). apply Hall1.
      destruct (proj1 (proj2 (proj2 Ho2)) Hnd1) as [g Hg]. rewrite Hg in Hy.
      by apply list_elem_of_filter in Hy as [_ ?].
    + intros y nd Hy. apply Hall2. by apply (proj2 (proj2 (proj2 Ho2))).
  - exists [], (rb_inorder (root_stable_tree s)). split_and!; [done| |].
    + by rewrite rb_first_head.
    + intros y Hy. by apply elem_of_nil in Hy.
Qed.

Lemma offlined_frames_leave_the_stable_tree_witness :
  let s' := final_state ksm_init (ksm_check_stable_tree 5 11 12 chain_of_two) in
  (forall y, y ∈ rb_inorder (root_stable_tree s') -> range_pruned 11 12 s' y) /\
  (forall y nd, y ∈ migrate_nodes s' -> stable_nodes s' !! y = Some nd ->
                ~ kpfn_in_range 11 12 nd) /\
  only_removed chain_of_two s'.
Proof.
  intros s'. apply (offlined_frames_leave_the_stable_tree 5 11 12 chain_of_two s').
  - vm_compute. reflexivity.
  - apply (bool_decide_unpack _). vm_compute. exact I.
Defined.

Section HotRemoveFrame.
Variable P : ksm -> Prop.

Hypothesis P_root_stable_tree : forall v s, P s -> P (set_root_stable_tree v s).
Hypothesis P_stable_nodes : forall v s, P s -> P (set_stable_nodes v s).
Hypothesis P_ksm_stable_node_chains : forall v s, P s -> P (set_ksm_stable_node_chains v s).
Hypothesis P_remove_node : forall n, preserves P (remove_node_from_stable_tree n).

Lemma offline_stable_node_dup_remove_range n a b :
  preserves P (stable_node_dup_remove_range n a b).
Proof. unfold stable_node_dup_remove_range. pframe. Qed.

Lemma offline_stable_node_chain_remove_range_loop dups a b :
  preserves P (stable_node_chain_remove_range_loop dups a b).
Proof.
  assert (H := offline_stable_node_dup_remove_range).
  induction dups as [|d dups IH]; cbn [stable_node_chain_remove_range_loop]; pframe.
Qed.

Lemma offline_stable_node_chain_remove_range n a b :
  preserves P (stable_node_chain_remove_range n a b).
Proof.
  assert (H1 := offline_stable_node_dup_remove_range).
  assert (H2 := offline_stable_node_chain_remove_range_loop).
  unfold stable_node_chain_remove_range, free_stable_node_chain, free_stable_node. pframe.
Qed.

Lemma offline_ksm_check_stable_tree_loop budget a b :
  forall node, preserves P (ksm_check_stable_tree_loop budget a b node).
Proof.
  assert (H := offline_stable_node_chain_remove_range).
  induction budget as [|budget IH]; intros node; cbn [ksm_check_stable_tree_loop]; pframe.
Qed.

Lemma offline_ksm_check_stable_tree_migrate nodes a b :
  preserves P (ksm_check_stable_tree_migrate nodes a b).
Proof.
  induction nodes as [|n nodes IH]; cbn [ksm_check_stable_tree_migrate]; pframe.
Qed.

Lemma offline_ksm_check_stable_tree budget a b :
  preserves P (ksm_check_stable_tree budget a b).
Proof.
  assert (H1 := offline_ksm_check_stable_tree_loop).
  assert (H2 := offline_ksm_check_stable_tree_migrate).
  unfold ksm_check_stable_tree. pframe.
Qed.

End HotRemoveFrame.

Lemma ksm_check_stable_tree_keeps_run budget a b c :
  preserves (fun x => ksm_run x = c) (ksm_check_stable_tree budget a b).
Proof.
  apply offline_ksm_check_stable_tree; try (frame_trivial; fail).
  intros n. apply preserves_remove_node_from_stable_tree; frame_trivial.
Qed.

Lemma land_offline_bit x :
  Z.land x KSM_RUN_OFFLINE = if Z.testbit x 2 then KSM_RUN_OFFLINE else 0.
Proof.
  apply Z.bits_inj'. intros i Hi. rewrite Z.land_spec.
  change KSM_RUN_OFFLINE with (2 ^ 2). rewrite Z.pow2_bits_eqb by lia.
  destruct (Z.eqb_spec 2 i) as [<-|Hne].
  - destruct (Z.testbit x 2); [|by rewrite Z.bits_0]. by rewrite Z.pow2_bits_eqb.
  - rewrite andb_false_r. destruct (Z.testbit x 2); [|by rewrite Z.bits_0].
    rewrite Z.pow2_bits_eqb by lia. by destruct (Z.eqb_spec 2 i).
Qed.

Lemma test_offline_bit x : test_bits x KSM_RUN_OFFLINE = Z.testbit x 2.
Proof. unfold test_bits. rewrite land_offline_bit. by destruct (Z.testbit x 2). Qed.

Lemma set_offline_bit x i :
  0 <= i ->
  Z.testbit (Z.lor x KSM_RUN_OFFLINE) i = if i =? 2 then true else Z.testbit x i.
Proof.
  intros Hi. rewrite Z.lor_spec. change KSM_RUN_OFFLINE with (2 ^ 2).
  rewrite Z.pow2_bits_eqb by lia. rewrite (Z.eqb_sym 2 i).
  destruct (i =? 2); [apply orb_true_r|apply orb_false_r].
Qed.

Lemma clear_offline_bit x i :
  0 <= i ->
  Z.testbit (clear_bits x KSM_RUN_OFFLINE) i = if i =? 2 then false else Z.testbit x i.
Proof.
  intros Hi. unfold clear_bits. rewrite Z.land_spec, Z.lnot_spec by done.
  change KSM_RUN_OFFLINE with (2 ^ 2).
  rewrite Z.pow2_bits_eqb by lia. rewrite (Z.eqb_sym 2 i).
  destruct (i =? 2); cbn; [apply andb_false_r|apply andb_true_r].
Qed.

(** X23.  Whenever [ksm_memory_callback] returns, it returns [NOTIFY_OK]
    and has changed no bit of [ksm_run] but [KSM_RUN_OFFLINE]:
    [MEM_GOING_OFFLINE] sets that bit and [MEM_CANCEL_OFFLINE] clears it,
    with nothing else changed; [MEM_OFFLINE] clears it after pruning the
    stable tree and the migrate list of the nodes whose frame lies in the
    notified range; any other action changes nothing. *)
Theorem memory_callback_toggles_the_offline_bit budget action start_pfn nr_pages s r s' :
  ksm_memory_callback budget action start_pfn nr_pages s = Ok r s' ->
  r = NOTIFY_OK /\
  (forall i, 0 <= i -> i <> 2 -> Z.testbit (ksm_run s') i = Z.testbit (ksm_run s) i) /\
  match action with
  | MEM_GOING_OFFLINE =>
      test_bits (ksm_run s') KSM_RUN_OFFLINE = true /\ s' = set_ksm_run (ksm_run s') s
  | MEM_CANCEL_OFFLINE =>
      test_bits (ksm_run s') KSM_RUN_OFFLINE = false /\ s' = set_ksm_run (ksm_run s') s
  | MEM_OFFLINE =>
      test_bits (ksm_run s') KSM_RUN_OFFLINE = false /\
      (NoDup (rb_inorder (root_stable_tree s)) ->
       let end_pfn := wrap_ulong (start_pfn + nr_pages) in
       (forall y, y ∈ rb_inorder (root_stable_tree s') ->
                  range_pruned start_pfn end_pfn s' y) /\
       (forall y nd, y ∈ migrate_nodes s' -> stable_nodes s' !! y = Some nd ->
                     ~ kpfn_in_range start_pfn end_pfn nd))
  | MEM_OTHER => s' = s
  end.
Proof.
  unfold ksm_memory_callback. intros H. destruct action.
  - minv H. cbn. split_and!; try done.
    + intros i Hi Hne. rewrite set_offline_bit by done. by destruct (Z.eqb_spec i 2).
    + by rewrite test_offline_bit, set_offline_bit.
  - apply bind_Ok in H as ([] & s1 & Hcheck & H). minv H. cbn.
    assert (Hrun : ksm_run s1 = ksm_run s).
    { revert Hcheck. by apply (ksm_check_stable_tree_keeps_run budget _ _ (ksm_run s)). }
    rewrite Hrun. split_and!; try done.
    + intros i Hi Hne. rewrite clear_offline_bit by done. by destruct (Z.eqb_spec i 2).
    + by rewrite test_offline_bit, clear_offline_bit.
    + intros Hnd.
      destruct (ksm_check_stable_tree_Ok budget start_pfn
                  (wrap_ulong (start_pfn + nr_pages)) s s1 Hcheck Hnd) as (H1 & H2 & _).
      split; [intros y Hy|intros y nd Hy Hnd'].
      * intros nd Hnd'. apply (H1 y Hy nd Hnd').
      * by apply (H2 y nd).
  - minv H. cbn. split_and!; try done.
    + intros i Hi Hne. rewrite clear_offline_bit by done. by destruct (Z.eqb_spec i 2).
    + by rewrite test_offline_bit, clear_offline_bit.
  - apply ret_Ok in H as [<- <-]. done.
Qed.

Lemma memory_callback_toggles_the_offline_bit_witness :
  let s := chain_before_offline in
  let s' := final_state ksm_init (ksm_memory_callback 5 MEM_OFFLINE 11 1 s) in
  NOTIFY_OK = NOTIFY_OK /\
  (forall i, 0 <= i -> i <> 2 -> Z.testbit (ksm_run s') i = Z.testbit (ksm_run s) i) /\
  test_bits (ksm_run s') KSM_RUN_OFFLINE = false /\
  (NoDup (rb_inorder (root_stable_tree s)) ->
   let end_pfn := wrap_ulong (11 + 1) in
   (forall y, y ∈ rb_inorder (root_stable_tree s') -> range_pruned 11 end_pfn s' y) /\
   (forall y nd, y ∈ migrate_nodes s' -> stable_nodes s' !! y = Some nd ->
                 ~ kpfn_in_range 11 end_pfn nd)).
Proof.
  intros s s'.
  apply (memory_callback_toggles_the_offline_bit 5 MEM_OFFLINE 11 1 s NOTIFY_OK s').
  vm_compute. reflexivity.
Defined.

(** ** The rank tree and the vips of a partial scan (C8) *)

Lemma mm_slot_update_run p f s m :
  mm_slots s !! p = Some m ->
  mm_slot_update p f s = Ok tt (set_mm_slots (<[p := f m]> (mm_slots s)) s).
Proof. intros H. apply mm_slot_update_Ok. eauto. Qed.

Lemma lksm_remove_mm_slot_total slot s m :
  mm_slots s !! slot = Some m -> exists s', lksm_remove_mm_slot slot s = Ok tt s'.
Proof.
  intros Hm. unfold lksm_remove_mm_slot.
  rewrite (bind_run _ _ s m s) by (by apply mm_slot_at_Ok).
  unfold modify at 1. unfold bind at 1. unfold modify at 1. unfold bind at 1.
  unfold modify at 1. unfold bind at 1.
  destruct (ms_ordered m); [|eauto].
  unfold modify at 1. unfold bind at 1.
  erewrite mm_slot_update_run by exact Hm. eauto.
Qed.

(** The walk over the rank tree, entry by entry: which entries it passes,
    which of them it takes, and where it stops.  [s0] is the state the walk
    started in; the entries still ahead are as they were then. *)
Lemma partial_scan_loop_picks e na nf s0 nodes :
  forall n0 rl0 s,
    0 <= na -> 0 <= nf -> 0 <= n0 ->
    n0 + na + nf + Z.of_nat (length nodes) <= INT_MAX ->
    NoDup nodes ->
    (forall x, x ∈ nodes ->
       exists m, mm_slots s0 !! x = Some m /\ is_Some (mm_structs s0 !! ms_mm m) /\
                 ms_ordered m = true) ->
    (forall x, x ∈ nodes -> mm_slots s !! x = mm_slots s0 !! x) ->
    mm_structs s = mm_structs s0 ->
    lksm_max_vips s = lksm_max_vips s0 ->
    test_bits (ksm_run s) KSM_RUN_UNMERGE = false ->
    exists walked rest s',
      nodes = walked ++ rest /\
      Forall (fun x => slot_exited s0 x = false) walked /\
      lksm_prepare_partial_scan_loop e na nf nodes n0 rl0 s
        = Ok (Some (n0 + Z.of_nat (length (filter (fun x => slot_wanted e s0 x = true) walked)),
                    rl0 ++ filter (fun x => slot_wanted e s0 x = true) walked)) s' /\
      (rest = [] \/
       lksm_max_vips s0 <=
         n0 + Z.of_nat (length (filter (fun x => slot_wanted e s0 x = true) walked))
         + na + nf \/
       exists x rest', rest = x :: rest' /\ slot_exited s0 x = true).
Proof.
  induction nodes as [|x nodes IH];
    intros n0 rl0 s Hna Hnf Hn0 Hrange Hnd Hall Hagree Hmms Hmax Hrun.
  - exists [], [], s. cbn. rewrite Z.add_0_r, app_nil_r. split_and!; auto.
  - cbn [length] in Hrange. apply NoDup_cons in Hnd as [Hx Hnd].
    destruct (Hall x ltac:(by left)) as (m & Hm0 & [mm Hmm0] & Hord).
    assert (Hm : mm_slots s !! x = Some m) by (rewrite Hagree; [done|by left]).
    assert (Hmm : mm_structs s !! ms_mm m = Some mm) by by rewrite Hmms.
    assert (Hall' : forall y, y ∈ nodes ->
              exists m, mm_slots s0 !! y = Some m /\ is_Some (mm_structs s0 !! ms_mm m) /\
                        ms_ordered m = true).
    { intros y Hy. apply Hall. by right. }
    cbn [lksm_prepare_partial_scan_loop].
    rewrite (bind_run _ _ s s s) by done.
    rewrite wrap_int_add_l, wrap_int_small by (unfold INT_MAX in *; lia).
    destruct (Z.ltb_spec (n0 + na + nf) (lksm_max_vips s)) as [Hroom|Hfull]; cbn [negb].
    2:{ exists [], (x :: nodes), s. cbn. rewrite Z.add_0_r, app_nil_r.
        split_and!; auto. right. left. lia. }
    rewrite Hrun.
    rewrite (bind_run _ _ s m s) by (by apply mm_slot_at_Ok).
    rewrite (bind_run _ _ s (mm_users mm =? 0) s)
      by (unfold ksm_test_exit; by rewrite Hmm).
    assert (Hex : slot_exited s0 x = (mm_users mm =? 0))
      by (unfold slot_exited; by rewrite Hm0, Hmm0).
    assert (Hskip : slot_wanted e s0 x = false ->
              (mm_users mm =? 0) = false ->
              exists walked rest s',
                x :: nodes = walked ++ rest /\
                Forall (fun x => slot_exited s0 x = false) walked /\
                lksm_prepare_partial_scan_loop e na nf nodes n0 rl0 s
                = Ok (Some (n0 + Z.of_nat (length (filter (fun x => slot_wanted e s0 x = true)
                                                      walked)),
                            rl0 ++ filter (fun x => slot_wanted e s0 x = true) walked)) s' /\
                (rest = [] \/
                 lksm_max_vips s0 <=
                   n0 + Z.of_nat (length (filter (fun x => slot_wanted e s0 x = true) walked))
                   + na + nf \/
                 exists x rest', rest = x :: rest' /\ slot_exited s0 x = true)).
    { intros Hw Hlive.
      destruct (IH n0 rl0 s Hna Hnf Hn0 ltac:(lia) Hnd Hall'
                  ltac:(intros y Hy; apply Hagree; by right) Hmms Hmax Hrun)
        as (walked & rest & s' & -> & Hwalk & Hloop & Hstop).
      exists (x :: walked), rest, s'.
      rewrite filter_cons_False by (rewrite Hw; done).
      split_and!; auto. constructor; [congruence|done]. }
    destruct (mm_users mm =? 0) eqn:Hexit.
    + (* the owner has exited: it is removed and the walk ends *)
      set (s1 := if negb (lksm_test_mm_state m KSM_MM_SCANNED)
                 then set_ksm_scan_nr_scannable (wrap_int (ksm_scan_nr_scannable s - 1)) s
                 else s).
      assert (H1 : (if negb (lksm_test_mm_state m KSM_MM_SCANNED)
                    then modify (fun s => set_ksm_scan_nr_scannable
                                            (wrap_int (ksm_scan_nr_scannable s - 1)) s)
                    else ret tt) s = Ok tt s1).
      { unfold s1. by destruct (negb _). }
      assert (Hm1 : mm_slots s1 !! x = Some m) by (unfold s1; by destruct (negb _)).
      destruct (lksm_remove_mm_slot_total x s1 m Hm1) as [s2 H2].
      rewrite (bind_run _ _ s tt s1) by exact H1.
      rewrite (bind_run _ _ s1 tt s2) by exact H2.
      rewrite Hord.
      exists [], (x :: nodes), s2. cbn. rewrite Z.add_0_r, app_nil_r.
      split_and!; auto. right. right. exists x, nodes. split; [done|congruence].
    + destruct (lksm_test_mm_state m KSM_MM_LISTED) eqn:Hlisted; cbn [negb].
      2:{ apply Hskip; [|done]. unfold slot_wanted. by rewrite Hm0, Hlisted. }
      destruct (Z.eqb_spec (ms_fault_cnt m) (owner_faults e (ms_mm m))) as [Hsame|Hfault].
      { apply Hskip; [|done]. unfold slot_wanted. rewrite Hm0, Hlisted.
        apply Z.eqb_eq in Hsame. by rewrite Hsame. }
      (* the owner is taken *)
      assert (Hw : slot_wanted e s0 x = true).
      { unfold slot_wanted. rewrite Hm0, Hlisted.
        apply Z.eqb_neq in Hfault. by rewrite Hfault. }
      set (m1 := ms_set_nr_scans 0
                   (ms_set_scanning_size (get_mm_counter e (ms_mm m))
                      (ms_set_fault_cnt (owner_faults e (ms_mm m)) m))).
      set (sa := set_mm_slots (<[x := m1]> (mm_slots s)) s).
      set (sb := set_ksm_scan_head (hlist_del x (ksm_scan_head sa)) sa).
      set (sc := set_mm_slots (<[x := lksm_clear_mm_state KSM_MM_SCANNED m1]> (mm_slots sb)) sb).
      rewrite (bind_run _ _ s tt sa) by exact (mm_slot_update_run x _ s m Hm).
      rewrite (bind_run _ _ sa tt sb) by done.
      rewrite (bind_run _ _ sb tt sc)
        by exact (mm_slot_update_run x _ sb m1 (lookup_insert_eq _ _ _)).
      rewrite wrap_int_small by (unfold INT_MAX in *; lia).
      destruct (IH (n0 + 1) (rl0 ++ [x]) sc Hna Hnf ltac:(lia) ltac:(lia) Hnd Hall')
        as (walked & rest & s' & -> & Hwalk & Hloop & Hstop).
      * intros y Hy. cbn. rewrite !lookup_insert_ne by (intros ->; done).
        apply Hagree. by right.
      * exact Hmms.
      * exact Hmax.
      * exact Hrun.
      * exists (x :: walked), rest, s'.
        rewrite filter_cons_True by done. cbn [length].
        split_and!.
        -- done.
        -- constructor; [congruence|done].
        -- rewrite Hloop, <- app_assoc. cbn [app]. do 3 f_equal. lia.
        -- destruct Hstop as [H|[H|H]]; [by left|right; left; lia|right; by right].
Qed.

Lemma bind_bind_run {A B C} (m : M A) (f : A -> M B) (g : B -> M C) s :
  bind (bind m f) g s = bind m (fun x => bind (f x) g) s.
Proof. unfold bind. by destruct (m s). Qed.

(** One step of a run whose state is known. *)
Ltac run_slot_step :=
  first
    [ rewrite bind_bind_run
    | erewrite bind_run
        by (apply mm_slot_update_run; cbn; first [eassumption | apply lookup_insert_eq])
    | erewrite bind_run by reflexivity ].

(** The end of a slot's scan up to the point where the slot is ranked
    again: the slot is off the rank tree, and nothing that ranking looks at
    has changed otherwise. *)
Lemma scan_one_mm_slot_scanned_unranks e slot m s :
  mm_slots s !! slot = Some m ->
  exists s5 m5,
    scan_one_mm_slot_scanned e slot m s
    = (do s <- get;
       do nr_merged <- lksm_account_mm_slot_nr_merge slot (lksm_slot_nr_merged s);
       (if negb (nr_merged =? 0) then lksm_insert_mm_slot_ordered slot else ret tt);;
       mm_slot_update slot
         (fun m => ms_set_elapsed (wrap_ulong (jiffies e - ms_elapsed m)) m)) s5 /\
    mm_slots s5 !! slot = Some m5 /\
    (forall x, x <> slot -> mm_slots s5 !! x = mm_slots s !! x) /\
    ms_merge_idx m5 = ms_merge_idx m /\
    ms_nr_merged_win m5 = ms_nr_merged_win m /\
    ms_nr_merged m5 = ms_nr_merged m /\
    ms_ordered m5 = false /\
    vips_list s5 = (if ms_ordered m then rb_erase slot (vips_list s) else vips_list s) /\
    lksm_slot_nr_merged s5 = lksm_slot_nr_merged s.
Proof.
  intros Hm. unfold scan_one_mm_slot_scanned.
  destruct (lksm_test_mm_state m KSM_MM_NEWCOMER), (lksm_test_mm_state m KSM_MM_FROZEN),
    (ms_ordered m) eqn:Hord;
    repeat run_slot_step;
    (eexists _, _; split; [reflexivity|]; split; [cbn; apply lookup_insert_eq|];
     split; [intros x Hx; cbn; by rewrite !lookup_insert_ne by done|];
     cbn; split_and!; done).
Qed.

Lemma lksm_account_mm_slot_nr_merge_run slot n s m :
  mm_slots s !! slot = Some m ->
  exists m',
    lksm_account_mm_slot_nr_merge slot n s
    = Ok (ms_nr_merged m') (set_mm_slots (<[slot := m']> (mm_slots s)) s) /\
    ms_nr_merged_win m' = <[Z.to_nat (ms_merge_idx m) := n]> (ms_nr_merged_win m) /\
    ms_nr_merged m' = sum_merge_win (ms_nr_merged_win m') MERGE_WIN /\
    ms_ordered m' = ms_ordered m.
Proof.
  intros Hm. unfold lksm_account_mm_slot_nr_merge.
  erewrite bind_run by (by apply mm_slot_update_run).
  erewrite bind_run
    by (apply mm_slot_at_Ok; split; [cbn; apply lookup_insert_eq|reflexivity]).
  eexists. split; [reflexivity|]. cbn.
  destruct (wrap_short (ms_merge_idx m + 1) =? MERGE_WIN); cbn; auto.
Qed.

Lemma lksm_insert_mm_slot_ordered_Ok slot s s' :
  lksm_insert_mm_slot_ordered slot s = Ok tt s' ->
  exists m, mm_slots s !! slot = Some m /\
            mm_slots s' = <[slot := ms_set_ordered true m]> (mm_slots s).
Proof.
  unfold lksm_insert_mm_slot_ordered. intros H.
  apply bind_Ok in H as (m & s1 & [Hm ->]%mm_slot_at_Ok & H).
  apply bind_Ok in H as (s0 & s1 & [-> ->]%get_Ok & H).
  destruct (lksm_insert_mm_slot_ordered_walk _ _ _ _); [|discriminate H].
  apply bind_Ok in H as ([] & s1 & ->%modify_Ok & H).
  apply mm_slot_update_Ok in H as (m' & Hm' & ->). cbn in Hm'.
  assert (m' = m) as -> by congruence. exists m. done.
Qed.

Lemma StronglySorted_ext_elem {A} (R R' : relation A) (l : list A) :
  (forall x y, x ∈ l -> y ∈ l -> R x y -> R' x y) ->
  StronglySorted R l -> StronglySorted R' l.
Proof.
  induction l as [|a l IH]; intros Hext Hs; [constructor|].
  apply StronglySorted_inv in Hs as [Hs Ha]. constructor.
  - apply IH; [|done]. intros x y Hx Hy. apply Hext; by right.
  - rewrite Forall_forall in Ha |- *. intros y Hy.
    apply Hext; [by left|by right|by apply Ha].
Qed.

(** The end of a slot's scan ranks the slot again by its new value: it is
    on the rank tree afterwards exactly when the value is not zero, at the
    place its value gives it among the others, which keep their order. *)
Lemma scan_one_mm_slot_scanned_ranks e slot m s :
  vips_ranked s -> NoDup (rb_inorder (vips_list s)) ->
  mm_slots s !! slot = Some m ->
  (ms_ordered m = false -> slot ∉ rb_inorder (vips_list s)) ->
  exists s' m' l1 l2,
    scan_one_mm_slot_scanned e slot m s = Ok tt s' /\
    mm_slots s' !! slot = Some m' /\
    ms_nr_merged m' =
      sum_merge_win (<[Z.to_nat (ms_merge_idx m) := lksm_slot_nr_merged s]>
                       (ms_nr_merged_win m)) MERGE_WIN /\
    ms_ordered m' = negb (ms_nr_merged m' =? 0) /\
    hlist_del slot (rb_inorder (vips_list s)) = l1 ++ l2 /\
    rb_inorder (vips_list s') =
      (if ms_nr_merged m' =? 0 then l1 ++ l2 else l1 ++ slot :: l2) /\
    (ms_nr_merged m' <> 0 ->
     (forall x, x ∈ l1 -> ms_nr_merged m' <= slot_value s x) /\
     (forall x, x ∈ l2 -> slot_value s x < ms_nr_merged m')) /\
    (forall x, x <> slot -> mm_slots s' !! x = mm_slots s !! x) /\
    vips_ranked s' /\ NoDup (rb_inorder (vips_list s')).
Proof.
  intros [Hall Hsorted] Hnd Hm Hord.
  destruct (scan_one_mm_slot_scanned_unranks e slot m s Hm)
    as (s5 & m5 & -> & Hm5 & Hoth5 & Hidx & Hwin & Hval & Hord5 & Htree5 & Hcnt5).
  assert (Hin5 : rb_inorder (vips_list s5) = hlist_del slot (rb_inorder (vips_list s))).
  { rewrite Htree5. destruct (ms_ordered m) eqn:Ho; [by apply rb_inorder_erase|].
    symmetry. apply hlist_del_absent. by apply Hord. }
  rewrite (bind_run _ _ s5 s5 s5) by done.
  destruct (lksm_account_mm_slot_nr_merge_run slot (lksm_slot_nr_merged s5) s5 m5 Hm5)
    as (m6 & Hacc & Hwin6 & Hval6 & Hord6).
  set (s6 := set_mm_slots (<[slot := m6]> (mm_slots s5)) s5) in *.
  rewrite (bind_run _ _ s5 (ms_nr_merged m6) s6) by exact Hacc.
  rewrite Hwin6, Hidx, Hwin, Hcnt5 in Hval6.
  assert (Hm6 : mm_slots s6 !! slot = Some m6) by apply lookup_insert_eq.
  assert (Hoth6 : forall x, x <> slot -> mm_slots s6 !! x = mm_slots s !! x).
  { intros x Hx. unfold s6. cbn. rewrite lookup_insert_ne by done. by apply Hoth5. }
  assert (Hin6 : rb_inorder (vips_list s6) = hlist_del slot (rb_inorder (vips_list s)))
    by exact Hin5.
  assert (Hv6 : forall x, x <> slot -> slot_value s6 x = slot_value s x).
  { intros x Hx. unfold slot_value. by rewrite Hoth6. }
  assert (Hnd6 : NoDup (rb_inorder (vips_list s6)))
    by (rewrite Hin6; by apply hlist_del_NoDup).
  assert (Hrank6 : vips_ranked s6).
  { split.
    - intros x Hx. rewrite Hin6 in Hx. apply hlist_del_elem in Hx as [Hne Hx].
      rewrite Hoth6 by done. by apply Hall.
    - rewrite Hin6.
      apply (StronglySorted_ext_elem (fun x y => slot_value s y <= slot_value s x)).
      + intros x y [Hx _]%hlist_del_elem [Hy _]%hlist_del_elem. by rewrite !Hv6.
      + eapply sublist_StronglySorted_keeps; [|exact Hsorted]. apply sublist_filter. }
  set (upd := fun m => ms_set_elapsed (wrap_ulong (jiffies e - ms_elapsed m)) m).
  assert (Hfinal : forall s7 m7,
            mm_slots s7 !! slot = Some m7 -> vips_ranked s7 ->
            vips_ranked (set_mm_slots (<[slot := upd m7]> (mm_slots s7)) s7)).
  { intros s7 m7 Hm7 [Hall7 Hs7]. split; cbn.
    - intros x Hx. destruct (decide (x = slot)) as [->|Hne].
      + rewrite lookup_insert_eq. eauto.
      + rewrite lookup_insert_ne by done. by apply Hall7.
    - eapply StronglySorted_ext_elem; [|exact Hs7].
      intros x y _ _. unfold slot_value. cbn.
      destruct (decide (x = slot)) as [->|Hx], (decide (y = slot)) as [->|Hy];
        rewrite ?lookup_insert_eq, ?lookup_insert_ne, ?Hm7 by done; done. }
  destruct (Z.eqb_spec (ms_nr_merged m6) 0) as [Hzero|Hpos]; cbn [negb].
  - (* the value is zero: the slot stays off the tree *)
    rewrite (bind_run _ _ s6 tt s6) by done.
    rewrite (mm_slot_update_run slot _ s6 m6 Hm6). fold upd.
    exists (set_mm_slots (<[slot := upd m6]> (mm_slots s6)) s6), (upd m6),
      (hlist_del slot (rb_inorder (vips_list s))), [].
    cbn [ms_nr_merged upd ms_set_elapsed ms_ordered].
    rewrite Hzero. cbn [Z.eqb negb]. rewrite app_nil_r.
    split_and!.
    + done.
    + cbn. apply lookup_insert_eq.
    + congruence.
    + congruence.
    + done.
    + exact Hin6.
    + done.
    + intros x Hx. cbn. rewrite lookup_insert_ne by done. by apply Hoth6.
    + by apply Hfinal.
    + exact Hnd6.
  - (* the slot is hung at the place of its value *)
    destruct (lksm_insert_mm_slot_ordered_spec s6 slot m6 Hrank6 Hm6)
      as (s7 & l1 & l2 & Hins & E1 & E2 & H1 & H2 & Hv7 & Hrank7).
    destruct (lksm_insert_mm_slot_ordered_Ok slot s6 s7 Hins) as (m6' & Hm6' & Hslots7).
    assert (m6' = m6) as -> by congruence.
    assert (Hm7 : mm_slots s7 !! slot = Some (ms_set_ordered true m6))
      by (rewrite Hslots7; apply lookup_insert_eq).
    rewrite (bind_run _ _ s6 tt s7) by exact Hins.
    rewrite (mm_slot_update_run slot _ s7 _ Hm7). fold upd.
    exists (set_mm_slots (<[slot := upd (ms_set_ordered true m6)]> (mm_slots s7)) s7),
      (upd (ms_set_ordered true m6)), l1, l2.
    cbn [ms_nr_merged upd ms_set_elapsed ms_set_ordered ms_ordered].
    apply Z.eqb_neq in Hpos as Hpos'. rewrite Hpos'. cbn [negb].
    rewrite Hin6 in E1.
    assert (Hl : forall x, x ∈ l1 ++ l2 -> x <> slot).
    { intros x Hx. rewrite <- E1 in Hx. by apply hlist_del_elem in Hx as [? _]. }
    split_and!.
    + done.
    + cbn. apply lookup_insert_eq.
    + exact Hval6.
    + done.
    + done.
    + exact E2.
    + intros _. split.
      * intros x Hx. rewrite <- Hv6; [by apply H1|]. apply Hl, elem_of_app. by left.
      * intros x Hx. rewrite <- Hv6; [by apply H2|]. apply Hl, elem_of_app. by right.
    + intros x Hx. cbn. rewrite lookup_insert_ne, Hslots7, lookup_insert_ne by done.
      by apply Hoth6.
    + by apply Hfinal.
    + cbn. rewrite E2. rewrite Hin6, E1 in Hnd6.
      apply NoDup_app in Hnd6 as (N1 & N12 & N2). apply NoDup_app. split_and!.
      * done.
      * intros x Hx [->|Hx2]%elem_of_cons.
        -- apply (Hl slot); [apply elem_of_app; by left|done].
        -- by apply (N12 x).
      * apply NoDup_cons. split; [|done]. intros Hs.
        apply (Hl slot); [apply elem_of_app; by right|done].
Qed.

(** What a partial round draws from the rank tree: the entries up to the
    point where the walk stops, less those that are not listed or have not
    faulted. *)
Lemma lksm_prepare_partial_scan_vips_picks e nf na s :
  NoDup (rb_inorder (vips_list s)) ->
  (forall x, x ∈ rb_inorder (vips_list s) ->
     exists m, mm_slots s !! x = Some m /\ is_Some (mm_structs s !! ms_mm m) /\
               ms_ordered m = true) ->
  0 <= na -> 0 <= nf ->
  na + nf + Z.of_nat (length (rb_inorder (vips_list s))) <= INT_MAX ->
  test_bits (ksm_run s) KSM_RUN_UNMERGE = false ->
  exists walked rest tl s',
    rb_inorder (vips_list s) = walked ++ rest /\
    Forall (fun x => slot_exited s x = false) walked /\
    lksm_prepare_partial_scan_vips e nf na s
    = Ok (nf + na + Z.of_nat (length (filter (fun x => slot_wanted e s x = true) walked)))
         s' /\
    ksm_scan_head s' = filter (fun x => slot_wanted e s x = true) walked ++ tl /\
    tl `sublist_of` ksm_scan_head s /\
    (filter (fun x => slot_wanted e s x = true) walked <> [] ->
     na + nf + Z.of_nat (length (filter (fun x => slot_wanted e s x = true) walked))
     <= lksm_max_vips s) /\
    (rest = [] \/
     lksm_max_vips s <=
       na + nf + Z.of_nat (length (filter (fun x => slot_wanted e s x = true) walked)) \/
     exists x rest', rest = x :: rest' /\ slot_exited s x = true).
Proof.
  intros Hnd Hall Hna Hnf Hrange Hrun. unfold lksm_prepare_partial_scan_vips.
  rewrite (bind_run _ _ s s s) by done.
  rewrite (wrap_int_small (na + nf)) by (unfold INT_MAX in *; lia).
  destruct (Z.leb_spec (lksm_max_vips s) (na + nf)) as [Hfull|Hroom].
  - rewrite (bind_run _ _ s (Some (0, [])) s) by done. cbn beta iota.
    repeat run_slot_step.
    rewrite wrap_int_add_l, wrap_int_small by (unfold INT_MAX in *; lia).
    eexists [], (rb_inorder (vips_list s)), (ksm_scan_head s), _.
    rewrite filter_nil. cbn [length app].
    split_and!; try done.
    right. left. lia.
  - destruct (partial_scan_loop_picks e na nf s (rb_inorder (vips_list s)) 0 [] s
                Hna Hnf ltac:(lia) ltac:(lia) Hnd Hall ltac:(done) eq_refl eq_refl Hrun)
      as (walked & rest & s1 & E & Hwalk & Hloop & Hstop).
    set (picked := filter (fun x => slot_wanted e s x = true) walked) in *.
    cbn [app] in Hloop.
    destruct (partial_scan_loop_spec e na nf (rb_inorder (vips_list s)) 0 [] s _ _ s1
                Hna Hnf ltac:(lia) ltac:(lia) Hloop)
      as (picked' & Hp & _ & _ & Hb & _ & Hhead & _ & _).
    cbn [app] in Hp. subst picked'.
    assert (Hlen : Z.of_nat (length picked) <= Z.of_nat (length (rb_inorder (vips_list s)))).
    { apply inj_le. rewrite E, length_app.
      pose proof (length_filter (fun x => slot_wanted e s x = true) walked). fold picked in H.
      lia. }
    rewrite (bind_run _ _ s _ s1) by exact Hloop. cbn beta iota.
    repeat run_slot_step.
    rewrite wrap_int_add_l, wrap_int_small by (unfold INT_MAX in *; lia).
    eexists walked, rest, (ksm_scan_head s1), _.
    split_and!; try done.
    + intros Hne. specialize (Hb Hne). fold picked. lia.
    + fold picked. destruct Hstop as [H|[H|H]]; [by left|right; left; lia|right; by right].
Qed.

(** C8, as the code has it.  (1) An owner's ranked value is the sum of the
    merge counts of its last three scans.  (2) Ranking hangs the owner
    behind all owners of at least its value, so the rank tree's order never
    goes up in value and owners of equal value stand in the order in which
    they were ranked, the earlier-ranked first.  (3) A partial scan that
    returns has put a subsequence of the rank order, within the room the
    batch size [lksm_max_vips] leaves after the new and frozen owners, at the
    head of the scan list.  (4) At the end of a scan that found a mergeable
    area the owner is taken off the rank tree if it was on it, its value is
    computed anew with the merge count of the scan, and it is ranked again
    exactly when the new value is not zero.  (5) A partial scan walks the
    rank order from its head; it stops when the room is used up, when the
    order is exhausted, or at the first owner that has exited; of the owners
    it has passed it takes those that are listed and have faulted since their
    fault count was last taken, and no others, in rank order. *)
Theorem vips_are_drawn_in_rank_order :
  (forall s slot m a b c v1 v2 v3 s1 s2 s3,
      mm_slots s !! slot = Some m ->
      length (ms_nr_merged_win m) = 3%nat ->
      0 <= ms_merge_idx m < MERGE_WIN ->
      lksm_account_mm_slot_nr_merge slot a s = Ok v1 s1 ->
      lksm_account_mm_slot_nr_merge slot b s1 = Ok v2 s2 ->
      lksm_account_mm_slot_nr_merge slot c s2 = Ok v3 s3 ->
      v3 = wrap_int (a + b + c) /\ slot_value s3 slot = v3) /\
  (forall s slot m,
      vips_ranked s ->
      mm_slots s !! slot = Some m ->
      exists s' l1 l2,
        lksm_insert_mm_slot_ordered slot s = Ok tt s' /\
        rb_inorder (vips_list s) = l1 ++ l2 /\
        rb_inorder (vips_list s') = l1 ++ slot :: l2 /\
        (forall x, x ∈ l1 -> ms_nr_merged m <= slot_value s x) /\
        (forall x, x ∈ l2 -> slot_value s x < ms_nr_merged m) /\
        (forall x, slot_value s' x = slot_value s x) /\
        vips_ranked s') /\
  (forall e nf na s ret_ s',
      vips_ranked s ->
      0 <= na -> 0 <= nf ->
      na + nf + Z.of_nat (length (rb_inorder (vips_list s))) <= INT_MAX ->
      test_bits (ksm_run s) KSM_RUN_UNMERGE = false ->
      lksm_prepare_partial_scan_vips e nf na s = Ok ret_ s' ->
      exists picked rest,
        ksm_scan_head s' = picked ++ rest /\
        picked `sublist_of` rb_inorder (vips_list s) /\
        StronglySorted (fun x y => slot_value s y <= slot_value s x) picked /\
        rest `sublist_of` ksm_scan_head s /\
        ret_ = nf + na + Z.of_nat (length picked) /\
        (picked <> [] -> na + nf + Z.of_nat (length picked) <= lksm_max_vips s)) /\
  (forall e s slot m,
      vips_ranked s -> NoDup (rb_inorder (vips_list s)) ->
      mm_slots s !! slot = Some m ->
      (ms_ordered m = false -> slot ∉ rb_inorder (vips_list s)) ->
      exists s' m' l1 l2,
        scan_one_mm_slot_scanned e slot m s = Ok tt s' /\
        mm_slots s' !! slot = Some m' /\
        ms_nr_merged m' =
          sum_merge_win (<[Z.to_nat (ms_merge_idx m) := lksm_slot_nr_merged s]>
                           (ms_nr_merged_win m)) MERGE_WIN /\
        ms_ordered m' = negb (ms_nr_merged m' =? 0) /\
        hlist_del slot (rb_inorder (vips_list s)) = l1 ++ l2 /\
        rb_inorder (vips_list s') =
          (if ms_nr_merged m' =? 0 then l1 ++ l2 else l1 ++ slot :: l2) /\
        (ms_nr_merged m' <> 0 ->
         (forall x, x ∈ l1 -> ms_nr_merged m' <= slot_value s x) /\
         (forall x, x ∈ l2 -> slot_value s x < ms_nr_merged m')) /\
        (forall x, x <> slot -> mm_slots s' !! x = mm_slots s !! x) /\
        vips_ranked s' /\ NoDup (rb_inorder (vips_list s'))) /\
  (forall e nf na s,
      vips_ranked s -> NoDup (rb_inorder (vips_list s)) ->
      (forall x, x ∈ rb_inorder (vips_list s) ->
         exists m, mm_slots s !! x = Some m /\ is_Some (mm_structs s !! ms_mm m) /\
                   ms_ordered m = true) ->
      0 <= na -> 0 <= nf ->
      na + nf + Z.of_nat (length (rb_inorder (vips_list s))) <= INT_MAX ->
      test_bits (ksm_run s) KSM_RUN_UNMERGE = false ->
      exists walked rest tl s',
        rb_inorder (vips_list s) = walked ++ rest /\
        Forall (fun x => slot_exited s x = false) walked /\
        lksm_prepare_partial_scan_vips e nf na s
        = Ok (nf + na
              + Z.of_nat (length (filter (fun x => slot_wanted e s x = true) walked))) s' /\
        ksm_scan_head s' = filter (fun x => slot_wanted e s x = true) walked ++ tl /\
        tl `sublist_of` ksm_scan_head s /\
        StronglySorted (fun x y => slot_value s y <= slot_value s x)
          (filter (fun x => slot_wanted e s x = true) walked) /\
        (filter (fun x => slot_wanted e s x = true) walked <> [] ->
         na + nf + Z.of_nat (length (filter (fun x => slot_wanted e s x = true) walked))
         <= lksm_max_vips s) /\
        (rest = [] \/
         lksm_max_vips s <=
           na + nf
           + Z.of_nat (length (filter (fun x => slot_wanted e s x = true) walked)) \/
         exists x rest', rest = x :: rest' /\ slot_exited s x = true)).
Proof.
  split_and!.
  - intros. eapply merge_window_holds_last_three; eauto.
  - intros. by apply lksm_insert_mm_slot_ordered_spec.
  - intros e nf na s ret_ s' [_ Hsorted] Hna Hnf Hrange Hrun0 Hrun.
    destruct (lksm_prepare_partial_scan_vips_spec e nf na s ret_ s' Hna Hnf Hrange Hrun0 Hrun)
      as (picked & rest & E & Hsub & Hrest & Hret & Hb & _).
    exists picked, rest. repeat split; auto.
    eapply sublist_StronglySorted_keeps; eauto.
  - intros e s slot m. apply scan_one_mm_slot_scanned_ranks.
  - intros e nf na s [_ Hsorted] Hnd Hall Hna Hnf Hrange Hrun.
    destruct (lksm_prepare_partial_scan_vips_picks e nf na s Hnd Hall Hna Hnf Hrange Hrun)
      as (walked & rest & tl & s' & E & Hwalk & Hvips & Hhead & Htl & Hb & Hstop).
    exists walked, rest, tl, s'. split_and!; try done.
    eapply sublist_StronglySorted_keeps; [|exact Hsorted].
    rewrite E. etrans; [apply sublist_filter|]. by apply sublist_inserts_r.
Qed.

Lemma two_equal_vips_ranked_is_ranked : vips_ranked two_equal_vips_ranked.
Proof.
  split.
  - change (rb_inorder (vips_list two_equal_vips_ranked)) with [101%nat; 102%nat].
    intros x Hx. apply elem_of_cons in Hx as [->|Hx].
    + vm_compute. eauto.
    + apply elem_of_cons in Hx as [->|Hx]; [vm_compute; eauto|].
      by apply elem_of_nil in Hx.
  - change (rb_inorder (vips_list two_equal_vips_ranked)) with [101%nat; 102%nat].
    repeat constructor; vm_compute; discriminate.
Qed.

Lemma two_equal_vips_is_ranked : vips_ranked two_equal_vips.
Proof.
  assert (E : rb_inorder (vips_list two_equal_vips) = []) by reflexivity.
  split; rewrite E; [|constructor]. intros x Hx. by apply elem_of_nil in Hx.
Qed.

Lemma vips_are_drawn_in_rank_order_witness :
  (let s1 := final_state ksm_init (lksm_account_mm_slot_nr_merge 101 1 two_equal_vips) in
   let s2 := final_state ksm_init (lksm_account_mm_slot_nr_merge 101 2 s1) in
   let s3 := final_state ksm_init (lksm_account_mm_slot_nr_merge 101 3 s2) in
   run_value 0 (lksm_account_mm_slot_nr_merge 101 3 s2) = wrap_int (1 + 2 + 3) /\
   slot_value s3 101 = run_value 0 (lksm_account_mm_slot_nr_merge 101 3 s2)) /\
  (exists s' l1 l2,
     lksm_insert_mm_slot_ordered 101 two_equal_vips = Ok tt s' /\
     rb_inorder (vips_list two_equal_vips) = l1 ++ l2 /\
     rb_inorder (vips_list s') = l1 ++ 101%nat :: l2) /\
  (exists picked rest,
     ksm_scan_head
       (final_state ksm_init (lksm_prepare_partial_scan_vips quiet 0 0 two_equal_vips_ranked))
     = picked ++ rest /\
     picked `sublist_of` rb_inorder (vips_list two_equal_vips_ranked) /\
     (picked <> [] -> 0 + 0 + Z.of_nat (length picked) <= 1)) /\
  (exists s' m' l1 l2,
     scan_one_mm_slot_scanned quiet 101 (ranked_slot 1 4) two_equal_vips = Ok tt s' /\
     mm_slots s' !! 101%nat = Some m' /\
     ms_ordered m' = negb (ms_nr_merged m' =? 0) /\
     rb_inorder (vips_list s') =
       (if ms_nr_merged m' =? 0 then l1 ++ l2 else l1 ++ 101%nat :: l2)) /\
  (exists walked rest tl s',
     rb_inorder (vips_list two_equal_vips_ranked) = walked ++ rest /\
     Forall (fun x => slot_exited two_equal_vips_ranked x = false) walked /\
     lksm_prepare_partial_scan_vips quiet 0 0 two_equal_vips_ranked
     = Ok (0 + 0 + Z.of_nat (length (filter
             (fun x => slot_wanted quiet two_equal_vips_ranked x = true) walked))) s' /\
     ksm_scan_head s' =
       filter (fun x => slot_wanted quiet two_equal_vips_ranked x = true) walked ++ tl).
Proof.
  destruct vips_are_drawn_in_rank_order as (Hwin & Hins & Hdraw & Hrank & Hpick).
  split_and!.
  - intros s1 s2 s3.
    apply (Hwin two_equal_vips 101%nat (ranked_slot 1 4) 1 2 3
             (run_value 0 (lksm_account_mm_slot_nr_merge 101 1 two_equal_vips))
             (run_value 0 (lksm_account_mm_slot_nr_merge 101 2 s1))
             (run_value 0 (lksm_account_mm_slot_nr_merge 101 3 s2)) s1 s2 s3).
    + vm_compute. reflexivity.
    + reflexivity.
    + unfold MERGE_WIN. cbn. lia.
    + vm_compute. reflexivity.
    + vm_compute. reflexivity.
    + vm_compute. reflexivity.
  - destruct (Hins two_equal_vips 101%nat (ranked_slot 1 4) two_equal_vips_is_ranked)
      as (s' & l1 & l2 & Hrun & E1 & E2 & _).
    + vm_compute. reflexivity.
    + exists s', l1, l2. done.
  - destruct (Hdraw quiet 0 0 two_equal_vips_ranked
                (run_value 0 (lksm_prepare_partial_scan_vips quiet 0 0 two_equal_vips_ranked))
                (final_state ksm_init
                   (lksm_prepare_partial_scan_vips quiet 0 0 two_equal_vips_ranked)))
      as (picked & rest & E & Hsub & _ & _ & _ & Hb).
    + exact two_equal_vips_ranked_is_ranked.
    + lia.
    + lia.
    + vm_compute. discriminate.
    + vm_compute. reflexivity.
    + vm_compute. reflexivity.
    + exists picked, rest. auto.
  - destruct (Hrank quiet two_equal_vips 101%nat (ranked_slot 1 4) two_equal_vips_is_ranked)
      as (s' & m' & l1 & l2 & Hrun & Hm' & _ & Hord & _ & Htree & _).
    + apply NoDup_nil_2.
    + vm_compute. reflexivity.
    + intros _. apply not_elem_of_nil.
    + exists s', m', l1, l2. done.
  - destruct (Hpick quiet 0 0 two_equal_vips_ranked two_equal_vips_ranked_is_ranked)
      as (walked & rest & tl & s' & E & Hwalk & Hrun & Hhead & _).
    + apply (bool_decide_unpack _). vm_compute. exact I.
    + change (rb_inorder (vips_list two_equal_vips_ranked)) with [101%nat; 102%nat].
      intros x [->|[->|Hx]%elem_of_cons]%elem_of_cons.
      * exists (ms_set_ordered true (ranked_slot 1 4)).
        split; [vm_compute; reflexivity|]. split; [vm_compute; by eexists|reflexivity].
      * exists (ms_set_ordered true (ranked_slot 2 4)).
        split; [vm_compute; reflexivity|]. split; [vm_compute; by eexists|reflexivity].
      * by apply elem_of_nil in Hx.
    + lia.
    + lia.
    + vm_compute. discriminate.
    + vm_compute. reflexivity.
    + exists walked, rest, tl, s'. done.
Defined.

(** With two owners of equal value and room for one vip, the crawler takes
    the one that was ranked first, not the one ranked last. *)
Lemma vips_tie_goes_to_the_earlier_ranked :
  slot_value two_equal_vips_ranked 101 = slot_value two_equal_vips_ranked 102 /\
  rb_inorder (vips_list two_equal_vips_ranked) = [101%nat; 102%nat] /\
  ksm_scan_head
    (final_state ksm_init (lksm_prepare_partial_scan_vips quiet 0 0 two_equal_vips_ranked))
  = [101%nat] /\
  ksm_scan_head
    (final_state ksm_init (lksm_prepare_partial_scan_vips quiet 0 0 two_equal_vips_ranked))
  <> [102%nat].
Proof. vm_compute. repeat split; [reflexivity..|discriminate]. Qed.

(** ** The sharing counters across attach and detach (C10) *)

Lemma nodes_sum_bounds (m : gmap nat stable_node) :
  0 <= nodes_sum node_in_use m <= nodes_sum node_records m.
Proof.
  induction m as [|i x m Hi _ IH] using map_first_key_ind.
  - unfold nodes_sum. rewrite !map_fold_empty. lia.
  - rewrite !nodes_sum_insert_new by done.
    assert (0 <= node_in_use x <= node_records x).
    { unfold node_in_use, node_records. destruct (attached x); cbn [length]; lia. }
    lia.
Qed.

Lemma ksm_init_bookkeeping : rmap_bookkeeping ksm_init.
Proof.
  split.
  - intros n nd H. cbn in H. by rewrite lookup_empty in H.
  - intros r it H. cbn in H. by rewrite lookup_empty in H.
  - intros p Hp. cbn. by rewrite !lookup_empty.
  - reflexivity.
  - reflexivity.
Qed.

(** What the two counters count on a store that is in step. *)
Lemma rmap_bookkeeping_counts s :
  rmap_bookkeeping s ->
  ksm_pages_shared s = wrap_ulong (nodes_in_use s) /\
  wrap_ulong (ksm_pages_shared s + ksm_pages_sharing s) = wrap_ulong (records_attached s) /\
  (records_attached s < 2 ^ 64 ->
   ksm_pages_shared s = nodes_in_use s /\
   ksm_pages_shared s + ksm_pages_sharing s = records_attached s).
Proof.
  intros Hbk. pose proof (bk_shared s Hbk) as H1. pose proof (bk_sharing s Hbk) as H2.
  pose proof (nodes_sum_bounds (stable_nodes s)) as Hb.
  fold (nodes_in_use s) (records_attached s) in Hb.
  split_and!.
  - done.
  - rewrite H1, H2. unfold wrap_ulong. rewrite <- Zplus_mod. f_equal. lia.
  - intros Hlt. rewrite H1, H2, !wrap_ulong_small by lia. lia.
Qed.

Lemma stable_tree_append_counters r n b s s' nd :
  stable_nodes s !! n = Some nd ->
  stable_tree_append r n b s = Ok tt s' ->
  match sn_hlist nd with
  | _ :: _ =>
      ksm_pages_sharing s' = wrap_ulong (ksm_pages_sharing s + 1) /\
      ksm_pages_shared s' = ksm_pages_shared s
  | [] =>
      ksm_pages_shared s' = wrap_ulong (ksm_pages_shared s + 1) /\
      ksm_pages_sharing s' = ksm_pages_sharing s
  end.
Proof.
  intros Hn Hrun. unfold stable_tree_append in Hrun.
  apply bind_Ok in Hrun as (nd_ & s0 & [Hn_ ->]%stable_node_at_Ok & Hrun).
  assert (nd_ = nd) as -> by congruence.
  destruct (sn_hlist nd); minv Hrun; cbn; done.
Qed.

(** Detaching a record from a node whose page is there. *)
Lemma remove_rmap_item_from_tree_detaches e r s it n nd :
  rmap_bookkeeping s ->
  rmap_items s !! r = Some it -> test_bits (ri_address it) STABLE_FLAG = true ->
  ri_head it = Some n -> stable_nodes s !! n = Some nd ->
  dup_live e s n = true ->
  exists s',
    remove_rmap_item_from_tree e r s = Ok tt s' /\
    match hlist_del r (sn_hlist nd) with
    | _ :: _ =>
        ksm_pages_sharing s' = wrap_ulong (ksm_pages_sharing s - 1) /\
        ksm_pages_shared s' = ksm_pages_shared s
    | [] =>
        ksm_pages_shared s' = wrap_ulong (ksm_pages_shared s - 1) /\
        ksm_pages_sharing s' = ksm_pages_sharing s
    end /\
    (exists nd', stable_nodes s' !! n = Some nd' /\
                 sn_hlist nd' = hlist_del r (sn_hlist nd)) /\
    rmap_bookkeeping s'.
Proof.
  intros Hbk Hr Hf Hhd Hn Hlive.
  assert (Hrun : exists s',
            remove_rmap_item_from_tree e r s = Ok tt s' /\
            match hlist_del r (sn_hlist nd) with
            | _ :: _ =>
                ksm_pages_sharing s' = wrap_ulong (ksm_pages_sharing s - 1) /\
                ksm_pages_shared s' = ksm_pages_shared s
            | [] =>
                ksm_pages_shared s' = wrap_ulong (ksm_pages_shared s - 1) /\
                ksm_pages_sharing s' = ksm_pages_sharing s
            end /\
            (exists nd', stable_nodes s' !! n = Some nd' /\
                         sn_hlist nd' = hlist_del r (sn_hlist nd))).
  { unfold remove_rmap_item_from_tree.
    rewrite (bind_run _ _ s it s) by (by apply rmap_item_at_Ok).
    rewrite Hf, Hhd.
    rewrite (bind_run _ _ s (PAGE (sn_kpfn nd)) s) by (by apply get_ksm_page_live).
    set (nd1 := sn_set_hlist (hlist_del r (sn_hlist nd)) nd).
    set (s1 := set_stable_nodes (<[n := nd1]> (stable_nodes s)) s).
    rewrite (bind_run _ _ s tt s1) by (apply stable_node_update_Ok; exists nd; done).
    rewrite (bind_run _ _ s1 nd1 s1)
      by (apply stable_node_at_Ok; split; [apply lookup_insert_eq|done]).
    cbn [sn_hlist nd1 sn_set_hlist].
    destruct (hlist_del r (sn_hlist nd)) eqn:E.
    - eexists. split.
      + unfold modify at 1. unfold bind at 1.
        erewrite (bind_run _ _ _ tt)
          by (apply stable_node_update_Ok; eexists; split; [cbn; apply lookup_insert_eq|done]).
        apply rmap_item_update_Ok. exists it. split; [exact Hr|reflexivity].
      + cbn. split; [done|]. eexists. rewrite lookup_insert_eq. split; [done|].
        cbn. done.
    - eexists. split.
      + do 3 (unfold modify at 1; unfold bind at 1).
        erewrite (bind_run _ _ _ tt)
          by (apply stable_node_update_Ok; eexists; split; [cbn; apply lookup_insert_eq|done]).
        apply rmap_item_update_Ok. exists it. split; [exact Hr|reflexivity].
      + cbn. split; [done|]. eexists. rewrite lookup_insert_eq. split; [done|].
        cbn. done. }
  destruct Hrun as (s' & Hrun & Hc & Hnd').
  exists s'. split_and!; try done.
  by destruct (remove_rmap_item_from_tree_bookkeeping e r s s' Hbk Hrun).
Qed.

(** Dropping a node with all its records. *)
Lemma remove_node_from_stable_tree_counters n s nd :
  rmap_bookkeeping s ->
  stable_nodes s !! n = Some nd -> 0 <= sn_rmap_hlist_len nd ->
  exists s',
    remove_node_from_stable_tree n s = Ok tt s' /\
    ksm_pages_shared s' = wrap_ulong (ksm_pages_shared s - node_in_use nd) /\
    ksm_pages_sharing s' =
      wrap_ulong (ksm_pages_sharing s - (node_records nd - node_in_use nd)) /\
    records_attached s' = records_attached s - node_records nd /\
    nodes_in_use s' = nodes_in_use s - node_in_use nd /\
    rmap_bookkeeping s'.
Proof.
  intros Hbk Hn H0.
  destruct (remove_node_from_stable_tree_total n s nd Hbk Hn H0) as [s' Hrm].
  exists s'. split; [done|].
  destruct (remove_node_from_stable_tree_bookkeeping n s s' Hbk Hrm) as (Hbk' & _).
  destruct (remove_node_from_stable_tree_Ok n s s' Hrm) as (nd_ & Hn_' & _ & Hs & _).
  assert (nd_ = nd) as -> by congruence.
  assert (Hreg := nonneg_not_chain nd H0).
  assert (Hrec : records_attached s' = records_attached s - node_records nd).
  { unfold records_attached.
    rewrite (nodes_sum_after_removal node_records n s s' nd); try done.
    intros x y E. unfold node_records. by rewrite E. }
  assert (Hniu : nodes_in_use s' = nodes_in_use s - node_in_use nd).
  { unfold nodes_in_use.
    rewrite (nodes_sum_after_removal node_in_use n s s' nd); try done.
    intros x y E. unfold node_in_use. by rewrite E. }
  split_and!; try done.
  - rewrite (bk_shared s' Hbk'), (bk_shared s Hbk), Hniu, wrap_ulong_sub_l. done.
  - rewrite (bk_sharing s' Hbk'), (bk_sharing s Hbk), Hrec, Hniu, wrap_ulong_sub_l.
    f_equal. lia.
Qed.

(** C10.  (1) [stable_tree_append] of a record that is not attached yet
    increments [ksm_pages_sharing] exactly when the node already had a
    record, and otherwise [ksm_pages_shared]; it leaves the other counter
    alone.  (2) [remove_rmap_item_from_tree] on a record attached to a node
    whose page is there takes the record off the node's list and decrements
    [ksm_pages_sharing] when the node keeps a record, and otherwise
    [ksm_pages_shared].  (3) [remove_node_from_stable_tree] takes [1] off
    [ksm_pages_shared] if the node had a record, and one off
    [ksm_pages_sharing] for each further record.  (4) The counters start in
    step, and each of the three calls leaves them in step; (5) being in step
    means that [ksm_pages_shared] is the number of stable nodes with a
    record and that [ksm_pages_shared + ksm_pages_sharing] is the number of
    attached records, both modulo [2 ^ 64], and exactly so while fewer than
    [2 ^ 64] records are attached. *)
Theorem sharing_counters_count_nodes_and_records :
  (forall r n b s it nd,
     rmap_bookkeeping s ->
     rmap_items s !! r = Some it -> test_bits (ri_address it) STABLE_FLAG = false ->
     stable_nodes s !! n = Some nd -> 0 <= sn_rmap_hlist_len nd ->
     exists s',
       stable_tree_append r n b s = Ok tt s' /\
       match sn_hlist nd with
       | _ :: _ =>
           ksm_pages_sharing s' = wrap_ulong (ksm_pages_sharing s + 1) /\
           ksm_pages_shared s' = ksm_pages_shared s
       | [] =>
           ksm_pages_shared s' = wrap_ulong (ksm_pages_shared s + 1) /\
           ksm_pages_sharing s' = ksm_pages_sharing s
       end /\
       rmap_bookkeeping s') /\
  (forall e r s it n nd,
     rmap_bookkeeping s ->
     rmap_items s !! r = Some it -> test_bits (ri_address it) STABLE_FLAG = true ->
     ri_head it = Some n -> stable_nodes s !! n = Some nd ->
     dup_live e s n = true ->
     exists s',
       remove_rmap_item_from_tree e r s = Ok tt s' /\
       match hlist_del r (sn_hlist nd) with
       | _ :: _ =>
           ksm_pages_sharing s' = wrap_ulong (ksm_pages_sharing s - 1) /\
           ksm_pages_shared s' = ksm_pages_shared s
       | [] =>
           ksm_pages_shared s' = wrap_ulong (ksm_pages_shared s - 1) /\
           ksm_pages_sharing s' = ksm_pages_sharing s
       end /\
       (exists nd', stable_nodes s' !! n = Some nd' /\
                    sn_hlist nd' = hlist_del r (sn_hlist nd)) /\
       rmap_bookkeeping s') /\
  (forall n s nd,
     rmap_bookkeeping s ->
     stable_nodes s !! n = Some nd -> 0 <= sn_rmap_hlist_len nd ->
     exists s',
       remove_node_from_stable_tree n s = Ok tt s' /\
       ksm_pages_shared s' = wrap_ulong (ksm_pages_shared s - node_in_use nd) /\
       ksm_pages_sharing s' =
         wrap_ulong (ksm_pages_sharing s - (node_records nd - node_in_use nd)) /\
       records_attached s' = records_attached s - node_records nd /\
       nodes_in_use s' = nodes_in_use s - node_in_use nd /\
       rmap_bookkeeping s') /\
  rmap_bookkeeping ksm_init /\
  (forall s,
     rmap_bookkeeping s ->
     ksm_pages_shared s = wrap_ulong (nodes_in_use s) /\
     wrap_ulong (ksm_pages_shared s + ksm_pages_sharing s) = wrap_ulong (records_attached s) /\
     (records_attached s < 2 ^ 64 ->
      ksm_pages_shared s = nodes_in_use s /\
      ksm_pages_shared s + ksm_pages_sharing s = records_attached s)).
Proof.
  split_and!.
  - intros r n b s it nd Hbk Hr Hu Hn Hl.
    destruct (stable_tree_append_total r n b s nd it Hn Hl Hr) as [s' Hrun].
    exists s'. split_and!; [done| |].
    + by apply (stable_tree_append_counters r n b s s' nd).
    + by apply (stable_tree_append_bookkeeping r n b s s' it).
  - intros e r s it n nd. apply remove_rmap_item_from_tree_detaches.
  - intros n s nd. apply remove_node_from_stable_tree_counters.
  - exact ksm_init_bookkeeping.
  - intros s. apply rmap_bookkeeping_counts.
Qed.

Lemma sharing_counters_count_nodes_and_records_witness :
  (exists s',
     stable_tree_append 1002 50 true forked_ksm_page = Ok tt s' /\
     ksm_pages_sharing s' = wrap_ulong (ksm_pages_sharing forked_ksm_page + 1) /\
     ksm_pages_shared s' = ksm_pages_shared forked_ksm_page /\
     rmap_bookkeeping s') /\
  (exists s',
     remove_rmap_item_from_tree quiet 1000 forked_ksm_page = Ok tt s' /\
     ksm_pages_sharing s' = wrap_ulong (ksm_pages_sharing forked_ksm_page - 1) /\
     ksm_pages_shared s' = ksm_pages_shared forked_ksm_page /\
     rmap_bookkeeping s') /\
  (exists s',
     remove_node_from_stable_tree 52 chain_of_two = Ok tt s' /\
     ksm_pages_shared s' = wrap_ulong (ksm_pages_shared chain_of_two - 1) /\
     ksm_pages_sharing s' = wrap_ulong (ksm_pages_sharing chain_of_two - (2 - 1)) /\
     rmap_bookkeeping s') /\
  (ksm_pages_shared forked_ksm_page = nodes_in_use forked_ksm_page /\
   ksm_pages_shared forked_ksm_page + ksm_pages_sharing forked_ksm_page
   = records_attached forked_ksm_page).
Proof.
  destruct sharing_counters_count_nodes_and_records as (HA & HB & HC & _ & HE).
  split; [|split; [|split]].
  - destruct (HA 1002%nat 50%nat true forked_ksm_page (mk_rmap_item 3 4096 0 None)
                (mk_stable_node HEAD_RB_NODE [1000%nat; 1001%nat] 11 2)
                forked_ksm_page_bookkeeping eq_refl eq_refl eq_refl)
      as (s' & Hrun & [Hsharing Hshared] & Hbk).
    + vm_compute. discriminate.
    + exists s'. done.
  - destruct (HB quiet 1000%nat forked_ksm_page (attached_record 1 50) 50%nat
                (mk_stable_node HEAD_RB_NODE [1000%nat; 1001%nat] 11 2)
                forked_ksm_page_bookkeeping eq_refl eq_refl eq_refl eq_refl eq_refl)
      as (s' & Hrun & [Hsharing Hshared] & _ & Hbk).
    exists s'. done.
  - destruct (HC 52%nat chain_of_two
                (mk_stable_node STABLE_NODE_DUP_HEAD [1001%nat; 1002%nat] 12 2)
                chain_of_two_bookkeeping eq_refl)
      as (s' & Hrun & Hshared & Hsharing & _ & _ & Hbk).
    + vm_compute. discriminate.
    + exists s'. done.
  - destruct (HE forked_ksm_page forked_ksm_page_bookkeeping) as (_ & _ & Hexact).
    apply Hexact. vm_compute. reflexivity.
Defined.

(** ** The unmerge verb (C4) *)

(** With no record in the store a node that is dropped has none to detach,
    and the counters stay. *)
Lemma remove_node_without_records n s s' :
  rmap_items s = ∅ ->
  remove_node_from_stable_tree n s = Ok tt s' ->
  rmap_items s' = ∅ /\ ksm_pages_shared s' = ksm_pages_shared s /\
  ksm_pages_sharing s' = ksm_pages_sharing s.
Proof.
  intros Hempty H. unfold remove_node_from_stable_tree in H.
  apply bind_Ok in H as (nd & s0 & [Hn ->]%stable_node_at_Ok & H).
  apply bind_Ok in H as ([] & s0 & [H0 ->]%BUG_ON_Ok & H).
  apply bind_Ok in H as ([] & s1 & Hloop & H).
  assert (Hs1 : s1 = s).
  { destruct (sn_hlist nd) as [|r l]; cbn [remove_node_from_stable_tree_loop] in Hloop.
    - by apply ret_Ok in Hloop as [_ <-].
    - apply bind_Ok in Hloop as ([] & sa & Ha & Hloop).
      apply bind_Ok in Hloop as ([] & sb & Hb & Hloop).
      apply bind_Ok in Hloop as ([] & sc & Hc & _).
      apply rmap_item_update_Ok in Hc as (it & Hit & _).
      apply stable_node_update_Ok in Hb as (x & _ & ->). cbn in Hit.
      assert (Hsa : rmap_items sa = ∅).
      { destruct l; minv Ha; cbn; done. }
      rewrite Hsa, lookup_empty in Hit. discriminate Hit. }
  subst s1.
  apply bind_Ok in H as (nd' & s0 & [Hn' ->]%stable_node_at_Ok & H).
  apply bind_Ok in H as ([] & s2 & Hdel & ->%modify_Ok).
  assert (E : rmap_items s2 = rmap_items s /\ ksm_pages_shared s2 = ksm_pages_shared s /\
              ksm_pages_sharing s2 = ksm_pages_sharing s).
  { destruct (decide (sn_head nd' = HEAD_MIGRATE_NODES)).
    - apply modify_Ok in Hdel as ->. done.
    - unfold stable_node_dup_del, __stable_node_dup_del in Hdel. minv Hdel.
      destruct (is_stable_node_dup a); minv Hdel; done. }
  destruct E as (E1 & E2 & E3). cbn. by rewrite E1.
Qed.

Lemma remove_all_stable_nodes_without_records budget e s r s' :
  rmap_items s = ∅ ->
  remove_all_stable_nodes budget e s = Ok r s' ->
  rmap_items s' = ∅ /\ ksm_pages_shared s' = ksm_pages_shared s /\
  ksm_pages_sharing s' = ksm_pages_sharing s.
Proof.
  intros Hempty Hrun.
  assert (HP : preserves (fun x => rmap_items x = ∅ /\
                                   ksm_pages_shared x = ksm_pages_shared s /\
                                   ksm_pages_sharing x = ksm_pages_sharing s)
                 (remove_all_stable_nodes budget e)).
  { assert (Hnode : forall n,
              preserves (fun x => rmap_items x = ∅ /\
                                  ksm_pages_shared x = ksm_pages_shared s /\
                                  ksm_pages_sharing x = ksm_pages_sharing s)
                (remove_node_from_stable_tree n)).
    { intros n x [] x' (E1 & E2 & E3) Hrm.
      destruct (remove_node_without_records n x x' E1 Hrm) as (F1 & F2 & F3).
      split_and!; congruence. }
    apply removal_remove_all_stable_nodes; try done.
    intros e' n flags x p x' HPx Hget.
    apply get_ksm_page_Ok in Hget as (nd & _ & [(_ & Hrm & _)|(-> & _)]); [|done].
    by apply (Hnode n x tt x'). }
  by apply (HP s r s').
Qed.

(** A store in step that holds no record has no node in use. *)
Lemma no_records_no_sharing s :
  rmap_bookkeeping s -> rmap_items s = ∅ ->
  ksm_pages_shared s = 0 /\ ksm_pages_sharing s = 0.
Proof.
  intros Hbk Hempty.
  assert (Hz : forall f, (forall nd, attached nd = [] -> f nd = 0) ->
                         nodes_sum f (stable_nodes s) = 0).
  { intros f Hf.
    assert (Hall : forall n nd, stable_nodes s !! n = Some nd -> attached nd = []).
    { intros n nd Hn. destruct (is_stable_node_chain nd) eqn:Hc.
      - by apply attached_chain.
      - rewrite attached_regular by done.
        destruct (bk_nodes s Hbk n nd Hn Hc) as (_ & _ & _ & Hrec).
        destruct (sn_hlist nd) as [|r l]; [done|].
        destruct (Hrec r ltac:(by left)) as (it & Hit & _).
        rewrite Hempty, lookup_empty in Hit. discriminate Hit. }
    revert Hall. generalize (stable_nodes s). intros m.
    induction m as [|i x m Hi _ IH] using map_first_key_ind; intros Hall.
    - unfold nodes_sum. by rewrite map_fold_empty.
    - rewrite nodes_sum_insert_new by done.
      rewrite IH, Hf; [done| |].
      + apply (Hall i). apply lookup_insert_eq.
      + intros n nd Hn. apply (Hall n). rewrite lookup_insert_ne; [done|].
        intros ->. congruence. }
  rewrite (bk_shared s Hbk), (bk_sharing s Hbk).
  unfold nodes_in_use, records_attached.
  rewrite (Hz node_in_use), (Hz node_records).
  - done.
  - intros nd E. unfold node_records. by rewrite E.
  - intros nd E. unfold node_in_use. by rewrite E.
Qed.

(** A second write of the unmerge value finds it in [ksm_run] and does
    nothing. *)
Lemma run_store_unmerge_again budget e count s :
  ksm_run s = KSM_RUN_UNMERGE ->
  run_store budget e KSM_RUN_UNMERGE count s = Ok count s.
Proof.
  intros Hrun. unfold run_store. cbn [Z.ltb Z.compare KSM_RUN_ONESHOT KSM_RUN_UNMERGE].
  change (KSM_RUN_ONESHOT <? KSM_RUN_UNMERGE) with false. cbn iota.
  rewrite (bind_run _ _ s tt s).
  2:{ unfold wait_while_offlining. rewrite (bind_run _ _ s s s) by done.
      by rewrite Hrun. }
  rewrite (bind_run _ _ s s s) by done.
  rewrite Hrun. by rewrite Z.eqb_refl.
Qed.

Lemma run_store_unmerge_first budget e count s r s' :
  ksm_run s <> KSM_RUN_UNMERGE ->
  run_store budget e KSM_RUN_UNMERGE count s = Ok r s' ->
  exists err s1,
    unmerge_and_remove_all_rmap_items budget e (set_ksm_run KSM_RUN_UNMERGE s) = Ok err s1 /\
    ((err = 0 /\ r = count /\ s' = s1 /\
      ksm_run s' = KSM_RUN_UNMERGE /\ ksm_scan_scan_round s' = 0 /\
      run_store budget e KSM_RUN_UNMERGE count s' = Ok count s') \/
     (err <> 0 /\ r = err /\ s' = set_ksm_run KSM_RUN_STOP s1)).
Proof.
  intros Hne H. unfold run_store in H.
  change (KSM_RUN_ONESHOT <? KSM_RUN_UNMERGE) with false in H. cbn iota in H.
  apply bind_Ok in H as ([] & s0 & [-> _]%wait_while_offlining_Ok & H).
  apply bind_Ok in H as (s0 & s1 & [-> ->]%get_Ok & H).
  apply Z.eqb_neq in Hne. rewrite Hne in H. cbn [negb] in H.
  apply bind_Ok in H as ([] & s1 & ->%modify_Ok & H).
  change (KSM_RUN_UNMERGE =? KSM_RUN_ONESHOT) with false in H. cbn iota in H.
  change (test_bits KSM_RUN_UNMERGE KSM_RUN_UNMERGE) with true in H. cbn iota in H.
  apply bind_Ok in H as (err & s1 & Hun & H).
  exists err, s1. split; [exact Hun|].
  assert (Hkeep : ksm_run s1 = KSM_RUN_UNMERGE).
  { revert Hun. by apply (unmerge_and_remove_all_rmap_items_keeps_run budget e). }
  destruct (Z.eqb_spec err 0) as [->|Herr]; cbn [negb] in H.
  - apply ret_Ok in H as [<- <-]. left. split_and!; try done.
    + by apply (unmerge_and_remove_all_rmap_items_Ok budget e _ 0 s1 Hun).
    + by apply run_store_unmerge_again.
  - apply bind_Ok in H as ([] & s2 & ->%modify_Ok & [<- <-]%ret_Ok). right. done.
Qed.

(** The result of [remove_all_stable_nodes] plays no part in what
    [unmerge_and_remove_all_rmap_items] returns. *)
Lemma unmerge_drops_the_busy_result budget e s s0 busy s2 :
  unmerge_mm_slots e (ksm_mm_head s) s = Ok 0 s0 ->
  remove_all_stable_nodes budget e s0 = Ok busy s2 ->
  unmerge_and_remove_all_rmap_items budget e s = Ok 0 (set_ksm_scan_scan_round 0 s2).
Proof.
  intros H1 H2. unfold unmerge_and_remove_all_rmap_items.
  rewrite (bind_run _ _ s s s) by done.
  rewrite (bind_run _ _ s 0 s0) by exact H1. cbn [Z.eqb negb].
  by rewrite (bind_run _ _ s0 busy s2).
Qed.

(** ** The unstable tree and [ksm_pages_unshared] across an unmerge *)

Lemma unstable_record_masked it :
  unstable_record (ri_set_address (Z.land (ri_address it) PAGE_MASK) it) = false.
Proof.
  unfold unstable_record. destruct it; cbn. by rewrite unstable_flag_masked, andb_false_r.
Qed.

Lemma unstable_record_stable it :
  test_bits (ri_address it) STABLE_FLAG = true -> unstable_record it = false.
Proof. intros H. unfold unstable_record. by rewrite H. Qed.

(** Records that are not flagged unstable may change, as long as they stay
    so. *)
Lemma candidates_in_step_records s s' :
  candidates_in_step s ->
  root_unstable_tree s' = root_unstable_tree s ->
  ksm_pages_unshared s' = ksm_pages_unshared s ->
  ksm_scan_scan_round s' = ksm_scan_scan_round s ->
  (forall r, rmap_items s' !! r = rmap_items s !! r \/
             ((forall it, rmap_items s !! r = Some it -> unstable_record it = false) /\
              (forall it, rmap_items s' !! r = Some it -> unstable_record it = false))) ->
  candidates_in_step s'.
Proof.
  intros (Hnd & Htree & Hcount) Et Eu Er Hrec. unfold candidates_in_step.
  rewrite Et, Eu, Er. split; [done|]. split.
  - intros r Hr. destruct (Htree r Hr) as (it & Hit & Hu & Hage).
    exists it. split; [|done].
    destruct (Hrec r) as [->|[Hold _]]; [done|].
    specialize (Hold it Hit). congruence.
  - rewrite Hcount. do 3 f_equal. unfold unstable_records.
    apply map_eq. intros r. apply option_eq. intros it.
    rewrite !map_lookup_filter_Some. cbn.
    destruct (Hrec r) as [->|[Hold Hnew]]; [done|].
    split; intros [Hit Hu].
    + specialize (Hold it Hit). congruence.
    + specialize (Hnew it Hit). congruence.
Qed.

Lemma candidates_in_step_ext s s' :
  rmap_items s' = rmap_items s ->
  root_unstable_tree s' = root_unstable_tree s ->
  ksm_pages_unshared s' = ksm_pages_unshared s ->
  ksm_scan_scan_round s' = ksm_scan_scan_round s ->
  candidates_in_step s -> candidates_in_step s'.
Proof.
  intros Ei Et Eu Er H. apply (candidates_in_step_records s s' H Et Eu Er).
  intros r. left. by rewrite Ei.
Qed.

Lemma remove_node_from_stable_tree_candidates n s s' :
  rmap_bookkeeping s -> candidates_in_step s ->
  remove_node_from_stable_tree n s = Ok tt s' ->
  candidates_in_step s'.
Proof.
  intros Hbk Hc H.
  assert (Hframe : root_unstable_tree s' = root_unstable_tree s /\
                   ksm_pages_unshared s' = ksm_pages_unshared s /\
                   ksm_scan_scan_round s' = ksm_scan_scan_round s).
  { apply (preserves_remove_node_from_stable_tree
             (fun x => root_unstable_tree x = root_unstable_tree s /\
                       ksm_pages_unshared x = ksm_pages_unshared s /\
                       ksm_scan_scan_round x = ksm_scan_scan_round s)) with n s tt;
      try (frame_trivial; fail); done. }
  destruct Hframe as (Et & Eu & Er).
  destruct (remove_node_from_stable_tree_bookkeeping n s s' Hbk H)
    as (_ & nd & Hn & Hlen & _ & Hin & Hout).
  apply (candidates_in_step_records s s' Hc Et Eu Er).
  intros r. destruct (decide (r ∈ sn_hlist nd)) as [Hr|Hr]; [right|left; by apply Hout].
  destruct (Hin r Hr) as (it & Hit & Hit').
  destruct (bk_nodes s Hbk n nd Hn (nonneg_not_chain nd Hlen)) as (_ & _ & _ & Hok).
  destruct (Hok r Hr) as (it0 & Hit0 & _ & Hst).
  split; intros x Hx.
  - assert (x = it0) as -> by congruence. by apply unstable_record_stable.
  - assert (x = ri_set_address (Z.land (ri_address it) PAGE_MASK) it) as -> by congruence.
    apply unstable_record_masked.
Qed.

Lemma get_ksm_page_candidates e n flags s p s' :
  rmap_bookkeeping s -> candidates_in_step s ->
  get_ksm_page e n flags s = Ok p s' ->
  candidates_in_step s'.
Proof.
  intros Hbk Hc H.
  apply get_ksm_page_Ok in H as (nd & _ & [(_ & Hrm & _)|(-> & _)]); [|done].
  by apply (remove_node_from_stable_tree_candidates n s s').
Qed.

(** Taking a record off its tree keeps the unstable tree and the counter in
    step, and leaves the record unflagged. *)
Lemma remove_rmap_item_from_tree_candidates e r s s' :
  rmap_bookkeeping s -> candidates_in_step s ->
  remove_rmap_item_from_tree e r s = Ok tt s' ->
  candidates_in_step s' /\
  (forall it, rmap_items s' !! r = Some it -> unstable_record it = false).
Proof.
  intros Hbk Hc H. unfold remove_rmap_item_from_tree in H.
  apply bind_Ok in H as (it & s0 & [Hr ->]%rmap_item_at_Ok & H).
  destruct (test_bits (ri_address it) STABLE_FLAG) eqn:Hf.
  - destruct (ri_head it) as [n|] eqn:Hhd; [|done].
    apply bind_Ok in H as (p & s1 & Hget & H).
    destruct (bk_items _ Hbk r it Hr Hf) as (n_ & nd & En & Hn & Hreg & Hin).
    assert (n_ = n) as -> by congruence.
    apply get_ksm_page_Ok in Hget as (nd_ & Hn_ & [(-> & Hrm & _)|(-> & _ & _ & Hp)]).
    + apply ret_Ok in H as [_ <-].
      split; [by apply (remove_node_from_stable_tree_candidates n s s1)|].
      destruct (remove_node_from_stable_tree_bookkeeping n s s1 Hbk Hrm)
        as (_ & nd0 & Hn0 & _ & _ & Hm & _).
      assert (nd0 = nd) as -> by congruence.
      destruct (Hm r Hin) as (it0 & Hit0 & Hit1). intros x Hx.
      assert (x = ri_set_address (Z.land (ri_address it0) PAGE_MASK) it0) as -> by congruence.
      apply unstable_record_masked.
    + assert (H' : (stable_node_update n
                      (fun n0 => sn_set_hlist (hlist_del r (sn_hlist n0)) n0);;
                    do n0 <- stable_node_at n;
                    (match sn_hlist n0 with
                     | _ :: _ =>
                         modify (fun s => set_ksm_pages_sharing (wrap_ulong (ksm_pages_sharing s - 1)) s);;
                         modify (fun s => set_lksm_slot_nr_broken (wrap_int (lksm_slot_nr_broken s + 1)) s);;
                         modify (fun s => set_lksm_nr_broken (wrap_int (lksm_nr_broken s + 1)) s)
                     | [] =>
                         modify (fun s => set_ksm_pages_shared (wrap_ulong (ksm_pages_shared s - 1)) s)
                     end);;
                    stable_node_update n
                      (fun n0 => sn_set_rmap_hlist_len (wrap_int (sn_rmap_hlist_len n0 - 1)) n0);;
                    rmap_item_update r
                      (fun r0 => ri_set_address (Z.land (ri_address r0) PAGE_MASK)
                                  (ri_set_head None r0))) s = Ok tt s').
      { destruct Hp as [->|(-> & _)]; exact H. }
      clear H Hp. rename H' into H.
      apply bind_Ok in H as ([] & s1 & (n0 & Hn0 & ->)%stable_node_update_Ok & H).
      apply bind_Ok in H as (n1 & s1 & [Hn1 ->]%stable_node_at_Ok & H).
      apply bind_Ok in H as ([] & s2 & Hc2 & H).
      apply bind_Ok in H as ([] & s3 & (n2 & Hn2 & ->)%stable_node_update_Ok & H).
      apply rmap_item_update_Ok in H as (r2 & Hr2 & ->).
      assert (E : rmap_items s2 = rmap_items s /\
                  root_unstable_tree s2 = root_unstable_tree s /\
                  ksm_pages_unshared s2 = ksm_pages_unshared s /\
                  ksm_scan_scan_round s2 = ksm_scan_scan_round s).
      { destruct (sn_hlist n1); minv Hc2; cbn; done. }
      destruct E as (E1 & E2 & E3 & E4).
      cbn in Hr2. rewrite E1 in Hr2. assert (r2 = it) as -> by congruence.
      assert (Hnew : unstable_record
                       (ri_set_address (Z.land (ri_address it) PAGE_MASK)
                          (ri_set_head None it)) = false).
      { unfold unstable_record. destruct it; cbn.
        by rewrite unstable_flag_masked, andb_false_r. }
      split.
      * apply (candidates_in_step_records s _ Hc); cbn; try done.
        intros q. rewrite E1. destruct (decide (q = r)) as [->|Hq].
        -- right. split; intros x Hx.
           ++ assert (x = it) as -> by congruence. by apply unstable_record_stable.
           ++ rewrite lookup_insert_eq in Hx. by injection Hx as <-.
        -- left. by rewrite lookup_insert_ne.
      * intros x Hx. cbn in Hx. rewrite lookup_insert_eq in Hx. by injection Hx as <-.
  - destruct (test_bits (ri_address it) UNSTABLE_FLAG) eqn:Hunst.
    + apply bind_Ok in H as (s0 & s1 & [-> ->]%get_Ok & H).
      apply bind_Ok in H as ([] & s1 & H1 & H).
      apply bind_Ok in H as ([] & s2 & ->%modify_Ok & H).
      apply rmap_item_update_Ok in H as (r2 & Hr2 & ->).
      destruct Hc as (Hnd & Htree & Hcount).
      assert (Hu : unstable_record it = true).
      { unfold unstable_record. by rewrite Hf, Hunst. }
      assert (E : rmap_items s1 = rmap_items s /\
                  ksm_pages_unshared s1 = ksm_pages_unshared s /\
                  ksm_scan_scan_round s1 = ksm_scan_scan_round s /\
                  root_unstable_tree s1 = rb_erase r (root_unstable_tree s)).
      { destruct (wrap_uchar (ksm_scan_scan_round s - ri_address it) =? 0) eqn:Hage.
        - apply modify_Ok in H1 as ->. done.
        - apply ret_Ok in H1 as [_ <-]. split_and!; try done.
          symmetry. apply rb_erase_absent. intros Hin.
          destruct (Htree r Hin) as (it0 & Hit0 & _ & Hage0).
          assert (it0 = it) as -> by congruence.
          apply Z.eqb_neq in Hage. done. }
      destruct E as (E1 & E2 & E3 & E4).
      cbn in Hr2. rewrite E1 in Hr2. assert (r2 = it) as -> by congruence.
      split.
      * unfold candidates_in_step. cbn. rewrite ?E1, ?E2, ?E3, ?E4.
        rewrite rb_inorder_erase by done. split; [by apply hlist_del_NoDup|]. split.
        -- intros q [Hq Hin]%hlist_del_elem.
           destruct (Htree q Hin) as (x & Hx & Hxu & Hxa).
           exists x. by rewrite lookup_insert_ne.
        -- rewrite Hcount, wrap_ulong_sub_l. f_equal.
           unfold unstable_records. cbn. rewrite ?E1.
           rewrite map_filter_insert_False
             by (cbn; rewrite unstable_record_masked; discriminate).
           rewrite map_filter_delete.
           assert (Hin : filter (fun kv : nat * rmap_item => unstable_record kv.2 = true)
                           (rmap_items s) !! r = Some it).
           { by apply map_lookup_filter_Some. }
           rewrite map_size_delete, Hin.
           assert (size (filter (fun kv : nat * rmap_item => unstable_record kv.2 = true)
                           (rmap_items s)) <> 0%nat).
           { intros Hz. apply map_size_empty_inv in Hz. rewrite Hz in Hin.
             by rewrite lookup_empty in Hin. }
           lia.
      * intros x Hx. cbn in Hx. rewrite lookup_insert_eq in Hx. injection Hx as <-.
        apply unstable_record_masked.
    + apply ret_Ok in H as [_ <-]. split; [done|].
      intros x Hx. assert (x = it) as -> by congruence.
      unfold unstable_record. by rewrite Hunst, andb_false_r.
Qed.

Lemma remove_trailing_rmap_items_candidates e l :
  preserves (fun s => rmap_bookkeeping s /\ candidates_in_step s)
    (remove_trailing_rmap_items e l).
Proof.
  induction l as [|r l IH]; intros s [] s' [Hbk Hc] H; cbn [remove_trailing_rmap_items] in H.
  - by apply ret_Ok in H as [_ <-].
  - apply bind_Ok in H as ([] & s1 & Hrm & H).
    apply bind_Ok in H as ([] & s2 & Hfree & H).
    destruct (remove_rmap_item_from_tree_bookkeeping e r s s1 Hbk Hrm)
      as (Hbk1 & it & it' & _ & Hit' & Hst & _).
    destruct (remove_rmap_item_from_tree_candidates e r s s1 Hbk Hc Hrm) as (Hc1 & Hun).
    apply (IH s2 tt s'); [|exact H].
    unfold free_rmap_item in Hfree. minv Hfree. split.
    + apply (rmap_bookkeeping_free_item _ r).
      * by apply (rmap_bookkeeping_ext s1).
      * cbn. intros x Hx. assert (x = it') as -> by congruence. done.
    + apply (candidates_in_step_records s1 _ Hc1); cbn; try done.
      intros q. destruct (decide (q = r)) as [->|Hq].
      * right. split; [exact Hun|]. intros x Hx. by rewrite lookup_delete_eq in Hx.
      * left. by rewrite lookup_delete_ne.
Qed.

Lemma unmerge_mm_slots_candidates e slots :
  preserves (fun s => rmap_bookkeeping s /\ candidates_in_step s)
    (unmerge_mm_slots e slots).
Proof.
  assert (Hext : forall s s',
            stable_nodes s' = stable_nodes s -> rmap_items s' = rmap_items s ->
            next_ptr s' = next_ptr s -> ksm_pages_shared s' = ksm_pages_shared s ->
            ksm_pages_sharing s' = ksm_pages_sharing s ->
            root_unstable_tree s' = root_unstable_tree s ->
            ksm_pages_unshared s' = ksm_pages_unshared s ->
            ksm_scan_scan_round s' = ksm_scan_scan_round s ->
            rmap_bookkeeping s /\ candidates_in_step s ->
            rmap_bookkeeping s' /\ candidates_in_step s').
  { intros s s' E1 E2 E3 E4 E5 E6 E7 E8 [Hbk Hc]. split.
    - by apply (rmap_bookkeeping_ext s).
    - by apply (candidates_in_step_ext s). }
  apply unmerging_unmerge_mm_slots.
  - intros v s. by apply Hext.
  - intros v s. by apply Hext.
  - intros v s. by apply Hext.
  - intros e' mm addr. apply preserves_break_ksm; intros v s; by apply Hext.
  - intros e' l. apply remove_trailing_rmap_items_candidates.
Qed.

(** [remove_all_stable_nodes] touches neither the unstable tree nor
    [ksm_pages_unshared]. *)
Lemma remove_all_stable_nodes_keeps_candidates budget e t c :
  preserves (fun x => root_unstable_tree x = t /\ ksm_pages_unshared x = c)
    (remove_all_stable_nodes budget e).
Proof.
  apply removal_remove_all_stable_nodes; try (frame_trivial; fail).
  - intros e' n flags. apply preserves_get_ksm_page; frame_trivial.
  - intros n. apply preserves_remove_node_from_stable_tree; frame_trivial.
Qed.

Lemma rb_inorder_nil t : rb_inorder t = [] -> t = RB_ROOT.
Proof.
  destruct t as [|l x r]; [done|]. cbn [rb_inorder]. intros H.
  by apply app_eq_nil in H as [_ H].
Qed.

Lemma unmerge_all_outcome budget e s err s' :
  cow_always_breaks e -> swapcache_settled e ->
  rmap_bookkeeping s -> Z.of_nat (size (rmap_items s)) < 2 ^ 31 ->
  0 <= ksm_rmap_items s < 2 ^ 64 -> frames_fresh s ->
  NoDup (ksm_mm_head s) -> Forall (slot_ready s) (ksm_mm_head s) ->
  NoDup (concat (slot_records s <$> ksm_mm_head s)) ->
  unmerge_and_remove_all_rmap_items budget e s = Ok err s' ->
  err = 0 /\ ksm_scan_scan_round s' = 0 /\
  exists s0 busy s2,
    unmerge_mm_slots e (ksm_mm_head s) s = Ok 0 s0 /\
    remove_all_stable_nodes budget e s0 = Ok busy s2 /\
    s' = set_ksm_scan_scan_round 0 s2 /\
    (busy = 0 \/ busy = - EBUSY) /\
    (busy = 0 -> root_stable_tree s' = RB_ROOT) /\
    (records_all_listed s ->
     rmap_items s' = ∅ /\ ksm_pages_shared s' = 0 /\ ksm_pages_sharing s' = 0 /\
     (candidates_in_step s ->
      root_unstable_tree s' = RB_ROOT /\ ksm_pages_unshared s' = 0)).
Proof.
  intros Hcow Hw Hbk Hsz Hc Hfr Hnd Hready Hrec Hrun.
  destruct (unmerge_mm_slots_spec e Hcow Hw (ksm_mm_head s) s Hbk Hsz Hc Hfr Hnd Hready Hrec)
    as (s0 & Hloop & _ & _ & Hfreed & Hiff & _ & _ & Hbk0 & _).
  unfold unmerge_and_remove_all_rmap_items in Hrun.
  rewrite (bind_run _ _ s s s) in Hrun by done.
  rewrite (bind_run _ _ s 0 s0) in Hrun by exact Hloop. cbn [Z.eqb negb] in Hrun.
  apply bind_Ok in Hrun as (busy & s2 & Hrm & Hrun).
  apply bind_Ok in Hrun as ([] & s3 & ->%modify_Ok & [<- <-]%ret_Ok).
  split; [done|]. split; [done|].
  exists s0, busy, s2. split_and!; try done.
  - by apply remove_all_stable_nodes_Ok in Hrm as (? & _).
  - intros ->. by apply remove_all_stable_nodes_Ok in Hrm as (_ & _ & H); destruct (H eq_refl).
  - intros Hlisted.
    assert (Hempty : rmap_items s0 = ∅).
    { apply map_eq. intros r. rewrite lookup_empty.
      destruct (rmap_items s !! r) as [it|] eqn:Hr.
      - destruct (Hlisted r ltac:(eauto)) as (slot & Hslot & Hin). by apply (Hfreed slot).
      - destruct (decide (r ∈ concat (slot_records s <$> ksm_mm_head s))) as [Hin|Hno].
        + apply list_elem_of_In, in_concat in Hin as (l & Hl & Hin).
          apply list_elem_of_In, list_elem_of_fmap in Hl as (slot & -> & Hslot).
          apply (Hfreed slot); [done|]. by apply list_elem_of_In.
        + apply eq_None_not_Some. rewrite Hiff, Hr; [by intros []|].
          intros slot Hslot Hin. apply Hno. apply list_elem_of_In, in_concat.
          exists (slot_records s slot). split; apply list_elem_of_In; [|done].
          apply list_elem_of_fmap. eauto. }
    destruct (no_records_no_sharing s0 Hbk0 Hempty) as [Hz1 Hz2].
    destruct (remove_all_stable_nodes_without_records budget e s0 busy s2 Hempty Hrm)
      as (E1 & E2 & E3).
    cbn. split; [congruence|]. split; [congruence|]. split; [congruence|].
    intros Hcand.
    destruct (unmerge_mm_slots_candidates e (ksm_mm_head s) s 0 s0 (conj Hbk Hcand) Hloop)
      as (_ & _ & Htree0 & Hcount0).
    assert (Ht0 : root_unstable_tree s0 = RB_ROOT).
    { apply rb_inorder_nil.
      destruct (rb_inorder (root_unstable_tree s0)) as [|r l] eqn:E; [done|].
      destruct (Htree0 r) as (it & Hit & _); [left|].
      by rewrite Hempty, lookup_empty in Hit. }
    assert (Hu0 : ksm_pages_unshared s0 = 0).
    { rewrite Hcount0. unfold unstable_records.
      by rewrite Hempty, map_filter_empty, map_size_empty. }
    by apply (remove_all_stable_nodes_keeps_candidates budget e RB_ROOT 0 s0 busy s2).
Qed.

(** The write of the unmerge value, forward from the results of the two
    stages of [unmerge_and_remove_all_rmap_items]. *)
Lemma run_store_unmerge_returns budget e count s s0 busy s2 :
  test_bits (ksm_run s) KSM_RUN_OFFLINE = false ->
  ksm_run s <> KSM_RUN_UNMERGE ->
  unmerge_mm_slots e (ksm_mm_head s) (set_ksm_run KSM_RUN_UNMERGE s) = Ok 0 s0 ->
  remove_all_stable_nodes budget e s0 = Ok busy s2 ->
  run_store budget e KSM_RUN_UNMERGE count s = Ok count (set_ksm_scan_scan_round 0 s2).
Proof.
  intros Hoff Hne H1 H2. unfold run_store.
  change (KSM_RUN_ONESHOT <? KSM_RUN_UNMERGE) with false. cbn iota.
  rewrite (bind_run _ _ s tt s).
  2:{ unfold wait_while_offlining. rewrite (bind_run _ _ s s s) by done.
      by rewrite Hoff. }
  rewrite (bind_run _ _ s s s) by done.
  apply Z.eqb_neq in Hne. rewrite Hne. cbn [negb].
  change (KSM_RUN_UNMERGE =? KSM_RUN_ONESHOT) with false. cbn iota.
  rewrite (bind_run _ _ s tt (set_ksm_run KSM_RUN_UNMERGE s)) by done.
  change (test_bits KSM_RUN_UNMERGE KSM_RUN_UNMERGE) with true. cbn iota.
  rewrite (bind_run _ _ _ 0 (set_ksm_scan_scan_round 0 s2)).
  2:{ by apply (unmerge_drops_the_busy_result budget e _ s0 busy s2). }
  done.
Qed.


Lemma match_in_unstable_tree_records_listed : records_all_listed match_in_unstable_tree.
Proof.
  assert (H : map_Forall (fun r _ => r ∈ concat (slot_records match_in_unstable_tree
                                         <$> ksm_mm_head match_in_unstable_tree))
                (rmap_items match_in_unstable_tree)).
  { apply (bool_decide_unpack _). vm_compute. exact I. }
  intros r [x Hx]. specialize (H r x Hx). cbn beta in H.
  apply list_elem_of_In, in_concat in H as (l & Hl & Hr).
  apply list_elem_of_In, list_elem_of_fmap in Hl as (slot & -> & Hslot).
  exists slot. split; [done|]. by apply list_elem_of_In.
Qed.

Lemma match_in_unstable_tree_candidates : candidates_in_step match_in_unstable_tree.
Proof.
  split; [|split].
  - apply (bool_decide_unpack _). vm_compute. exact I.
  - intros r Hr.
    assert (Hr' : r ∈ [1000%nat]) by exact Hr.
    apply list_elem_of_singleton in Hr' as ->.
    eexists. split; [vm_compute; reflexivity|]. split; vm_compute; reflexivity.
  - vm_compute. reflexivity.
Qed.


